(* ===== verification/_CoqProject ===== *)
-Q . S2P
Prelude.v
Ledger.v
Records.v
Normalize.v
Format.v
Genesis.v
GenesisRun.v
Tolerance.v
TugBarge.v
VoyRecid.v
VoyRecidRun.v
Transform.v
TransformRun.v
Classify.v
ClassifyStats.v
Rollups.v
RollupsRun.v
Panjiva.v
Files.v
UserEdits.v
Deploy.v
ColumnCompare.v
UserEditsMain.v
