(* ===== verification/Prelude.v ===== *)
(** * A verification development of the Panjiva/USACE port-call reconciliation scripts

    The repository ([src/04_SCRIPTS/]) is a set of pandas scripts that
    reconcile vessel movements from three sources (USACE entrance records,
    USACE clearance records, Panjiva export manifests) into one port-call
    master file.  The scripts form a pipeline:

    - [process_panjiva_exports] and [transform_usace_*_data] clean the raw
      files (HS codes, code columns, dictionary lookups, vessel register
      match, draft percentage);
    - [normalize_vessel_name] / [normalize_port_name] (in
      [match_usace_clearance_to_panjiva_exports_v1.0.0.py]) and
      [normalize_name] (in [transform_usace_entrance_data_v2.1.0.py])
      canonicalise names before any comparison;
    - [create_export_portcall_voy_recid_v1.0.0.py] groups Panjiva export
      records into port calls identified by [VOY_RECID];
    - [match_usace_clearance_to_panjiva_exports_v1.0.0.py] links USACE
      clearances to Panjiva port calls with a +/-7 day date window
      (the "tolerance-window matcher");
    - [marry_entrance_clearance_v1.0.0.py] pairs each entrance with the
      next clearance of the same vessel at the same port (the "genesis
      matcher"), keeping every record, and numbers the port calls
      ([PORTCALL_ID]);
    - [match_tug_barge_pairs_v1.1.0_COMPLETE.py] pairs the remaining
      unmatched tugs and barges, using a co-occurrence table built from the
      same batch (the "co-occurrence disambiguator");
    - beside the pipeline, [analyze_user_edits_v1.0.0.py] compares the
      port-call master with a copy a user corrected by hand and reports
      the recurring corrections as patterns and pandas suggestions, and
      [deploy_v3.6.0_to_production.py] installs the classifier's
      dictionary and updates the version history and the README, and
      [compare_import_export_columns.py] prints which columns an import
      file and an export file share.

    The components interact through data only: each script reads the
    frames its predecessor wrote, so the model of a later script takes the
    row type of the earlier one ([TugBarge] reads the [PortCallRow]s that
    [Genesis.marry] writes).  Inside a matcher, the one piece of mutable
    state is a Python [set] of claimed row labels (the "ledger"), which
    the matchers use through the interface of [Ledger.v].

    ** Files and what they model

    - [Prelude.v] (this file): the pandas/Python primitives the scripts
      share, written once: NaN-aware equality of cells ([py_eq], pandas'
      elementwise [==]), [str.strip() != ''] ([py_present]), comparison of
      a possibly-NaT date ([date_after]), the first row of a filtered frame
      ([find_first], pandas' [.iloc[0]]), the rows whose label passes a
      test ([ifilter]), integer sums ([sum_Z], invariant under permutation
      through a [Proper] instance) and the generic lemmas on folds, lists
      and sums, and a stable sort by decreasing key ([sort_desc], pandas'
      [sort_values(ascending=False)] and [Counter.most_common]).  It also
      holds the notation scope [pc_scope], the hint databases [pc] /
      [pc_rw] and the tactic [pc_bool].
    - [Ledger.v]: the claim ledger as a typeclass interface ([Ledger] and
      its laws [LedgerLaws]); the Python [set] instance is [gset nat].
      Claiming one label removes exactly that row from the unclaimed rows,
      up to permutation.
    - [Records.v]: the row types shared by the matchers: the USACE movement
      row ([Movement], with the parsed date and, for a clearance, the raw
      mmydd code of its date), the port-call master row ([PortCallRow]) with its
      [Match_Type], [Match_Method] and [Match_Score] columns, and the
      statistics counters.
    - [Genesis.v]: [marry_entrance_clearance_v1.0.0.py], lines 81-200,
      proved against the [Ledger] interface.  [genesis_step] is one
      iteration of the entrance loop (state: the claimed-clearance ledger,
      the output rows, [match_stats]), [genesis_loop] the loop, [marry] the
      matching with its [CLEARANCE_ONLY] pass; the inductive
      [GenesisOutcome] classifies what one step does.
    - [Normalize.v]: the three name normalisers, with Python's [split],
      [join], [strip], [lower]/[upper], [re.sub] character classes and
      [str.replace] written out on ASCII lists.
    - [Tolerance.v]: [match_usace_clearance_to_panjiva_exports]: the
      expansion of every Panjiva port call over the offsets -7..7, the left
      merge on (vessel, port, date), the sort by offset and
      [groupby(level=0).first()], the index-aligned assignment back
      into the clearance frame, and the summary's figures
      ([tolerance_script]).
    - [TugBarge.v]: [match_tug_barge_pairs_v1.1.0_COMPLETE.py]: the
      selection of tug and barge rows, the co-occurrence table ([gmap]),
      the greedy loop with its two ledgers, the best-candidate scan, and
      the [Match_Type] update of the master frame, the save and the final
      summary ([tug_barge_script], the percentages as rationals and the
      [ZeroDivisionError] as [None]); one Section serves both the entrance
      and the clearance block.  The entrance block reads the arrival dates
      as [marry] parsed them; the clearance block reads the dates of line
      42, [pd.to_datetime] on the raw mmydd numbers, which pandas takes
      for nanoseconds since 1970-01-01 ([to_datetime_ns],
      [clearance_side]).
    - [Format.v]: Python's [str(int)], [str.zfill] and [int(str)], the
      [pd.Timestamp] day number, [parse_usace_date] and [PORTCALL_ID].
    - [GenesisRun.v]: the rest of [marry_entrance_clearance_v1.0.0.py]:
      [sort_values(['IMO', 'PORT', date])] of lines 78-79 as a
      [merge_sort] on a [lexico] key with NaN last, ties broken by the
      position in the file as pandas' stable sort does (the order of the [IMO]
      column is a Section parameter, as it depends on the dtype [read_csv]
      infers), the saved frame with its [PORTCALL_ID]s ([genesis_output]),
      and the summary of lines 219-258 ([genesis_summary], [None] for its
      [KeyError]), composed in [genesis_run].
    - [VoyRecid.v]: [create_export_portcall_voy_recid_v1.0.0.py]: the port
      call key, [unique()], the [VOY_RECID] numbering, and the
      [groupby]/[agg] into one row per port call.
    - [VoyRecidRun.v]: the export port-call script's run: the check of
      the grouping columns, the [ZeroDivisionError] of line 128 on an
      empty input, the summary, and the tonnage rankings as a relation
      ([top_spec], pandas' sort being unstable) refined by a merge sort
      ([voy_run]).
    - [Transform.v]: [transform_usace_entrance_data_v2.1.0.py] and
      [transform_usace_clearance_data_v2.0.0.py]: the dictionaries built
      row by row ([build_dict], last row wins), the code columns, the
      replacements, the port lookups, the register match by IMO then name,
      [float()] and the [.2f]/[.1f] formats, the draft percentage and
      forecast, the cargo class and agency fee, and [RECID]; one
      [clean_row] serves both scripts through a [Lookups] record.
    - [TransformRun.v]: [transform_clearance_data] and
      [transform_entrance_data] as runs: the test-mode reads (15000 and
      100 rows), the counters of the loops, the [ZeroDivisionError] of the
      first percentage on an empty input (lines 170 and 179), the
      statistics of the summaries and the save ([transform_clearance_run],
      [transform_entrance_run]).
    - [Classify.v]: [classify_15k_sample_v3.6.0.py]: rows as [gmap]s
      from column to cell ([record.get]), the vessel type map, the rule
      filters, the locks, [apply_rule], the write-back through [df.loc]
      (which drops labels the frame lacks) and the phase loop.
    - [Rollups.v]: [add_port_rollups_to_exports_v1.0.0.py]: Python dicts
      as insertion-ordered association lists ([PyDict]) refined by
      [Transform.build_dict], the column typing of [read_csv], and
      [match_port_name] with its substring pass in dict order.
    - [RollupsRun.v]: the rollups script's run: the export branch when a
      file is found, the clearance branch, the saves and the coverage and
      [nunique] figures of its summary ([rollups_run]).
    - [ClassifyStats.v]: [generate_stats] of the classifier and the end
      of its [main]: the counts by phase and by group, and the statistics
      computed before the save inside one [try]; the exceptions the
      [except] block reports are a [Classify.ClassifyError] (the
      [ZeroDivisionError]s of lines 81 and 354, the [ValueError] of
      [astype(int)]).
    - [Panjiva.v]: [process_panjiva_exports_v1.0.0.py]: the typing of the
      [HS Code] column, [extract_hs_codes], [RAW_REC_ID], the split by
      year and the printed figures ([panjiva_summary]).
    - [Files.v]: how the stages find their input: the [glob], [sort()] and
      [[-1]] of [create_export_portcall_voy_recid], [add_port_rollups] and
      the tolerance matcher (Windows paths: case-insensitive matching and
      ordering), the [strftime("%Y%m%d_%H%M")] output names, and the
      stages as changes of a directory modelled as a [gset] of names, each
      reading its file through its header and number of rows; the fixed
      paths of the USACE stages.
    - [UserEdits.v]: [analyze_user_edits_v1.0.0.py]: a loaded frame
      ([EFrame], the [str()] of every typed cell, [load_csv] typing each
      column as [read_csv] does), [compare_rows], the comparison loop of
      [main] ([DiffState] with [all_changes] and the [defaultdict]
      [changes_by_column]), [Counter] and [most_common], the five pattern
      analyses, the suggestion templates, the statistics, and [main]'s
      outcome after loading ([analyze]: no change, report, or a crash).
    - [UserEditsMain.v]: the rest of that script over a file system
      record ([FS]: existing paths, parsable CSV files, written reports):
      [DATA_DIR] and the [mkdir] at import, [find_file], [load_csv_safe],
      [write_report] as the structure it renders ([ReportDoc]: summary,
      percentage, ordered sections, numbered suggestions) and [main] with
      its early returns.
    - [Deploy.v]: [deploy_v3.6.0_to_production.py] as a computation in a
      state and exception monad ([M], notations in [deploy_scope]) over
      the files ([FS]: Markdown files as text, CSV files as rule rows):
      [copy2], the version-history insertion [update_history] (with
      [split(sep, 1)] as [split_once]), the README section loop
      [replace_section] and [update_readme], and the [summary] with its
      [sorted] phases; [deploy_spec] is the same script without the monad.
    - [ColumnCompare.v]: [compare_import_export_columns.py]: the export
      header chosen from the directory listing ([read_export]), the mapping
      and common-column rows, and the sorted export-only listing, as the
      list of printed lines with the [NameError] that can end the run.

    ** Theorems, by group

    - Genesis: every entrance appears in exactly one output row, in order;
      the clearances of the output are a permutation of the clearance
      frame; a [BOTH] row's clearance is strictly after its entrance and
      its score follows the 15/45-day tiers; undated entrances are
      [NO_DATE]; the IMO candidate is the earliest eligible clearance of
      the sorted frame, the name fallback is not (counterexample); the
      [match_stats] counters agree with the rows; the number of port calls
      lies between the number of entrances and the number of entrances
      plus clearances, the range the script prints as expected.  The
      script's sort establishes the order the loop relies on
      ([frame_sorted], NaT last) and keeps every row; the summary raises
      [KeyError] exactly on two empty inputs, otherwise counts every row
      once among the three types, and its stay buckets agree with its
      score counts.
    - Tolerance: the best match is index-aligned, so a clearance can get
      another vessel's port call (counterexample); the match is unique per
      clearance and its pass is 1-3; a port call can be linked twice; NaT
      dates match each other; the summary's counts add up (passes and
      offsets to the matched count), and an empty clearance frame makes it
      divide by zero after the save.
    - Normalisation: the vessel and entrance-name normalisers are
      idempotent and keep to their character sets; the port normaliser
      removes commas but is not idempotent and its [str.replace] calls
      damage names (counterexamples).
    - Tug-barge: the choice among candidates is the first maximum; the
      table counts co-occurrences independently of iteration order; no row
      is claimed twice; every pair is sound in the master frame; a tug with
      a same-day barge is always paired (so the spec's scenario 4 cannot
      happen); the update keeps every row and writes each pair exactly
      once; each pair moves two rows from [*_ONLY] to [TUG_BARGE_PAIR];
      the summary's percentages are at most 100% and its counts agree
      with the rows; a side without tugs and barges makes the summary
      divide by zero after the file is saved; pair ids are unique; the
      spec's scenarios are run, and scenario 4 pairs the tug although the
      spec expects it unmatched.  Every dated clearance falls on
      1970-01-01, so the clearance pairs do not depend on the clearance
      dates at all: tugs and barges cleared months apart are paired.
    - Formatting: [int(str(z).zfill(w)) = z]; the digit loop of [str]
      terminates within its fuel; the string slicing of
      [parse_usace_date] agrees with the arithmetic mmydd reading on every
      five-digit code, returns only valid 2020-2029 dates, and accepts
      longer codes (counterexample); day numbers are chronological;
      [PORTCALL_ID]s are distinct.
    - Export grouping: every record gets a [VOY_RECID], shared exactly by
      the records with the same key; tonnage is conserved by the grouping;
      the ['|'] key merges different port calls (counterexample).  The
      run exits exactly on a missing grouping column and raises exactly on
      an empty input, before its save; otherwise its ratio is at least 1
      and its carrier ranking never meets NaN, so ['Unknown'] is never
      printed.  Whatever order pandas gives to equal totals, the two
      rankings the run prints list the ports and carriers of largest total
      tonnage, each with its total; the merge sort is one admissible
      order.
    - Transforms: the forecast is [Discharge] exactly when the reported
      draft exceeds half the register draft; a clearance without a name
      is matched to a nameless register row through the text ['nan']
      (counterexample); the IMO match takes priority.  Both runs raise
      [ZeroDivisionError] exactly on an empty input, before they write;
      the entrance summary's [Unmatched] is never negative and its
      forecasts add up to [draft_calcs]; the clearance run's loop
      counters agree with its summary, except that a
      cargo dictionary row with a blank [Group] is counted as matched and
      not as classified (counterexample).
    - Classifier: a locked group survives every later phase (invariant of
      the phase loop); the rules' [Cargo_Detail] never reaches the output;
      an empty exclusion word rejects every record; a zero-padded phase is
      never selected; the phases run in strictly increasing order; the
      classification fails with [ValueError] exactly on an unreadable
      phase.
    - Statistics: [main] stops with the [ZeroDivisionError] of line 81
      exactly on an empty sample, and otherwise fails only on an unreadable
      phase; when it saves, the frame has one row per record; the
      classified rows are those of the listed groups and the NaN groups;
      phases are listed in text order (example).
    - Rollups: same-named cities collide and the later mapping row wins;
      one missing clearance code makes every code lookup fail; the
      clearance coverage counts NaN rollups, so without a code column it
      reports every row as matched.
    - Preprocessing: the yearly files partition the dated records and drop
      the undated ones; [RAW_REC_ID] is [1..n]; every HS level has its
      full width; the printed counts of HS codes extracted are always the
      number of records.
    - Input files: equal-width stamped names sort in the chronological
      order of their stamps, so each stage reads the newest file of its
      pattern; run in order, the four stages read what the stage before
      them wrote, provided the PREPROCESSED file has the grouping columns
      and rows; exports whose carrier column is ['Carrier Name'], which
      the preprocessing anticipates, stop the port-call stage at its
      column check; a stray name matching the pattern is read instead
      (example); the USACE transforms' outputs are read by no stage.
    - User edits: [compare_rows] reports exactly the cells that differ
      (NaN equal to NaN only); the loop's counters and per-column lists
      agree with the changed rows; the analysis never crashes once both
      files are loaded, and [main] never raises on any file system and
      changes it only by writing the report, whose sections partition the
      patterns in a fixed order and whose percentage is at most 100%; the
      counter counts occurrences and [most_common]
      ranks them; the statistics partition the patterns; an unedited file
      gives no change.  Findings: a cleared cell of an integer column
      marks every row of that column changed; only the first modified row
      decides whether tug-barge pairings are reported; [Match_Type] is
      analysed both as a vessel type and as a match type.
    - Deploy: the README update is idempotent on a README that has the
      marker; a second deploy deletes the README text before its first
      ["##"] heading; a history header without a line break raises
      [IndexError] after the dictionary is copied; an empty [Phase] makes
      the summary raise [TypeError] after every file is written.
    - Column comparison: the script raises [NameError] exactly when the
      directory has no archive or its first archive has no CSV; otherwise
      it lists the first twenty export-only columns in increasing order and
      counts the rest; which archive is first depends on [os.listdir].

    ** Modelling choices, bounds and fuel

    - Dates are day numbers as [Z] ([None] for NaT); [Format.civil_days]
      is the [pd.Timestamp] value in days, and [civil_days_chronological]
      shows that comparing these integers compares dates.  [pd.to_datetime]
      on a number is the floor of its nanoseconds over a day
      ([TugBarge.to_datetime_ns]), NaT outside the int64 range.  Both USACE files
      carry dates at day granularity, so [Port_Stay_Days_Decimal] is an
      integer number of days.
    - A cell that may be NaN is an [option].  pandas' [==] on NaN is false;
      [py_eq] returns [false] when either side is [None].  [astype(str)]
      turns NaN into ['nan'] ([VoyRecid.py_str]).
    - Row labels are positions in the frame, because the scripts call
      [reset_index(drop=True)] or read a fresh CSV before they use labels.
    - Tonnages are integers in [VoyRecid]; the drafts of [Transform] are
      exact rationals ([PyFloat]) and the [.Nf] formats round them half to
      even: the rounding of binary doubles is not modelled.
    - [read_csv]'s column typing is modelled where a claim depends on it:
      a numeric column with a missing cell is a float column, and [str()]
      prints its integral values with ['.0'] ([Rollups.read_code_column],
      [Panjiva.read_hs_column]).
    - The only fuel is the bit length of the integer that [Format.digits_go]
      renders, which bounds its number of decimal digits
      ([Format.size_nat_bound]), and [Format.digits_go_fuel_enough]
      shows that it is enough: the loop stops on its own within it, and
      more fuel writes the same digits; every other loop of the modelled code is a
      [for] over a finite frame, modelled by structural recursion.

    ** Not modelled

    - The contents of files, printing and the printed summaries: pure
      I/O (the classifier's statistics file is modelled, without the text
      of its percentages).
      Which file a stage reads and the names it writes are modelled
      ([Files.v]); the directory is a set of names, and a stamp is a
      minute with a four-digit year.
    - [pd.to_datetime] on free-form text: the models take the parsed date.
    - The year of a Panjiva record is an input ([pd.to_datetime] on free
      text).
    - Of the column comparison, the reading of the files and the fixed
      banner lines are not modelled: the headers and the directory
      listing are inputs.  Of the user-edit analysis, the timestamp, the
      fixed Markdown text and the messages of the report, and
      [extract_imo] (never called) are not modelled.  Of the genesis
      script, the mean, median, minimum and maximum of the stays and the
      sample records are printed text only and are not modelled.  Of the deploy script, the printing and
      the [Group] breakdown (printed in the order of an unstable sort) are
      not modelled, and [version_entry] is a parameter.
    - Smaller departures, which no theorem depends on: [df.iloc[idx]] on a
      frame whose columns are all numeric upcasts the row to float64 (the
      user-edit model keeps each cell's own type); the deploy model has no
      directories, so the [FileNotFoundError] of a missing production
      folder is not modelled; the user-edit [main] assumes the output
      folder that the import created; drafts are exact rationals, so a
      draft with fractional inches exactly at half the register draft may
      compare differently from binary doubles.
*)

From stdpp Require Export base list gmap strings.
From Stdlib Require Export ZArith Lia.
From stdpp Require Import sorting.

Declare Scope pc_scope.
Delimit Scope pc_scope with pc.

Create HintDb pc discriminated.
Create Rewrite HintDb pc_rw.

(** ** pandas cell comparisons *)

(** pandas' elementwise [==] on two cells.  NaN (here [None]) is
    never equal to anything, itself included. *)
Definition py_eq {A} `{EqDecision A} (a b : option A) : bool :=
  match a, b with
  | Some x, Some y => bool_decide (x = y)
  | _, _ => false
  end.

Notation "a ==? b" := (py_eq a b) (at level 70, no associativity) : pc_scope.
Open Scope pc_scope.

(** The characters Python's [str.strip()] removes, restricted to ASCII
    ([str.isspace]: tab to carriage return, the four separators 28-31, and
    space). *)
Definition is_py_space (c : Ascii.ascii) : bool :=
  let n := Ascii.nat_of_ascii c in
  bool_decide (9 <= n <= 13)%nat || bool_decide (28 <= n <= 32)%nat.

(** [str(x).strip() == ''] *)
Definition py_blank (s : string) : bool :=
  forallb is_py_space (String.list_ascii_of_string s).

(** [pd.notna(x) and str(x).strip() != ''] *)
Definition py_present (o : option string) : bool :=
  match o with
  | Some s => negb (py_blank s)
  | None => false
  end.

(** [series > t] for a datetime series: a NaT cell compares false. *)
Definition date_after (d : option Z) (t : Z) : bool :=
  match d with
  | Some x => bool_decide (t < x)%Z
  | None => false
  end.

(** ** First row of a filtered frame: [frame[mask].iloc[0]] together with
    its label [.name].  The mask may look at the row label. *)
Fixpoint find_first_from {A} (p : nat -> A -> bool) (k : nat) (l : list A)
    : option (nat * A) :=
  match l with
  | [] => None
  | x :: l' => if p k x then Some (k, x) else find_first_from p (S k) l'
  end.

Definition find_first {A} (p : nat -> A -> bool) (l : list A) : option (nat * A) :=
  find_first_from p 0 l.

(** Rows of a frame whose label passes a test, in frame order:
    [for idx, row in frame.iterrows(): if test(idx): ...]. *)
Fixpoint ifilter_from {A} (p : nat -> A -> bool) (k : nat) (l : list A) : list A :=
  match l with
  | [] => []
  | x :: l' => if p k x then x :: ifilter_from p (S k) l' else ifilter_from p (S k) l'
  end.

Definition ifilter {A} (p : nat -> A -> bool) (l : list A) : list A :=
  ifilter_from p 0 l.

(** [sorted(l, key=key, reverse=True)] for a natural key, as
    [sort_values(ascending=False)] on short columns and
    [Counter.most_common] use it: stable, ties kept in input order. *)
Fixpoint insert_desc {A} (key : A -> nat) (x : A) (l : list A) : list A :=
  match l with
  | [] => [x]
  | y :: l' => if decide (key y <= key x) then x :: l else y :: insert_desc key x l'
  end.

Definition sort_desc {A} (key : A -> nat) (l : list A) : list A := foldr (insert_desc key) [] l.

(** ** Tactics *)

(** Break boolean conjunctions, negations and decisions in hypotheses into
    propositions. *)
Ltac pc_bool :=
  repeat match goal with
  | H : (_ && _) = true |- _ => apply andb_true_iff in H as [? ?]
  | H : negb _ = true |- _ => apply negb_true_iff in H
  | H : bool_decide _ = true |- _ => apply bool_decide_eq_true in H
  | H : bool_decide _ = false |- _ => apply bool_decide_eq_false in H
  end.

(** Closes a decidable goal on concrete data by evaluating its decision. *)
Ltac pc_decide := apply (bool_decide_unpack _); vm_compute; exact I.

(** ** Lemmas on the primitives *)

Section Primitives.
Context {A : Type}.

Lemma py_eq_Some_iff `{EqDecision B} (a b : option B) :
  py_eq a b = true <-> exists x, a = Some x /\ b = Some x.
Proof.
  destruct a as [x|], b as [y|]; simpl; split;
    intros H; try discriminate; try (destruct H as (? & ? & ?); discriminate).
  - apply bool_decide_eq_true in H. subst. eauto.
  - destruct H as (z & Hz1 & Hz2). apply bool_decide_eq_true. congruence.
Qed.

Lemma date_after_Some (d : option Z) t :
  date_after d t = true <-> exists x, d = Some x /\ (t < x)%Z.
Proof.
  destruct d as [x|]; simpl; split; intros H.
  - apply bool_decide_eq_true in H. eauto.
  - destruct H as (? & [= <-] & ?). by apply bool_decide_eq_true.
  - discriminate.
  - by destruct H as (? & ? & ?).
Qed.

Lemma find_first_from_Some (p : nat -> A -> bool) k l i x :
  find_first_from p k l = Some (i, x) ->
  k <= i /\ l !! (i - k) = Some x /\ p i x = true /\
  (forall j y, k <= j < i -> l !! (j - k) = Some y -> p j y = false).
Proof.
  revert k. induction l as [|y l IH]; intros k H; simpl in H; [discriminate|].
  destruct (p k y) eqn:Hp.
  - injection H as <- <-. rewrite Nat.sub_diag. split_and!; auto; intros; lia.
  - apply IH in H as (Hle & Hl & Hpi & Hbefore).
    split_and!; [lia| |done|].
    + by replace (i - k) with (S (i - S k)) by lia.
    + intros j z Hj Hz. destruct (decide (j = k)) as [->|Hne].
      * rewrite Nat.sub_diag in Hz. by injection Hz as ->.
      * apply Hbefore; [lia|]. by replace (j - S k) with (pred (j - k)) by lia;
          destruct (j - k) as [|n] eqn:E; [lia|].
Qed.

Lemma find_first_Some (p : nat -> A -> bool) l i x :
  find_first p l = Some (i, x) ->
  l !! i = Some x /\ p i x = true /\
  (forall j y, j < i -> l !! j = Some y -> p j y = false).
Proof.
  intros H. apply find_first_from_Some in H as (_ & Hl & Hp & Hb).
  rewrite Nat.sub_0_r in Hl. split_and!; auto.
  intros j y Hj Hy. apply Hb; [lia|]. by rewrite Nat.sub_0_r.
Qed.

Lemma find_first_from_None (p : nat -> A -> bool) k l :
  find_first_from p k l = None ->
  forall j y, l !! j = Some y -> p (k + j) y = false.
Proof.
  revert k. induction l as [|z l IH]; intros k H j y Hj; [discriminate|].
  simpl in H. destruct (p k z) eqn:Hp; [discriminate|].
  destruct j as [|j]; simpl in Hj.
  - injection Hj as <-. by rewrite Nat.add_0_r.
  - replace (k + S j) with (S k + j) by lia. by apply (IH (S k)).
Qed.

Lemma find_first_None (p : nat -> A -> bool) l :
  find_first p l = None -> forall j y, l !! j = Some y -> p j y = false.
Proof. intros H j y. apply (find_first_from_None p 0 l H). Qed.

(** The filtered frame depends only on the test at the labels it visits. *)
Lemma ifilter_from_ext (p q : nat -> A -> bool) k l :
  (forall j y, l !! j = Some y -> q (k + j) y = p (k + j) y) ->
  ifilter_from q k l = ifilter_from p k l.
Proof.
  revert k. induction l as [|y l IH]; intros k H; [done|]. simpl.
  pose proof (H 0 y eq_refl) as H0. rewrite Nat.add_0_r in H0. rewrite H0.
  rewrite (IH (S k)); [done|].
  intros j w Hw. rewrite Nat.add_succ_comm. by apply (H (S j)).
Qed.

(** Removing one row from the filtered frame: if the test changes only at
    label [i], from true to false, the filtered frame loses exactly the row
    at [i]. *)
Lemma ifilter_from_drop (p q : nat -> A -> bool) k l i x :
  l !! i = Some x -> p (k + i) x = true -> q (k + i) x = false ->
  (forall j y, j <> i -> l !! j = Some y -> q (k + j) y = p (k + j) y) ->
  x :: ifilter_from q k l ≡ₚ ifilter_from p k l.
Proof.
  revert k i. induction l as [|y l IH]; intros k i Hi Hp Hq Hrest; [discriminate|].
  destruct i as [|i]; simpl in Hi.
  - injection Hi as ->. rewrite Nat.add_0_r in Hp, Hq. simpl. rewrite Hp, Hq.
    f_equiv. erewrite ifilter_from_ext; [done|].
    intros j w Hw. rewrite Nat.add_succ_comm. apply (Hrest (S j)); [lia|done].
  - simpl. pose proof (Hrest 0 y ltac:(lia) eq_refl) as H0.
    rewrite Nat.add_0_r in H0. rewrite H0.
    assert (x :: ifilter_from q (S k) l ≡ₚ ifilter_from p (S k) l) as IH'.
    { apply IH with i; rewrite ?Nat.add_succ_comm; [done..|].
      intros j w Hj Hw. rewrite Nat.add_succ_comm.
      apply (Hrest (S j)); [lia|done]. }
    destruct (p k y); [|done]. by rewrite perm_swap, IH'.
Qed.

Lemma ifilter_from_true (p : nat -> A -> bool) k l :
  (forall j y, l !! j = Some y -> p (k + j) y = true) -> ifilter_from p k l = l.
Proof.
  revert k. induction l as [|y l IH]; intros k H; [done|]. simpl.
  pose proof (H 0 y eq_refl) as H0. rewrite Nat.add_0_r in H0. rewrite H0.
  rewrite (IH (S k)); [done|].
  intros j w Hw. rewrite Nat.add_succ_comm. by apply (H (S j)).
Qed.

(** [List.filter] keeps everything, or nothing. *)
Lemma filter_true_all (f : A -> bool) (l : list A) :
  Forall (fun x => f x = true) l -> List.filter f l = l.
Proof. induction 1 as [|x l Hx Hl IH]; [done|]. simpl. by rewrite Hx, IH. Qed.

Lemma filter_false_all (f : A -> bool) (l : list A) :
  Forall (fun x => f x = false) l -> List.filter f l = [].
Proof. induction 1 as [|x l Hx Hl IH]; [done|]. simpl. by rewrite Hx, IH. Qed.

(** A property kept by every iteration of a Python [for] loop over [l]
    holds after the loop. *)
Lemma fold_left_invariant {S} (P : S -> Prop) (f : S -> A -> S) (l : list A) s :
  P s -> (forall s x, x ∈ l -> P s -> P (f s x)) -> P (fold_left f l s).
Proof.
  revert s. induction l as [|x l IH]; intros s Hs Hf; [done|]. simpl.
  apply IH; [apply Hf; [left|done]|]. intros s' y Hy. apply Hf. by right.
Qed.

(** Python's [[f(x) for x in l]]: [List.map] and stdpp's [fmap] agree. *)
Lemma map_as_fmap {B} (f : A -> B) (l : list A) : map f l = f <$> l.
Proof. done. Qed.

(** [enumerate]-style pairing of a frame with its labels. *)
Lemma elem_of_zip_seq (l : list A) i x : (i, x) ∈ zip (seq 0 (length l)) l -> l !! i = Some x.
Proof.
  intros (j & Hj)%list_elem_of_lookup. apply lookup_zip_Some in Hj as [Hs Hl].
  by apply lookup_seq in Hs as [-> _].
Qed.

(** A term of a sum is at most the sum. *)
Lemma sum_list_with_elem_le (f : A -> nat) (l : list A) x :
  x ∈ l -> f x <= sum_list_with f l.
Proof. induction 1; simpl; lia. Qed.

(** [sum(f(x) for x in l)] over integers. *)
Definition sum_Z (f : A -> Z) (l : list A) : Z := foldr (fun x acc => f x + acc)%Z 0%Z l.

Lemma sum_Z_app f l1 l2 : sum_Z f (l1 ++ l2) = (sum_Z f l1 + sum_Z f l2)%Z.
Proof. induction l1 as [|x l1 IH]; simpl; [done|]. rewrite IH. lia. Qed.

Lemma sum_Z_plus f g l : sum_Z (fun x => f x + g x)%Z l = (sum_Z f l + sum_Z g l)%Z.
Proof. induction l as [|x l IH]; simpl; [done|]. rewrite IH. lia. Qed.

Lemma sum_Z_ext f g l : (forall x, x ∈ l -> f x = g x) -> sum_Z f l = sum_Z g l.
Proof.
  induction l as [|x l IH]; intros Hfg; simpl; [done|].
  rewrite Hfg, IH; [done|intros y Hy; apply Hfg; by right|by left].
Qed.

(** A sum does not depend on the order of its terms. *)
#[export] Instance sum_Z_perm f : Proper ((≡ₚ) ==> (=)) (sum_Z f).
Proof. induction 1; simpl; lia. Qed.

(** Summing an indicator over a duplicate-free list that contains its key. *)
Lemma sum_Z_indicator `{EqDecision A} (l : list A) k (t : Z) :
  NoDup l -> k ∈ l -> sum_Z (fun g => if bool_decide (k = g) then t else 0%Z) l = t.
Proof.
  induction 1 as [|x l Hx Hnd IH]; intros Hk; [by apply not_elem_of_nil in Hk|]. simpl.
  apply elem_of_cons in Hk as [->|Hk].
  - rewrite bool_decide_eq_true_2 by done.
    rewrite (sum_Z_ext _ (fun _ => 0%Z)); [|intros y Hy; rewrite bool_decide_eq_false_2; set_solver].
    clear. induction l; simpl; lia.
  - rewrite bool_decide_eq_false_2 by set_solver. rewrite IH by done. lia.
Qed.

Lemma insert_desc_perm (key : A -> nat) x l : insert_desc key x l ≡ₚ x :: l.
Proof.
  induction l as [|y l IH]; simpl; [done|].
  case_decide; [done|]. rewrite IH. apply Permutation_swap.
Qed.

Lemma sort_desc_perm (key : A -> nat) l : sort_desc key l ≡ₚ l.
Proof. induction l as [|x l IH]; [done|]. simpl. by rewrite insert_desc_perm, IH. Qed.

(** The keys of a sorted list do not increase. *)
Lemma sort_desc_sorted (key : A -> nat) l :
  Sorted (fun a b => key b <= key a) (sort_desc key l).
Proof.
  induction l as [|x l IH]; simpl; [constructor|].
  generalize (sort_desc key l) IH. clear. intros m Hm.
  induction Hm as [|y m Hm IHm Hhd]; simpl; [by repeat constructor|].
  case_decide; [by repeat constructor|].
  constructor; [done|]. destruct m as [|z m]; simpl; [constructor; lia|].
  inversion Hhd; subst. case_decide; constructor; lia.
Qed.

Lemma length_omap_le {B} (f : A -> option B) (l : list A) : length (omap f l) <= length l.
Proof. induction l as [|x l IH]; cbn; [lia|]. destruct (f x); cbn; lia. Qed.

(** A list whose every element is seen by [f] or by [g] is no longer than
    the two [omap]s together. *)
Lemma length_le_omap_cover {B C} (f : A -> option B) (g : A -> option C) (l : list A) :
  Forall (fun x => is_Some (f x) \/ is_Some (g x)) l -> length l <= length (omap f l) + length (omap g l).
Proof.
  induction 1 as [|x l Hx _ IH]; cbn; [lia|].
  destruct (f x) as [b|], (g x) as [c|]; cbn; try lia. by destruct Hx as [[? ?]|[? ?]].
Qed.

End Primitives.

Lemma sum_Z_map {A B} (f : B -> Z) (g : A -> B) (l : list A) :
  sum_Z f (map g l) = sum_Z (fun x => f (g x)) l.
Proof. induction l as [|x l IH]; simpl; [done|]. by rewrite IH. Qed.

(** ** Counting rows *)

Lemma filter_length_ext_in {A} (P Q : A -> Prop) `{forall x, Decision (P x)} `{forall x, Decision (Q x)} l :
  (forall x, x ∈ l -> P x <-> Q x) -> length (filter P l) = length (filter Q l).
Proof.
  induction l as [|a l IH]; intros HPQ; [done|]. rewrite !filter_cons.
  assert (Ha : P a <-> Q a) by (apply HPQ; left).
  assert (Hl : length (filter P l) = length (filter Q l)) by (apply IH; intros x Hx; apply HPQ; by right).
  do 2 case_decide; simpl; rewrite ?Hl; naive_solver.
Qed.

(** Rows that satisfy one of two exclusive tests are counted once. *)
Lemma filter_or_length {A} (P Q : A -> Prop) `{forall x, Decision (P x)} `{forall x, Decision (Q x)} l :
  (forall x, P x -> Q x -> False) ->
  length (filter (fun x => P x \/ Q x) l) = (length (filter P l) + length (filter Q l))%nat.
Proof.
  intros Hdis. induction l as [|a l IH]; [done|]. rewrite !filter_cons.
  repeat case_decide; simpl; try lia; naive_solver.
Qed.

(** Counting the rows of each of distinct keys counts the rows whose key
    is one of them. *)
Lemma keys_count {A B} `{EqDecision B} (f : A -> option B) (ks : list B) (rows : list A) :
  NoDup ks ->
  sum_list_with (fun k => length (filter (fun r => f r = Some k) rows)) ks =
  length (filter (fun r => f r ∈ Some <$> ks) rows).
Proof.
  induction ks as [|k ks IH]; intros Hnd; simpl.
  - assert (Hnil : filter (fun r => f r ∈ []) rows = []).
    { apply elem_of_nil_inv. intros r [Hr _]%list_elem_of_filter. by apply not_elem_of_nil in Hr. }
    by rewrite Hnil.
  - apply NoDup_cons in Hnd as [Hk Hnd]. rewrite IH by done.
    rewrite <- filter_or_length.
    + apply filter_length_ext_in. intros r _. rewrite elem_of_cons. done.
    + intros r -> (k' & Hkk & Hk')%list_elem_of_fmap. simplify_eq. done.
Qed.

#[export] Hint Resolve find_first_Some find_first_None : pc.
