(* ===== verification/Ledger.v ===== *)
(** * The claim ledger

    Every matcher of the repository keeps a Python [set] of row labels it
    has already claimed ([clearance_matched] in
    [marry_entrance_clearance_v1.0.0.py], [matched_tug_ent] /
    [matched_barge_ent] in [match_tug_barge_pairs_v1.1.0_COMPLETE.py]).
    It queries the set with [index.isin(...)] or [in], and grows it with
    [.add].  The matchers are proved against the interface [Ledger] /
    [LedgerLaws] below.  [gset nat] is the instance that models the
    Python [set]. *)

From S2P Require Import Prelude.

(** What a matcher needs of its ledger: an empty ledger, a membership test
    and a claim operation. *)
Class Ledger (L : Type) := {
  ledger_empty : L;
  ledger_mem : nat -> L -> bool;
  ledger_add : nat -> L -> L;
}.

(** What a matcher may assume of it: nothing is claimed at first, and
    claiming [j] adds exactly [j]. *)
Class LedgerLaws (L : Type) `{!Ledger L} := {
  ledger_mem_empty i : ledger_mem i ledger_empty = false;
  ledger_mem_add i j l : ledger_mem i (ledger_add j l) = bool_decide (i = j) || ledger_mem i l;
}.

(** The Python [set()] of row labels: [set()], [x in s] / [index.isin(s)],
    [s.add(x)]. *)
#[export] Instance set_ledger : Ledger (gset nat) := {|
  ledger_empty := ∅;
  ledger_mem i s := bool_decide (i ∈ s);
  ledger_add i s := {[i]} ∪ s;
|}.

#[export] Instance set_ledger_laws : LedgerLaws (gset nat).
Proof.
  split.
  - intros i. simpl. apply bool_decide_eq_false. set_solver.
  - intros i j s. simpl. apply eq_bool_prop_intro.
    rewrite orb_True, !bool_decide_spec. set_solver.
Qed.

Section Unclaimed.
Context {L : Type} `{LedgerLaws L} {A : Type}.

(** The rows of a frame whose label is not claimed, in frame order. *)
Definition unclaimed (m : L) (l : list A) : list A :=
  ifilter (fun i _ => negb (ledger_mem i m)) l.

Lemma unclaimed_empty (l : list A) : unclaimed ledger_empty l = l.
Proof.
  unfold unclaimed, ifilter. apply ifilter_from_true.
  intros j y _. by rewrite ledger_mem_empty.
Qed.

(** Claiming the unclaimed label [i] removes exactly the row at [i] from
    the unclaimed rows. *)
Lemma unclaimed_add (m : L) (l : list A) i x :
  l !! i = Some x -> ledger_mem i m = false ->
  x :: unclaimed (ledger_add i m) l ≡ₚ unclaimed m l.
Proof.
  intros Hi Hm. unfold unclaimed, ifilter.
  apply (ifilter_from_drop _ _ 0 l i x Hi).
  - simpl. by rewrite Hm.
  - simpl. by rewrite ledger_mem_add, bool_decide_eq_true_2.
  - intros j y Hj _. simpl. rewrite ledger_mem_add, bool_decide_eq_false_2; done.
Qed.

(** A claimed label stays claimed. *)
Lemma ledger_mem_add_mono (m : L) i j :
  ledger_mem i m = true -> ledger_mem i (ledger_add j m) = true.
Proof. intros Hm. rewrite ledger_mem_add, Hm. apply orb_true_r. Qed.

Lemma ledger_mem_add_self (m : L) i : ledger_mem i (ledger_add i m) = true.
Proof. by rewrite ledger_mem_add, bool_decide_eq_true_2. Qed.

End Unclaimed.

#[export] Hint Resolve ledger_mem_add_mono ledger_mem_add_self : pc.
#[export] Hint Rewrite @ledger_mem_empty @ledger_mem_add : pc_rw.
