(* ===== verification/Records.v ===== *)
(** * Rows shared by the matchers

    The USACE movement row as the matchers read it.  The port-call master
    row, which [marry_entrance_clearance_v1.0.0.py] writes and
    [match_tug_barge_pairs_v1.1.0_COMPLETE.py] reads back, with its
    categorical columns as inductive types. *)

From S2P Require Import Prelude.

(** The columns of a USACE entrance or clearance row that the matchers
    read; every other column is carried through unchanged and is not
    modelled.  Each cell may be NaN. *)
Record Movement := mkMovement {
  mv_imo : option string;     (** [IMO] *)
  mv_vessel : option string;  (** [Vessel] *)
  mv_port : option string;    (** [PORT] *)
  mv_icst : option string;    (** [ICST_DESC] (vessel type) *)
  mv_date : option Z;         (** [Arrival_Date_Parsed] / [Clearance_Date_Parsed], in days *)
  mv_date_cell : option Z;    (** [Clearance_Date] as the file holds it, the mmydd number
                                  [parse_usace_date] reads; an entrance row has a text date *)
}.

#[export] Instance Movement_eq_dec : EqDecision Movement.
Proof. solve_decision. Defined.

(** [Match_Type] *)
Inductive MatchType := BOTH | ENTRANCE_ONLY | CLEARANCE_ONLY | TUG_BARGE_PAIR.

#[export] Instance MatchType_eq_dec : EqDecision MatchType.
Proof. solve_decision. Defined.

(** [Match_Method]: ['IMO'], ['Vessel_Name'], ['NO_DATE'] (or [None]). *)
Inductive MatchMethod := Method_IMO | Method_Vessel_Name | Method_NO_DATE.

#[export] Instance MatchMethod_eq_dec : EqDecision MatchMethod.
Proof. solve_decision. Defined.

(** [Match_Score]: 1.0, 0.8, 0.5. *)
Inductive MatchScore := Score_1_0 | Score_0_8 | Score_0_5.

#[export] Instance MatchScore_eq_dec : EqDecision MatchScore.
Proof. solve_decision. Defined.

(** A row of the port-call master frame ([merged_row]). *)
Record PortCallRow := mkPortCallRow {
  row_entrance : option Movement;  (** the [Entrance_*] columns *)
  row_clearance : option Movement; (** the [Clearance_*] columns *)
  row_stay_days : option Z;        (** [Port_Stay_Days_Decimal] *)
  row_stay_int : option Z;         (** [Port_Stay_Days_Int] *)
  row_score : option MatchScore;   (** [Match_Score] *)
  row_type : MatchType;            (** [Match_Type] *)
  row_method : option MatchMethod; (** [Match_Method] *)
}.

(** [match_stats = {'IMO': 0, 'Vessel_Name': 0, 'No_Match': 0}] *)
Record MatchStats := mkMatchStats {
  stat_imo : nat;
  stat_vessel_name : nat;
  stat_no_match : nat;
}.

Definition stats0 : MatchStats := mkMatchStats 0 0 0.

(** Number of rows of a given [Match_Type]:
    [portcall_master['Match_Type'].value_counts()]. *)
Definition count_type (t : MatchType) (rows : list PortCallRow) : nat :=
  length (filter (fun r => row_type r = t) rows).
