(* ===== verification/Normalize.v ===== *)
(** * The key normaliser

    [normalize_vessel_name] and [normalize_port_name] of
    [match_usace_clearance_to_panjiva_exports_v1.0.0.py] (lines 80-101).
    [normalize_vessel_name] is repeated verbatim in
    [transform_usace_clearance_data_v2.0.0.py].  The file also has
    [normalize_name] of [transform_usace_entrance_data_v2.1.0.py].  Strings
    are processed as [list ascii]; the Python string methods they use
    ([str.lower], [str.upper], [str.split()], [' '.join], [str.split(',')],
    [str.strip()], [str.replace], and [re.sub] with a character class) are
    modelled on ASCII.  Non-ASCII characters are outside the model. *)

From S2P Require Import Prelude.

Module Normalize.

(** ** Character classes *)

Definition code (c : Ascii.ascii) : nat := Ascii.nat_of_ascii c.
Definition is_lower (c : Ascii.ascii) : bool := bool_decide (97 <= code c <= 122).
Definition is_upper (c : Ascii.ascii) : bool := bool_decide (65 <= code c <= 90).
Definition is_digit (c : Ascii.ascii) : bool := bool_decide (48 <= code c <= 57).
(** [[a-zA-Z0-9]] *)
Definition is_alnum (c : Ascii.ascii) : bool := is_lower c || is_upper c || is_digit c.

(** [str.lower()] and [str.upper()] on one ASCII character. *)
Definition py_lower_char (c : Ascii.ascii) : Ascii.ascii :=
  if is_upper c then Ascii.ascii_of_nat (code c + 32) else c.
Definition py_upper_char (c : Ascii.ascii) : Ascii.ascii :=
  if is_lower c then Ascii.ascii_of_nat (code c - 32) else c.

Definition space : Ascii.ascii := Ascii.ascii_of_nat 32.
Definition comma : Ascii.ascii := Ascii.ascii_of_nat 44.

(** ** Python string methods *)

(** [str.split()]: words separated by runs of whitespace, no empty word. *)
Fixpoint py_split_ws (l : list Ascii.ascii) : list (list Ascii.ascii) :=
  match l with
  | [] => []
  | c :: l' =>
      if is_py_space c then py_split_ws l'
      else match l' with
           | [] => [[c]]
           | c' :: _ =>
               if is_py_space c' then [c] :: py_split_ws l'
               else match py_split_ws l' with
                    | w :: ws => (c :: w) :: ws
                    | [] => [[c]]
                    end
           end
  end.

(** [sep.join(ws)] for a one-character separator. *)
Fixpoint py_join (sep : Ascii.ascii) (ws : list (list Ascii.ascii)) : list Ascii.ascii :=
  match ws with
  | [] => []
  | [w] => w
  | w :: ws' => w ++ sep :: py_join sep ws'
  end.

(** [str.split(',')[0]]: the text before the first comma. *)
Fixpoint before_comma (l : list Ascii.ascii) : list Ascii.ascii :=
  match l with
  | [] => []
  | c :: l' => if bool_decide (c = comma) then [] else c :: before_comma l'
  end.

(** [str.strip()] *)
Definition py_lstrip (l : list Ascii.ascii) : list Ascii.ascii :=
  (fix go l := match l with
               | [] => []
               | c :: l' => if is_py_space c then go l' else l
               end) l.
Definition py_strip (l : list Ascii.ascii) : list Ascii.ascii :=
  reverse (py_lstrip (reverse (py_lstrip l))).

(** [s.startswith(p)] *)
Fixpoint is_prefix (p l : list Ascii.ascii) : bool :=
  match p, l with
  | [], _ => true
  | c :: p', d :: l' => bool_decide (c = d) && is_prefix p' l'
  | _ :: _, [] => false
  end.

(** [s.replace(old, new)] for a non-empty [old]: occurrences are replaced
    left to right, without overlap, and the result is not rescanned.
    [skip] counts the characters of a replaced occurrence still to drop. *)
Fixpoint replace_go (old new : list Ascii.ascii) (skip : nat) (l : list Ascii.ascii)
    : list Ascii.ascii :=
  match l with
  | [] => []
  | c :: l' =>
      match skip with
      | S k => replace_go old new k l'
      | 0 =>
          if is_prefix old l then new ++ replace_go old new (pred (length old)) l'
          else c :: replace_go old new 0 l'
      end
  end.

Definition py_replace (old new : string) (l : list Ascii.ascii) : list Ascii.ascii :=
  replace_go (String.list_ascii_of_string old) (String.list_ascii_of_string new) 0 l.

(** ** The normalisers *)

(** [re.sub(r'[^a-zA-Z0-9\s]', '', s)] keeps these characters. *)
Definition keep_vessel_char (c : Ascii.ascii) : bool := is_alnum c || is_py_space c.

(** [normalize_vessel_name], lines 80-84: NaN or [''] gives [''];
    otherwise remove punctuation, lower-case, and collapse whitespace. *)
Definition normalize_vessel_name (name : option string) : string :=
  match name with
  | None => ""
  | Some s =>
      if bool_decide (s = "") then ""
      else String.string_of_list_ascii
             (py_join space (py_split_ws
                (map py_lower_char (List.filter keep_vessel_char (String.list_ascii_of_string s)))))
  end.

(** The prefix and suffix removals of lines 95-99, in order. *)
Definition port_replacements : list string :=
  ["PORT OF "; "PORT "; "THE "; " UNIFIED PORT DISTRICT"; " PORT DISTRICT";
   " PORT AUTHORITY"; " AUTHORITY OF HARRIS COUNTY"; " STATE PORT AUTHORITY";
   " STATE AUTHORITY"].

(** [normalize_port_name], lines 86-101.  [name.split(',')] always has a
    first part, so the fall-back [return name.upper()] of line 101 is
    unreachable. *)
Definition normalize_port_name (name : option string) : string :=
  match name with
  | None => ""
  | Some s =>
      if bool_decide (s = "") then ""
      else
        let city := py_strip (before_comma (map py_upper_char (String.list_ascii_of_string s))) in
        let city := fold_left (fun acc old => py_replace old "" acc) port_replacements city in
        String.string_of_list_ascii (py_strip city)
  end.

(** [normalize_name] of [transform_usace_entrance_data_v2.1.0.py], lines
    85-88: upper-case, then [re.sub(r'[^A-Z0-9]', '', name)]. *)
Definition keep_name_char (c : Ascii.ascii) : bool := is_upper c || is_digit c.

Definition normalize_name (name : option string) : string :=
  match name with
  | None => ""
  | Some s =>
      if bool_decide (s = "") then ""
      else String.string_of_list_ascii
             (List.filter keep_name_char (map py_upper_char (String.list_ascii_of_string s)))
  end.

(** ** Lemmas on the string primitives *)

Section Lemmas.

Definition nonspace (c : Ascii.ascii) : Prop := is_py_space c = false.

Lemma py_split_ws_cons_cons c c' l :
  is_py_space c = false -> is_py_space c' = false ->
  py_split_ws (c :: c' :: l) =
  match py_split_ws (c' :: l) with w :: ws => (c :: w) :: ws | [] => [[c]] end.
Proof. intros Hc Hc'. cbn [py_split_ws]. by rewrite Hc, Hc'. Qed.

Lemma py_split_ws_word w l :
  w <> [] -> Forall nonspace w ->
  (l = [] \/ exists c l', l = c :: l' /\ is_py_space c = true) ->
  py_split_ws (w ++ l) = w :: py_split_ws l.
Proof.
  intros Hne Hw Hl. induction w as [|c w IH]; [done|].
  apply Forall_cons in Hw as [Hc Hw]. unfold nonspace in Hc.
  destruct w as [|c' w].
  - simpl. rewrite Hc. destruct Hl as [->|(d & l' & -> & Hd)]; [done|]. by rewrite Hd.
  - pose proof Hw as Hw0. apply Forall_cons in Hw0 as [Hc' _].
    assert (IH' : py_split_ws (c' :: w ++ l) = (c' :: w) :: py_split_ws l)
      by (apply IH; [done|done]).
    cbn [app]. rewrite py_split_ws_cons_cons by done. by rewrite IH'.
Qed.

Lemma is_py_space_space : is_py_space space = true.
Proof. reflexivity. Qed.

(** [' '.join] then [split()] gives the words back, when the words are
    non-empty and contain no whitespace. *)
Lemma py_split_ws_join ws :
  Forall (fun w => w <> [] /\ Forall nonspace w) ws ->
  py_split_ws (py_join space ws) = ws.
Proof.
  induction ws as [|w ws IH]; intros Hws; [done|].
  apply Forall_cons in Hws as [[Hne Hw] Hws].
  destruct ws as [|w' ws].
  - simpl. rewrite <- (app_nil_r w) at 1. rewrite py_split_ws_word; auto.
  - change (py_join space (w :: w' :: ws)) with (w ++ space :: py_join space (w' :: ws)).
    rewrite py_split_ws_word; [|done|done|right; eauto].
    cbn [py_split_ws]. rewrite is_py_space_space. by rewrite IH.
Qed.

(** The words of [split()] are non-empty, and each of their characters is
    a non-whitespace character of the input. *)
Lemma py_split_ws_words (P : Ascii.ascii -> Prop) l :
  Forall (fun c => nonspace c -> P c) l ->
  Forall (fun w => w <> [] /\ Forall (fun c => nonspace c /\ P c) w) (py_split_ws l).
Proof.
  induction l as [|c l IH]; intros Hl; [constructor|].
  apply Forall_cons in Hl as [Hc Hl]. specialize (IH Hl). simpl.
  destruct (is_py_space c) eqn:Hsp; [done|].
  assert (Hc' : nonspace c /\ P c) by (split; [done|by apply Hc]).
  destruct l as [|c' l'].
  - repeat constructor; auto.
  - destruct (is_py_space c'); [repeat constructor; auto|].
    destruct (py_split_ws (c' :: l')) as [|w ws] eqn:E.
    + repeat constructor; auto.
    + apply Forall_cons in IH as [[_ Hw] Hws]. repeat constructor; auto.
Qed.

Lemma py_join_chars (P : Ascii.ascii -> Prop) ws :
  P space -> Forall (Forall P) ws -> Forall P (py_join space ws).
Proof.
  intros Hsp. induction ws as [|w ws IH]; intros Hws; [constructor|].
  apply Forall_cons in Hws as [Hw Hws].
  destruct ws as [|w' ws]; [done|].
  change (py_join space (w :: w' :: ws)) with (w ++ space :: py_join space (w' :: ws)).
  apply Forall_app. split; [done|]. constructor; [done|]. by apply IH.
Qed.

Lemma map_id_on {A} (f : A -> A) (l : list A) :
  Forall (fun x => f x = x) l -> map f l = l.
Proof. induction 1; simpl; congruence. Qed.

(** What [py_lower_char] does to a kept character: it stays kept and is no
    longer upper case. *)
Lemma py_lower_char_kept c :
  keep_vessel_char c = true ->
  keep_vessel_char (py_lower_char c) = true /\ is_upper (py_lower_char c) = false.
Proof.
  intros Hk. unfold py_lower_char. destruct (is_upper c) eqn:Hu; [|done].
  unfold is_upper, code in Hu. apply bool_decide_eq_true in Hu.
  assert (Hn : Ascii.nat_of_ascii (Ascii.ascii_of_nat (Ascii.nat_of_ascii c + 32))
               = Ascii.nat_of_ascii c + 32) by (apply Ascii.nat_ascii_embedding; lia).
  unfold keep_vessel_char, is_alnum, is_lower, is_upper, code. rewrite Hn.
  rewrite (bool_decide_eq_true_2 (97 <= _ <= 122)) by lia.
  split; [done|]. apply bool_decide_eq_false. lia.
Qed.

Lemma py_lower_char_not_upper c : is_upper c = false -> py_lower_char c = c.
Proof. unfold py_lower_char. by intros ->. Qed.

Lemma string_of_list_ascii_empty l :
  String.string_of_list_ascii l = "" -> l = [].
Proof. destruct l; [done|discriminate]. Qed.

End Lemmas.

(** ** Theorems *)

(** [normalize_vessel_name] is idempotent: normalising an
    already-normalised name returns it unchanged, as the specification
    requires of the key normaliser. *)
Theorem normalize_vessel_name_idempotent name :
  normalize_vessel_name (Some (normalize_vessel_name name)) = normalize_vessel_name name.
Proof.
  destruct name as [s|]; [|done]. unfold normalize_vessel_name at 2.
  case_bool_decide as Hs; [subst; reflexivity|].
  set (ws := py_split_ws (map py_lower_char
               (List.filter keep_vessel_char (String.list_ascii_of_string s)))).
  assert (Hws : Forall (fun w => w <> [] /\
    Forall (fun c => nonspace c /\ (keep_vessel_char c = true /\ is_upper c = false)) w) ws).
  { apply py_split_ws_words. apply Forall_forall. intros c Hc _.
    apply list_elem_of_In, in_map_iff in Hc as (c0 & <- & Hc0).
    apply filter_In in Hc0 as [_ Hk]. by apply py_lower_char_kept. }
  assert (Hchars : Forall (fun c => keep_vessel_char c = true /\ is_upper c = false)
                     (py_join space ws)).
  { apply py_join_chars; [split; reflexivity|]. eapply Forall_impl; [done|].
    intros w [_ Hw]. eapply Forall_impl; [done|]. intros x Hx; cbv beta in Hx; tauto. }
  unfold normalize_vessel_name. rewrite (bool_decide_eq_false_2 (s = "")) by done.
  fold ws. case_bool_decide as Hz; [by rewrite Hz|].
  rewrite String.list_ascii_of_string_of_list_ascii.
  rewrite filter_true_all by (eapply Forall_impl; [done|]; intros x Hx; cbv beta in Hx; tauto).
  rewrite map_id_on by (eapply Forall_impl; [done|];
    intros c [_ Hu]; by apply py_lower_char_not_upper).
  rewrite py_split_ws_join; [done|].
  eapply Forall_impl; [done|]. intros w [Hne Hw]. split; [done|].
  eapply Forall_impl; [done|]. intros x Hx; cbv beta in Hx; tauto.
Qed.

(** A normalised vessel name contains only lower-case letters,
    digits and single spaces between words: no character is upper case,
    punctuation, or whitespace other than a separating space. *)
Theorem normalize_vessel_name_charset name :
  Forall (fun c => (is_lower c || is_digit c) = true \/ c = space)
    (String.list_ascii_of_string (normalize_vessel_name name)).
Proof.
  destruct name as [s|]; [|constructor]. unfold normalize_vessel_name.
  case_bool_decide; [constructor|].
  rewrite String.list_ascii_of_string_of_list_ascii.
  apply py_join_chars; [by right|].
  eapply Forall_impl; [apply (py_split_ws_words (fun c =>
    keep_vessel_char c = true /\ is_upper c = false))|].
  - apply Forall_forall. intros c Hc _.
    apply list_elem_of_In, in_map_iff in Hc as (c0 & <- & Hc0).
    apply filter_In in Hc0 as [_ Hk]. by apply py_lower_char_kept.
  - intros w [_ Hw]. eapply Forall_impl; [done|].
    intros c (Hsp & Hk & Hu). left. unfold nonspace, keep_vessel_char, is_alnum in *.
    destruct (is_lower c), (is_digit c); simpl in *; try done.
    by rewrite Hu, Hsp in Hk.
Qed.

(** ** [normalize_port_name] *)

Lemma before_comma_no_comma l : Forall (fun c => c <> comma) (before_comma l).
Proof.
  induction l as [|c l IH]; simpl; [constructor|].
  case_bool_decide; [constructor|]. by constructor.
Qed.

Lemma py_lstrip_suffix (P : Ascii.ascii -> Prop) l :
  Forall P l -> Forall P (py_lstrip l).
Proof.
  unfold py_lstrip. induction 1 as [|c l Hc Hl IH]; [constructor|].
  destruct (is_py_space c); [done|by constructor].
Qed.

Lemma py_strip_forall (P : Ascii.ascii -> Prop) l :
  Forall P l -> Forall P (py_strip l).
Proof.
  intros Hl. unfold py_strip. apply Forall_reverse, py_lstrip_suffix,
    Forall_reverse, py_lstrip_suffix, Hl.
Qed.

(** Replacing by the empty string only deletes characters. *)
Lemma replace_go_delete_forall (P : Ascii.ascii -> Prop) old k l :
  Forall P l -> Forall P (replace_go old [] k l).
Proof.
  revert k. induction l as [|c l IH]; intros k Hl; [constructor|].
  apply Forall_cons in Hl as [Hc Hl]. simpl.
  destruct k as [|k]; [|by apply IH].
  destruct (is_prefix old (c :: l)); simpl; [by apply IH|]. constructor; [done|]. by apply IH.
Qed.

Lemma port_replacements_forall (P : Ascii.ascii -> Prop) olds l :
  Forall P l -> Forall P (fold_left (fun acc old => py_replace old "" acc) olds l).
Proof.
  revert l. induction olds as [|o olds IH]; intros l Hl; simpl; [done|].
  apply IH. by apply replace_go_delete_forall.
Qed.

(** A normalised port name never contains a comma: only the text
    before the first comma survives, and the prefix and suffix removals
    only delete characters. *)
Theorem normalize_port_name_no_comma name :
  Forall (fun c => c <> comma) (String.list_ascii_of_string (normalize_port_name name)).
Proof.
  destruct name as [s|]; [|constructor]. unfold normalize_port_name.
  case_bool_decide; [constructor|].
  rewrite String.list_ascii_of_string_of_list_ascii.
  apply py_strip_forall, port_replacements_forall, py_strip_forall, before_comma_no_comma.
Qed.

(** [normalize_port_name] is not idempotent, although the
    specification requires it of the normaliser: [str.replace] does not
    rescan its result, so a removal can create a new occurrence of
    ["PORT "] that a second normalisation removes. *)
Theorem normalize_port_name_not_idempotent :
  normalize_port_name (Some "PORPORT T X") = "PORT X" /\
  normalize_port_name (Some (normalize_port_name (Some "PORPORT T X"))) = "X".
Proof. vm_compute. split; reflexivity. Qed.

(** The removals are not anchored to word boundaries, and they run in
    an order that disables some of them.  ["PORT "] is removed inside a
    city name ("NEWPORT NEWS" becomes "NEWNEWS").  Removing ["PORT "] first
    means the suffix [" UNIFIED PORT DISTRICT"] can no longer match, so
    "San Diego Unified Port District" keeps "UNIFIED DISTRICT". *)
Theorem normalize_port_name_replace_defects :
  normalize_port_name (Some "NEWPORT NEWS, VA") = "NEWNEWS" /\
  normalize_port_name (Some "San Diego Unified Port District") = "SAN DIEGO UNIFIED DISTRICT" /\
  normalize_port_name (Some "Port of San Diego") = "SAN DIEGO".
Proof. vm_compute. repeat split. Qed.

(** ** [normalize_name] *)

Lemma py_upper_char_kept c :
  keep_name_char (py_upper_char c) = true -> py_upper_char (py_upper_char c) = py_upper_char c.
Proof.
  unfold keep_name_char, py_upper_char. intros Hk.
  destruct (is_lower (if is_lower c then _ else c)) eqn:Hl; [|done].
  exfalso. revert Hk Hl. unfold is_lower, is_upper, is_digit, code.
  destruct (bool_decide (97 <= Ascii.nat_of_ascii c <= 122)) eqn:Hc.
  - apply bool_decide_eq_true in Hc. rewrite Ascii.nat_ascii_embedding by lia.
    intros _ Hl. apply bool_decide_eq_true in Hl. lia.
  - intros Hk Hl. apply bool_decide_eq_true in Hl.
    apply orb_true_iff in Hk as [Hk|Hk]; apply bool_decide_eq_true in Hk; lia.
Qed.

(** [normalize_name] (entrance transform) is idempotent: its output
    has only upper-case letters and digits, which upper-casing and the
    [[^A-Z0-9]] removal leave unchanged. *)
Theorem normalize_name_idempotent name :
  normalize_name (Some (normalize_name name)) = normalize_name name.
Proof.
  destruct name as [s|]; [|done]. unfold normalize_name at 2.
  case_bool_decide as Hs; [subst; reflexivity|].
  set (out := List.filter keep_name_char (map py_upper_char (String.list_ascii_of_string s))).
  assert (Hout : Forall (fun c => keep_name_char c = true /\ py_upper_char c = c) out).
  { apply Forall_forall. intros c Hc. apply list_elem_of_In, filter_In in Hc as [Hc Hk].
    apply in_map_iff in Hc as (c0 & <- & _). split; [done|]. by apply py_upper_char_kept. }
  unfold normalize_name. rewrite (bool_decide_eq_false_2 (s = "")) by done. fold out.
  case_bool_decide as Hz; [by rewrite Hz|].
  rewrite String.list_ascii_of_string_of_list_ascii.
  rewrite map_id_on by (eapply Forall_impl; [done|]; intros x Hx; cbv beta in Hx; tauto).
  rewrite filter_true_all by (eapply Forall_impl; [done|]; intros x Hx; cbv beta in Hx; tauto).
  done.
Qed.

End Normalize.
