(* ===== verification/Format.v ===== *)
(** * Number formatting and the USACE date codes

    Three scripts turn integers into text and back:
    - [parse_usace_date] (marry lines 44-57, and the same text at lines
      46-59 of the clearance matcher) renders the mmydd code with
      [str(int(v)).zfill(5)], slices it, reads the pieces with [int()] and
      builds [pd.Timestamp(year, month, day)];
    - [PORTCALL_ID] (marry lines 210-211) is ['PC_' + str(n).zfill(6)];
    - [VOY_RECID] (grouping script line 84) is [f"VOY_EXP_{i+1:07d}"].

    The model writes these Python builtins out on [list ascii]: [int_chars]
    ([str(int)]), [zfill_chars] ([str.zfill]) and [py_int_chars] ([int(str)]
    on the strings these scripts produce: surrounding whitespace, one sign,
    decimal digits; underscores never occur and are not modelled).  A
    [pd.Timestamp] is its day number since 1970-01-01 ([civil_days], the
    proleptic Gregorian calendar pandas uses), or [None] where pandas raises. *)

From S2P Require Import Prelude Normalize.
From Stdlib Require Import Ascii.
Import Normalize.

Module Format.

(** ** [str(int)] *)

Definition digit_char (d : Z) : Ascii.ascii := Ascii.ascii_of_nat (48 + Z.to_nat d).

(** The decimal digits of [n > 0], most significant first, before [acc].
    The fuel is the bit length of [n], which bounds its decimal length. *)
Fixpoint digits_go (fuel : nat) (n : Z) (acc : list Ascii.ascii) : list Ascii.ascii :=
  match fuel with
  | O => acc
  | S f =>
      let acc' := digit_char (n mod 10) :: acc in
      if (n <? 10)%Z then acc' else digits_go f (n / 10) acc'
  end.

Definition int_chars (z : Z) : list Ascii.ascii :=
  match z with
  | Z0 => ["0"%char]
  | Zpos p => digits_go (Pos.size_nat p) (Zpos p) []
  | Zneg p => "-"%char :: digits_go (Pos.size_nat p) (Zpos p) []
  end.

Definition int_str (z : Z) : string := String.string_of_list_ascii (int_chars z).

(** ** [str.zfill(w)]: zeros on the left up to width [w], after a sign. *)

Definition is_sign (c : Ascii.ascii) : bool := Ascii.eqb c "-" || Ascii.eqb c "+".

Definition zfill_chars (w : nat) (l : list Ascii.ascii) : list Ascii.ascii :=
  match l with
  | c :: l' =>
      if is_sign c then c :: replicate (w - length l) "0"%char ++ l'
      else replicate (w - length l) "0"%char ++ l
  | [] => replicate w "0"%char
  end.

Definition zfill (w : nat) (s : string) : string :=
  String.string_of_list_ascii (zfill_chars w (String.list_ascii_of_string s)).

(** ** [int(str)] *)

Definition digit_val (c : Ascii.ascii) : option Z :=
  if is_digit c then Some (Z.of_nat (code c) - 48)%Z else None.

Fixpoint digits_val (acc : Z) (l : list Ascii.ascii) : option Z :=
  match l with
  | [] => Some acc
  | c :: l' => digit_val c ≫= fun d => digits_val (acc * 10 + d)%Z l'
  end.

(** At least one digit. *)
Definition unsigned_val (l : list Ascii.ascii) : option Z :=
  match l with
  | [] => None
  | _ => digits_val 0 l
  end.

(** [int(s)], [None] where Python raises [ValueError]. *)
Definition py_int_chars (l : list Ascii.ascii) : option Z :=
  match py_strip l with
  | [] => None
  | c :: l' =>
      if Ascii.eqb c "-" then Z.opp <$> unsigned_val l'
      else if Ascii.eqb c "+" then unsigned_val l'
      else unsigned_val (c :: l')
  end.

(** [int(s)] on a Python string. *)
Definition py_int (s : string) : option Z := py_int_chars (String.list_ascii_of_string s).

(** ** [pd.Timestamp(year=y, month=m, day=d)] as a day number *)

Definition is_leap (y : Z) : bool :=
  ((y mod 4 =? 0) && (negb (y mod 100 =? 0) || (y mod 400 =? 0)))%Z.

Definition days_in_month (y m : Z) : Z :=
  match m with
  | 1 | 3 | 5 | 7 | 8 | 10 | 12 => 31
  | 4 | 6 | 9 | 11 => 30
  | 2 => if is_leap y then 29 else 28
  | _ => 0
  end%Z.

(** Days of the months before month [S k] of year [y]. *)
Fixpoint days_before_month (y : Z) (k : nat) : Z :=
  match k with
  | O => 0
  | S k' => days_before_month y k' + days_in_month y (Z.of_nat k)
  end%Z.

(** The leap years in [1 .. x]. *)
Definition leaps_upto (x : Z) : Z := (x / 4 - x / 100 + x / 400)%Z.

Definition days_before_year (y : Z) : Z :=
  (365 * (y - 1970) + leaps_upto (y - 1) - leaps_upto 1969)%Z.

Definition civil_days (y m d : Z) : Z :=
  (days_before_year y + days_before_month y (Z.to_nat (m - 1)) + (d - 1))%Z.

(** pandas raises [ValueError] outside month 1-12 or the month's days. *)
Definition timestamp (y m d : Z) : option Z :=
  if bool_decide (1 <= m <= 12 /\ 1 <= d <= days_in_month y m)%Z
  then Some (civil_days y m d) else None.

(** ** [parse_usace_date], marry lines 44-57 *)

Definition parse_usace_date (date_val : option Z) : option Z :=
  match date_val with
  | None => None
  | Some v =>
      let date_str := zfill_chars 5 (int_chars v) in
      month ← py_int_chars (take 2 date_str);
      year_digit ← (c ← date_str !! 2; py_int_chars [c]);
      day ← py_int_chars (drop 3 date_str);
      timestamp (2020 + year_digit) month day
  end.

(** ** [PORTCALL_ID], marry lines 210-211 *)

Definition portcall_id (n : nat) : string :=
  "PC_" +:+ zfill 6 (int_str (Z.of_nat n)).

(** [range(1, len + 1)], rendered. *)
Definition portcall_ids (len : nat) : list string := map portcall_id (seq 1 len).

(** ** [int(str(z)) = z] *)

Lemma size_nat_bound p : (Zpos p < 2 ^ Z.of_nat (Pos.size_nat p))%Z.
Proof.
  induction p as [p IH|p IH|]; simpl; [..|lia];
    rewrite Nat2Z.inj_succ, Z.pow_succ_r by lia; lia.
Qed.

(** The digit loop of [str(int)] ends before its fuel runs out:
    once the fuel [f] covers the bit length of [n] (as [Pos.size_nat]
    does in [int_chars]), the loop stops on a quotient below 10 within
    [f] steps, so any larger fuel writes the same digits. *)
Theorem digits_go_fuel_enough f f' n acc :
  (0 < n < 2 ^ Z.of_nat f)%Z -> (f <= f')%nat ->
  digits_go f' n acc = digits_go f n acc.
Proof.
  revert f' n acc. induction f as [|f IH]; intros f' n acc Hn Hf; [simpl in Hn; lia|].
  destruct f' as [|f']; [lia|].
  rewrite Nat2Z.inj_succ, Z.pow_succ_r in Hn by lia. simpl.
  destruct (Z.ltb_spec n 10); [done|].
  apply IH; [|lia]. split; [apply Z.div_str_pos; lia|apply Z.div_lt_upper_bound; lia].
Qed.

Lemma digits_go_fuel_enough_witness :
  digits_go 64 2023 [] = digits_go (Pos.size_nat 2023) 2023 [].
Proof. apply digits_go_fuel_enough; vm_compute; [split; reflexivity|lia]. Defined.

Lemma digit_val_char d : (0 <= d < 10)%Z -> digit_val (digit_char d) = Some d.
Proof.
  intros Hd. unfold digit_val, digit_char, is_digit, code.
  rewrite Ascii.nat_ascii_embedding by lia.
  rewrite bool_decide_eq_true_2 by lia. f_equal. lia.
Qed.

Lemma digit_char_digit d : (0 <= d < 10)%Z -> is_digit (digit_char d) = true.
Proof.
  intros Hd. unfold digit_char, is_digit, code.
  rewrite Ascii.nat_ascii_embedding by lia. apply bool_decide_eq_true_2. lia.
Qed.

Lemma digits_val_app a l1 l2 :
  digits_val a (l1 ++ l2) = digits_val a l1 ≫= fun b => digits_val b l2.
Proof.
  revert a. induction l1 as [|c l1 IH]; intros a; simpl; [done|].
  destruct (digit_val c); simpl; [apply IH|done].
Qed.

(** [digits_go] writes the digits of [n], and reading them back gives [n]. *)
Lemma digits_go_spec f n acc :
  (0 < n < 2 ^ Z.of_nat f)%Z ->
  exists ds, digits_go f n acc = ds ++ acc /\ ds <> [] /\
    Forall (fun c => is_digit c = true) ds /\
    (10 ^ (Z.of_nat (length ds) - 1) <= n)%Z /\
    forall a, digits_val a ds = Some (a * 10 ^ Z.of_nat (length ds) + n)%Z.
Proof.
  revert n acc. induction f as [|f IH]; intros n acc Hn; [simpl in Hn; lia|].
  rewrite Nat2Z.inj_succ, Z.pow_succ_r in Hn by lia. simpl.
  assert (Hd : (0 <= n mod 10 < 10)%Z) by (apply Z.mod_pos_bound; lia).
  destruct (Z.ltb_spec n 10) as [Hlt|Hge].
  - exists [digit_char (n mod 10)]. split_and!; [done|done|
      by apply Forall_singleton, digit_char_digit|simpl; lia|].
    intros a. cbn [digits_val]. rewrite digit_val_char by done. cbn [mbind option_bind digits_val length].
    rewrite Z.mod_small by lia. simpl Z.of_nat. f_equal.
  - destruct (IH (n / 10)%Z (digit_char (n mod 10) :: acc))
      as (ds & Hds & Hne & Hdig & Hlow & Hval).
    { split; [apply Z.div_str_pos; lia|apply Z.div_lt_upper_bound; lia]. }
    assert (Hdm : n = (10 * (n / 10) + n mod 10)%Z) by (apply Z.div_mod; lia).
    exists (ds ++ [digit_char (n mod 10)]). rewrite Hds, <- app_assoc. split_and!; [done| |
      by apply Forall_app; split; [|apply Forall_singleton, digit_char_digit]| |].
    + intros Hnil. by apply app_eq_nil in Hnil as [_ ?].
    + rewrite length_app. cbn [length].
      assert (Hk : (10 ^ (Z.of_nat (length ds + 1) - 1)
                    = 10 ^ (Z.of_nat (length ds) - 1) * 10)%Z).
      { destruct ds; [done|]. rewrite Z.mul_comm, <- Z.pow_succ_r by (simpl; lia). f_equal. lia. }
      rewrite Hk. lia.
    + intros a. rewrite digits_val_app, Hval. cbn [mbind option_bind digits_val].
      rewrite digit_val_char by done. cbn [mbind option_bind digits_val].
      rewrite length_app, Nat2Z.inj_add, Z.pow_add_r by lia. simpl (Z.of_nat (length [_])).
      rewrite Z.pow_1_r. f_equal. lia.
Qed.

Lemma digit_not_space c : is_digit c = true -> is_py_space c = false.
Proof.
  unfold is_digit, is_py_space, code. intros Hd%bool_decide_eq_true.
  rewrite orb_false_iff, !bool_decide_eq_false. lia.
Qed.

Lemma digit_not_sign c : is_digit c = true -> Ascii.eqb c "-" = false /\ Ascii.eqb c "+" = false.
Proof.
  intros Hd. split; destruct (Ascii.eqb_spec c "-"), (Ascii.eqb_spec c "+"); subst; done.
Qed.

Lemma zero_digit : is_digit "0" = true.
Proof. reflexivity. Qed.

Lemma py_lstrip_nonspace c l : is_py_space c = false -> py_lstrip (c :: l) = c :: l.
Proof. intros Hc. simpl. by rewrite Hc. Qed.

(** [s.strip()] leaves a string without whitespace unchanged. *)
Lemma py_strip_nonspace l : Forall (fun c => is_py_space c = false) l -> py_strip l = l.
Proof.
  intros Hl. unfold py_strip.
  assert (Hls : forall l, Forall (fun c => is_py_space c = false) l -> py_lstrip l = l).
  { intros [|c l'] H; [done|]. apply Forall_cons in H as [Hc _]. by apply py_lstrip_nonspace. }
  rewrite (Hls l Hl), (Hls (reverse l)) by (by apply Forall_reverse). apply reverse_involutive.
Qed.

Lemma digits_val_zeros k l : digits_val 0 (replicate k "0"%char ++ l) = digits_val 0 l.
Proof. induction k as [|k IH]; [done|]. simpl. apply IH. Qed.

(** [int(s)] of a non-empty string of digits, and of a minus sign before one. *)
Lemma py_int_chars_digits l :
  l <> [] -> Forall (fun c => is_digit c = true) l -> py_int_chars l = digits_val 0 l.
Proof.
  intros Hne Hl. unfold py_int_chars.
  rewrite py_strip_nonspace by (eapply Forall_impl; [done|apply digit_not_space]).
  destruct l as [|c l]; [done|]. apply Forall_cons in Hl as [Hc _].
  destruct (digit_not_sign c Hc) as [-> ->]. done.
Qed.

Lemma py_int_chars_neg l :
  l <> [] -> Forall (fun c => is_digit c = true) l ->
  py_int_chars ("-"%char :: l) = Z.opp <$> digits_val 0 l.
Proof.
  intros Hne Hl. unfold py_int_chars.
  rewrite py_strip_nonspace.
  - simpl. by destruct l.
  - constructor; [done|]. eapply Forall_impl; [done|apply digit_not_space].
Qed.

Lemma zeros_digits k l :
  Forall (fun c => is_digit c = true) l ->
  Forall (fun c => is_digit c = true) (replicate k "0"%char ++ l).
Proof. intros Hl. apply Forall_app. split; [apply Forall_replicate, zero_digit|done]. Qed.

(** Reading back a zero-filled rendering of an integer. *)
Lemma py_int_chars_zfill w z :
  py_int_chars (zfill_chars w (int_chars z)) = Some z.
Proof.
  destruct z as [|p|p]; simpl.
  - rewrite py_int_chars_digits.
    + rewrite digits_val_zeros. done.
    + by destruct (w - 1).
    + apply zeros_digits. by apply Forall_singleton.
  - destruct (digits_go_spec (Pos.size_nat p) (Zpos p) [] ltac:(pose proof (size_nat_bound p); lia))
      as (ds & Hds & Hne & Hdig & _ & Hval).
    rewrite Hds, app_nil_r. destruct ds as [|c ds']; [done|].
    apply Forall_cons in Hdig as Hdig'. destruct Hdig' as [Hc _]. simpl.
    unfold is_sign. destruct (digit_not_sign c Hc) as [-> ->]. simpl.
    rewrite py_int_chars_digits.
    + rewrite (digits_val_zeros _ (c :: ds')), Hval. f_equal.
    + by destruct (w - S (length ds')).
    + by apply zeros_digits.
  - destruct (digits_go_spec (Pos.size_nat p) (Zpos p) [] ltac:(pose proof (size_nat_bound p); lia))
      as (ds & Hds & Hne & Hdig & _ & Hval).
    rewrite Hds, app_nil_r. simpl. rewrite py_int_chars_neg.
    + rewrite digits_val_zeros, Hval. done.
    + destruct (w - S (length ds)); [done|]. simpl. done.
    + by apply zeros_digits.
Qed.

Lemma zfill_chars_0 l : zfill_chars 0 l = l.
Proof. destruct l as [|c l]; [done|]. simpl. by destruct (is_sign c). Qed.

(** [int(str(z)) == z] *)
Lemma py_int_int_str z : py_int (int_str z) = Some z.
Proof.
  unfold py_int, int_str. rewrite String.list_ascii_of_string_of_list_ascii.
  rewrite <- (zfill_chars_0 (int_chars z)). apply py_int_chars_zfill.
Qed.

(** ** The date code, read through its digits *)

Lemma digit_val_digit c : is_digit c = true -> exists d, digit_val c = Some d /\ (0 <= d < 10)%Z.
Proof.
  unfold digit_val. intros Hc. rewrite Hc. eexists. split; [done|].
  unfold is_digit in Hc. apply bool_decide_eq_true in Hc. lia.
Qed.

(** Every string of digits has a value below [10^length]. *)
Lemma digits_val_total l :
  Forall (fun c => is_digit c = true) l ->
  exists n, (0 <= n < 10 ^ Z.of_nat (length l))%Z /\
    forall acc, digits_val acc l = Some (acc * 10 ^ Z.of_nat (length l) + n)%Z.
Proof.
  induction 1 as [|c l Hc Hl IH].
  { exists 0%Z. split; [simpl; lia|]. intros acc. simpl. f_equal. lia. }
  destruct IH as (n & Hn & Hval). destruct (digit_val_digit c Hc) as (d & Hd & Hdb).
  exists (d * 10 ^ Z.of_nat (length l) + n)%Z.
  rewrite length_cons, Nat2Z.inj_succ, Z.pow_succ_r by lia.
  split; [nia|]. intros acc. simpl. rewrite Hd. simpl. rewrite Hval. f_equal. lia.
Qed.

(** [str(v).zfill(5)] for [0 <= v < 100000]: five digits worth [v]. *)
Lemma zfill5_digits v :
  (0 <= v < 100000)%Z ->
  exists c0 c1 c2 c3 c4, zfill_chars 5 (int_chars v) = [c0; c1; c2; c3; c4] /\
    Forall (fun c => is_digit c = true) [c0; c1; c2; c3; c4] /\
    digits_val 0 [c0; c1; c2; c3; c4] = Some v.
Proof.
  intros Hv. destruct v as [|p|p]; [|simpl|lia].
  { do 5 eexists. split; [reflexivity|]. split; [repeat constructor|reflexivity]. }
  destruct (digits_go_spec (Pos.size_nat p) (Zpos p) [] ltac:(pose proof (size_nat_bound p); lia))
    as (ds & Hds & Hne & Hdig & Hlow & Hval).
  rewrite Hds, app_nil_r.
  assert (Hlen : length ds <= 5).
  { destruct (decide (length ds <= 5)) as [|Hgt]; [done|].
    assert (10 ^ 5 <= 10 ^ (Z.of_nat (length ds) - 1))%Z by (apply Z.pow_le_mono_r; lia). lia. }
  destruct ds as [|c ds']; [done|]. apply Forall_cons in Hdig as Hdig'. destruct Hdig' as [Hc _].
  simpl. unfold is_sign. destruct (digit_not_sign c Hc) as [-> ->]. simpl.
  assert (Hall : Forall (fun c => is_digit c = true)
                  (replicate (5 - S (length ds')) "0"%char ++ c :: ds')) by (by apply zeros_digits).
  assert (Hl5 : length (replicate (5 - S (length ds')) "0"%char ++ c :: ds') = 5)
    by (rewrite length_app, length_replicate; simpl in *; lia).
  assert (Hv5 : digits_val 0 (replicate (5 - S (length ds')) "0"%char ++ c :: ds') = Some (Zpos p))
    by (rewrite digits_val_zeros, Hval; f_equal; lia).
  destruct (replicate (5 - S (length ds')) "0"%char ++ c :: ds')
    as [|c0 [|c1 [|c2 [|c3 [|c4 [|]]]]]] eqn:Hs; try (simpl in Hl5; lia).
  exists c0, c1, c2, c3, c4. split_and!; done.
Qed.

(** C9: for every code [0 <= v < 100000] the string slicing of
    [parse_usace_date] reads the month as [v / 1000], the year digit as
    [(v / 100) mod 10] and the day as [v mod 100]: it agrees with the
    arithmetic reading of the mmydd code. *)
Theorem parse_usace_date_mmydd v :
  (0 <= v < 100000)%Z ->
  parse_usace_date (Some v) = timestamp (2020 + (v / 100) mod 10) (v / 1000) (v mod 100).
Proof.
  intros Hv. destruct (zfill5_digits v Hv) as (c0 & c1 & c2 & c3 & c4 & Hs & Hdig & Hval).
  unfold parse_usace_date. rewrite Hs. simpl take. simpl drop. simpl lookup.
  apply Forall_cons in Hdig as [H0 Hdig]. apply Forall_cons in Hdig as [H1 Hdig].
  apply Forall_cons in Hdig as [H2 Hdig]. apply Forall_cons in Hdig as [H3 Hdig].
  apply Forall_cons in Hdig as [H4 _].
  destruct (digit_val_digit c0 H0) as (d0 & E0 & B0), (digit_val_digit c1 H1) as (d1 & E1 & B1),
    (digit_val_digit c2 H2) as (d2 & E2 & B2), (digit_val_digit c3 H3) as (d3 & E3 & B3),
    (digit_val_digit c4 H4) as (d4 & E4 & B4).
  rewrite !py_int_chars_digits by (try done; repeat constructor; done).
  simpl in Hval |- *. rewrite (py_int_chars_digits [c2]) by (try done; repeat constructor; done).
  simpl in Hval |- *. rewrite E0, E1, E2, E3, E4 in *. simpl in *. injection Hval as Hval.
  replace (v / 1000)%Z with (10 * d0 + d1)%Z
    by (apply (Z.div_unique_pos v 1000 _ (100 * d2 + 10 * d3 + d4)); lia).
  replace (v mod 100)%Z with (10 * d3 + d4)%Z
    by (apply (Z.mod_unique_pos v 100 (100 * d0 + 10 * d1 + d2)); lia).
  replace ((v / 100) mod 10)%Z with d2.
  - f_equal; lia.
  - replace (v / 100)%Z with (100 * d0 + 10 * d1 + d2)%Z
      by (apply (Z.div_unique_pos v 100 _ (10 * d3 + d4)); lia).
    apply (Z.mod_unique_pos _ 10 (10 * d0 + d1)); lia.
Qed.

(** [int(c)] of one character is a single digit. *)
Lemma py_int_chars_single c z : py_int_chars [c] = Some z -> (0 <= z <= 9)%Z.
Proof.
  unfold py_int_chars, py_strip. simpl.
  destruct (is_py_space c) eqn:Hsp; simpl; [done|]. rewrite Hsp. simpl.
  destruct (Ascii.eqb c "-"); [done|]. destruct (Ascii.eqb c "+"); [done|].
  simpl. unfold digit_val. destruct (is_digit c) eqn:Hd; [|done]. simpl.
  unfold is_digit in Hd. apply bool_decide_eq_true in Hd. intros [= <-]. lia.
Qed.

Lemma timestamp_Some y m d t :
  timestamp y m d = Some t ->
  (1 <= m <= 12)%Z /\ (1 <= d <= days_in_month y m)%Z /\ t = civil_days y m d.
Proof. unfold timestamp. case_bool_decide as H; [intros [= <-]; tauto|done]. Qed.

(** Whatever the input, a date [parse_usace_date] returns is a valid
    calendar day of 2020-2029: a month 1-12, a day of that month, and the
    day number of that date. *)
Theorem parse_usace_date_sound v t :
  parse_usace_date v = Some t ->
  exists y m d, (2020 <= y <= 2029)%Z /\ (1 <= m <= 12)%Z /\ (1 <= d <= days_in_month y m)%Z /\
    t = civil_days y m d.
Proof.
  destruct v as [v|]; [|done]. unfold parse_usace_date.
  destruct (py_int_chars (take 2 _)) as [m|]; [simpl|done].
  destruct (zfill_chars 5 (int_chars v) !! 2) as [c|]; [simpl|done].
  destruct (py_int_chars [c]) as [yd|] eqn:Hyd; [simpl|done].
  destruct (py_int_chars (drop 3 _)) as [d|]; [simpl|done].
  intros (? & ? & ->)%timestamp_Some. apply py_int_chars_single in Hyd.
  exists (2020 + yd)%Z, m, d. split_and!; auto with lia.
Qed.

(** Codes that are not five-digit mmydd values still parse.  With
    more than five digits [date_str[3:]] keeps three or more characters,
    and [int()] reads leading zeros away: 1230010 is taken as 2023-12-10. *)
Theorem parse_usace_date_long_code :
  parse_usace_date (Some 1230010%Z) = Some (civil_days 2023 12 10) /\
  parse_usace_date (Some 12300010%Z) = Some (civil_days 2023 12 10).
Proof. split; vm_compute; reflexivity. Qed.

(** ** Day numbers follow the calendar *)

Lemma days_in_month_nonneg y m : (0 <= days_in_month y m)%Z.
Proof. unfold days_in_month. repeat case_match; lia. Qed.

Lemma days_before_month_mono y k k' :
  k <= k' -> (days_before_month y k <= days_before_month y k')%Z.
Proof.
  induction 1 as [|k' _ IH]; [lia|]. cbn [days_before_month].
  pose proof (days_in_month_nonneg y (Z.of_nat (S k'))). lia.
Qed.

Lemma days_before_month_S y k :
  days_before_month y (S k) = (days_before_month y k + days_in_month y (Z.of_nat (S k)))%Z.
Proof. reflexivity. Qed.

Lemma days_before_month_year y :
  days_before_month y 12 = (if is_leap y then 366 else 365)%Z.
Proof. simpl. by destruct (is_leap y). Qed.

(** The leap years up to [y] are those up to [y - 1], and [y] if it is one. *)
Lemma leaps_upto_step y : (leaps_upto y = leaps_upto (y - 1) + if is_leap y then 1 else 0)%Z.
Proof.
  unfold leaps_upto, is_leap.
  pose proof (Z.div_mod y 4 ltac:(lia)). pose proof (Z.mod_pos_bound y 4 ltac:(lia)).
  pose proof (Z.div_mod y 100 ltac:(lia)). pose proof (Z.mod_pos_bound y 100 ltac:(lia)).
  pose proof (Z.div_mod y 400 ltac:(lia)). pose proof (Z.mod_pos_bound y 400 ltac:(lia)).
  pose proof (Z.div_mod (y - 1) 4 ltac:(lia)). pose proof (Z.mod_pos_bound (y - 1) 4 ltac:(lia)).
  pose proof (Z.div_mod (y - 1) 100 ltac:(lia)). pose proof (Z.mod_pos_bound (y - 1) 100 ltac:(lia)).
  pose proof (Z.div_mod (y - 1) 400 ltac:(lia)). pose proof (Z.mod_pos_bound (y - 1) 400 ltac:(lia)).
  destruct (Z.eqb_spec (y mod 4) 0), (Z.eqb_spec (y mod 100) 0), (Z.eqb_spec (y mod 400) 0);
    simpl; lia.
Qed.

Lemma days_before_year_step y :
  days_before_year (y + 1) = (days_before_year y + days_before_month y 12)%Z.
Proof.
  unfold days_before_year. rewrite days_before_month_year.
  replace (y + 1 - 1)%Z with y by lia. rewrite (leaps_upto_step y). destruct (is_leap y); lia.
Qed.

Lemma days_before_year_mono y k : (days_before_year y + 365 * Z.of_nat k <= days_before_year (y + Z.of_nat k))%Z.
Proof.
  induction k as [|k IH]; [change (Z.of_nat 0) with 0%Z; rewrite Z.mul_0_r, !Z.add_0_r; lia|].
  rewrite Nat2Z.inj_succ. replace (y + Z.succ (Z.of_nat k))%Z with (y + Z.of_nat k + 1)%Z by lia.
  rewrite days_before_year_step, days_before_month_year. destruct (is_leap _); lia.
Qed.

(** A valid date lies before the end of its year and after its month starts. *)
Lemma civil_days_in_year y m d :
  (1 <= m <= 12)%Z -> (1 <= d <= days_in_month y m)%Z ->
  (days_before_year y + days_before_month y (Z.to_nat (m - 1)) <= civil_days y m d <
   days_before_year y + days_before_month y (Z.to_nat m))%Z /\
  (civil_days y m d < days_before_year (y + 1))%Z.
Proof.
  intros Hm Hd. unfold civil_days. rewrite days_before_year_step.
  pose proof (days_before_month_mono y (S (Z.to_nat (m - 1))) 12 ltac:(lia)) as Hmono.
  replace (Z.to_nat m) with (S (Z.to_nat (m - 1))) by lia.
  rewrite days_before_month_S in *.
  replace (Z.of_nat (S (Z.to_nat (m - 1)))) with m in * by lia. lia.
Qed.

(** The day number of a valid date follows the calendar: an earlier
    date (by year, then month, then day) has a smaller [pd.Timestamp]
    value.  Comparing dates as integers, as every matcher does, compares
    them chronologically. *)
Theorem civil_days_chronological y m d y' m' d' :
  (1 <= m <= 12)%Z -> (1 <= d <= days_in_month y m)%Z ->
  (1 <= m' <= 12)%Z -> (1 <= d' <= days_in_month y' m')%Z ->
  (y < y' \/ (y = y' /\ (m < m' \/ (m = m' /\ d < d'))))%Z ->
  (civil_days y m d < civil_days y' m' d')%Z.
Proof.
  intros Hm Hd Hm' Hd' Hlt.
  destruct (civil_days_in_year y m d Hm Hd) as [[Hlo Hhi] Hyr].
  destruct (civil_days_in_year y' m' d' Hm' Hd') as [[Hlo' Hhi'] _].
  destruct Hlt as [Hy|(<- & [Hmm|(<- & Hdd)])].
  - pose proof (days_before_year_mono (y + 1) (Z.to_nat (y' - y - 1))).
    replace (y + 1 + Z.of_nat (Z.to_nat (y' - y - 1)))%Z with y' in * by lia.
    pose proof (days_before_month_mono y' 0 (Z.to_nat (m' - 1)) ltac:(lia)). simpl in *. lia.
  - pose proof (days_before_month_mono y (Z.to_nat m) (Z.to_nat (m' - 1)) ltac:(lia)). lia.
  - unfold civil_days. lia.
Qed.

(** ** Rendered identifiers *)

Lemma zfill_int_str_inj w z z' : zfill w (int_str z) = zfill w (int_str z') -> z = z'.
Proof.
  unfold zfill, int_str. rewrite !String.list_ascii_of_string_of_list_ascii.
  intros Heq. apply (f_equal String.list_ascii_of_string) in Heq.
  rewrite !String.list_ascii_of_string_of_list_ascii in Heq.
  apply (f_equal py_int_chars) in Heq. rewrite !py_int_chars_zfill in Heq. congruence.
Qed.

(** [int(str(z).zfill(w)) == z] for every integer [z] and width [w]:
    the zero padding of [PORTCALL_ID], [VOY_RECID] and the date codes
    loses nothing. *)
Theorem py_int_zfill_int_str w z : py_int (zfill w (int_str z)) = Some z.
Proof.
  unfold py_int, zfill, int_str. rewrite !String.list_ascii_of_string_of_list_ascii.
  apply py_int_chars_zfill.
Qed.

(** The [PORTCALL_ID]s [PC_000001], [PC_000002], ... of marry lines
    210-211 are pairwise distinct, however many rows the master has (past
    999999 they grow beyond six digits but stay distinct). *)
Theorem portcall_ids_unique len : NoDup (portcall_ids len).
Proof.
  unfold portcall_ids. rewrite map_as_fmap. apply NoDup_fmap_2_strong; [|apply NoDup_seq].
  intros n n' _ _ Heq. unfold portcall_id in Heq.
  apply (inj (String.app "PC_")), zfill_int_str_inj in Heq. lia.
Qed.

(** *** Witnesses *)

Lemma parse_usace_date_mmydd_witness :
  parse_usace_date (Some 8329%Z)
  = timestamp (2020 + (8329 / 100) mod 10) (8329 / 1000) (8329 mod 100).
Proof. apply parse_usace_date_mmydd. lia. Defined.

Lemma parse_usace_date_sound_witness :
  exists y m d, (2020 <= y <= 2029)%Z /\ (1 <= m <= 12)%Z /\ (1 <= d <= days_in_month y m)%Z /\
    civil_days 2023 8 29 = civil_days y m d.
Proof. apply (parse_usace_date_sound (Some 8329%Z)). vm_compute. reflexivity. Defined.

Lemma civil_days_chronological_witness : (civil_days 2023 12 31 < civil_days 2024 1 1)%Z.
Proof.
  apply civil_days_chronological; try (simpl; lia).
Defined.

End Format.
