(* ===== verification/Genesis.v ===== *)
(** * The genesis matcher: [marry_entrance_clearance_v1.0.0.py]

    The script sorts both frames by [(IMO, PORT, date)] and resets their
    index.  For each entrance, in sorted order, it takes the first unclaimed
    clearance of the same IMO at the same port strictly after the arrival
    ([.iloc[0]]).  Failing that, it takes the first one with the same
    vessel name.  The chosen clearance's label goes into
    [clearance_matched], and one [BOTH] or [ENTRANCE_ONLY] row is
    appended.  After the loop every clearance never claimed is appended as
    [CLEARANCE_ONLY].

    [genesis_step] is one iteration of the loop, lines 93-183.
    [genesis_loop] is the loop and [marry] adds the final pass, lines
    186-200.  The ledger is abstract ([Ledger.v]); the script's [set] is
    the [gset nat] instance.  [GenesisOutcome] is the step relation: the
    three ways an iteration can end.  Every invariant below is proved by
    case analysis on it.  The sort itself, the saved frame and the summary
    are modelled in [GenesisRun.v]. *)

From S2P Require Import Prelude Ledger Records.

Module Genesis.
Section Genesis.
Context {L : Type} `{LedgerLaws L}.

(** The identity column a method compares: [IMO] or [Vessel]. *)
Definition method_key (meth : MatchMethod) : Movement -> option string :=
  match meth with
  | Method_IMO => mv_imo
  | _ => mv_vessel
  end.

(** The candidate mask, lines 118-123 (IMO) and 134-139 (vessel name):
    same key, same port, clearance date strictly after the arrival, label
    not in [clearance_matched]. *)
Definition candidate (key : Movement -> option string) (e : Movement) (arrival : Z)
    (m : L) (i : nat) (c : Movement) : bool :=
  py_eq (key c) (key e) && py_eq (mv_port c) (mv_port e)
  && date_after (mv_date c) arrival && negb (ledger_mem i m).

(** [candidates.iloc[0]] with its label [.name], or [None] when
    [len(candidates) == 0]. *)
Definition first_clearance (key : Movement -> option string) (cl : list Movement)
    (e : Movement) (arrival : Z) (m : L) : option (nat * Movement) :=
  find_first (candidate key e arrival m) cl.

(** Lines 154-159.  A NaN stay fails both comparisons and scores 0.5. *)
Definition stay_score (stay : option Z) : MatchScore :=
  match stay with
  | Some s =>
      if bool_decide (s <= 15)%Z then Score_1_0
      else if bool_decide (s <= 45)%Z then Score_0_8
      else Score_0_5
  | None => Score_0_5
  end.

(** The [merged_row] of lines 162-170. *)
Definition both_row (e c : Movement) (arrival : Z) (meth : MatchMethod) : PortCallRow :=
  let stay := option_map (fun d => (d - arrival)%Z) (mv_date c) in
  mkPortCallRow (Some e) (Some c) stay stay (Some (stay_score stay)) BOTH (Some meth).

(** The [merged_row] of lines 100-107 ([meth = Some Method_NO_DATE]) and of
    lines 174-181 ([meth = None]). *)
Definition entrance_only_row (e : Movement) (meth : option MatchMethod) : PortCallRow :=
  mkPortCallRow (Some e) None None None None ENTRANCE_ONLY meth.

(** The [merged_row] of lines 191-198. *)
Definition clearance_only_row (c : Movement) : PortCallRow :=
  mkPortCallRow None (Some c) None None None CLEARANCE_ONLY None.

Definition bump_imo (s : MatchStats) : MatchStats :=
  mkMatchStats (S (stat_imo s)) (stat_vessel_name s) (stat_no_match s).
Definition bump_vessel_name (s : MatchStats) : MatchStats :=
  mkMatchStats (stat_imo s) (S (stat_vessel_name s)) (stat_no_match s).
Definition bump_no_match (s : MatchStats) : MatchStats :=
  mkMatchStats (stat_imo s) (stat_vessel_name s) (S (stat_no_match s)).

(** The counter a claim by [meth] increments. *)
Definition bump_method (meth : MatchMethod) (s : MatchStats) : MatchStats :=
  match meth with
  | Method_IMO => bump_imo s
  | _ => bump_vessel_name s
  end.

(** The loop state: [clearance_matched], [matched_records], [match_stats]. *)
Record GenesisState := mkGenesisState {
  gs_matched : L;
  gs_rows : list PortCallRow;
  gs_stats : MatchStats;
}.

Definition genesis_init : GenesisState := mkGenesisState ledger_empty [] stats0.

(** One iteration of the entrance loop, lines 93-183. *)
Definition genesis_step (cl : list Movement) (st : GenesisState) (e : Movement)
    : GenesisState :=
  let '(mkGenesisState m rows s) := st in
  match mv_date e with
  | None =>
      mkGenesisState m (rows ++ [entrance_only_row e (Some Method_NO_DATE)]) (bump_no_match s)
  | Some a =>
      let by_imo :=
        if py_present (mv_imo e) then first_clearance mv_imo cl e a m else None in
      match by_imo with
      | Some (i, c) =>
          mkGenesisState (ledger_add i m) (rows ++ [both_row e c a Method_IMO]) (bump_imo s)
      | None =>
          let by_name :=
            if py_present (mv_vessel e) then first_clearance mv_vessel cl e a m else None in
          match by_name with
          | Some (i, c) =>
              mkGenesisState (ledger_add i m)
                (rows ++ [both_row e c a Method_Vessel_Name]) (bump_vessel_name s)
          | None =>
              mkGenesisState m (rows ++ [entrance_only_row e None]) (bump_no_match s)
          end
      end
  end.

(** [for idx, ent_row in entrance_sorted.iterrows(): ...] *)
Definition genesis_loop (cl es : list Movement) : GenesisState :=
  fold_left (genesis_step cl) es genesis_init.

(** The whole matching, lines 81-200: the loop, then every clearance not in
    [clearance_matched] as [CLEARANCE_ONLY], in frame order. *)
Definition marry (es cl : list Movement) : list PortCallRow :=
  gs_rows (genesis_loop cl es)
  ++ map clearance_only_row (unclaimed (gs_matched (genesis_loop cl es)) cl).

(** ** The step relation: the three ways an iteration ends *)

Inductive GenesisOutcome (cl : list Movement) (st : GenesisState) (e : Movement)
    : GenesisState -> Prop :=
  | outcome_no_date :
      mv_date e = None ->
      GenesisOutcome cl st e
        (mkGenesisState (gs_matched st)
           (gs_rows st ++ [entrance_only_row e (Some Method_NO_DATE)])
           (bump_no_match (gs_stats st)))
  | outcome_claim a i c meth :
      mv_date e = Some a -> cl !! i = Some c ->
      py_present (method_key meth e) = true ->
      candidate (method_key meth) e a (gs_matched st) i c = true ->
      meth <> Method_NO_DATE ->
      GenesisOutcome cl st e
        (mkGenesisState (ledger_add i (gs_matched st))
           (gs_rows st ++ [both_row e c a meth])
           (bump_method meth (gs_stats st)))
  | outcome_unmatched a :
      mv_date e = Some a ->
      GenesisOutcome cl st e
        (mkGenesisState (gs_matched st) (gs_rows st ++ [entrance_only_row e None])
           (bump_no_match (gs_stats st))).

Lemma first_clearance_claim key cl e a m i c :
  first_clearance key cl e a m = Some (i, c) ->
  cl !! i = Some c /\ candidate key e a m i c = true.
Proof. intros Hf. apply find_first_Some in Hf as (? & ? & _). done. Qed.

Lemma genesis_step_outcome cl st e : GenesisOutcome cl st e (genesis_step cl st e).
Proof.
  destruct st as [m rows s]. unfold genesis_step.
  destruct (mv_date e) as [a|] eqn:Hd; [|by constructor].
  destruct (py_present (mv_imo e)) eqn:Himo.
  - destruct (first_clearance mv_imo cl e a m) as [[i c]|] eqn:Hf.
    + apply first_clearance_claim in Hf as [Hi Hc].
      by apply (outcome_claim cl (mkGenesisState m rows s) e a i c Method_IMO).
    + destruct (py_present (mv_vessel e)) eqn:Hv;
        [destruct (first_clearance mv_vessel cl e a m) as [[i c]|] eqn:Hf'|].
      * apply first_clearance_claim in Hf' as [Hi Hc].
        by apply (outcome_claim cl (mkGenesisState m rows s) e a i c Method_Vessel_Name).
      * by apply (outcome_unmatched cl (mkGenesisState m rows s) e a).
      * by apply (outcome_unmatched cl (mkGenesisState m rows s) e a).
  - destruct (py_present (mv_vessel e)) eqn:Hv;
      [destruct (first_clearance mv_vessel cl e a m) as [[i c]|] eqn:Hf'|].
    + apply first_clearance_claim in Hf' as [Hi Hc].
      by apply (outcome_claim cl (mkGenesisState m rows s) e a i c Method_Vessel_Name).
    + by apply (outcome_unmatched cl (mkGenesisState m rows s) e a).
    + by apply (outcome_unmatched cl (mkGenesisState m rows s) e a).
Qed.

(** Invariants of the loop are proved once per step outcome. *)
Lemma genesis_fold_invariant (P : GenesisState -> Prop) cl es st :
  (forall st e st', P st -> GenesisOutcome cl st e st' -> P st') ->
  P st -> P (fold_left (genesis_step cl) es st).
Proof.
  intros Hstep. revert st. induction es as [|e es IH]; intros st Hst; [done|].
  simpl. apply IH. eapply Hstep; [done|]. apply genesis_step_outcome.
Qed.


(** The postcondition of [sort_values(['IMO', 'PORT', date])] (line 79)
    that the selection relies on.  Among rows with the same IMO and port,
    dates are non-decreasing, with NaT last ([na_position='last']). *)
Definition date_leb (d1 d2 : option Z) : bool :=
  match d1, d2 with
  | Some x, Some y => bool_decide (x <= y)%Z
  | _, None => true
  | None, Some _ => false
  end.

Fixpoint frame_sorted (cl : list Movement) : bool :=
  match cl with
  | [] => true
  | c :: cl' =>
      forallb (fun c' =>
        implb (bool_decide (mv_imo c = mv_imo c' /\ mv_port c = mv_port c'))
              (date_leb (mv_date c) (mv_date c'))) cl'
      && frame_sorted cl'
  end.

(** ** Helper lemmas *)

Lemma candidate_spec key e a m i c :
  candidate key e a m i c = true <->
  py_eq (key c) (key e) = true /\ py_eq (mv_port c) (mv_port e) = true /\
  (exists d, mv_date c = Some d /\ (a < d)%Z) /\ ledger_mem i m = false.
Proof.
  unfold candidate. rewrite !andb_true_iff, negb_true_iff, date_after_Some. tauto.
Qed.

Lemma frame_sorted_spec cl i j ci cj :
  frame_sorted cl = true -> i < j -> cl !! i = Some ci -> cl !! j = Some cj ->
  mv_imo ci = mv_imo cj -> mv_port ci = mv_port cj ->
  date_leb (mv_date ci) (mv_date cj) = true.
Proof.
  revert i j. induction cl as [|c cl IH]; intros i j Hs Hij Hi Hj Himo Hport;
    [discriminate|].
  simpl in Hs. apply andb_true_iff in Hs as [Hall Hs].
  destruct i as [|i], j as [|j]; simpl in *; try lia.
  - injection Hi as ->. apply forallb_forall with (x := cj) in Hall;
      [|apply list_elem_of_In, list_elem_of_lookup; eauto].
    rewrite bool_decide_eq_true_2 in Hall by done. exact Hall.
  - apply (IH i j); auto. lia.
Qed.

Lemma stay_score_tiers s :
  ((s <= 15)%Z /\ stay_score (Some s) = Score_1_0) \/
  ((15 < s <= 45)%Z /\ stay_score (Some s) = Score_0_8) \/
  ((45 < s)%Z /\ stay_score (Some s) = Score_0_5).
Proof.
  simpl. repeat case_bool_decide; [left|right; left|right; right]; split; auto; lia.
Qed.

(** Each iteration appends exactly one row, for the entrance it reads. *)
Lemma genesis_outcome_rows cl st e st' :
  GenesisOutcome cl st e st' ->
  exists r, gs_rows st' = gs_rows st ++ [r] /\ row_entrance r = Some e.
Proof. destruct 1; eexists; split; reflexivity. Qed.

Lemma genesis_fold_entrances cl es st :
  omap row_entrance (gs_rows (fold_left (genesis_step cl) es st)) =
  omap row_entrance (gs_rows st) ++ es.
Proof.
  revert st. induction es as [|e es IH]; intros st; simpl; [by rewrite app_nil_r|].
  rewrite IH.
  destruct (genesis_outcome_rows cl st e _ (genesis_step_outcome cl st e)) as (r & -> & Hr).
  rewrite omap_app. simpl. rewrite Hr, <- app_assoc. done.
Qed.

(** The clearances already placed in rows, plus those still unclaimed, are
    the clearance frame. *)
Lemma genesis_fold_clearances cl es st :
  omap row_clearance (gs_rows st) ++ unclaimed (gs_matched st) cl ≡ₚ cl ->
  omap row_clearance (gs_rows (fold_left (genesis_step cl) es st))
    ++ unclaimed (gs_matched (fold_left (genesis_step cl) es st)) cl ≡ₚ cl.
Proof.
  intros Hst. apply genesis_fold_invariant; [|done]. intros st0 e st' Hinv Hout.
  destruct Hout as [Hd|a i c meth Hd Hi Hp Hc Hm|a Hd]; simpl; rewrite omap_app; simpl.
  - by rewrite app_nil_r.
  - apply candidate_spec in Hc as (_ & _ & _ & Hfree).
    rewrite <- app_assoc. simpl. by rewrite (unclaimed_add _ cl i c Hi Hfree).
  - by rewrite app_nil_r.
Qed.

(** A property of every row the loop writes, from a property of each kind
    of row. *)
Lemma genesis_loop_rows (P : PortCallRow -> Prop) cl es :
  (forall e, mv_date e = None -> P (entrance_only_row e (Some Method_NO_DATE))) ->
  (forall e a, mv_date e = Some a -> P (entrance_only_row e None)) ->
  (forall e a m i c meth, mv_date e = Some a -> cl !! i = Some c ->
     py_present (method_key meth e) = true ->
     candidate (method_key meth) e a m i c = true -> meth <> Method_NO_DATE ->
     P (both_row e c a meth)) ->
  Forall P (gs_rows (genesis_loop cl es)).
Proof.
  intros Hnd Hun Hboth. unfold genesis_loop. apply genesis_fold_invariant; [|constructor].
  intros st e st' HP Hout.
  destruct Hout; simpl; apply Forall_app; split; try done; apply Forall_singleton; eauto.
Qed.

Lemma marry_rows (P : PortCallRow -> Prop) es cl :
  (forall e, mv_date e = None -> P (entrance_only_row e (Some Method_NO_DATE))) ->
  (forall e a, mv_date e = Some a -> P (entrance_only_row e None)) ->
  (forall e a m i c meth, mv_date e = Some a -> cl !! i = Some c ->
     py_present (method_key meth e) = true ->
     candidate (method_key meth) e a m i c = true -> meth <> Method_NO_DATE ->
     P (both_row e c a meth)) ->
  (forall c, P (clearance_only_row c)) ->
  Forall P (marry es cl).
Proof.
  intros Hnd Hun Hboth Hco. unfold marry. apply Forall_app. split.
  - by apply genesis_loop_rows.
  - apply Forall_forall. intros r Hr.
    apply list_elem_of_In, in_map_iff in Hr as (c & <- & _). apply Hco.
Qed.

Lemma omap_row_entrance_clearance_only (l : list Movement) :
  omap row_entrance (map clearance_only_row l) = [].
Proof. by induction l. Qed.

Lemma omap_row_clearance_clearance_only (l : list Movement) :
  omap row_clearance (map clearance_only_row l) = l.
Proof. induction l as [|c l IH]; simpl; [done|]. f_equal. exact IH. Qed.

(** ** Completeness and no double claim *)

(** C1.  Every entrance appears in exactly one output row, and the output
    lists the entrances in the order of the sorted entrance frame. *)
Theorem marry_entrances_exactly_once es cl :
  omap row_entrance (marry es cl) = es.
Proof.
  unfold marry, genesis_loop. rewrite omap_app, genesis_fold_entrances.
  by rewrite omap_row_entrance_clearance_only, app_nil_r.
Qed.

(** C2.  The clearances of the output are a permutation of the clearance
    frame: every clearance appears in exactly one output row, whether it
    was claimed ([BOTH]) or not ([CLEARANCE_ONLY]). *)
Theorem marry_clearances_exactly_once es cl :
  omap row_clearance (marry es cl) ≡ₚ cl.
Proof.
  unfold marry, genesis_loop. rewrite omap_app, omap_row_clearance_clearance_only.
  apply genesis_fold_clearances. simpl. by rewrite unclaimed_empty.
Qed.

(** Every output row holds an entrance or a clearance. *)
Lemma marry_rows_movement es cl :
  Forall (fun r => is_Some (row_entrance r) \/ is_Some (row_clearance r)) (marry es cl).
Proof. apply marry_rows; intros; cbn; eauto. Qed.

(** The number of port calls is within the range the script prints
    as expected: at least the number of entrances, at most the number of
    entrances plus the number of clearances. *)
Theorem marry_portcall_count_range es cl :
  length es <= length (marry es cl) <= length es + length cl.
Proof.
  assert (He : omap row_entrance (marry es cl) = es).
  { unfold marry, genesis_loop. rewrite omap_app, genesis_fold_entrances.
    by rewrite omap_row_entrance_clearance_only, app_nil_r. }
  assert (Hc : omap row_clearance (marry es cl) ≡ₚ cl).
  { unfold marry, genesis_loop. rewrite omap_app, omap_row_clearance_clearance_only.
    apply genesis_fold_clearances. simpl. by rewrite unclaimed_empty. }
  split.
  - rewrite <- He at 1. apply length_omap_le.
  - rewrite <- He at 2. rewrite <- (Permutation_length Hc). apply length_le_omap_cover, marry_rows_movement.
Qed.

(** ** Temporal order, keys and confidence of the [BOTH] rows *)

(** C3.  Every [BOTH] row is a genuine match.  The entrance has an arrival
    date and the clearance a strictly later date, and the recorded stay is
    their difference.  The two rows share the port, and they share the
    identity column of the recorded method, which the entrance fills. *)
Theorem marry_both_rows_sound es cl r :
  r ∈ marry es cl -> row_type r = BOTH ->
  exists e c a d meth,
    row_entrance r = Some e /\ row_clearance r = Some c /\
    mv_date e = Some a /\ mv_date c = Some d /\ (a < d)%Z /\
    row_stay_days r = Some (d - a)%Z /\ row_method r = Some meth /\
    py_eq (mv_port c) (mv_port e) = true /\
    py_eq (method_key meth c) (method_key meth e) = true /\
    py_present (method_key meth e) = true.
Proof.
  revert r. rewrite <- Forall_forall. apply marry_rows; try discriminate.
  intros e a m i c meth Hd _ Hp Hc _ _.
  apply candidate_spec in Hc as (Hkey & Hport & (d & Hcd & Hlt) & _).
  exists e, c, a, d, meth. simpl. rewrite Hcd. by split_and!.
Qed.

(** C4.  The [Match_Score] of every [BOTH] row follows the stay tiers.  The
    stay is positive; up to 15 days scores 1.0, up to 45 days 0.8, longer
    0.5. *)
Theorem marry_score_tiers es cl r :
  r ∈ marry es cl -> row_type r = BOTH ->
  exists s, row_stay_days r = Some s /\ (0 < s)%Z /\
    (((s <= 15)%Z /\ row_score r = Some Score_1_0) \/
     ((15 < s <= 45)%Z /\ row_score r = Some Score_0_8) \/
     ((45 < s)%Z /\ row_score r = Some Score_0_5)).
Proof.
  revert r. rewrite <- Forall_forall. apply marry_rows; try discriminate.
  intros e a m i c meth _ _ _ Hc _ _.
  apply candidate_spec in Hc as (_ & _ & (d & Hcd & Hlt) & _).
  exists (d - a)%Z. unfold both_row. cbv zeta. rewrite Hcd.
  cbn [option_map row_stay_days row_score]. split; [done|]. split; [lia|].
  destruct (stay_score_tiers (d - a)) as [[? ->]|[[? ->]|[? ->]]]; auto.
Qed.

(** C5.  Error path: an entrance without an arrival date is emitted
    [ENTRANCE_ONLY] with method [NO_DATE] and no clearance, whatever its
    identity keys. *)
Theorem marry_no_date es cl r e :
  r ∈ marry es cl -> row_entrance r = Some e -> mv_date e = None ->
  row_type r = ENTRANCE_ONLY /\ row_method r = Some Method_NO_DATE /\
  row_clearance r = None.
Proof.
  revert r. rewrite <- Forall_forall. apply marry_rows; simpl.
  - intros e' _ [= ->] _. done.
  - intros e' a Hd [= ->]. congruence.
  - intros e' a m i c meth Hd _ _ _ _ [= ->]. congruence.
  - discriminate.
Qed.

(** ** Which clearance is taken *)

(** With the clearance frame sorted as line 79 sorts it, the clearance
    that [.iloc[0]] takes on the IMO mask has the earliest date among all
    eligible clearances. *)
Theorem first_imo_clearance_earliest cl e a (m : L) i c j c' :
  frame_sorted cl = true ->
  first_clearance mv_imo cl e a m = Some (i, c) ->
  cl !! j = Some c' -> candidate mv_imo e a m j c' = true ->
  exists d d', mv_date c = Some d /\ mv_date c' = Some d' /\ (d <= d')%Z.
Proof.
  intros Hs Hf Hj Hc'.
  apply find_first_Some in Hf as (Hi & Hc & Hbefore).
  pose proof Hc as Hc0. pose proof Hc' as Hc0'.
  apply candidate_spec in Hc as (Himo & Hport & (d & Hd & _) & _).
  apply candidate_spec in Hc' as (Himo' & Hport' & (d' & Hd' & _) & _).
  exists d, d'. split_and!; [done|done|].
  destruct (lt_eq_lt_dec j i) as [[Hlt | ->] | Hgt].
  - by rewrite (Hbefore j c' Hlt Hj) in Hc0'.
  - rewrite Hi in Hj. injection Hj as ->. rewrite Hd in Hd'. injection Hd' as ->. lia.
  - apply py_eq_Some_iff in Himo as (x & Hx1 & Hx2).
    apply py_eq_Some_iff in Himo' as (y & Hy1 & Hy2).
    apply py_eq_Some_iff in Hport as (p & Hp1 & Hp2).
    apply py_eq_Some_iff in Hport' as (q & Hq1 & Hq2).
    pose proof (frame_sorted_spec cl i j c c' Hs Hgt Hi Hj ltac:(congruence)
      ltac:(congruence)) as Hle.
    rewrite Hd, Hd' in Hle. simpl in Hle. by apply bool_decide_eq_true in Hle.
Qed.

(** ** The [match_stats] counters *)

Lemma count_type_nil t : count_type t [] = 0.
Proof. reflexivity. Qed.

Lemma count_type_snoc t rows r :
  count_type t (rows ++ [r]) = count_type t rows + (if decide (row_type r = t) then 1 else 0).
Proof.
  unfold count_type. rewrite filter_app, length_app, filter_cons, filter_nil.
  case_decide; simpl; lia.
Qed.

(** C6.  The counters of line 87 agree with the rows the loop writes.
    [IMO + Vessel_Name] is the number of [BOTH] rows and [No_Match] the
    number of [ENTRANCE_ONLY] rows; together they count the entrances. *)
Theorem genesis_stats_consistent cl es :
  let st := genesis_loop cl es in
  stat_imo (gs_stats st) + stat_vessel_name (gs_stats st) = count_type BOTH (gs_rows st) /\
  stat_no_match (gs_stats st) = count_type ENTRANCE_ONLY (gs_rows st) /\
  stat_imo (gs_stats st) + stat_vessel_name (gs_stats st) + stat_no_match (gs_stats st)
    = length es.
Proof.
  simpl. unfold genesis_loop.
  enough (forall st, let st' := fold_left (genesis_step cl) es st in
    stat_imo (gs_stats st') + stat_vessel_name (gs_stats st')
      = stat_imo (gs_stats st) + stat_vessel_name (gs_stats st)
        + (count_type BOTH (gs_rows st') - count_type BOTH (gs_rows st)) /\
    count_type BOTH (gs_rows st) <= count_type BOTH (gs_rows st') /\
    stat_no_match (gs_stats st')
      = stat_no_match (gs_stats st)
        + (count_type ENTRANCE_ONLY (gs_rows st') - count_type ENTRANCE_ONLY (gs_rows st)) /\
    count_type ENTRANCE_ONLY (gs_rows st) <= count_type ENTRANCE_ONLY (gs_rows st') /\
    stat_imo (gs_stats st') + stat_vessel_name (gs_stats st') + stat_no_match (gs_stats st')
      = stat_imo (gs_stats st) + stat_vessel_name (gs_stats st) + stat_no_match (gs_stats st)
        + length es) as Hgen.
  { destruct (Hgen genesis_init) as (H1 & _ & H2 & _ & H3). cbv zeta in *.
    unfold genesis_init in *. cbn [gs_stats gs_rows stat_imo stat_vessel_name
      stat_no_match stats0] in *. rewrite !count_type_nil in *. lia. }
  induction es as [|e es IH]; intros st; simpl; [lia|].
  destruct (IH (genesis_step cl st e)) as (H1 & H2 & H3 & H4 & H5).
  destruct (genesis_step_outcome cl st e) as [Hd|a i c meth Hd Hi Hp Hc Hm|a Hd];
    simpl in *; rewrite !count_type_snoc in *; simpl in *;
    try (destruct meth; [| |congruence]); simpl in *; lia.
Qed.

End Genesis.

(** ** The concrete ledger of the script, and witnesses *)

Section Concrete.

Local Open Scope Z_scope.

(** Scenario 1 of the specification: one entrance, two later clearances of
    the same vessel and port. *)
Definition E1 : Movement := mkMovement (Some "IMO123") (Some "ALPHA") (Some "PORTX") None (Some 0) None.
Definition C1 : Movement := mkMovement (Some "IMO123") (Some "ALPHA") (Some "PORTX") None (Some 10) None.
Definition C2 : Movement := mkMovement (Some "IMO123") (Some "ALPHA") (Some "PORTX") None (Some 20) None.

Lemma marry_scenario1 :
  @marry (gset nat) _ [E1] [C1; C2] =
  [both_row E1 C1 0 Method_IMO; clearance_only_row C2].
Proof. vm_compute. reflexivity. Qed.

Lemma marry_clearances_exactly_once_witness :
  omap row_clearance (@marry (gset nat) _ [E1] [C1; C2]) ≡ₚ [C1; C2].
Proof. apply (marry_clearances_exactly_once (L := gset nat) [E1] [C1; C2]). Defined.

Lemma marry_portcall_count_range_witness :
  (length [E1] <= length (@marry (gset nat) _ [E1] [C1; C2]) <= length [E1] + length [C1; C2])%nat.
Proof. apply (marry_portcall_count_range (L := gset nat) [E1] [C1; C2]). Defined.

Lemma marry_both_rows_sound_witness :
  exists e c a d meth,
    row_entrance (both_row E1 C1 0 Method_IMO) = Some e /\
    row_clearance (both_row E1 C1 0 Method_IMO) = Some c /\
    mv_date e = Some a /\ mv_date c = Some d /\ (a < d)%Z /\
    row_stay_days (both_row E1 C1 0 Method_IMO) = Some (d - a)%Z /\
    row_method (both_row E1 C1 0 Method_IMO) = Some meth /\
    py_eq (mv_port c) (mv_port e) = true /\
    py_eq (method_key meth c) (method_key meth e) = true /\
    py_present (method_key meth e) = true.
Proof.
  apply (marry_both_rows_sound (L := gset nat) [E1] [C1; C2]).
  - rewrite marry_scenario1. left.
  - reflexivity.
Defined.

Lemma marry_score_tiers_witness :
  exists s, row_stay_days (both_row E1 C1 0 Method_IMO) = Some s /\ (0 < s)%Z /\
    (((s <= 15)%Z /\ row_score (both_row E1 C1 0 Method_IMO) = Some Score_1_0) \/
     ((15 < s <= 45)%Z /\ row_score (both_row E1 C1 0 Method_IMO) = Some Score_0_8) \/
     ((45 < s)%Z /\ row_score (both_row E1 C1 0 Method_IMO) = Some Score_0_5)).
Proof.
  apply (marry_score_tiers (L := gset nat) [E1] [C1; C2]).
  - rewrite marry_scenario1. left.
  - reflexivity.
Defined.

Definition E0 : Movement := mkMovement (Some "IMO123") (Some "ALPHA") (Some "PORTX") None None None.

Lemma marry_no_date_witness :
  entrance_only_row E0 (Some Method_NO_DATE) ∈ @marry (gset nat) _ [E0] [C1] /\
  row_type (entrance_only_row E0 (Some Method_NO_DATE)) = ENTRANCE_ONLY /\
  row_method (entrance_only_row E0 (Some Method_NO_DATE)) = Some Method_NO_DATE /\
  row_clearance (entrance_only_row E0 (Some Method_NO_DATE)) = None.
Proof.
  assert (Hin : entrance_only_row E0 (Some Method_NO_DATE) ∈ @marry (gset nat) _ [E0] [C1]).
  { vm_compute. left. }
  split; [exact Hin|].
  apply (marry_no_date (L := gset nat) [E0] [C1] _ E0 Hin); reflexivity.
Defined.

Lemma first_imo_clearance_earliest_witness :
  exists d d', mv_date C1 = Some d /\ mv_date C2 = Some d' /\ (d <= d')%Z.
Proof.
  apply (first_imo_clearance_earliest (L := gset nat) [C1; C2] E1 0 ∅ 0 C1 1 C2);
    vm_compute; reflexivity.
Defined.

Definition E_noimo : Movement := mkMovement None (Some "ALPHA") (Some "PORTX") None (Some 0) None.
Definition C_day20 : Movement := mkMovement (Some "1111111") (Some "ALPHA") (Some "PORTX") None (Some 20) None.
Definition C_day10 : Movement := mkMovement (Some "2222222") (Some "ALPHA") (Some "PORTX") None (Some 10) None.

(** The vessel-name fallback does not take the earliest clearance.
    Here an entrance has no IMO, and two clearances of the same vessel name
    at the same port carry different IMOs.  The frame is sorted by IMO
    first, so [.iloc[0]] takes the clearance of day 20 although the one of
    day 10 is eligible; the day-10 clearance is left [CLEARANCE_ONLY]. *)
Theorem name_fallback_not_earliest :
  frame_sorted [C_day20; C_day10] = true /\
  candidate mv_vessel E_noimo 0 (∅ : gset nat) 1 C_day10 = true /\
  @marry (gset nat) _ [E_noimo] [C_day20; C_day10] =
    [both_row E_noimo C_day20 0 Method_Vessel_Name; clearance_only_row C_day10] /\
  (10 < 20)%Z.
Proof. vm_compute. repeat split. Qed.

End Concrete.

End Genesis.
