(* ===== verification/GenesisRun.v ===== *)
(** * The genesis script around the matcher: the sort, the ids and the
      summary of [marry_entrance_clearance_v1.0.0.py]

    [Genesis] models the matching loop on frames already sorted.  This
    file models the rest of the script.
    - The sort of lines 78-79: [sort_values(['IMO', 'PORT', date])],
      each key with NaN last.  pandas sorts on several columns with a
      stable lexicographic sort; the model is a [merge_sort] on the sort
      key of a row followed by its position in the file, compared with
      stdpp's [lexico], which fixes the order of equal keys.  The order of
      the [IMO] column depends on the dtype [read_csv] gives it (numbers
      when every cell is numeric, text otherwise), so the [IMO] key is a
      parameter of the Section; [PORT] is text, ordered by code point.
    - The [PORTCALL_ID] column of lines 210-211 ([Format.portcall_ids]).
    - The summary of lines 219-290: the [Match_Type] counts, the
      [match_stats] methods, the port-stay distribution and the
      [Match_Score] distribution of the [BOTH] rows.  On two empty input
      frames [pd.DataFrame([])] has no [Match_Type] column, and line 223
      raises [KeyError] after the file is saved.
    Dates are days, as in [Genesis]; the sample printing and the mean and
    median of the stays are not modelled. *)

From S2P Require Import Prelude Ledger Records Genesis Format.
From stdpp Require Import sorting lexico.

Module GenesisRun.
Import Genesis Format.

(** ** The sort, lines 78-79 *)

(** [¬ x < y] is decidable for a total strict order. *)
Definition not_lexico_dec {A} `{Lexico A} `{!StrictOrder (@lexico A _)}
    `{!TrichotomyT (@lexico A _)} (x y : A) : Decision (¬ lexico x y).
Proof.
  destruct (trichotomyT lexico x y) as [[Hlt|Heq]|Hgt].
  - right. tauto.
  - left. rewrite Heq. apply irreflexivity, _.
  - left. intros Hlt. apply (asymmetry Hgt Hlt).
Defined.

Section Sort.
Context {K : Type} `{Inhabited K} `{Lexico K}
  `{!StrictOrder (@lexico K _)} `{!TrichotomyT (@lexico K _)}.
(** The order of the [IMO] column's dtype. *)
Variable imo_key : string -> K.

(** A cell as a sort key, NaN after every value ([na_position='last']). *)
Definition nan_last {A} `{Inhabited A} (o : option A) : bool * A :=
  match o with Some a => (false, a) | None => (true, inhabitant) end.

(** Text compared by code point. *)
Definition str_key (s : string) : list N := map Ascii.N_of_ascii (String.list_ascii_of_string s).

Definition sort_key (m : Movement) : (bool * K) * ((bool * list N) * (bool * Z)) :=
  (nan_last (imo_key <$> mv_imo m), (nan_last (str_key <$> mv_port m), nan_last (mv_date m))).

(** Row [a] may come before row [b]: its key is not greater. *)
Definition key_le (a b : Movement) : Prop := ¬ lexico (sort_key b) (sort_key a).

(** The rows with their positions in the frame read.  pandas sorts on
    several columns with a stable lexicographic sort, so equal keys keep
    the order of the file: the position breaks the tie. *)
Definition pos_le (a b : nat * Movement) : Prop :=
  ¬ lexico (sort_key b.2, b.1) (sort_key a.2, a.1).

#[export] Instance pos_le_dec : RelDecision pos_le.
Proof. intros a b. apply not_lexico_dec. Defined.

(** [sort_values(...).reset_index(drop=True)]. *)
Definition sort_frame (l : list Movement) : list Movement :=
  snd <$> merge_sort pos_le (zip (seq 0 (length l)) l).

End Sort.

(** ** The script, lines 78-211 *)

(** The rows the script saves (line 214): the matched rows with their
    [PORTCALL_ID]. *)
Definition genesis_output {K} `{Inhabited K} `{Lexico K}
    `{!StrictOrder (@lexico K _)} `{!TrichotomyT (@lexico K _)}
    (imo_key : string -> K) (es cl : list Movement) : list (string * PortCallRow) :=
  let rows := @marry (gset nat) _ (sort_frame imo_key es) (sort_frame imo_key cl) in
  zip (portcall_ids (length rows)) rows.

(** ** The summary, lines 219-263 *)

(** [(both_records['Port_Stay_Days_Decimal'] <test>).sum()] *)
Definition stay_count (P : Z -> bool) (rows : list PortCallRow) : nat :=
  length (List.filter (fun r => default false (P <$> row_stay_days r)) rows).

(** [(both_records['Match_Score'] == s).sum()] *)
Definition score_count (s : MatchScore) (rows : list PortCallRow) : nat :=
  length (List.filter (fun r => bool_decide (row_score r = Some s)) rows).

Record GenesisSummary := mkGSum {
  gsum_total : nat;                          (** line 224 *)
  gsum_both : nat;                           (** the [Match_Type] distribution, lines 226-228 *)
  gsum_entrance_only : nat;
  gsum_clearance_only : nat;
  gsum_methods : list (MatchMethod * nat);   (** lines 232-236 *)
  gsum_stays : option (nat * nat * nat);     (** <= 15, 16-45, > 45 days, lines 247-250 *)
  gsum_scores : list (MatchScore * nat);     (** lines 253-258, 1.0 first *)
}.

(** Lines 219-258 on the rows and the counters.  The percentages divide
    by [len(both_records)] only under [if len(both_records) > 0]. *)
Definition genesis_summary (rows : list PortCallRow) (stats : MatchStats) : option GenesisSummary :=
  if bool_decide (rows = []) then None
  else
    let both := filter (fun r => row_type r = BOTH) rows in
    Some (mkGSum (length rows) (length both)
            (count_type ENTRANCE_ONLY rows) (count_type CLEARANCE_ONLY rows)
            (if bool_decide (both = []) then []
             else filter (fun mc => 0 < mc.2)
                    [(Method_IMO, stat_imo stats); (Method_Vessel_Name, stat_vessel_name stats)])
            (if bool_decide (both = []) then None
             else Some (stay_count (fun d => bool_decide (d <= 15)%Z) both,
                        stay_count (fun d => bool_decide (15 < d <= 45)%Z) both,
                        stay_count (fun d => bool_decide (45 < d)%Z) both))
            (filter (fun sc => 0 < sc.2)
               [(Score_1_0, score_count Score_1_0 both); (Score_0_8, score_count Score_0_8 both);
                (Score_0_5, score_count Score_0_5 both)])).

(** The whole script after loading: the saved rows, then the summary
    ([None] for the [KeyError]). *)
Definition genesis_run {K} `{Inhabited K} `{Lexico K}
    `{!StrictOrder (@lexico K _)} `{!TrichotomyT (@lexico K _)}
    (imo_key : string -> K) (es cl : list Movement)
    : list (string * PortCallRow) * option GenesisSummary :=
  let es' := sort_frame imo_key es in
  let cl' := sort_frame imo_key cl in
  (genesis_output imo_key es cl,
   genesis_summary (@marry (gset nat) _ es' cl') (gs_stats (@genesis_loop (gset nat) _ cl' es'))).


(** ** The sort *)

Section SortLemmas.
Context {K : Type} `{Inhabited K} `{Lexico K}
  `{!StrictOrder (@lexico K _)} `{!TrichotomyT (@lexico K _)}.
Variable imo_key : string -> K.

(** The complement of a total strict order is a total preorder. *)
Lemma not_lexico_total {A} `{Lexico A} `{!StrictOrder (@lexico A _)}
    `{!TrichotomyT (@lexico A _)} (x y : A) :
  ¬ lexico y x \/ ¬ lexico x y.
Proof.
  destruct (trichotomyT lexico x y) as [[Hxy|<-]|Hyx].
  - left. intros Hyx. apply (asymmetry Hxy Hyx).
  - left. apply irreflexivity, _.
  - right. intros Hxy. apply (asymmetry Hxy Hyx).
Qed.

Lemma not_lexico_trans {A} `{Lexico A} `{!StrictOrder (@lexico A _)}
    `{!TrichotomyT (@lexico A _)} (x y z : A) :
  ¬ lexico y x -> ¬ lexico z y -> ¬ lexico z x.
Proof.
  intros Hyx Hzy Hzx.
  destruct (trichotomyT lexico x y) as [[Hxy|<-]|Hyx']; [|done|done].
  apply Hzy. by trans x.
Qed.

#[local] Instance pos_le_total : Total (pos_le imo_key).
Proof. intros a b. apply not_lexico_total. Qed.

#[local] Instance pos_le_trans : Transitive (pos_le imo_key).
Proof. intros a b c. apply not_lexico_trans. Qed.

Lemma pos_le_key_le a b : pos_le imo_key a b -> key_le imo_key a.2 b.2.
Proof. intros Hab Hlt. apply Hab. by left. Qed.

Lemma StronglySorted_fmap {A B} (R : A -> A -> Prop) (R' : B -> B -> Prop) (f : A -> B) l :
  (forall x y, R x y -> R' (f x) (f y)) -> StronglySorted R l -> StronglySorted R' (f <$> l).
Proof.
  intros HR. induction 1 as [|x l _ IH Hall]; constructor; [done|].
  apply Forall_fmap. eapply Forall_impl; [exact Hall|]. intros y. apply HR.
Qed.

(** On rows with the same IMO and port, [key_le] is the date order with
    NaT last. *)
Lemma key_le_date_leb a b :
  mv_imo a = mv_imo b -> mv_port a = mv_port b -> key_le imo_key a b ->
  date_leb (mv_date a) (mv_date b) = true.
Proof.
  unfold key_le, sort_key. intros -> -> Hle.
  destruct (mv_date a) as [x|], (mv_date b) as [y|]; simpl; try done.
  - apply bool_decide_eq_true_2. destruct (Z.le_gt_cases x y) as [|Hyx]; [done|].
    destruct Hle. right. split; [done|]. right. split; [done|]. by right.
  - destruct Hle. right. split; [done|]. right. split; [done|]. by left.
Qed.

Lemma strongly_sorted_frame_sorted l :
  StronglySorted (key_le imo_key) l -> frame_sorted l = true.
Proof.
  induction 1 as [|c l _ IH Hall]; [done|]. simpl. rewrite IH, andb_true_r.
  apply forallb_forall. intros c' Hc'. apply Forall_forall with (x := c') in Hall;
    [|by apply list_elem_of_In].
  destruct (bool_decide_reflect (mv_imo c = mv_imo c' /\ mv_port c = mv_port c'))
    as [[]|]; simpl; [|done].
  by apply key_le_date_leb.
Qed.

Lemma sort_frame_perm l : sort_frame imo_key l ≡ₚ l.
Proof. unfold sort_frame. rewrite merge_sort_Permutation, snd_zip; [done|]. by rewrite length_seq. Qed.

(** C7: The sort of lines 78-79 establishes what the matching loop
    relies on.  Among the rows with the same IMO and port, the dates are
    non-decreasing with NaT last, and the sorted frame holds the same
    rows, each as often as in the input. *)
Theorem sort_frame_sorted l :
  frame_sorted (sort_frame imo_key l) = true /\ sort_frame imo_key l ≡ₚ l.
Proof.
  unfold sort_frame. split.
  - apply strongly_sorted_frame_sorted.
    apply (StronglySorted_fmap (pos_le imo_key)); [apply pos_le_key_le|].
    apply StronglySorted_merge_sort; apply _.
  - apply sort_frame_perm.
Qed.

End SortLemmas.

(** ** The summary *)

Lemma length_genesis_output {K} `{Inhabited K} `{Lexico K}
    `{!StrictOrder (@lexico K _)} `{!TrichotomyT (@lexico K _)}
    (imo_key : string -> K) es cl :
  length (genesis_output imo_key es cl)
  = length (@marry (gset nat) _ (sort_frame imo_key es) (sort_frame imo_key cl)).
Proof. unfold genesis_output, portcall_ids. rewrite length_zip, length_map, length_seq. lia. Qed.

Lemma Forall_filter_row {P : PortCallRow -> Prop} (t : MatchType) rows :
  Forall (fun r => row_type r = t -> P r) rows ->
  Forall P (filter (fun r => row_type r = t) rows).
Proof.
  rewrite !Forall_forall. intros Hall r Hr. apply list_elem_of_filter in Hr as [Ht Hr].
  by apply Hall.
Qed.

(** The matcher writes no [TUG_BARGE_PAIR] row, so the three types count
    every row. *)
Lemma count_types_sum rows :
  Forall (fun r => row_type r <> TUG_BARGE_PAIR) rows ->
  count_type BOTH rows + count_type ENTRANCE_ONLY rows + count_type CLEARANCE_ONLY rows
  = length rows.
Proof.
  unfold count_type. induction 1 as [|r rows Hr _ IH]; [done|].
  rewrite !filter_cons. destruct (row_type r); simpl; try done; lia.
Qed.

(** Every [BOTH] row has a stay, and its score is the score of that stay. *)
Lemma marry_both_stay es cl :
  Forall (fun r => row_type r = BOTH ->
            exists d, row_stay_days r = Some d /\ row_score r = Some (stay_score (Some d)))
    (@marry (gset nat) _ es cl).
Proof.
  apply marry_rows; try discriminate.
  intros e a m i c meth _ _ _ Hc _ _.
  apply candidate_spec in Hc as (_ & _ & (d & Hcd & _) & _).
  exists (d - a)%Z. unfold both_row. cbv zeta. by rewrite Hcd.
Qed.

Lemma marry_types es cl :
  Forall (fun r => row_type r <> TUG_BARGE_PAIR) (@marry (gset nat) _ es cl).
Proof. apply marry_rows; intros; cbn; congruence. Qed.

(** The stay buckets of lines 247-250 count what the score buckets of
    lines 253-258 count. *)
Lemma stay_counts_scores rows :
  Forall (fun r => exists d, row_stay_days r = Some d /\ row_score r = Some (stay_score (Some d))) rows ->
  stay_count (fun d => bool_decide (d <= 15)%Z) rows = score_count Score_1_0 rows /\
  stay_count (fun d => bool_decide (15 < d <= 45)%Z) rows = score_count Score_0_8 rows /\
  stay_count (fun d => bool_decide (45 < d)%Z) rows = score_count Score_0_5 rows.
Proof.
  unfold stay_count, score_count. induction 1 as [|r rows (d & Hd & Hs) _ IH]; [done|].
  destruct (stay_score_tiers d) as [[? Ht]|[[? Ht]|[? Ht]]]; rewrite Ht in Hs;
    cbn [List.filter]; rewrite Hd, Hs; cbn [fmap option_fmap option_map default];
    repeat (case_bool_decide; try lia; try congruence); simpl; lia.
Qed.

Lemma marry_nil es cl : @marry (gset nat) _ es cl = [] <-> es = [] /\ cl = [].
Proof.
  split; [|intros [-> ->]; done].
  intros Hm. pose proof (marry_portcall_count_range (L:=gset nat) es cl) as Hr.
  rewrite Hm in Hr. simpl in Hr. destruct es; [|simpl in Hr; lia]. split; [done|].
  unfold marry, genesis_loop in Hm. cbn [fold_left gs_matched gs_rows genesis_init app] in Hm.
  rewrite unclaimed_empty in Hm.
  by apply map_eq_nil in Hm.
Qed.

Lemma sort_frame_nil {K} `{Inhabited K} `{Lexico K}
    `{!StrictOrder (@lexico K _)} `{!TrichotomyT (@lexico K _)}
    (imo_key : string -> K) l :
  sort_frame imo_key l = [] <-> l = [].
Proof.
  split; [|by intros ->]. intros Hs.
  apply Permutation_nil_r. rewrite <- Hs. symmetry. apply sort_frame_perm.
Qed.

(** C8: The summary of lines 219-258.  It is missing exactly when both
    input frames are empty: the empty frame has no [Match_Type] column
    and line 223 raises [KeyError].  Otherwise it counts every saved row
    once among the three match types.  The stay distribution is printed
    exactly when there are [BOTH] rows, and its three buckets agree with
    the three [Match_Score] counts. *)
Theorem genesis_run_summary {K} `{Inhabited K} `{Lexico K}
    `{!StrictOrder (@lexico K _)} `{!TrichotomyT (@lexico K _)}
    (imo_key : string -> K) es cl :
  ((genesis_run imo_key es cl).2 = None <-> es = [] /\ cl = []) /\
  forall s, (genesis_run imo_key es cl).2 = Some s ->
    gsum_total s = length (genesis_run imo_key es cl).1 /\
    gsum_both s + gsum_entrance_only s + gsum_clearance_only s = gsum_total s /\
    (gsum_stays s = None <-> gsum_both s = 0) /\
    (gsum_stays s = None -> gsum_scores s = []) /\
    forall a b c, gsum_stays s = Some (a, b, c) ->
      gsum_scores s = filter (fun sc => 0 < sc.2) [(Score_1_0, a); (Score_0_8, b); (Score_0_5, c)].
Proof.
  unfold genesis_run, genesis_summary. cbn [fst snd].
  set (rows := @marry (gset nat) _ (sort_frame imo_key es) (sort_frame imo_key cl)).
  pose proof (stay_counts_scores (filter (fun r => row_type r = BOTH) rows)
    (Forall_filter_row _ _ (marry_both_stay _ _))) as (H1 & H2 & H3).
  case_bool_decide as Hnil.
  - split; [|by intros ? ?]. split; [intros _|done].
    by apply marry_nil in Hnil as [?%sort_frame_nil ?%sort_frame_nil].
  - split.
    { split; [done|]. intros [-> ->]. by destruct Hnil. }
    intros s [= <-]. cbn [gsum_total gsum_both gsum_entrance_only gsum_clearance_only
      gsum_methods gsum_stays gsum_scores].
    split; [by rewrite length_genesis_output|].
    split; [by apply count_types_sum, marry_types|].
    rewrite <- H1, <- H2, <- H3.
    case_bool_decide as Hb; [rewrite Hb|].
    + split; [done|]. split; [done|]. by intros ? ? ? ?.
    + split; [split; [done|intros Hl; by apply nil_length_inv in Hl]|].
      split; [done|]. by intros a b c [= <- <- <-].
Qed.

(** ** Concrete runs *)

(** A clearance with the key of [C1] under another vessel name. *)
Definition C1_beta : Movement := mkMovement (Some "IMO123") (Some "BETA") (Some "PORTX") None (Some 10%Z) None.

(** The [IMO] column read as text.  Equal keys keep the order of the
    file. *)
Lemma sort_frame_sorted_witness :
  sort_frame str_key [C2; E0; E1; C1] = [E1; C1; C2; E0] /\
  sort_frame str_key [C1_beta; C2; C1] = [C1_beta; C1; C2] /\
  sort_frame str_key [C1; C2; C1_beta] = [C1; C1_beta; C2] /\
  frame_sorted (sort_frame str_key [C2; E0; E1; C1]) = true /\
  sort_frame str_key [C2; E0; E1; C1] ≡ₚ [C2; E0; E1; C1].
Proof.
  split; [vm_compute; reflexivity|]. split; [vm_compute; reflexivity|].
  split; [vm_compute; reflexivity|exact (sort_frame_sorted str_key _)].
Defined.

Definition summary_E1_C1_C2 : GenesisSummary :=
  mkGSum 2 1 0 1 [(Method_IMO, 1)] (Some (1, 0, 0)) [(Score_1_0, 1)].

Lemma genesis_run_summary_witness :
  (genesis_run str_key [E1] [C2; C1]).2 = Some summary_E1_C1_C2 /\
  gsum_scores summary_E1_C1_C2 = filter (fun sc => 0 < sc.2) [(Score_1_0, 1); (Score_0_8, 0); (Score_0_5, 0)] /\
  ((genesis_run str_key [] []).2 = None).
Proof.
  assert (Hs : (genesis_run str_key [E1] [C2; C1]).2 = Some summary_E1_C1_C2)
    by (vm_compute; reflexivity).
  split; [exact Hs|]. split.
  - destruct (genesis_run_summary str_key [E1] [C2; C1]) as [_ Hsum].
    destruct (Hsum _ Hs) as (_ & _ & _ & _ & Hsc). by apply Hsc.
  - apply (genesis_run_summary str_key [] []). by split.
Defined.

End GenesisRun.
