(* ===== verification/Tolerance.v ===== *)
(** * The tolerance-window matcher:
      [match_usace_clearance_to_panjiva_exports_v1.0.0.py]

    The script keys both frames on the normalised vessel name, the
    normalised port name and a date.  It copies the Panjiva port calls 15
    times, shifting their date by -7 to +7 days and tagging each copy with
    [Days_Offset = |offset|] and a [Pass] (1 for offsets up to 2, 2 up to
    4, 3 beyond).  It then left-merges the USACE clearances with the copies
    on the three keys.  To "keep the best match per USACE record", it
    sorts by [Days_Offset] and takes [groupby(matched.index).first()].
    Finally it assigns the columns of that frame to the USACE frame by
    index alignment.

    Each step is modelled as pandas performs it.  [merge_left] builds a
    fresh 0-based index, so the groups of [groupby_first] are single rows
    and the "best match" step returns the merged frame unchanged
    ([groupby_first_perm]).  The assignment then gives USACE row [i] the
    Panjiva columns of merged row [i] ([match_clearances_aligned]).  That
    row belongs to another clearance as soon as one clearance has two
    matches.  The summary (lines 170-200) is modelled by the figures it
    prints ([tol_summary]). *)

From S2P Require Import Prelude Records Normalize.

Module Tolerance.
Import Normalize.

(** ** Data *)

(** The USACE clearance columns the matcher reads. *)
Record UsaceClearance := mkUsace {
  u_vessel : option string;     (** [Vessel] *)
  u_port_name : option string;  (** [Clearance_Port_Name] *)
  u_date : option Z;            (** [Clearance_Date_Parsed], in days *)
}.

(** A Panjiva export port call ([panjiva_exports_2023_PORTCALL_*.csv]). *)
Record PanjivaPortCall := mkPanjiva {
  p_voy_recid : string;             (** [VOY_RECID] *)
  p_vessel : option string;         (** [Vessel] *)
  p_port_of_lading : option string; (** [Port_of_Lading] *)
  p_shipment_date : option Z;       (** [Shipment_Date], in days *)
  p_carrier : option string;        (** [Carrier] *)
  p_shipper : option string;        (** [Shipper] *)
  p_total_tons : option Z;          (** [Total_Tons], carried unchanged *)
}.

(** Lines 104-108: the normalised keys. *)
Definition usace_vessel_norm (u : UsaceClearance) : string := normalize_vessel_name (u_vessel u).
Definition usace_port_norm (u : UsaceClearance) : string := normalize_port_name (u_port_name u).
Definition panjiva_vessel_norm (p : PanjivaPortCall) : string := normalize_vessel_name (p_vessel p).
Definition panjiva_port_norm (p : PanjivaPortCall) : string :=
  normalize_port_name (p_port_of_lading p).

(** ** The date expansion, lines 112-126 *)

(** A row of [panjiva_expanded]. *)
Record ExpandedRow := mkExpanded {
  x_pj : PanjivaPortCall;
  x_match_date : option Z;  (** [Match_Date = Shipment_Date + offset] *)
  x_days_offset : nat;      (** [Days_Offset = abs(offset)] *)
  x_pass : nat;             (** [Pass] *)
}.

(** Lines 118-123. *)
Definition pass_of_offset (off : nat) : nat :=
  if bool_decide (off <= 2) then 1 else if bool_decide (off <= 4) then 2 else 3.

(** [range(-7, 8)] *)
Definition offsets : list Z := map (fun i => Z.of_nat i - 7)%Z (seq 0 15).

Definition expand_at (off : Z) (p : PanjivaPortCall) : ExpandedRow :=
  mkExpanded p (option_map (Z.add off) (p_shipment_date p))
    (Z.abs_nat off) (pass_of_offset (Z.abs_nat off)).

(** [pd.concat([... for offset in range(-7, 8)], ignore_index=True)]:
    the 15 shifted copies one after the other. *)
Definition expand_panjiva (pj : list PanjivaPortCall) : list ExpandedRow :=
  concat (map (fun off => map (expand_at off) pj) offsets).

(** ** The merge, lines 134-140 *)

(** Equality of the merge keys.  pandas' [merge] matches a null key with a
    null key, so two NaT dates are equal here; NaN names were normalised to
    [''] before. *)
Definition merge_key (u : UsaceClearance) (x : ExpandedRow) : bool :=
  bool_decide (usace_vessel_norm u = panjiva_vessel_norm (x_pj x)) &&
  bool_decide (usace_port_norm u = panjiva_port_norm (x_pj x)) &&
  bool_decide (u_date u = x_match_date x).

(** The matches of one USACE row, in the order of the right frame. *)
Definition merge_matches (u : UsaceClearance) (xs : list ExpandedRow) : list ExpandedRow :=
  List.filter (merge_key u) xs.

(** [usace.merge(panjiva_expanded[...], on=[...], how='left')]: every left
    row, once per matching right row, or once with NaN when none matches;
    left order is kept. *)
Definition merge_left (us : list UsaceClearance) (xs : list ExpandedRow)
    : list (UsaceClearance * option ExpandedRow) :=
  flat_map (fun u =>
    match merge_matches u xs with
    | [] => [(u, None)]
    | ms => map (fun x => (u, Some x)) ms
    end) us.

(** ** The "best match" step, lines 142-144 *)

(** A merged row with its index label: the merge builds a fresh index
    [0 .. len-1]. *)
Definition MergedRow : Type := (nat * (UsaceClearance * option ExpandedRow))%type.

Fixpoint label_from {A} (k : nat) (l : list A) : list (nat * A) :=
  match l with
  | [] => []
  | x :: l' => (k, x) :: label_from (S k) l'
  end.

Definition label_rows {A} (l : list A) : list (nat * A) := label_from 0 l.

(** [sort_values('Days_Offset')]: NaN last.  The model is an insertion
    sort; pandas' default sort is not stable, and nothing below depends on
    the order of equal keys. *)
Definition offset_key (r : MergedRow) : option nat := x_days_offset <$> snd (snd r).

Definition offset_le (a b : option nat) : bool :=
  match a, b with
  | Some x, Some y => bool_decide (x <= y)
  | _, None => true
  | None, Some _ => false
  end.

Fixpoint insert_by_offset (r : MergedRow) (rs : list MergedRow) : list MergedRow :=
  match rs with
  | [] => [r]
  | r' :: rs' => if offset_le (offset_key r) (offset_key r') then r :: rs
                 else r' :: insert_by_offset r rs'
  end.

Definition sort_by_offset (rs : list MergedRow) : list MergedRow :=
  fold_right insert_by_offset [] rs.

(** The group keys of [groupby(matched.index)], in ascending order
    ([sort=True]). *)
Definition group_keys {A} (rows : list (nat * A)) : list nat :=
  let ls := map fst rows in
  List.filter (fun l => bool_decide (l ∈ ls)) (seq 0 (S (list_max ls))).

(** [.first()]: for each key, its first row.  pandas takes the first
    non-null value column by column; the two agree on single-row groups,
    which are the only groups here ([label_rows] gives distinct labels). *)
Definition groupby_first {A} (rows : list (nat * A)) : list (nat * A) :=
  omap (fun l => (fun r => (l, snd r)) <$> List.find (fun r => bool_decide (fst r = l)) rows)
    (group_keys rows).

(** ** The assignment, lines 151-160 *)

(** A row of [usace_final]: the USACE row and the columns copied from
    [matched_best]. *)
Record UsaceFinal := mkFinal {
  uf_usace : UsaceClearance;
  uf_voy_recid : option string;     (** [VOY_RECID] *)
  uf_carrier : option string;       (** [Panjiva_Carrier] *)
  uf_shipper : option string;       (** [Panjiva_Shipper] *)
  uf_tons : option Z;               (** [Panjiva_Tons] *)
  uf_days_offset : option nat;      (** [Match_Days_Offset] *)
  uf_pass : option nat;             (** [Match_Pass] *)
  uf_method : option MatchMethod;   (** [Match_Method] *)
}.

(** Lines 153-160 for one row: copy the right-hand columns, and set
    [Match_Method] to ['Vessel_Name'] unless [VOY_RECID] is NaN. *)
Definition final_row (u : UsaceClearance) (m : option ExpandedRow) : UsaceFinal :=
  match m with
  | Some x =>
      mkFinal u (Some (p_voy_recid (x_pj x))) (p_carrier (x_pj x)) (p_shipper (x_pj x))
        (p_total_tons (x_pj x)) (Some (x_days_offset x)) (Some (x_pass x))
        (Some Method_Vessel_Name)
  | None => mkFinal u None None None None None None None
  end.

(** [usace_final[col] = matched_best[col]]: pandas aligns on the index
    label, so USACE row [i] takes the row of [matched_best] labelled [i]. *)
Definition aligned (best : list MergedRow) (i : nat) : option ExpandedRow :=
  match List.find (fun r => bool_decide (fst r = i)) best with
  | Some (_, (_, m)) => m
  | None => None
  end.

(** The whole matcher, lines 110-160. *)
Definition match_clearances (us : list UsaceClearance) (pj : list PanjivaPortCall)
    : list UsaceFinal :=
  let merged := merge_left us (expand_panjiva pj) in
  let best := groupby_first (sort_by_offset (label_rows merged)) in
  imap (fun i u => final_row u (aligned best i)) us.

(** ** The summary, lines 170-200 *)

(** [(usace_final[col] <test>).sum()] *)
Definition count_where (P : UsaceFinal -> bool) (fs : list UsaceFinal) : nat :=
  length (List.filter P fs).

(** The figures the summary prints. *)
Record TolSummary := mkTolSummary {
  ts_total : nat;                    (** [len(usace_final)], line 181 *)
  ts_matched : nat;                  (** [total_matched], line 175 *)
  ts_unmatched : nat;                (** [total_unmatched], line 176 *)
  ts_pass : nat -> nat;              (** [pass<k>_matches], lines 177-179 *)
  ts_offsets : list (nat * nat);     (** the offset distribution, lines 191-194 *)
  ts_tons : option (Z * nat);        (** tonnage sum and count, lines 196-200 *)
}.

(** Lines 189-194: for [offset in range(8)], the offsets whose count is
    positive, with their count. *)
Definition offset_distribution (fs : list UsaceFinal) : list (nat * nat) :=
  List.filter (fun oc => bool_decide (0 < oc.2))
    (map (fun o => (o, count_where (fun f => bool_decide (uf_days_offset f = Some o)) fs))
       (seq 0 8)).

(** Lines 196-200: the tons of the rows that have them. *)
Definition tonnage (fs : list UsaceFinal) : option (Z * nat) :=
  let tons := omap uf_tons fs in
  if bool_decide (0 < length tons) then Some (sum_Z id tons, length tons) else None.

(** Lines 175-200.  The percentages of lines 183-187 divide by
    [len(usace_final)]: an empty frame raises [ZeroDivisionError], which is
    [None].  The offsets and the tonnage are printed only when
    [total_matched > 0]. *)
Definition tol_summary (fs : list UsaceFinal) : option TolSummary :=
  if bool_decide (length fs = 0) then None
  else
    let matched := count_where (fun f => bool_decide (is_Some (uf_voy_recid f))) fs in
    Some (mkTolSummary (length fs) matched
            (count_where (fun f => bool_decide (uf_voy_recid f = None)) fs)
            (fun k => count_where (fun f => bool_decide (uf_pass f = Some k)) fs)
            (if bool_decide (0 < matched) then offset_distribution fs else [])
            (if bool_decide (0 < matched) then tonnage fs else None)).

(** The script from step 5 on: the output file (line 167) is written
    before the summary. *)
Definition tolerance_script (us : list UsaceClearance) (pj : list PanjivaPortCall)
    : list UsaceFinal * option TolSummary :=
  let fs := match_clearances us pj in (fs, tol_summary fs).

(** ** The "best match" step is the identity *)

Section BestMatch.
Context {A : Type}.

Lemma insert_by_offset_perm r rs : insert_by_offset r rs ≡ₚ r :: rs.
Proof.
  induction rs as [|r' rs IH]; simpl; [done|].
  destruct (offset_le _ _); [done|]. rewrite IH. by constructor.
Qed.

Lemma sort_by_offset_perm rs : sort_by_offset rs ≡ₚ rs.
Proof.
  induction rs as [|r rs IH]; simpl; [done|]. by rewrite insert_by_offset_perm, IH.
Qed.

Lemma label_from_fst k (l : list A) : map fst (label_from k l) = seq k (length l).
Proof. revert k. induction l as [|x l IH]; intros k; simpl; [done|]. by rewrite IH. Qed.

Lemma label_from_elem k (l : list A) j x :
  l !! j = Some x -> (k + j, x) ∈ label_from k l.
Proof.
  revert k j. induction l as [|y l IH]; intros k j Hj; [discriminate|].
  destruct j as [|j]; simpl in Hj.
  - injection Hj as ->. rewrite Nat.add_0_r. left.
  - right. rewrite <- Nat.add_succ_comm. by apply IH.
Qed.

Lemma nodup_fst_unique (rows : list (nat * A)) i y x :
  NoDup (map fst rows) -> (i, y) ∈ rows -> (i, x) ∈ rows -> y = x.
Proof.
  rewrite !list_elem_of_In.
  induction rows as [|[j z] rows IH]; intros Hnd Hy Hx; [done|].
  simpl in Hnd. apply NoDup_cons in Hnd as [Hj Hnd].
  destruct Hy as [Hy|Hy]; destruct Hx as [Hx|Hx].
  - injection Hy as <- <-. injection Hx as Hzx. done.
  - injection Hy as <- <-. exfalso. apply Hj, list_elem_of_In, in_map_iff.
    by exists (j, x).
  - injection Hx as <- <-. exfalso. apply Hj, list_elem_of_In, in_map_iff.
    by exists (j, y).
  - by apply IH.
Qed.

(** In a permutation of rows with distinct labels, the first row with label
    [i] is the row labelled [i]. *)
Lemma find_label_perm (rows rows' : list (nat * A)) i x :
  rows' ≡ₚ rows -> NoDup (map fst rows) -> (i, x) ∈ rows ->
  List.find (fun r => bool_decide (fst r = i)) rows' = Some (i, x).
Proof.
  intros Hp Hnd Hin.
  destruct (List.find _ rows') as [[j y]|] eqn:Hf.
  - apply find_some in Hf as [Hin' Hj]. apply bool_decide_eq_true in Hj. simpl in Hj. subst j.
    apply list_elem_of_In in Hin'. rewrite Hp in Hin'. do 2 f_equal.
    by apply (nodup_fst_unique rows i y x).
  - exfalso. apply list_elem_of_In in Hin. rewrite <- Hp in Hin.
    apply (find_none _ _ Hf) in Hin. simpl in Hin. by rewrite bool_decide_eq_true_2 in Hin.
Qed.

Lemma filter_seq_split (P : nat -> bool) n m :
  n <= m -> (forall j, j < n -> P j = true) -> (forall j, n <= j -> P j = false) ->
  List.filter P (seq 0 m) = seq 0 n.
Proof.
  intros Hnm Hin Hout. replace m with (n + (m - n)) by lia.
  rewrite seq_app, List.filter_app, Nat.add_0_l.
  rewrite (filter_true_all P (seq 0 n)).
  - rewrite (filter_false_all P (seq n (m - n))); [by rewrite app_nil_r|].
    apply Forall_forall. intros j Hj. apply list_elem_of_In, in_seq in Hj. apply Hout. lia.
  - apply Forall_forall. intros j Hj. apply list_elem_of_In, in_seq in Hj. apply Hin. lia.
Qed.

(** The group keys of a permutation of [label_rows l] are [0 .. len l - 1]. *)
Lemma group_keys_label_perm (rows' : list (nat * A)) (l : list A) :
  rows' ≡ₚ label_rows l -> group_keys rows' = seq 0 (length l).
Proof.
  intros Hp. unfold group_keys.
  assert (Hf : map fst rows' ≡ₚ seq 0 (length l)).
  { unfold label_rows in Hp. by rewrite Hp, label_from_fst. }
  apply filter_seq_split.
  - destruct (length l) as [|n] eqn:E; [lia|].
    assert (Hn : n ∈ map fst rows') by (rewrite Hf; apply list_elem_of_In, in_seq; lia).
    apply list_elem_of_In in Hn.
    pose proof (proj1 (list_max_le (map fst rows') (list_max (map fst rows'))) (le_n _))
      as Hall.
    apply Forall_forall with (x := n) in Hall; [lia|]. by apply list_elem_of_In.
  - intros j Hj. apply bool_decide_eq_true. rewrite Hf. apply list_elem_of_In, in_seq. lia.
  - intros j Hj. apply bool_decide_eq_false. rewrite Hf. intros Hin.
    apply list_elem_of_In, in_seq in Hin. lia.
Qed.

Lemma omap_seq_label (F : nat -> option (nat * A)) k (l : list A) :
  (forall j x, l !! j = Some x -> F (k + j) = Some (k + j, x)) ->
  omap F (seq k (length l)) = label_from k l.
Proof.
  revert k. induction l as [|x l IH]; intros k HF; [done|]. simpl.
  pose proof (HF 0 x eq_refl) as H0. rewrite Nat.add_0_r in H0. rewrite H0.
  f_equal. apply IH. intros j y Hy. rewrite Nat.add_succ_comm. by apply (HF (S j)).
Qed.

(** [sort_values(...)] followed by [groupby(matched.index).first()] gives
    back the labelled frame, whatever order the sort leaves. *)
Lemma groupby_first_perm (rows' : list (nat * A)) (l : list A) :
  rows' ≡ₚ label_rows l -> groupby_first rows' = label_rows l.
Proof.
  intros Hp. unfold groupby_first. rewrite (group_keys_label_perm rows' l Hp).
  apply omap_seq_label. intros j x Hj. simpl.
  rewrite (find_label_perm (label_rows l) rows' j x Hp).
  - done.
  - unfold label_rows. rewrite label_from_fst. apply NoDup_seq.
  - by apply (label_from_elem 0 l j x).
Qed.

Lemma find_label_rows (l : list A) i :
  List.find (fun r => bool_decide (fst r = i)) (label_rows l) = (fun x => (i, x)) <$> l !! i.
Proof.
  destruct (l !! i) as [x|] eqn:Hi; simpl.
  - apply (find_label_perm (label_rows l)); [done| |by apply (label_from_elem 0 l i x)].
    unfold label_rows. rewrite label_from_fst. apply NoDup_seq.
  - destruct (List.find _ (label_rows l)) as [[j y]|] eqn:Hf; [exfalso|done].
    apply find_some in Hf as [Hin Hj]. apply bool_decide_eq_true in Hj.
    simpl in Hj. subst j.
    assert (Hfst : In i (map fst (label_rows l))) by (apply in_map_iff; by exists (i, y)).
    unfold label_rows in Hfst. rewrite label_from_fst in Hfst. apply in_seq in Hfst.
    apply lookup_ge_None in Hi. lia.
Qed.

End BestMatch.

(** The right-hand side of merged row [i], or NaN past the end. *)
Definition merged_right (merged : list (UsaceClearance * option ExpandedRow)) (i : nat)
    : option ExpandedRow :=
  match merged !! i with
  | Some (_, m) => m
  | None => None
  end.

(** What the assignment of lines 153-158 computes: USACE row [i]
    receives the Panjiva columns of row [i] of the left merge.  The sort and
    [groupby(...).first()] of lines 143-144 change nothing, because the
    merge's index labels are distinct. *)
Theorem match_clearances_aligned us pj :
  match_clearances us pj =
  imap (fun i u => final_row u (merged_right (merge_left us (expand_panjiva pj)) i)) us.
Proof.
  unfold match_clearances. apply imap_ext. intros i u _. f_equal.
  rewrite (groupby_first_perm _ _ (sort_by_offset_perm _)).
  unfold aligned, merged_right. rewrite find_label_rows.
  by destruct (_ !! i) as [[? ?]|].
Qed.



(** ** Where the merged rows come from *)

Lemma offsets_bound off : off ∈ offsets -> (-7 <= off <= 7)%Z.
Proof.
  intros Hoff. apply list_elem_of_In, in_map_iff in Hoff as (i & <- & Hi).
  apply in_seq in Hi. lia.
Qed.

Lemma expand_panjiva_elem pj x :
  x ∈ expand_panjiva pj -> exists off p, off ∈ offsets /\ p ∈ pj /\ x = expand_at off p.
Proof.
  intros Hx. apply list_elem_of_In in Hx. unfold expand_panjiva in Hx.
  apply in_concat in Hx as (xs & Hxs & Hx). apply in_map_iff in Hxs as (off & <- & Hoff).
  apply in_map_iff in Hx as (p & <- & Hp).
  exists off, p. split_and!; [by apply list_elem_of_In..|done].
Qed.

Lemma merge_left_elem us xs u x :
  (u, Some x) ∈ merge_left us xs -> u ∈ us /\ x ∈ xs /\ merge_key u x = true.
Proof.
  intros Hin. apply list_elem_of_In in Hin. unfold merge_left in Hin.
  apply in_flat_map in Hin as (u' & Hu' & Hin).
  destruct (merge_matches u' xs) as [|y ys] eqn:Hm.
  - by destruct Hin as [[=]|[]].
  - rewrite <- Hm in Hin. apply in_map_iff in Hin as (x' & [= <- <-] & Hx).
    unfold merge_matches in Hx. apply filter_In in Hx as [Hx Hk].
    split_and!; [by apply list_elem_of_In..|done].
Qed.

(** Every right-hand side a USACE row receives is a shifted copy of a
    Panjiva port call. *)
Lemma merged_right_elem us xs i x :
  merged_right (merge_left us xs) i = Some x -> x ∈ xs.
Proof.
  unfold merged_right. destruct (_ !! i) as [[u [y|]]|] eqn:Hi; try discriminate.
  intros [= ->]. apply list_elem_of_lookup_2 in Hi. by apply merge_left_elem in Hi as (_ & ? & _).
Qed.

Lemma merge_left_unique us xs :
  (forall u, u ∈ us -> length (merge_matches u xs) <= 1) ->
  merge_left us xs = (fun u => (u, head (merge_matches u xs))) <$> us.
Proof.
  induction us as [|u us IH]; intros Hlen; [done|]. simpl.
  rewrite IH by (intros u' Hu'; apply Hlen; by right).
  specialize (Hlen u ltac:(left)).
  destruct (merge_matches u xs) as [|x [|y ys]]; simpl in *; [done|done|lia].
Qed.

Definition A10 : UsaceClearance := mkUsace (Some "ALPHA") (Some "Port of Houston") (Some 10%Z).
Definition B10 : UsaceClearance := mkUsace (Some "BRAVO") (Some "Port of Houston") (Some 10%Z).
Definition P_day10 : PanjivaPortCall :=
  mkPanjiva "VOY_EXP_0000001" (Some "Alpha") (Some "HOUSTON, TX") (Some 10%Z) None None None.
Definition P_day11 : PanjivaPortCall :=
  mkPanjiva "VOY_EXP_0000002" (Some "Alpha") (Some "HOUSTON, TX") (Some 11%Z) None None None.

(** Defect of lines 142-158: a clearance can receive another
    vessel's port call.  ALPHA clears on day 10 and has two Panjiva calls,
    on days 10 and 11.  BRAVO clears the same day and has none.  ALPHA's
    two matches take merged rows 0 and 1, so ALPHA receives the day-11 call
    (offset 1, not its offset-0 call) and BRAVO, which matches nothing,
    receives ALPHA's day-10 call. *)
Theorem clearance_gets_other_vessels_port_call :
  match_clearances [A10; B10] [P_day10; P_day11] =
    [final_row A10 (Some (expand_at (-1) P_day11)); final_row B10 (Some (expand_at 0 P_day10))] /\
  merge_matches B10 (expand_panjiva [P_day10; P_day11]) = [] /\
  usace_vessel_norm B10 <> panjiva_vessel_norm P_day10.
Proof. vm_compute. split_and!; [reflexivity|reflexivity|discriminate]. Qed.

(** When every clearance matches at most one shifted port call, the
    assignment is right: each clearance receives its own match, or NaN. *)
Theorem match_clearances_unique us pj :
  (forall u, u ∈ us -> length (merge_matches u (expand_panjiva pj)) <= 1) ->
  match_clearances us pj =
    (fun u => final_row u (head (merge_matches u (expand_panjiva pj)))) <$> us.
Proof.
  intros Hlen. rewrite match_clearances_aligned, merge_left_unique by done.
  apply list_eq. intros i. rewrite list_lookup_imap, !list_lookup_fmap.
  unfold merged_right. rewrite list_lookup_fmap. by destruct (us !! i).
Qed.

Lemma match_clearances_unique_witness :
  match_clearances [A10] [P_day10] =
    (fun u => final_row u (head (merge_matches u (expand_panjiva [P_day10])))) <$> [A10].
Proof.
  apply match_clearances_unique. intros u Hu. apply list_elem_of_singleton in Hu as ->.
  vm_compute. lia.
Defined.

(** What a row of the output holds: nothing of Panjiva, or a
    [VOY_RECID] with an offset of at most 7 and its pass. *)
Definition row_shape (f : UsaceFinal) : Prop :=
  (uf_voy_recid f = None /\ uf_pass f = None /\ uf_days_offset f = None /\ uf_tons f = None) \/
  (is_Some (uf_voy_recid f) /\ exists off p, uf_days_offset f = Some off /\ uf_pass f = Some p /\
     off <= 7 /\ ((off <= 2 /\ p = 1) \/ (3 <= off <= 4 /\ p = 2) \/ (5 <= off <= 7 /\ p = 3))).

Lemma match_clearances_shape us pj : Forall row_shape (match_clearances us pj).
Proof.
  rewrite match_clearances_aligned. apply Forall_lookup. intros i f Hi.
  rewrite list_lookup_imap in Hi. destruct (us !! i) as [u|]; [|discriminate]. injection Hi as <-.
  destruct (merged_right _ i) as [x|] eqn:Hx; [right|by left].
  apply merged_right_elem, expand_panjiva_elem in Hx as (off & q & Hoff & _ & ->).
  apply offsets_bound in Hoff. simpl. split; [by eexists|].
  exists (Z.abs_nat off), (pass_of_offset (Z.abs_nat off)). split_and!; [done|done|lia|].
  unfold pass_of_offset. repeat case_bool_decide; lia.
Qed.

(** C10.  Bounds of the recorded match: whatever row a clearance receives,
    its [Match_Days_Offset] is at most 7.  Its [Match_Pass] is 1 for
    offsets 0-2, 2 for 3-4 and 3 for 5-7. *)
Theorem match_clearances_pass_bounds us pj f p :
  f ∈ match_clearances us pj -> uf_pass f = Some p ->
  exists off, uf_days_offset f = Some off /\ off <= 7 /\
    ((off <= 2 /\ p = 1) \/ (3 <= off <= 4 /\ p = 2) \/ (5 <= off <= 7 /\ p = 3)).
Proof.
  intros Hf Hp. pose proof (match_clearances_shape us pj) as Hs. rewrite Forall_forall in Hs.
  destruct (Hs f Hf) as [(_ & Hn & _)|(_ & off & p' & Ho & Hp' & ?)]; [congruence|].
  rewrite Hp in Hp'. injection Hp' as <-. by exists off.
Qed.

Lemma match_clearances_pass_bounds_witness :
  exists off, uf_days_offset (final_row A10 (Some (expand_at (-1) P_day11))) = Some off /\
    off <= 7 /\ ((off <= 2 /\ 1 = 1) \/ (3 <= off <= 4 /\ 1 = 2) \/ (5 <= off <= 7 /\ 1 = 3)).
Proof.
  apply (match_clearances_pass_bounds [A10; B10] [P_day10; P_day11]).
  - rewrite (proj1 clearance_gets_other_vessels_port_call). left.
  - reflexivity.
Defined.

(** ** The summary's figures *)

Lemma count_where_cons P f fs :
  count_where P (f :: fs) = (if P f then 1 else 0) + count_where P fs.
Proof. unfold count_where. simpl. by destruct (P f). Qed.

Lemma sum_list_with_eq {A} (g h : A -> nat) l :
  (forall x, g x = h x) -> sum_list_with g l = sum_list_with h l.
Proof. intros Hgh. induction l as [|x l IH]; simpl; [done|]. by rewrite Hgh, IH. Qed.

Lemma sum_list_with_add {A} (g h : A -> nat) l :
  sum_list_with (fun x => g x + h x) l = sum_list_with g l + sum_list_with h l.
Proof. induction l as [|x l IH]; simpl; lia. Qed.

(** Dropping the zero counts does not change the total. *)
Lemma sum_filter_pos (l : list (nat * nat)) :
  sum_list_with snd (List.filter (fun oc => bool_decide (0 < oc.2)) l) = sum_list_with snd l.
Proof.
  induction l as [|[o c] l IH]; [done|]. simpl. case_bool_decide; simpl; lia.
Qed.

(** One row counts once among the offsets 0-7 when it is matched. *)
Lemma offsets_once f :
  row_shape f ->
  sum_list_with (fun o => if bool_decide (uf_days_offset f = Some o) then 1 else 0) (seq 0 8)
  = if bool_decide (is_Some (uf_voy_recid f)) then 1 else 0.
Proof.
  intros [(Hr & _ & Ho & _)|(Hr & off & p & Ho & _ & Hle & _)]; rewrite Ho.
  - rewrite Hr. reflexivity.
  - rewrite bool_decide_eq_true_2 by done.
    assert (off = 0 \/ off = 1 \/ off = 2 \/ off = 3 \/ off = 4 \/ off = 5 \/ off = 6 \/ off = 7)
      as Hoff by lia.
    destruct_or! Hoff; subst off; reflexivity.
Qed.

(** The counts of a frame of well-shaped rows add up. *)
Lemma shape_counts fs :
  Forall row_shape fs ->
  count_where (fun f => bool_decide (is_Some (uf_voy_recid f))) fs
    + count_where (fun f => bool_decide (uf_voy_recid f = None)) fs = length fs /\
  count_where (fun f => bool_decide (uf_pass f = Some 1)) fs
    + count_where (fun f => bool_decide (uf_pass f = Some 2)) fs
    + count_where (fun f => bool_decide (uf_pass f = Some 3)) fs
    = count_where (fun f => bool_decide (is_Some (uf_voy_recid f))) fs /\
  sum_list_with (fun o => count_where (fun f => bool_decide (uf_days_offset f = Some o)) fs)
    (seq 0 8) = count_where (fun f => bool_decide (is_Some (uf_voy_recid f))) fs.
Proof.
  induction 1 as [|f fs Hf _ IH]; [done|]. rewrite !count_where_cons.
  erewrite sum_list_with_eq; [|intros o; apply count_where_cons].
  rewrite sum_list_with_add, offsets_once by done. simpl length.
  destruct IH as (IH1 & IH2 & IH3).
  destruct Hf as [(Hr & Hp & _)|([r Hr] & off & p & _ & Hp & _ & Hps)]; rewrite Hp, Hr.
  - rewrite (bool_decide_eq_false_2 (is_Some None)) by (by intros []).
    repeat case_bool_decide; try congruence; lia.
  - rewrite (bool_decide_eq_true_2 (is_Some (Some r))) by by eexists.
    destruct Hps as [(_ & ->)|[(_ & ->)|(_ & ->)]]; repeat case_bool_decide; try congruence; lia.
Qed.

Lemma offset_counts_sum fs os :
  sum_list_with snd (List.filter (fun oc => bool_decide (0 < oc.2))
    (map (fun o => (o, count_where (fun f => bool_decide (uf_days_offset f = Some o)) fs)) os))
  = sum_list_with (fun o => count_where (fun f => bool_decide (uf_days_offset f = Some o)) fs) os.
Proof.
  rewrite sum_filter_pos. induction os as [|o os IH]; simpl; [done|]. by rewrite IH.
Qed.

Lemma offset_distribution_bounds fs :
  Forall (fun oc => oc.1 <= 7 /\ 0 < oc.2) (offset_distribution fs).
Proof.
  unfold offset_distribution. apply Forall_forall.
  intros [o c] [Hin Hc]%list_elem_of_In%filter_In. apply bool_decide_eq_true in Hc.
  apply in_map_iff in Hin as (o' & [= <- <-] & Ho'). apply in_seq in Ho'. simpl in *. lia.
Qed.

(** C11: the summary of lines 170-200.  The output file is the matched
    frame.  When the summary is printed it covers every clearance; the
    matched and unmatched counts add up to the total; the three passes
    add up to the matched count; and the offset distribution lists
    offsets 0-7 with positive counts that add up to the matched count, so
    no matched row is missing from it.  The summary is not printed
    exactly when the clearance frame is empty: its percentages then
    divide by zero, after the file is written. *)
Theorem tolerance_summary us pj :
  fst (tolerance_script us pj) = match_clearances us pj /\
  match snd (tolerance_script us pj) with
  | None => us = []
  | Some s =>
      us <> [] /\ ts_total s = length us /\ ts_matched s + ts_unmatched s = ts_total s /\
      ts_pass s 1 + ts_pass s 2 + ts_pass s 3 = ts_matched s /\
      sum_list_with snd (ts_offsets s) = ts_matched s /\
      Forall (fun oc => oc.1 <= 7 /\ 0 < oc.2) (ts_offsets s)
  end.
Proof.
  split; [done|]. unfold tolerance_script, tol_summary. simpl.
  assert (Hlen : length (match_clearances us pj) = length us)
    by (unfold match_clearances; apply length_imap).
  destruct (shape_counts _ (match_clearances_shape us pj)) as (H1 & H2 & H3).
  case_bool_decide as Hz; [rewrite Hlen in Hz; by destruct us|]. simpl.
  split_and!; [intros ->; by apply Hz|done|done|done| |].
  - case_bool_decide; [unfold offset_distribution; by rewrite offset_counts_sum|simpl; lia].
  - case_bool_decide; [apply offset_distribution_bounds|constructor].
Qed.

Definition A12 : UsaceClearance := mkUsace (Some "ALPHA") (Some "Port of Houston") (Some 12%Z).


Definition A_nodate : UsaceClearance := mkUsace (Some "ALPHA") (Some "Port of Houston") None.
Definition P_nodate : PanjivaPortCall :=
  mkPanjiva "VOY_EXP_0000009" (Some "Alpha") (Some "HOUSTON, TX") None None None None.

(** A clearance without a date is matched to a port call without a
    date, at [Days_Offset] 7 and [Pass] 3.  pandas' [merge] equates NaT
    with NaT, and the shift of [-7] comes first in the expansion. *)
Theorem undated_clearance_matched :
  match_clearances [A_nodate] [P_nodate] = [final_row A_nodate (Some (expand_at (-7) P_nodate))] /\
  length (merge_matches A_nodate (expand_panjiva [P_nodate])) = 15 /\
  uf_pass (final_row A_nodate (Some (expand_at (-7) P_nodate))) = Some 3.
Proof. vm_compute. split_and!; reflexivity. Qed.

End Tolerance.
