(* ===== verification/TugBarge.v ===== *)
(** * The co-occurrence disambiguator: [match_tug_barge_pairs_v1.1.0_COMPLETE.py]

    The script reads the port-call master frame that [marry] wrote.  It
    runs the same algorithm twice: on the [ENTRANCE_ONLY] rows with their
    [Entrance_*] columns (lines 52-147), and on the [CLEARANCE_ONLY] rows
    with their [Clearance_*] columns (lines 157-252).  The model is one
    Section, parameterised by the side, and the two instances below.

    - The units: the rows of the side whose [ICST_DESC] is a tug type or a
      barge type, with their row label.  Their date is the [Date_Simple]
      of lines 41-42: on the entrance side the arrival date, a text date
      that [pd.to_datetime] parses; on the clearance side
      [pd.to_datetime] of the raw mmydd number, read as nanoseconds since
      1970-01-01, so every dated clearance falls on 1970-01-01.
    - The pairing table (lines 64-83): for every (port, date) where a tug
      and a barge both occur, every (tug name, barge name) pair of that
      day is counted.
    - The loop (lines 89-145): for each tug in frame order, the unclaimed
      barges at the same port within one day.  One candidate is paired
      [SINGLE].  Among several, the first with the highest positive count
      is paired [HIST_<n>X].  Two sets record the claimed tugs and barges.
    - The update (lines 262-282): both rows of each pair get [Match_Type]
      [TUG_BARGE_PAIR], the pair id and the confidence.
    - The save and the summary (lines 286-326): the counts it prints, and
      its division by each side's number of tugs and barges, which raises
      after the file is written. *)

From S2P Require Import Prelude Ledger Records Normalize Format.
From Stdlib Require Import QArith.
From stdpp Require Import pretty.

Module TugBarge.
Import Format.

(** Lines 30-32. *)
Definition TUG_TYPES : list string := ["TUG"; "PUSH BOAT"; "TUG/SUPPLY OFFSHORE SUPPORT"].
Definition BARGE_TYPES : list string :=
  ["DECK BARGE"; "OTHER TANK BARGE"; "DRY CARGO BARGE"; "OTHER DRY CARGO BARGE NEI";
   "COVERED DRY CARGO BARGE"].

(** [series.isin(types)]: NaN is never in the list. *)
Definition py_isin (o : option string) (types : list string) : bool :=
  match o with
  | Some s => bool_decide (s ∈ types)
  | None => false
  end.

(** A tug or barge row: its label in [df] and the columns the matcher
    reads. *)
Record Unit := mkUnit {
  un_idx : nat;                (** the row label ([tug_idx], [barge_row.name]) *)
  un_vessel : option string;   (** [*_Vessel] *)
  un_port : option string;     (** [*_PORT] *)
  un_date : option Z;          (** [Date_Simple] *)
}.

(** [Confidence]: ['SINGLE'] or [f'HIST_{best_score}X']. *)
Inductive Confidence := SINGLE | HIST (n : nat).

Definition confidence_string (c : Confidence) : string :=
  match c with
  | SINGLE => "SINGLE"
  | HIST n => "HIST_" +:+ pretty n +:+ "X"
  end.

(** An element of [entrance_pairs] / [clearance_pairs]. *)
Record Pair := mkPair {
  pair_id : string;       (** [Pair_ID] *)
  pair_tug : nat;         (** [Tug_Index] *)
  pair_barge : nat;       (** [Barge_Index] *)
  pair_conf : Confidence; (** [Confidence] *)
}.

Section Side.
(** The side the algorithm runs on: [Entrance] or [Clearance]. *)
Variable side : PortCallRow -> option Movement.
Variable side_type : MatchType.
Variable pair_prefix : string.

(** Lines 52-54 / 157-159: the rows of the side's [*_ONLY] type whose
    vessel type is in [types], with their labels. *)
Definition unit_of (i : nat) (r : PortCallRow) : option Unit :=
  match side r with
  | Some m => Some (mkUnit i (mv_vessel m) (mv_port m) (mv_date m))
  | None => None
  end.

(** [df['*_ICST_DESC'].isin(types)] *)
Definition side_isin (types : list string) (r : PortCallRow) : bool :=
  match side r with
  | Some m => py_isin (mv_icst m) types
  | None => false
  end.

Definition select_units (types : list string) (df : list PortCallRow) : list Unit :=
  omap (M:=list) (fun ir : nat * PortCallRow => unit_of ir.1 ir.2)
    (List.filter (fun ir => bool_decide (row_type ir.2 = side_type) &&
                            side_isin types ir.2)
       (zip (seq 0 (length df)) df)).

(** ** The pairing table, lines 64-83 *)

(** [set(zip(PORT, Date_Simple))] *)
Definition port_dates (us : list Unit) : list (option string * option Z) :=
  remove_dups (map (fun u => (un_port u, un_date u)) us).

(** [tug_port_dates & barge_port_dates] *)
Definition common_port_dates (tugs barges : list Unit) : list (option string * option Z) :=
  List.filter (fun k => bool_decide (k ∈ port_dates barges)) (port_dates tugs).

(** [units[(PORT == port) & (Date_Simple == date)]['*_Vessel'].tolist()] *)
Definition here (us : list Unit) (k : option string * option Z) : list (option string) :=
  map un_vessel (List.filter (fun u => py_eq (un_port u) k.1 && py_eq (un_date u) k.2) us).

(** [pairing[(tug, barge)] += 1] *)
Definition bump (m : gmap (option string * option string) nat) (key : option string * option string)
    : gmap (option string * option string) nat :=
  <[key := S (default 0 (m !! key))]> m.

Definition count_day (m : gmap (option string * option string) nat)
    (ts bs : list (option string)) : gmap (option string * option string) nat :=
  fold_left (fun m t => fold_left (fun m b => bump m (t, b)) bs m) ts m.

Definition pairing_table (tugs barges : list Unit) : gmap (option string * option string) nat :=
  fold_left (fun m k => count_day m (here tugs k) (here barges k)) (common_port_dates tugs barges) ∅.

(** [pairing.get((tug, barge), 0)] *)
Definition score (tbl : gmap (option string * option string) nat) (t b : option string) : nat :=
  default 0 (tbl !! (t, b)).

(** ** The matching loop, lines 89-145 *)

(** [tug_date - 1 day <= Date_Simple <= tug_date + 1 day]; NaT fails. *)
Definition within_one_day (d : option Z) (t : Z) : bool :=
  match d with
  | Some x => bool_decide (t - 1 <= x <= t + 1)%Z
  | None => false
  end.

(** Lines 104-109: the barge candidates of a tug. *)
Definition barge_candidates (barges : list Unit) (matched_barge : gset nat) (t : Unit) (d : Z)
    : list Unit :=
  List.filter (fun b => py_eq (un_port b) (un_port t) && within_one_day (un_date b) d
                        && negb (ledger_mem (un_idx b) matched_barge)) barges.

(** Lines 125-134: the first candidate with the highest score, starting
    from [best_score = 0] and replacing only on a strictly higher score. *)
Fixpoint best_barge (tbl : gmap (option string * option string) nat) (t : option string)
    (best : option Unit) (best_score : nat) (cs : list Unit) : option Unit * nat :=
  match cs with
  | [] => (best, best_score)
  | b :: cs' =>
      let s := score tbl t (un_vessel b) in
      if bool_decide (best_score < s) then best_barge tbl t (Some b) s cs'
      else best_barge tbl t best best_score cs'
  end.

Record LoopState := mkLoopState {
  ls_pairs : list Pair;        (** [entrance_pairs] *)
  ls_matched_tug : gset nat;   (** [matched_tug_ent], a claim ledger *)
  ls_matched_barge : gset nat; (** [matched_barge_ent], a claim ledger *)
}.

Definition loop_init : LoopState := mkLoopState [] ledger_empty ledger_empty.

Definition add_pair (st : LoopState) (t b : nat) (c : Confidence) : LoopState :=
  mkLoopState
    (ls_pairs st ++ [mkPair (pair_prefix +:+ pretty (S (length (ls_pairs st)))) t b c])
    (ledger_add t (ls_matched_tug st)) (ledger_add b (ls_matched_barge st)).

(** One iteration, lines 94-145. *)
Definition tug_step (tbl : gmap (option string * option string) nat) (barges : list Unit)
    (st : LoopState) (t : Unit) : LoopState :=
  if ledger_mem (un_idx t) (ls_matched_tug st) then st
  else match un_date t with
  | None => st
  | Some d =>
      match barge_candidates barges (ls_matched_barge st) t d with
      | [] => st
      | [b] => add_pair st (un_idx t) (un_idx b) SINGLE
      | cs =>
          match best_barge tbl (un_vessel t) None 0 cs with
          | (Some b, s) =>
              if bool_decide (0 < s) then add_pair st (un_idx t) (un_idx b) (HIST s) else st
          | (None, _) => st
          end
      end
  end.

Definition match_pairs (tugs barges : list Unit) : list Pair :=
  ls_pairs (fold_left (tug_step (pairing_table tugs barges) barges) tugs loop_init).

(** The pairs of one side of the master frame. *)
Definition side_pairs (df : list PortCallRow) : list Pair :=
  match_pairs (select_units TUG_TYPES df) (select_units BARGE_TYPES df).

End Side.

(** ** The dates of line 41 and 42 *)

(** Nanoseconds in a day. *)
Definition NS_PER_DAY : Z := 86400 * 10 ^ 9.

(** [pd.to_datetime(x, errors='coerce')] on a number [x]: [x] nanoseconds
    after 1970-01-01 (the default [unit='ns']), NaT outside the range of
    [Timestamp] (an int64 count of nanoseconds, whose least value is NaT).
    [.dt.date] keeps the day: the floor of [x / NS_PER_DAY], as a day
    number from 1970-01-01. *)
Definition to_datetime_ns (x : Z) : option Z :=
  if bool_decide (- (2 ^ 63 - 1) <= x <= 2 ^ 63 - 1)%Z then Some (x / NS_PER_DAY)%Z else None.

(** Line 42: [Clearance_Date_Parsed] is [pd.to_datetime] of the column
    [Clearance_Clearance_Date], which holds the mmydd numbers of the
    clearance file, not dates. *)
Definition clearance_date_parsed (m : Movement) : option Z :=
  mv_date_cell m ≫= to_datetime_ns.

(** The clearance columns as lines 157-252 read them: the date is the
    [Date_Simple] of [Clearance_Date_Parsed].  The entrance side reads
    [Entrance_Arrival_Date], a text date, which line 41 parses as [marry]
    did ([mv_date]). *)
Definition clearance_view (m : Movement) : Movement :=
  mkMovement (mv_imo m) (mv_vessel m) (mv_port m) (mv_icst m) (clearance_date_parsed m)
    (mv_date_cell m).

Definition clearance_side (r : PortCallRow) : option Movement :=
  clearance_view <$> row_clearance r.

(** The two instances: lines 52-147 and 157-252. *)
Definition entrance_pairs (df : list PortCallRow) : list Pair :=
  side_pairs row_entrance ENTRANCE_ONLY "TB_ENT_" df.
Definition clearance_pairs (df : list PortCallRow) : list Pair :=
  side_pairs clearance_side CLEARANCE_ONLY "TB_CLR_" df.

(** ** The update of the master frame, lines 262-282 *)

(** A row of the updated master frame: the port-call row with the two new
    columns. *)
Record TBRow := mkTBRow {
  tb_row : PortCallRow;
  tb_pair_id : option string;   (** [Tug_Barge_Pair_ID] *)
  tb_conf : option string;      (** [Pairing_Confidence] *)
}.

Definition retag (p : Pair) (r : TBRow) : TBRow :=
  mkTBRow
    (mkPortCallRow (row_entrance (tb_row r)) (row_clearance (tb_row r))
       (row_stay_days (tb_row r)) (row_stay_int (tb_row r)) (row_score (tb_row r))
       TUG_BARGE_PAIR (row_method (tb_row r)))
    (Some (pair_id p)) (Some (confidence_string (pair_conf p))).

(** [df.loc[idx, ...] = ...] for the tug row and the barge row of a pair. *)
Definition apply_pair (rows : list TBRow) (p : Pair) : list TBRow :=
  alter (retag p) (pair_barge p) (alter (retag p) (pair_tug p) rows).

(** The whole script: lines 262-264 add the two columns, then the entrance
    pairs and the clearance pairs are written. *)
Definition update_master (df : list PortCallRow) : list TBRow :=
  let rows0 := map (fun r => mkTBRow r None None) df in
  fold_left apply_pair (entrance_pairs df ++ clearance_pairs df) rows0.

(** ** The summary, lines 295-326 *)

(** [df['Match_Type'].value_counts()[t]] on the updated frame. *)
Definition tb_count (t : MatchType) (rows : list TBRow) : nat :=
  length (filter (fun r => row_type (tb_row r) = t) rows).

(** [len(pairs)*2/(len(tugs)+len(barges))*100] (lines 303 and 309); the
    division raises [ZeroDivisionError] when the side has no tug and no
    barge, which is [None]. *)
Definition paired_pct (pairs tugs barges : nat) : option Q :=
  if decide (tugs + barges = 0) then None
  else Some (inject_Z (Z.of_nat (pairs * 2)) / inject_Z (Z.of_nat (tugs + barges)) * 100)%Q.

(** The numbers the summary prints, lines 299-326 (the per-type
    listing of lines 317-319 only prints [match_counts]). *)
Record TBSummary := mkTBSummary {
  sm_ent_tugs : nat;       (** [len(entrance_tugs)] *)
  sm_ent_barges : nat;     (** [len(entrance_barges)] *)
  sm_ent_pairs : nat;      (** [len(entrance_pairs)] *)
  sm_ent_pct : Q;          (** the entrance "Records paired" percentage *)
  sm_clr_tugs : nat;
  sm_clr_barges : nat;
  sm_clr_pairs : nat;
  sm_clr_pct : Q;
  sm_total_pairs : nat;    (** line 312 *)
  sm_total_records : nat;  (** line 313 *)
  sm_both : nat;           (** [match_counts.get('BOTH', 0)], line 321 *)
  sm_tb_operations : nat;  (** [match_counts.get('TUG_BARGE_PAIR', 0)//2], line 322 *)
  sm_tb_records : nat;     (** [match_counts.get('TUG_BARGE_PAIR', 0)] *)
  sm_remaining : nat;      (** [remaining_ent + remaining_clr], lines 324-326 *)
}.

(** Lines 299-326, on the original frame [df] (the populations and the
    pairs) and the updated rows.  The entrance percentage is computed
    first, so its [ZeroDivisionError] comes first. *)
Definition summary (df : list PortCallRow) (rows : list TBRow) : option TBSummary :=
  let et := length (select_units row_entrance ENTRANCE_ONLY TUG_TYPES df) in
  let eb := length (select_units row_entrance ENTRANCE_ONLY BARGE_TYPES df) in
  let ct := length (select_units clearance_side CLEARANCE_ONLY TUG_TYPES df) in
  let cb := length (select_units clearance_side CLEARANCE_ONLY BARGE_TYPES df) in
  let ep := length (entrance_pairs df) in
  let cp := length (clearance_pairs df) in
  ent_pct ← paired_pct ep et eb;
  clr_pct ← paired_pct cp ct cb;
  Some (mkTBSummary et eb ep ent_pct ct cb cp clr_pct (ep + cp) ((ep + cp) * 2)
          (tb_count BOTH rows) (tb_count TUG_BARGE_PAIR rows / 2)
          (tb_count TUG_BARGE_PAIR rows)
          (tb_count ENTRANCE_ONLY rows + tb_count CLEARANCE_ONLY rows)).

(** The division of a side raises: the side has no tug and no barge. *)
Definition sm_none_side (side : PortCallRow -> option Movement) (side_type : MatchType)
    (df : list PortCallRow) : Prop :=
  length (select_units side side_type TUG_TYPES df)
  + length (select_units side side_type BARGE_TYPES df) = 0.

(** The script from line 262 on: the updated frame is saved (line 286)
    before the summary runs, so it is written even when the summary
    raises. *)
Definition tug_barge_script (df : list PortCallRow) : list TBRow * option TBSummary :=
  let rows := update_master df in (rows, summary df rows).

(** ** The choice among several candidates *)

#[export] Instance Confidence_eq_dec : EqDecision Confidence.
Proof. solve_decision. Defined.
#[export] Instance Pair_eq_dec : EqDecision Pair.
Proof. solve_decision. Defined.

Section Best.
Variable tbl : gmap (option string * option string) nat.
Variable t : option string.

(** The scan of lines 125-134 either keeps its start, when no candidate
    beats it, or ends on a candidate that beats everything before it and is
    not beaten after it. *)
Lemma best_barge_cases best bs cs r s :
  best_barge tbl t best bs cs = (r, s) ->
  (r = best /\ s = bs /\ Forall (fun c => score tbl t (un_vessel c) <= bs) cs) \/
  (exists pre b post, cs = pre ++ b :: post /\ r = Some b /\
     s = score tbl t (un_vessel b) /\ bs < s /\
     Forall (fun c => score tbl t (un_vessel c) < s) pre /\
     Forall (fun c => score tbl t (un_vessel c) <= s) post).
Proof.
  revert best bs. induction cs as [|c cs IH]; intros best bs Hbb; simpl in Hbb.
  { simplify_eq. by left. }
  case_bool_decide as Hlt; apply IH in Hbb
    as [(-> & -> & Hall)|(pre & b & post & -> & -> & -> & Hs & Hpre & Hpost)].
  - right. exists [], c, cs. split_and!; auto.
  - right. exists (c :: pre), b, post. split_and!; auto with lia.
  - left. split_and!; auto with lia.
  - right. exists (c :: pre), b, post. split_and!; auto. constructor; [lia|done].
Qed.

End Best.

(** [occ x l]: the number of times [x] occurs in [l]. *)
Definition occ {A} `{EqDecision A} (x : A) (l : list A) : nat :=
  length (List.filter (fun z => bool_decide (z = x)) l).

Lemma occ_pos {A} `{EqDecision A} (x : A) l : x ∈ l -> 1 <= occ x l.
Proof.
  unfold occ. induction l as [|y l IH]; intros Hx; [by apply not_elem_of_nil in Hx|].
  simpl. apply elem_of_cons in Hx as [->|Hx];
    case_bool_decide; simpl; try congruence; try lia. specialize (IH Hx). lia.
Qed.

Lemma score_bump m k x y :
  score (bump m k) x y = score m x y + (if bool_decide ((x, y) = k) then 1 else 0).
Proof.
  unfold score, bump. case_bool_decide as Hk.
  - subst. rewrite lookup_insert_eq. simpl. lia.
  - rewrite lookup_insert_ne by done. lia.
Qed.

Lemma score_count_row m tv bs x y :
  score (fold_left (fun m b => bump m (tv, b)) bs m) x y
  = score m x y + (if bool_decide (tv = x) then occ y bs else 0).
Proof.
  revert m. induction bs as [|b bs IH]; intros m; simpl.
  { case_bool_decide; unfold occ; simpl; lia. }
  rewrite IH, score_bump. unfold occ; simpl.
  repeat case_bool_decide; simplify_eq; simpl; lia.
Qed.

Lemma score_count_day m ts bs x y :
  score (count_day m ts bs) x y = score m x y + occ x ts * occ y bs.
Proof.
  unfold count_day. revert m. induction ts as [|tv ts IH]; intros m; simpl.
  { unfold occ; simpl; lia. }
  rewrite IH, score_count_row. unfold occ; simpl.
  case_bool_decide; simplify_eq; simpl; lia.
Qed.

(** [tbl.get(k, 0)] of the table the loop of lines 75-81 leaves. *)
Lemma score_count_days (ks : list (option string * option Z)) tugs barges m x y :
  score (fold_left (fun m k => count_day m (here tugs k) (here barges k)) ks m) x y
  = score m x y + sum_list_with (fun k => occ x (here tugs k) * occ y (here barges k)) ks.
Proof.
  revert m. induction ks as [|k ks IH]; intros m; simpl; [lia|].
  rewrite IH, score_count_day. lia.
Qed.

(** The co-occurrence table of lines 64-83 counts, for a tug name
    [x] and a barge name [y], the product of the occurrences of [x] among
    the tugs and of [y] among the barges, summed over every (port, date)
    the two populations share.  The result does not depend on the order in
    which the Python [set] is iterated. *)
Theorem pairing_table_spec tugs barges x y :
  score (pairing_table tugs barges) x y
  = sum_list_with (fun k => occ x (here tugs k) * occ y (here barges k))
      (common_port_dates tugs barges).
Proof.
  unfold pairing_table. rewrite score_count_days. unfold score at 1.
  rewrite lookup_empty. simpl. lia.
Qed.

(** C13: among several candidates, lines 125-136 choose the FIRST
    candidate with the highest co-occurrence count, and only a positive
    count: every candidate before it scores strictly less, none after it
    scores more.  Ties go to frame order, which the spec leaves open. *)
Theorem best_barge_first_max tbl tv cs b s :
  best_barge tbl tv None 0 cs = (Some b, s) ->
  exists pre post, cs = pre ++ b :: post /\ s = score tbl tv (un_vessel b) /\ 0 < s /\
    Forall (fun c => score tbl tv (un_vessel c) < s) pre /\
    Forall (fun c => score tbl tv (un_vessel c) <= s) post.
Proof.
  intros Hbb. apply best_barge_cases in Hbb as [(? & _)|(pre & b' & post & -> & Hb & -> & ? & ? & ?)];
    simplify_eq; eauto 10.
Qed.

(** ** The loop of lines 93-145 *)

Section Loop.
Variable pair_prefix : string.
Variables tugs barges : list Unit.

(** What the script means a pair to be: a tug and a barge of the two
    populations, at the same port, the barge within a day of the dated tug,
    and a [HIST] confidence carrying the positive table count of the two
    names. *)
Definition pair_ok (p : Pair) : Prop :=
  exists tg bg d, tg ∈ tugs /\ bg ∈ barges /\ pair_tug p = un_idx tg /\ pair_barge p = un_idx bg /\
    un_date tg = Some d /\ py_eq (un_port bg) (un_port tg) = true /\
    within_one_day (un_date bg) d = true /\
    match pair_conf p with
    | SINGLE => True
    | HIST n => 0 < n /\ n = score (pairing_table tugs barges) (un_vessel tg) (un_vessel bg)
    end.

(** The invariant of the loop: the two ledgers hold exactly the tugs and
    the barges of the pairs, no row is in two pairs, every pair is sound,
    and the [k]-th pair is named [TB_..._(k+1)]. *)
Definition loop_inv (st : LoopState) : Prop :=
  NoDup (map pair_tug (ls_pairs st)) /\ NoDup (map pair_barge (ls_pairs st)) /\
  (forall i, i ∈ ls_matched_tug st <-> i ∈ map pair_tug (ls_pairs st)) /\
  (forall i, i ∈ ls_matched_barge st <-> i ∈ map pair_barge (ls_pairs st)) /\
  Forall pair_ok (ls_pairs st) /\
  (forall k p, ls_pairs st !! k = Some p -> pair_id p = pair_prefix +:+ pretty (S k)).

Lemma loop_inv_init : loop_inv loop_init.
Proof.
  split_and!; simpl; try constructor; try set_solver.
Qed.

Lemma barge_candidates_elem ms tg d b :
  b ∈ barge_candidates barges ms tg d <->
  b ∈ barges /\ py_eq (un_port b) (un_port tg) = true /\ within_one_day (un_date b) d = true /\
  un_idx b ∉ ms.
Proof.
  unfold barge_candidates. rewrite !list_elem_of_In, filter_In, !andb_true_iff,
    negb_true_iff. simpl. rewrite bool_decide_eq_false. tauto.
Qed.

(** [add_pair] keeps the invariant when neither row is claimed yet. *)
Lemma add_pair_inv st tg bg c :
  loop_inv st -> tg ∉ ls_matched_tug st -> bg ∉ ls_matched_barge st ->
  pair_ok (mkPair "" tg bg c) -> loop_inv (add_pair pair_prefix st tg bg c).
Proof.
  intros (Ht & Hb & Hmt & Hmb & Hok & Hid) Htg Hbg Hp. unfold add_pair, loop_inv. simpl.
  rewrite !map_app. simpl. split_and!.
  - apply NoDup_app. split_and!; [done| |apply NoDup_singleton].
    intros x Hx ->%list_elem_of_singleton. by apply Htg, Hmt.
  - apply NoDup_app. split_and!; [done| |apply NoDup_singleton].
    intros x Hx ->%list_elem_of_singleton. by apply Hbg, Hmb.
  - intros i. rewrite elem_of_union, elem_of_singleton, elem_of_app,
      list_elem_of_singleton, Hmt. tauto.
  - intros i. rewrite elem_of_union, elem_of_singleton, elem_of_app,
      list_elem_of_singleton, Hmb. tauto.
  - apply Forall_app. split; [done|]. by apply Forall_singleton.
  - intros k p [[_ Hk]|[-> <-]]%lookup_snoc_Some; [by apply Hid|done].
Qed.

Lemma tug_step_inv st tg :
  tg ∈ tugs -> loop_inv st ->
  loop_inv (tug_step pair_prefix (pairing_table tugs barges) barges st tg).
Proof.
  intros Htg Hinv. unfold tug_step.
  destruct (ledger_mem _ _) eqn:Hm; [done|]. apply bool_decide_eq_false in Hm.
  destruct (un_date tg) as [d|] eqn:Hd; [|done].
  destruct (barge_candidates barges (ls_matched_barge st) tg d)
    as [|b [|b2 cs]] eqn:Hc; cbn -[best_barge]; [done| |].
  - assert (Hb : b ∈ barge_candidates barges (ls_matched_barge st) tg d)
      by (rewrite Hc; left).
    apply barge_candidates_elem in Hb as (? & ? & ? & ?).
    apply add_pair_inv; [done..|]. by exists tg, b, d.
  - destruct (best_barge _ _ _ _ _) as [[b'|] s] eqn:Hbb; [|done].
    case_bool_decide as Hs; [|done].
    apply best_barge_cases in Hbb as [(? & _)|(pre & b0 & post & Hcs & [= <-] & -> & _)]; [done|].
    assert (Hb : b' ∈ barge_candidates barges (ls_matched_barge st) tg d)
      by (rewrite Hc, Hcs; apply elem_of_app; right; left).
    apply barge_candidates_elem in Hb as (? & ? & ? & ?).
    apply add_pair_inv; [done..|]. by exists tg, b', d.
Qed.

Lemma match_pairs_inv :
  loop_inv (fold_left (tug_step pair_prefix (pairing_table tugs barges) barges) tugs loop_init).
Proof.
  apply fold_left_invariant; [apply loop_inv_init|].
  intros st tg Htg Hinv. by apply tug_step_inv.
Qed.

(** C14: no tug and no barge is claimed by two pairs: the two [set]s of
    lines 90-91 and the guards of lines 94 and 108 keep the pairs' tug
    labels and barge labels duplicate-free. *)
Theorem match_pairs_no_double_claim :
  NoDup (map pair_tug (match_pairs pair_prefix tugs barges)) /\
  NoDup (map pair_barge (match_pairs pair_prefix tugs barges)).
Proof. destruct match_pairs_inv as (? & ? & _). split; done. Qed.

(** Every pair is sound in the sense of [pair_ok]. *)
Lemma match_pairs_sound p :
  p ∈ match_pairs pair_prefix tugs barges ->
  exists tg bg d, tg ∈ tugs /\ bg ∈ barges /\ pair_tug p = un_idx tg /\
    pair_barge p = un_idx bg /\ un_date tg = Some d /\
    py_eq (un_port bg) (un_port tg) = true /\ within_one_day (un_date bg) d = true /\
    match pair_conf p with
    | SINGLE => True
    | HIST n => 0 < n /\ n = score (pairing_table tugs barges) (un_vessel tg) (un_vessel bg)
    end.
Proof.
  intros Hp. destruct match_pairs_inv as (_ & _ & _ & _ & Hok & _).
  rewrite Forall_forall in Hok. exact (Hok p Hp).
Qed.

(** The [k]-th pair is named [prefix (k+1)], lines 117 and 139. *)
Lemma match_pairs_ids k p :
  match_pairs pair_prefix tugs barges !! k = Some p -> pair_id p = pair_prefix +:+ pretty (S k).
Proof. destruct match_pairs_inv as (_ & _ & _ & _ & _ & Hid). apply Hid. Qed.

(** A same-day barge of a tug is counted in the table. *)
Lemma same_day_score tg bg p d :
  tg ∈ tugs -> bg ∈ barges -> un_port tg = Some p -> un_port bg = Some p ->
  un_date tg = Some d -> un_date bg = Some d ->
  1 <= score (pairing_table tugs barges) (un_vessel tg) (un_vessel bg).
Proof.
  intros Htg Hbg Hpt Hpb Hdt Hdb. rewrite pairing_table_spec.
  set (k := (Some p, Some d)).
  assert (Hhere : forall u us, u ∈ us -> un_port u = Some p -> un_date u = Some d ->
            un_vessel u ∈ here us k /\ k ∈ port_dates us).
  { intros u us Hu Hp Hd. unfold here, port_dates.
    rewrite elem_of_remove_dups, !list_elem_of_In. apply list_elem_of_In in Hu. split.
    - apply in_map, filter_In. split; [done|]. unfold k. simpl. rewrite Hp, Hd. simpl.
      by rewrite !bool_decide_eq_true_2.
    - apply in_map_iff. exists u. unfold k. by rewrite Hp, Hd. }
  destruct (Hhere tg tugs Htg Hpt Hdt) as [Ht Hkt], (Hhere bg barges Hbg Hpb Hdb) as [Hb Hkb].
  assert (Hk : k ∈ common_port_dates tugs barges).
  { unfold common_port_dates. rewrite list_elem_of_In, filter_In, <- list_elem_of_In.
    by rewrite bool_decide_eq_true_2. }
  pose proof (sum_list_with_elem_le
    (fun k => occ (un_vessel tg) (here tugs k) * occ (un_vessel bg) (here barges k)) _ k Hk).
  pose proof (occ_pos _ _ Ht). pose proof (occ_pos _ _ Hb). simpl in *. nia.
Qed.

(** C17: a tug is never left unmatched while a barge is still free at its
    own port on its own date.  That barge scores at least 1 in the table
    the batch builds from itself, so the step claims a pair for the tug.
    The spec's scenario 4 (two candidates with count 0, the tug left
    unmatched) cannot happen when one candidate shares the tug's day. *)
Theorem same_day_barge_pairs_tug st tg bg p d :
  tg ∈ tugs -> bg ∈ barges ->
  ledger_mem (un_idx tg) (ls_matched_tug st) = false ->
  ledger_mem (un_idx bg) (ls_matched_barge st) = false ->
  un_port tg = Some p -> un_port bg = Some p -> un_date tg = Some d -> un_date bg = Some d ->
  exists b c, tug_step pair_prefix (pairing_table tugs barges) barges st tg
              = add_pair pair_prefix st (un_idx tg) b c.
Proof.
  intros Htg Hbg Hmt Hmb Hpt Hpb Hdt Hdb.
  pose proof (same_day_score tg bg p d Htg Hbg Hpt Hpb Hdt Hdb) as Hs.
  assert (Hc : bg ∈ barge_candidates barges (ls_matched_barge st) tg d).
  { apply barge_candidates_elem. apply bool_decide_eq_false in Hmb.
    rewrite Hpt, Hpb, Hdb. simpl. rewrite !bool_decide_eq_true_2 by (done || lia). done. }
  unfold tug_step. rewrite Hmt, Hdt.
  destruct (barge_candidates barges (ls_matched_barge st) tg d)
    as [|b1 [|b2 cs]]; cbn -[best_barge]; [by apply not_elem_of_nil in Hc|eauto|].
  destruct (best_barge _ _ _ _ _) as [r s] eqn:Hbb.
  apply best_barge_cases in Hbb as [(-> & -> & Hall)|(pre & b & post & _ & -> & -> & Hpos & _)].
  - rewrite Forall_forall in Hall. specialize (Hall _ Hc). lia.
  - rewrite bool_decide_eq_true_2 by done. eauto.
Qed.

End Loop.

(** ** The pairs in terms of the master frame *)

Lemma tug_not_barge (o : option string) :
  py_isin o TUG_TYPES = true -> py_isin o BARGE_TYPES = false.
Proof.
  destruct o as [s|]; [|done]. simpl. intros Ht%bool_decide_eq_true.
  unfold TUG_TYPES in Ht.
  repeat (apply elem_of_cons in Ht as [->|Ht]; [by vm_compute|]). by apply not_elem_of_nil in Ht.
Qed.

Section Frame.
Variable side : PortCallRow -> option Movement.
Variable side_type : MatchType.
Variable pair_prefix : string.

Lemma select_units_elem types df u :
  u ∈ select_units side side_type types df ->
  exists r m, df !! un_idx u = Some r /\ row_type r = side_type /\ side r = Some m /\
    py_isin (mv_icst m) types = true /\
    un_vessel u = mv_vessel m /\ un_port u = mv_port m /\ un_date u = mv_date m.
Proof.
  unfold select_units. intros ([i r] & Hin & Hu)%list_elem_of_omap.
  apply list_elem_of_In, filter_In in Hin as [Hin Hf%andb_true_iff].
  apply list_elem_of_In, elem_of_zip_seq in Hin. simpl in *.
  destruct Hf as [Ht%bool_decide_eq_true Hisin]. unfold unit_of in Hu. unfold side_isin in Hisin.
  destruct (side r) as [m|] eqn:Hm; [|done]. simplify_eq. simpl. exists r, m. by split_and!.
Qed.

(** C15: every pair of one side of the master frame joins two rows of the
    side's [*_ONLY] type, a tug row and a barge row, at the same port, the
    tug dated and the barge within one day of it, in the dates the side
    reads: the arrival dates on the entrance side, the [Date_Simple] of
    line 42 on the clearance side.  A [HIST_<n>X] pair
    carries the positive count [n] of the two vessel names in the table. *)
Theorem side_pairs_sound df p :
  p ∈ side_pairs side side_type pair_prefix df ->
  exists rt rb mt mb d,
    df !! pair_tug p = Some rt /\ df !! pair_barge p = Some rb /\
    row_type rt = side_type /\ row_type rb = side_type /\
    side rt = Some mt /\ side rb = Some mb /\
    py_isin (mv_icst mt) TUG_TYPES = true /\ py_isin (mv_icst mb) BARGE_TYPES = true /\
    mv_date mt = Some d /\ py_eq (mv_port mb) (mv_port mt) = true /\
    within_one_day (mv_date mb) d = true /\
    match pair_conf p with
    | SINGLE => True
    | HIST n => 0 < n /\ n = score (pairing_table (select_units side side_type TUG_TYPES df)
                                     (select_units side side_type BARGE_TYPES df))
                               (mv_vessel mt) (mv_vessel mb)
    end.
Proof.
  intros (tg & bg & d & Htg & Hbg & -> & -> & Hd & Hp & Hw & Hc)%match_pairs_sound.
  apply select_units_elem in Htg as (rt & mt & ? & ? & ? & ? & Hvt & Hpt & Hdt).
  apply select_units_elem in Hbg as (rb & mb & ? & ? & ? & ? & Hvb & Hpb & Hdb).
  exists rt, rb, mt, mb, d. rewrite Hvt, Hvb, Hpt, Hpb, Hdb, Hdt in *. split_and!; done.
Qed.

(** The rows of a pair: a tug row and a barge row of the side's type. *)
Lemma side_pair_row_types df p :
  p ∈ side_pairs side side_type pair_prefix df ->
  exists rt rb mt mb, df !! pair_tug p = Some rt /\ df !! pair_barge p = Some rb /\
    row_type rt = side_type /\ row_type rb = side_type /\
    side rt = Some mt /\ side rb = Some mb /\
    py_isin (mv_icst mt) TUG_TYPES = true /\ py_isin (mv_icst mb) BARGE_TYPES = true.
Proof.
  intros (tg & bg & d & Htg & Hbg & -> & -> & _)%match_pairs_sound.
  apply select_units_elem in Htg as (rt & mt & ? & ? & ? & ? & _).
  apply select_units_elem in Hbg as (rb & mb & ? & ? & ? & ? & _).
  exists rt, rb, mt, mb. by split_and!.
Qed.

(** The rows a list of pairs writes, tug then barge. *)
Definition pair_rows (ps : list Pair) : list nat := ps ≫= fun p => [pair_tug p; pair_barge p].

Lemma pair_rows_perm ps : pair_rows ps ≡ₚ map pair_tug ps ++ map pair_barge ps.
Proof.
  induction ps as [|p ps IH]; [done|]. unfold pair_rows in *. simpl.
  rewrite IH. solve_Permutation.
Qed.

(** One side's pairs write every row at most once, and only rows of the
    side's type. *)
Lemma side_pair_rows df :
  NoDup (pair_rows (side_pairs side side_type pair_prefix df)) /\
  forall i, i ∈ pair_rows (side_pairs side side_type pair_prefix df) ->
    exists r, df !! i = Some r /\ row_type r = side_type.
Proof.
  assert (Hsound := fun p Hp => side_pair_row_types df p Hp).
  destruct (match_pairs_inv pair_prefix (select_units side side_type TUG_TYPES df)
    (select_units side side_type BARGE_TYPES df)) as (Hnt & Hnb & _).
  split.
  - rewrite pair_rows_perm. apply NoDup_app. split_and!; [done| |done].
    intros i (p & -> & Hp)%list_elem_of_fmap (q & Heq & Hq)%list_elem_of_fmap.
    destruct (Hsound p Hp) as (rt & _ & mt & _ & Hrt & _ & _ & _ & Hst & _ & Hit & _).
    destruct (Hsound q Hq) as (_ & rb & _ & mb & _ & Hrb & _ & _ & _ & Hsb & _ & Hib).
    rewrite Heq, Hrb in Hrt. assert (mt = mb) as -> by congruence.
    apply tug_not_barge in Hit. congruence.
  - intros i. rewrite pair_rows_perm, elem_of_app, !list_elem_of_fmap.
    intros [(p & -> & Hp)|(p & -> & Hp)];
      destruct (Hsound p Hp) as (rt & rb & _ & _ & Hrt & Hrb & Htt & Htb & _); eauto.
Qed.

End Frame.

(** ** The update of lines 262-282 *)

Lemma pair_rows_elem ps p : p ∈ ps -> pair_tug p ∈ pair_rows ps /\ pair_barge p ∈ pair_rows ps.
Proof.
  intros Hp. rewrite !pair_rows_perm, !elem_of_app.
  split; [left|right]; by apply list_elem_of_fmap_2.
Qed.

Lemma apply_pair_lookup_ne rows p i :
  pair_tug p <> i -> pair_barge p <> i -> apply_pair rows p !! i = rows !! i.
Proof. intros. unfold apply_pair. by rewrite !list_lookup_alter_ne. Qed.

(** A row no pair names keeps its value. *)
Lemma fold_apply_untouched ps rows i :
  i ∉ pair_rows ps -> fold_left apply_pair ps rows !! i = rows !! i.
Proof.
  revert rows. induction ps as [|q ps IH]; intros rows Hi; [done|].
  unfold pair_rows in Hi. simpl in Hi. apply not_elem_of_cons in Hi as [Ht Hi].
  apply not_elem_of_cons in Hi as [Hb Hi]. simpl. rewrite IH by done.
  by apply apply_pair_lookup_ne.
Qed.

(** When no row is named twice, the rows of a pair end up retagged by
    that pair. *)
Lemma fold_apply_at ps rows p i :
  NoDup (pair_rows ps) -> p ∈ ps -> i = pair_tug p \/ i = pair_barge p ->
  fold_left apply_pair ps rows !! i = retag p <$> rows !! i.
Proof.
  revert rows. induction ps as [|q ps IH]; intros rows Hnd Hp Hi;
    [by apply not_elem_of_nil in Hp|].
  unfold pair_rows in Hnd. simpl in Hnd.
  apply NoDup_cons in Hnd as [Ht Hnd]. apply NoDup_cons in Hnd as [Hb Hnd].
  apply not_elem_of_cons in Ht as [Htb Ht]. simpl.
  apply elem_of_cons in Hp as [->|Hp].
  - rewrite fold_apply_untouched by (destruct Hi as [->| ->]; done).
    unfold apply_pair. destruct Hi as [->| ->].
    + rewrite (list_lookup_alter_ne _ _ (pair_barge q) (pair_tug q)) by congruence.
      apply list_lookup_alter_eq.
    + rewrite (list_lookup_alter_eq _ _ (pair_barge q)).
      by rewrite (list_lookup_alter_ne _ _ (pair_tug q) (pair_barge q)).
  - rewrite IH by done. destruct (pair_rows_elem ps p Hp).
    assert (Hin : i ∈ pair_rows ps) by (destruct Hi as [-> | ->]; done).
    rewrite apply_pair_lookup_ne; [done|intros Heq; subst i; by apply Ht|intros Heq; subst i; by apply Hb].
Qed.

(** The entrance and the clearance pairs together name every row at most
    once, and only [ENTRANCE_ONLY] or [CLEARANCE_ONLY] rows. *)
Lemma all_pair_rows df :
  NoDup (pair_rows (entrance_pairs df ++ clearance_pairs df)) /\
  forall i, i ∈ pair_rows (entrance_pairs df ++ clearance_pairs df) ->
    exists r, df !! i = Some r /\ (row_type r = ENTRANCE_ONLY \/ row_type r = CLEARANCE_ONLY).
Proof.
  destruct (side_pair_rows row_entrance ENTRANCE_ONLY "TB_ENT_" df) as [Hne He].
  destruct (side_pair_rows clearance_side CLEARANCE_ONLY "TB_CLR_" df) as [Hnc Hc].
  unfold pair_rows at 1 2. rewrite bind_app. split.
  - apply NoDup_app. split_and!; [done| |done].
    intros i Hie Hic. destruct (He i Hie) as (r & Hr & Hte).
    destruct (Hc i Hic) as (r' & Hr' & Htc). congruence.
  - intros i [Hi|Hi]%elem_of_app;
      [destruct (He i Hi) as (r & ? & ?)|destruct (Hc i Hi) as (r & ? & ?)]; eauto.
Qed.

Lemma update_master_length df : length (update_master df) = length df.
Proof.
  unfold update_master. apply (fold_left_invariant (fun rows => length rows = length df)).
  - by rewrite length_map.
  - intros rows p _ Hl. unfold apply_pair. by rewrite !length_alter.
Qed.

(** The update keeps every row and its position, and leaves every
    row that no pair names (every [BOTH] row in particular) as it was, with
    the two new columns empty. *)
Theorem update_master_rows df :
  length (update_master df) = length df /\
  forall i r, df !! i = Some r -> row_type r <> ENTRANCE_ONLY -> row_type r <> CLEARANCE_ONLY ->
    update_master df !! i = Some (mkTBRow r None None).
Proof.
  split; [apply update_master_length|]. intros i r Hr Hne Hnc.
  unfold update_master. rewrite fold_apply_untouched.
  - by rewrite list_lookup_fmap, Hr.
  - intros Hi. destruct (all_pair_rows df) as [_ Hrows].
    destruct (Hrows i Hi) as (r' & Hr' & [?|?]); simplify_eq; done.
Qed.

(** Both rows of every entrance or clearance pair end up with
    [Match_Type = TUG_BARGE_PAIR], that pair's id and that pair's
    confidence; no later pair overwrites them. *)
Theorem update_master_pairs df p :
  p ∈ entrance_pairs df ++ clearance_pairs df ->
  exists rt rb, df !! pair_tug p = Some rt /\ df !! pair_barge p = Some rb /\
    update_master df !! pair_tug p = Some (retag p (mkTBRow rt None None)) /\
    update_master df !! pair_barge p = Some (retag p (mkTBRow rb None None)).
Proof.
  intros Hp. destruct (all_pair_rows df) as [Hnd Hrows].
  destruct (pair_rows_elem _ p Hp) as [Ht Hb].
  destruct (Hrows _ Ht) as (rt & Hrt & _), (Hrows _ Hb) as (rb & Hrb & _).
  exists rt, rb. unfold update_master.
  rewrite !(fold_apply_at _ _ p) by auto. rewrite !list_lookup_fmap, Hrt, Hrb. done.
Qed.

(** ** The counts of the summary *)

Lemma tb_count_map t df : tb_count t (map (fun r => mkTBRow r None None) df) = count_type t df.
Proof.
  unfold tb_count, count_type. induction df as [|r df IH]; [done|].
  simpl. rewrite !filter_cons. simpl. case_decide; simpl; lia.
Qed.

(** Retagging one row moves it from its type to [TUG_BARGE_PAIR]. *)
Lemma tb_count_alter t p i rows x :
  rows !! i = Some x ->
  tb_count t (alter (retag p) i rows) + (if decide (row_type (tb_row x) = t) then 1 else 0)
  = tb_count t rows + (if decide (t = TUG_BARGE_PAIR) then 1 else 0).
Proof.
  unfold tb_count. revert i. induction rows as [|y rows IH]; intros [|i] Hi; simplify_eq/=.
  - rewrite !filter_cons. simpl. repeat case_decide; simplify_eq/=; lia.
  - rewrite !filter_cons. specialize (IH i Hi).
    destruct (decide (row_type (tb_row y) = t)); simpl; lia.
Qed.

(** Applying pairs whose rows all have type [u] moves [2 * length ps]
    rows from [u] to [TUG_BARGE_PAIR]. *)
Lemma fold_apply_count t u ps rows :
  NoDup (pair_rows ps) -> u <> TUG_BARGE_PAIR ->
  (forall i, i ∈ pair_rows ps -> exists x, rows !! i = Some x /\ row_type (tb_row x) = u) ->
  tb_count t (fold_left apply_pair ps rows) + (if decide (u = t) then 2 * length ps else 0)
  = tb_count t rows + (if decide (t = TUG_BARGE_PAIR) then 2 * length ps else 0).
Proof.
  intros Hnd Hu. revert rows. induction ps as [|q ps IH]; intros rows Hrows.
  { simpl. repeat case_decide; lia. }
  unfold pair_rows in Hnd. simpl in Hnd.
  apply NoDup_cons in Hnd as [Ht Hnd]. apply NoDup_cons in Hnd as [Hb Hnd].
  apply not_elem_of_cons in Ht as [Htb Ht].
  destruct (Hrows (pair_tug q)) as (xt & Hxt & Htt); [by left|].
  destruct (Hrows (pair_barge q)) as (xb & Hxb & Htb'); [by right; left|].
  simpl. specialize (IH Hnd (apply_pair rows q)).
  assert (Hstep : tb_count t (apply_pair rows q) + (if decide (u = t) then 2 else 0)
                  = tb_count t rows + (if decide (t = TUG_BARGE_PAIR) then 2 else 0)).
  { unfold apply_pair.
    pose proof (tb_count_alter t q (pair_tug q) rows xt Hxt) as H1.
    pose proof (tb_count_alter t q (pair_barge q) (alter (retag q) (pair_tug q) rows) xb) as H2.
    rewrite list_lookup_alter_ne in H2 by congruence. specialize (H2 Hxb).
    rewrite Htt in H1. rewrite Htb' in H2. repeat case_decide; lia. }
  assert (Hrest : forall i, i ∈ pair_rows ps ->
            exists x, apply_pair rows q !! i = Some x /\ row_type (tb_row x) = u).
  { intros i Hi. rewrite apply_pair_lookup_ne; [by apply Hrows; right; right|
      intros Heq; subst i; by apply Ht|intros Heq; subst i; by apply Hb]. }
  specialize (IH Hrest). simpl length. repeat case_decide; lia.
Qed.

Lemma pairs_applied_count t df :
  tb_count t (fold_left apply_pair (entrance_pairs df ++ clearance_pairs df)
                (map (fun r => mkTBRow r None None) df))
    + (if decide (ENTRANCE_ONLY = t) then 2 * length (entrance_pairs df) else 0)
    + (if decide (CLEARANCE_ONLY = t) then 2 * length (clearance_pairs df) else 0)
  = count_type t df
    + (if decide (t = TUG_BARGE_PAIR)
       then 2 * (length (entrance_pairs df) + length (clearance_pairs df)) else 0).
Proof.
  rewrite fold_left_app. set (rows0 := map (fun r => mkTBRow r None None) df).
  destruct (side_pair_rows row_entrance ENTRANCE_ONLY "TB_ENT_" df) as [Hne He].
  destruct (side_pair_rows clearance_side CLEARANCE_ONLY "TB_CLR_" df) as [Hnc Hc].
  assert (Hrows0 : forall ps u,
            (forall i, i ∈ pair_rows ps -> exists r, df !! i = Some r /\ row_type r = u) ->
            forall i, i ∈ pair_rows ps -> exists x, rows0 !! i = Some x /\ row_type (tb_row x) = u).
  { intros ps u Hps i Hi. destruct (Hps i Hi) as (r & Hr & Ht).
    exists (mkTBRow r None None). subst rows0. by rewrite map_as_fmap, list_lookup_fmap, Hr. }
  assert (Hrows1 : forall i, i ∈ pair_rows (clearance_pairs df) ->
            exists x, fold_left apply_pair (entrance_pairs df) rows0 !! i = Some x /\
                      row_type (tb_row x) = CLEARANCE_ONLY).
  { intros i Hi. rewrite fold_apply_untouched; [by apply (Hrows0 _ _ Hc)|].
    intros Hie. destruct (He i Hie) as (r & Hr & Hte), (Hc i Hi) as (r' & Hr' & Htc). congruence. }
  pose proof (fold_apply_count t ENTRANCE_ONLY _ rows0 Hne ltac:(done) (Hrows0 _ _ He)) as H1.
  pose proof (fold_apply_count t CLEARANCE_ONLY _ _ Hnc ltac:(done) Hrows1) as H2.
  subst rows0. rewrite tb_count_map in H1. unfold entrance_pairs, clearance_pairs in *.
  repeat case_decide; simplify_eq; lia.
Qed.

(** C19: the Match_Type counts the summary reports (lines 316-326): after
    the update, [TUG_BARGE_PAIR] has two rows more per pair than before,
    [ENTRANCE_ONLY] two fewer per entrance pair, [CLEARANCE_ONLY] two fewer
    per clearance pair, and [BOTH] is unchanged. *)
Theorem update_master_match_type_counts df :
  tb_count TUG_BARGE_PAIR (update_master df)
    = count_type TUG_BARGE_PAIR df + 2 * (length (entrance_pairs df) + length (clearance_pairs df)) /\
  tb_count ENTRANCE_ONLY (update_master df) + 2 * length (entrance_pairs df)
    = count_type ENTRANCE_ONLY df /\
  tb_count CLEARANCE_ONLY (update_master df) + 2 * length (clearance_pairs df)
    = count_type CLEARANCE_ONLY df /\
  tb_count BOTH (update_master df) = count_type BOTH df.
Proof.
  unfold update_master. pose proof (pairs_applied_count TUG_BARGE_PAIR df).
  pose proof (pairs_applied_count ENTRANCE_ONLY df).
  pose proof (pairs_applied_count CLEARANCE_ONLY df).
  pose proof (pairs_applied_count BOTH df).
  repeat case_decide; simplify_eq; lia.
Qed.

(** One side never pairs more rows than it has tugs, nor more than it has
    barges. *)
Lemma side_pairs_le_units side side_type pre df :
  length (side_pairs side side_type pre df) <= length (select_units side side_type TUG_TYPES df) /\
  length (side_pairs side side_type pre df) <= length (select_units side side_type BARGE_TYPES df).
Proof.
  set (tugs := select_units side side_type TUG_TYPES df).
  set (barges := select_units side side_type BARGE_TYPES df).
  destruct (match_pairs_inv pre tugs barges) as (Hnt & Hnb & _).
  unfold side_pairs. fold tugs barges.
  split; [rewrite <- (length_map pair_tug), <- (length_map un_idx tugs)
         |rewrite <- (length_map pair_barge), <- (length_map un_idx barges)];
    apply submseteq_length, NoDup_submseteq; [done| |done|];
    intros i (p & -> & Hp)%list_elem_of_fmap;
    destruct (match_pairs_sound pre tugs barges p Hp) as (tg & bg & _ & ? & ? & Htp & Hbp & _);
    rewrite ?Htp, ?Hbp; by apply list_elem_of_fmap_2.
Qed.

Lemma paired_pct_le pairs tugs barges q :
  pairs <= tugs -> pairs <= barges -> paired_pct pairs tugs barges = Some q -> (q <= 100)%Q.
Proof.
  unfold paired_pct. case_decide as Hz; intros Ht Hb; [discriminate|]. intros [= <-].
  assert (Hpos : (0 < inject_Z (Z.of_nat (tugs + barges)))%Q)
    by (change 0%Q with (inject_Z 0); rewrite <- Zlt_Qlt; lia).
  apply Qle_trans with (1 * 100)%Q; [|discriminate].
  apply Qmult_le_r; [reflexivity|]. apply Qle_shift_div_r; [done|].
  rewrite Qmult_1_l, <- Zle_Qle. lia.
Qed.

(** C20: the summary of lines 299-326.  The updated frame is the saved
    one.  When the summary is printed, neither "Records paired"
    percentage exceeds 100%; the [TUG_BARGE_PAIR] records are the pairs'
    records plus those the input already had; the remaining unmatched rows
    plus the paired records are the input's [*_ONLY] rows; the [BOTH] count
    is the input's; and on an input without [TUG_BARGE_PAIR] rows the
    operations are the pairs.  When it is not printed, one side has no tug
    and no barge. *)
Theorem tug_barge_summary df :
  fst (tug_barge_script df) = update_master df /\
  match snd (tug_barge_script df) with
  | Some s =>
      (sm_ent_pct s <= 100)%Q /\ (sm_clr_pct s <= 100)%Q /\
      sm_tb_records s = count_type TUG_BARGE_PAIR df + sm_total_records s /\
      sm_remaining s + sm_total_records s
        = count_type ENTRANCE_ONLY df + count_type CLEARANCE_ONLY df /\
      sm_both s = count_type BOTH df /\
      (count_type TUG_BARGE_PAIR df = 0 -> sm_tb_operations s = sm_total_pairs s)
  | None =>
      sm_none_side row_entrance ENTRANCE_ONLY df \/ sm_none_side clearance_side CLEARANCE_ONLY df
  end.
Proof.
  split; [done|]. unfold tug_barge_script, summary, sm_none_side, update_master.
  destruct (side_pairs_le_units row_entrance ENTRANCE_ONLY "TB_ENT_" df) as [Het Heb].
  destruct (side_pairs_le_units clearance_side CLEARANCE_ONLY "TB_CLR_" df) as [Hct Hcb].
  destruct (paired_pct (length (entrance_pairs df)) _ _) as [qe|] eqn:He; cbn -[Nat.div];
    [|left; unfold paired_pct in He; by case_decide].
  destruct (paired_pct (length (clearance_pairs df)) _ _) as [qc|] eqn:Hc; cbn -[Nat.div];
    [|right; unfold paired_pct in Hc; by case_decide].
  pose proof (pairs_applied_count TUG_BARGE_PAIR df).
  pose proof (pairs_applied_count ENTRANCE_ONLY df).
  pose proof (pairs_applied_count CLEARANCE_ONLY df).
  pose proof (pairs_applied_count BOTH df).
  unfold entrance_pairs, clearance_pairs in *. repeat case_decide; simplify_eq.
  split_and!; [exact (paired_pct_le _ _ _ qe Het Heb He)|exact (paired_pct_le _ _ _ qc Hct Hcb Hc)
              |lia|lia|lia|].
  intros Hz.
  symmetry. apply Nat.div_unique_exact; [done|lia].
Qed.

(** The script saves the updated frame (line 286) before the summary
    divides by the number of tugs and barges of each side: on a master
    frame where one side has no unmatched tug and no unmatched barge (every
    row of that side matched, or no such row), the output file is written
    and the summary raises [ZeroDivisionError]. *)
Theorem tug_barge_zero_division_after_save df :
  sm_none_side row_entrance ENTRANCE_ONLY df \/ sm_none_side clearance_side CLEARANCE_ONLY df ->
  tug_barge_script df = (update_master df, None).
Proof.
  unfold tug_barge_script, summary, sm_none_side, paired_pct. intros Hz.
  do 2 f_equal. repeat case_decide; simpl; tauto.
Qed.

(** Pair ids [prefix (k+1)] are all distinct. *)
Lemma numbered_ids_nodup prefix (ps : list Pair) :
  (forall k p, ps !! k = Some p -> pair_id p = prefix +:+ pretty (S k)) ->
  NoDup (map pair_id ps).
Proof.
  intros Hid. apply NoDup_alt. intros i j x Hi Hj.
  rewrite map_as_fmap, list_lookup_fmap in Hi, Hj.
  destruct (ps !! i) as [p|] eqn:Hp, (ps !! j) as [q|] eqn:Hq; simplify_eq/=.
  pose proof (Hid i p Hp). pose proof (Hid j q Hq).
  assert (Heq : prefix +:+ pretty (S i) = prefix +:+ pretty (S j)) by congruence.
  apply (inj (String.app prefix)), (inj pretty) in Heq. lia.
Qed.

Lemma side_ids_prefix side side_type prefix df x :
  x ∈ map pair_id (side_pairs side side_type prefix df) -> exists s, x = prefix +:+ s.
Proof.
  rewrite map_as_fmap. intros (p & -> & (k & Hk)%list_elem_of_lookup)%list_elem_of_fmap.
  eexists. by eapply match_pairs_ids.
Qed.

(** The [Pair_ID]s of lines 117, 139, 222 and 244 are all distinct,
    entrance and clearance pairs together. *)
Theorem pair_ids_unique df :
  NoDup (map pair_id (entrance_pairs df ++ clearance_pairs df)).
Proof.
  rewrite map_app. apply NoDup_app. split_and!.
  - apply (numbered_ids_nodup "TB_ENT_"). intros k p. apply match_pairs_ids.
  - intros x He Hc. apply side_ids_prefix in He as [s1 ->].
    apply side_ids_prefix in Hc as [s2 Hc]. inversion Hc.
  - apply (numbered_ids_nodup "TB_CLR_"). intros k p. apply match_pairs_ids.
Qed.

(** ** The clearance dates of line 42 *)

(** A mmydd number is less than a day of nanoseconds: [pd.to_datetime]
    puts it on 1970-01-01. *)
Lemma to_datetime_ns_small x : (0 <= x < NS_PER_DAY)%Z -> to_datetime_ns x = Some 0%Z.
Proof.
  unfold to_datetime_ns, NS_PER_DAY. intros Hx. rewrite bool_decide_eq_true_2 by lia.
  f_equal. apply Z.div_small. lia.
Qed.

(** The columns of a side the matcher reads. *)
Definition mv_key (m : Movement) : option string * option string * option string * option Z :=
  (mv_vessel m, mv_port m, mv_icst m, mv_date m).

Lemma select_units_ext side side' st types df df' :
  Forall2 (fun r r' => row_type r = row_type r' /\ mv_key <$> side r = mv_key <$> side' r') df df' ->
  select_units side st types df = select_units side' st types df'.
Proof.
  unfold select_units. intros H. rewrite <- (Forall2_length _ _ _ H). generalize 0.
  induction H as [|r r' df df' [Ht Hk] _ IH]; intros k; [done|].
  assert (Hi : side_isin side types r = side_isin side' types r' /\
               forall i, unit_of side i r = unit_of side' i r').
  { unfold side_isin, unit_of.
    destruct (side r) as [m|], (side' r') as [m'|]; cbn in Hk; try discriminate; [|done].
    unfold mv_key in Hk. injection Hk as E1 E2 E3 E4. by rewrite E1, E2, E3, E4. }
  destruct Hi as [Hi Hu]. simpl. rewrite Ht, Hi.
  destruct (_ && _); simpl; rewrite ?Hu, IH; done.
Qed.

Lemma side_pairs_ext side side' st pre df df' :
  Forall2 (fun r r' => row_type r = row_type r' /\ mv_key <$> side r = mv_key <$> side' r') df df' ->
  side_pairs side st pre df = side_pairs side' st pre df'.
Proof. intros H. unfold side_pairs. by rewrite !(select_units_ext side side' st _ df df' H). Qed.

(** A clearance with its date code replaced by [f] of it, and the date
    [marry] would have parsed from the new code. *)
Definition redate (f : Z -> Z) (m : Movement) : Movement :=
  let cell := f <$> mv_date_cell m in
  mkMovement (mv_imo m) (mv_vessel m) (mv_port m) (mv_icst m) (parse_usace_date cell) cell.

Definition redate_row (f : Z -> Z) (r : PortCallRow) : PortCallRow :=
  mkPortCallRow (row_entrance r) (redate f <$> row_clearance r) (row_stay_days r)
    (row_stay_int r) (row_score r) (row_type r) (row_method r).

(** The frame with the date code of row [i] replaced by [f i] of it. *)
Definition redate_clearances (f : nat -> Z -> Z) (df : list PortCallRow) : list PortCallRow :=
  imap (fun i => redate_row (f i)) df.

(** Every date code of the clearance rows, before and after [f], is a
    number below a day of nanoseconds, as every mmydd code is. *)
Definition codes_in_day (f : nat -> Z -> Z) (df : list PortCallRow) : Prop :=
  forall i r m x, df !! i = Some r -> row_clearance r = Some m -> mv_date_cell m = Some x ->
    (0 <= x < NS_PER_DAY)%Z /\ (0 <= f i x < NS_PER_DAY)%Z.

Lemma clearance_key_redate f r :
  (forall m x, row_clearance r = Some m -> mv_date_cell m = Some x ->
     (0 <= x < NS_PER_DAY)%Z /\ (0 <= f x < NS_PER_DAY)%Z) ->
  mv_key <$> clearance_side (redate_row f r) = mv_key <$> clearance_side r.
Proof.
  intros Hf. unfold clearance_side, redate_row. cbn [row_clearance].
  destruct (row_clearance r) as [m|]; [|done]. cbn.
  unfold mv_key, clearance_view, clearance_date_parsed, redate. cbn.
  destruct (mv_date_cell m) as [x|] eqn:Hx; [|done].
  destruct (Hf m x eq_refl Hx). cbn. by rewrite !to_datetime_ns_small.
Qed.

(** C16: the clearance side pairs without regard to the dates.  Line 42
    parses the mmydd numbers of [Clearance_Clearance_Date] as nanoseconds
    since 1970-01-01, so every dated clearance is on 1970-01-01 and the
    one-day window of lines 209-214 holds for any two of them.  Moving the
    clearances to any other dates (any other codes, and the dates [marry]
    parses from them) leaves the clearance pairs unchanged. *)
Theorem clearance_pairs_date_blind f df :
  codes_in_day f df -> clearance_pairs (redate_clearances f df) = clearance_pairs df.
Proof.
  intros Hf. unfold clearance_pairs, redate_clearances. apply side_pairs_ext.
  apply Forall2_same_length_lookup. split; [by rewrite length_imap|].
  intros i r' r Hr' Hr. rewrite list_lookup_imap, Hr in Hr'. simplify_eq/=.
  split; [done|]. apply clearance_key_redate. intros m x Hm Hx. exact (Hf i r m x Hr Hm Hx).
Qed.

(** ** The scenarios of the spec, on concrete master frames *)

(** An [ENTRANCE_ONLY] row as [marry] writes it. *)
Definition ent_row (v icst port : string) (d : Z) : PortCallRow :=
  mkPortCallRow (Some (mkMovement None (Some v) (Some port) (Some icst) (Some d) None))
    None None None None ENTRANCE_ONLY None.

(** Scenario 3: tug [T1] and barges [G1], [G2] at [PORTZ] on days 1, 1, 2;
    [T1] and [G1] also met on three days at other ports. *)
Definition scenario3 : list PortCallRow :=
  [ent_row "T1" "TUG" "PORTZ" 1; ent_row "G1" "DECK BARGE" "PORTZ" 1;
   ent_row "G2" "DECK BARGE" "PORTZ" 2;
   ent_row "T1" "TUG" "P2" 10; ent_row "G1" "DECK BARGE" "P2" 10;
   ent_row "T1" "TUG" "P3" 20; ent_row "G1" "DECK BARGE" "P3" 20;
   ent_row "T1" "TUG" "P4" 30; ent_row "G1" "DECK BARGE" "P4" 30].

(** Scenario 4: the same three rows at [PORTZ], without the history. *)
Definition scenario4 : list PortCallRow := take 3 scenario3.

(** Scenario 3 of the spec: [T1] is paired with [G1].  The count the
    script records is 4, not the 3 of the spec, because the day at [PORTZ]
    itself is counted. *)
Theorem scenario3_pairs_T1_G1 :
  entrance_pairs scenario3 !! 0 = Some (mkPair "TB_ENT_1" 0 1 (HIST 4)) /\
  fmap tb_conf (update_master scenario3 !! 0) = Some (Some "HIST_4X").
Proof. vm_compute. split; reflexivity. Qed.


(** Tugs are processed in frame order, not in timestamp order as the
    spec requires.  A tug of day 5 listed before a tug of day 4 claims the
    only barge both could take. *)
Theorem tugs_in_frame_order :
  entrance_pairs [ent_row "TA" "TUG" "P" 5; ent_row "TB" "TUG" "P" 4;
                  ent_row "G" "DECK BARGE" "P" 5]
  = [mkPair "TB_ENT_1" 0 2 SINGLE].
Proof. vm_compute. reflexivity. Qed.

(** *** Witnesses *)

Lemma best_barge_first_max_witness :
  exists pre post, [mkUnit 1 (Some "G1") None None; mkUnit 2 (Some "G2") None None]
    = pre ++ mkUnit 2 (Some "G2") None None :: post /\
    2 = score {[(Some "T1", Some "G2") := 2]} (Some "T1") (Some "G2") /\ 0 < 2 /\
    Forall (fun c => score {[(Some "T1", Some "G2") := 2]} (Some "T1") (un_vessel c) < 2) pre /\
    Forall (fun c => score {[(Some "T1", Some "G2") := 2]} (Some "T1") (un_vessel c) <= 2) post.
Proof.
  apply (best_barge_first_max {[(Some "T1", Some "G2") := 2]} (Some "T1")
    [mkUnit 1 (Some "G1") None None; mkUnit 2 (Some "G2") None None]
    (mkUnit 2 (Some "G2") None None) 2).
  vm_compute. reflexivity.
Defined.

Lemma side_pairs_sound_witness :
  exists rt rb, scenario3 !! 0 = Some rt /\ scenario3 !! 1 = Some rb /\
    row_type rt = ENTRANCE_ONLY /\ row_type rb = ENTRANCE_ONLY.
Proof.
  destruct (side_pairs_sound row_entrance ENTRANCE_ONLY "TB_ENT_" scenario3
              (mkPair "TB_ENT_1" 0 1 (HIST 4)))
    as (rt & rb & _ & _ & _ & Hrt & Hrb & Htt & Htb & _).
  - apply list_elem_of_In. vm_compute. left. reflexivity.
  - exists rt, rb. split_and!; assumption.
Defined.

Lemma same_day_barge_pairs_tug_witness :
  exists b c,
    tug_step "TB_ENT_"
      (pairing_table (select_units row_entrance ENTRANCE_ONLY TUG_TYPES scenario4)
                     (select_units row_entrance ENTRANCE_ONLY BARGE_TYPES scenario4))
      (select_units row_entrance ENTRANCE_ONLY BARGE_TYPES scenario4) loop_init
      (mkUnit 0 (Some "T1") (Some "PORTZ") (Some 1%Z))
    = add_pair "TB_ENT_" loop_init 0 b c.
Proof.
  apply (same_day_barge_pairs_tug "TB_ENT_" _ _ loop_init
           (mkUnit 0 (Some "T1") (Some "PORTZ") (Some 1%Z))
           (mkUnit 1 (Some "G1") (Some "PORTZ") (Some 1%Z)) "PORTZ" 1%Z);
    try (apply list_elem_of_In; vm_compute; left; reflexivity); reflexivity.
Defined.

Lemma update_master_rows_witness :
  update_master [mkPortCallRow None None None None None BOTH None] !! 0
  = Some (mkTBRow (mkPortCallRow None None None None None BOTH None) None None).
Proof.
  apply (update_master_rows [mkPortCallRow None None None None None BOTH None]);
    [reflexivity|discriminate|discriminate].
Defined.

Lemma update_master_pairs_witness :
  exists rt rb, scenario3 !! 0 = Some rt /\ scenario3 !! 1 = Some rb /\
    update_master scenario3 !! 0 = Some (retag (mkPair "TB_ENT_1" 0 1 (HIST 4)) (mkTBRow rt None None)) /\
    update_master scenario3 !! 1 = Some (retag (mkPair "TB_ENT_1" 0 1 (HIST 4)) (mkTBRow rb None None)).
Proof.
  apply (update_master_pairs scenario3 (mkPair "TB_ENT_1" 0 1 (HIST 4))).
  apply list_elem_of_In. vm_compute. left. reflexivity.
Defined.

(** A [CLEARANCE_ONLY] row as [marry] writes it: the mmydd code and the
    date parsed from it. *)
Definition clr_row (v icst port : string) (code : Z) : PortCallRow :=
  mkPortCallRow None
    (Some (mkMovement None (Some v) (Some port) (Some icst) (parse_usace_date (Some code)) (Some code)))
    None None None CLEARANCE_ONLY None.

(** Scenario 5: scenario 4 and a tug and a barge cleared on 2023-01-05. *)
Definition scenario5 : list PortCallRow :=
  scenario4 ++ [clr_row "T1" "TUG" "PORTY" 1305; clr_row "G2" "DECK BARGE" "PORTY" 1305].

(** On scenario 5 the summary is printed: one pair per side, 2 of 3 and
    2 of 2 records paired, two operations and one row left unmatched. *)
Theorem scenario5_summary :
  match snd (tug_barge_script scenario5) with
  | Some s => sm_ent_pairs s = 1 /\ sm_clr_pairs s = 1 /\ (sm_ent_pct s == 200 # 3)%Q /\
              (sm_clr_pct s == 100)%Q /\ sm_tb_operations s = 2 /\ sm_remaining s = 1
  | None => False
  end.
Proof. vm_compute. split_and!; reflexivity. Qed.

(** Scenario 3 has no clearance rows: the file is written, then the
    clearance percentage divides by zero. *)
Lemma tug_barge_zero_division_after_save_witness :
  sm_none_side clearance_side CLEARANCE_ONLY scenario3 /\
  tug_barge_script scenario3 = (update_master scenario3, None).
Proof.
  assert (Hc : sm_none_side clearance_side CLEARANCE_ONLY scenario3) by (vm_compute; reflexivity).
  split; [exact Hc|]. apply tug_barge_zero_division_after_save. right. exact Hc.
Defined.

(** The date codes of scenario 5's clearance rows, the barge's moved to
    2023-08-29. *)
Definition barge_to_aug29 (i : nat) (x : Z) : Z := if decide (i = 4) then 8329%Z else x.

(** The clearance tug of 2023-01-05 is paired with the barge moved to
    2023-08-29, 236 days later. *)
Lemma clearance_pairs_date_blind_witness :
  codes_in_day barge_to_aug29 scenario5 /\
  (fmap row_clearance (redate_clearances barge_to_aug29 scenario5 !! 4) ≫= id) ≫= mv_date
    = Some (civil_days 2023 8 29) /\
  clearance_pairs (redate_clearances barge_to_aug29 scenario5) = [mkPair "TB_CLR_1" 3 4 SINGLE].
Proof.
  assert (H : codes_in_day barge_to_aug29 scenario5).
  { intros i r m x Hr Hm Hx. unfold NS_PER_DAY.
    destruct i as [|[|[|[|[|[|i]]]]]]; vm_compute in Hr; try discriminate;
      injection Hr as <-; vm_compute in Hm; try discriminate; injection Hm as <-;
      vm_compute in Hx; injection Hx as <-; unfold barge_to_aug29; simpl; lia. }
  split; [exact H|]. split; [vm_compute; reflexivity|].
  rewrite (clearance_pairs_date_blind barge_to_aug29 scenario5 H). vm_compute. reflexivity.
Defined.

End TugBarge.
