(* ===== verification/VoyRecid.v ===== *)
(** * Export port-call grouping: [create_export_portcall_voy_recid_v1.0.0.py]

    The script groups the preprocessed Panjiva export records by port call
    and names each group with a [VOY_RECID]:
    - line 71: the key [Vessel|Port of Lading|Shipment Date|Carrier] of
      every record, each cell through [astype(str)] (NaN becomes ['nan']);
    - lines 79-85: the distinct keys in order of first appearance, the
      [i]-th one named [VOY_EXP_{i+1:07d}], and every record's id looked up;
    - lines 92-117: one output row per id, in the sorted order of the ids
      ([groupby] sorts its keys): the first non-null [Vessel], [Port of
      Lading], [Shipment Date], [Carrier] and [Shipper], the sum of [Tons]
      (NaN counted as 0), and the sorted distinct stripped [Group] and
      [Commodity] values joined by [', '].

    Tons are integers here (exact arithmetic); the rounding of a float sum
    is not modelled.  The input file is taken to have the [Group] and
    [Commodity] columns the optional branches of lines 99-115 test for. *)

From S2P Require Import Prelude Normalize Format.
From Stdlib Require Import Ascii.
Import Normalize Format.

Module VoyRecid.

(** A row of [panjiva_exports_2023_PREPROCESSED_*.csv]. *)
Record ExportRecord := mkExportRecord {
  ex_vessel : option string;     (** [Vessel] *)
  ex_port : option string;       (** [Port of Lading] *)
  ex_date : option string;       (** [Shipment Date], as the CSV text *)
  ex_carrier : option string;    (** [Carrier] *)
  ex_shipper : option string;    (** [Shipper] *)
  ex_tons : option Z;            (** [Tons] *)
  ex_group : option string;      (** [Group] *)
  ex_commodity : option string;  (** [Commodity] *)
}.

(** [series.astype(str)] on a text cell. *)
Definition py_str (o : option string) : string :=
  match o with
  | Some s => s
  | None => "nan"
  end.

(** Lines 71-76. *)
Definition groupkey (r : ExportRecord) : string :=
  py_str (ex_vessel r) +:+ "|" +:+ py_str (ex_port r) +:+ "|" +:+
  py_str (ex_date r) +:+ "|" +:+ py_str (ex_carrier r).

(** [Series.unique()]: distinct values in order of first appearance. *)
Fixpoint py_unique_go (seen : list string) (l : list string) : list string :=
  match l with
  | [] => []
  | x :: l' =>
      if bool_decide (x ∈ seen) then py_unique_go seen l'
      else x :: py_unique_go (x :: seen) l'
  end.

Definition py_unique (l : list string) : list string := py_unique_go [] l.

(** [f"VOY_EXP_{i+1:07d}"]; for a non-negative integer the [07d] format
    pads like [zfill(7)]. *)
Definition voy_recid (i : nat) : string :=
  "VOY_EXP_" +:+ zfill 7 (int_str (Z.of_nat (S i))).

(** [group_to_recid[key]], line 84. *)
Definition recid_of (groups : list string) (k : string) : option string :=
  (fun ix => voy_recid ix.1) <$> list_find (fun g => g = k) groups.

(** Lines 79-85: the [VOY_RECID] column. *)
Definition assign_recids (df : list ExportRecord) : list (option string) :=
  let groups := py_unique (map groupkey df) in
  map (fun r => recid_of groups (groupkey r)) df.

(** ** Aggregation, lines 92-117 *)

(** Python's [<] on strings: code points, lexicographically. *)
Fixpoint chars_ltb (a b : list Ascii.ascii) : bool :=
  match a, b with
  | [], [] => false
  | [], _ :: _ => true
  | _ :: _, [] => false
  | x :: a', y :: b' =>
      if Nat.ltb (code x) (code y) then true
      else if Nat.eqb (code x) (code y) then chars_ltb a' b' else false
  end.

Definition py_str_lt (s t : string) : bool :=
  chars_ltb (String.list_ascii_of_string s) (String.list_ascii_of_string t).

(** [sorted(...)] by insertion. *)
Fixpoint insert_sorted (x : string) (l : list string) : list string :=
  match l with
  | [] => [x]
  | y :: l' => if py_str_lt x y then x :: l else y :: insert_sorted x l'
  end.

Definition py_sorted (l : list string) : list string := foldr insert_sorted [] l.

(** [', '.join(...)] *)
Fixpoint join_comma (l : list string) : string :=
  match l with
  | [] => ""
  | [x] => x
  | x :: l' => x +:+ ", " +:+ join_comma l'
  end.

Definition strip_str (s : string) : string :=
  String.string_of_list_ascii (py_strip (String.list_ascii_of_string s)).

(** [concat_unique], lines 92-96. *)
Definition concat_unique (series : list (option string)) : string :=
  let values := py_unique (omap id series) in
  let values := map strip_str
    (List.filter (fun v => negb (bool_decide (strip_str v = "")) &&
                           negb (bool_decide (v = "nan"))) values) in
  match values with
  | [] => ""
  | _ => join_comma (py_sorted (py_unique values))
  end.

(** [agg 'first']: the first non-null value of the group. *)
Definition py_first {A} (l : list (option A)) : option A := head (omap id l).

(** [agg 'sum'], NaN skipped. *)
Definition py_sum (l : list (option Z)) : Z := foldr (fun o acc => default 0 o + acc)%Z 0%Z l.

(** A row of [df_portcall] after the renaming of lines 120-123. *)
Record PortCallExport := mkPortCallExport {
  pc_recid : string;
  pc_vessel : option string;
  pc_port_of_lading : option string;
  pc_shipment_date : option string;
  pc_carrier : option string;
  pc_shipper : option string;
  pc_total_tons : Z;
  pc_group_concat : string;
  pc_commodity_concat : string;
}.

(** The rows of one group, in frame order. *)
Definition group_rows (df : list ExportRecord) (ids : list (option string)) (g : string)
    : list ExportRecord :=
  (zip df ids) ≫= fun ri => if bool_decide (ri.2 = Some g) then [ri.1] else [].

Definition aggregate (g : string) (rows : list ExportRecord) : PortCallExport :=
  mkPortCallExport g
    (py_first (map ex_vessel rows)) (py_first (map ex_port rows))
    (py_first (map ex_date rows)) (py_first (map ex_carrier rows))
    (py_first (map ex_shipper rows)) (py_sum (map ex_tons rows))
    (concat_unique (map ex_group rows)) (concat_unique (map ex_commodity rows)).

(** [df.groupby('VOY_RECID').agg(agg_dict).reset_index()]: one row per id,
    ids in sorted order. *)
Definition portcall_table (df : list ExportRecord) : list PortCallExport :=
  let ids := assign_recids df in
  map (fun g => aggregate g (group_rows df ids g)) (py_sorted (py_unique (omap id ids))).

(** The quality check of lines 167-172: [df['VOY_RECID'].isna().sum()]. *)
Definition missing_voy (df : list ExportRecord) : nat :=
  length (List.filter (fun o => bool_decide (o = None)) (assign_recids df)).

(** ** Ids *)

Lemma py_unique_go_elem seen l x : x ∈ py_unique_go seen l <-> x ∈ l /\ x ∉ seen.
Proof.
  revert seen. induction l as [|y l IH]; intros seen; simpl; [set_solver|].
  case_bool_decide as Hy.
  - rewrite IH, elem_of_cons. split; [tauto|]. intros [[->|?] ?]; tauto.
  - rewrite elem_of_cons, IH, not_elem_of_cons, elem_of_cons.
    split; [intros [->|(? & ? & ?)]; tauto|].
    intros [[->|?] ?]; [by left|]. destruct (decide (x = y)); [by left|]. right. tauto.
Qed.

Lemma py_unique_go_nodup seen l : NoDup (py_unique_go seen l).
Proof.
  revert seen. induction l as [|y l IH]; intros seen; simpl; [constructor|].
  case_bool_decide; [done|]. constructor; [|done].
  rewrite py_unique_go_elem. set_solver.
Qed.

Lemma py_unique_elem l x : x ∈ py_unique l <-> x ∈ l.
Proof. unfold py_unique. rewrite py_unique_go_elem. set_solver. Qed.

Lemma voy_recid_inj i j : voy_recid i = voy_recid j -> i = j.
Proof. unfold voy_recid. intros Heq%(inj (String.app _))%zfill_int_str_inj. lia. Qed.

(** The id of a key is named after the key's position among the groups. *)
Lemma recid_of_elem groups k :
  k ∈ groups -> exists i, recid_of groups k = Some (voy_recid i) /\ groups !! i = Some k.
Proof.
  intros Hk. unfold recid_of.
  destruct (list_find_elem_of (fun g => g = k) groups k Hk eq_refl) as [[i g] Hf].
  rewrite Hf. apply list_find_Some in Hf as (Hi & -> & _). eauto.
Qed.

(** The key of every record is one of the groups of line 79. *)
Lemma groupkey_in_groups df r : r ∈ df -> groupkey r ∈ py_unique (map groupkey df).
Proof. intros Hr. rewrite py_unique_elem. by apply list_elem_of_fmap_2. Qed.

Lemma assign_recids_lookup df i r :
  df !! i = Some r ->
  exists j, assign_recids df !! i = Some (Some (voy_recid j)) /\
    py_unique (map groupkey df) !! j = Some (groupkey r).
Proof.
  intros Hr. unfold assign_recids. rewrite map_as_fmap, list_lookup_fmap, Hr. simpl.
  destruct (recid_of_elem _ _ (groupkey_in_groups df r (list_elem_of_lookup_2 _ _ _ Hr)))
    as (j & -> & Hj). eauto.
Qed.

(** C23: every record gets a [VOY_RECID] (the quality check of lines
    167-172 never fires), and two records get the same id exactly when their
    keys of line 71 are equal. *)
Theorem assign_recids_same_iff_key df i j r r' :
  df !! i = Some r -> df !! j = Some r' ->
  is_Some (mjoin (assign_recids df !! i)) /\
  (assign_recids df !! i = assign_recids df !! j <-> groupkey r = groupkey r').
Proof.
  intros Hr Hr'.
  destruct (assign_recids_lookup df i r Hr) as (a & -> & Ha).
  destruct (assign_recids_lookup df j r' Hr') as (b & -> & Hb).
  split; [by eexists|]. split.
  - intros Hab. apply (inj Some), (inj Some), voy_recid_inj in Hab. subst. congruence.
  - intros Hk. rewrite Hk in Ha. f_equal. f_equal. f_equal.
    eapply NoDup_lookup; [apply py_unique_go_nodup|done|done].
Qed.

(** The check of lines 167-172 always reports [[OK]]. *)
Lemma missing_voy_zero df : missing_voy df = 0.
Proof.
  unfold missing_voy. rewrite filter_false_all; [done|].
  apply Forall_forall. intros o Hin. apply list_elem_of_lookup in Hin as (i & Hi).
  destruct (lookup_lt_is_Some_2 df i) as [r Hr].
  { apply lookup_lt_Some in Hi. unfold assign_recids in Hi. by rewrite length_map in Hi. }
  destruct (assign_recids_lookup df i r Hr) as (j & Hj & _). rewrite Hi in Hj. simplify_eq.
  by apply bool_decide_eq_false_2.
Qed.

(** ** Tonnage *)

Lemma insert_sorted_perm x l : insert_sorted x l ≡ₚ x :: l.
Proof.
  induction l as [|y l IH]; simpl; [done|].
  destruct (py_str_lt x y); [done|]. rewrite IH. constructor.
Qed.

(** [sorted] permutes its argument. *)
Lemma py_sorted_perm l : py_sorted l ≡ₚ l.
Proof. induction l as [|x l IH]; simpl; [done|]. by rewrite insert_sorted_perm, IH. Qed.

Lemma py_sum_sum_Z l : py_sum l = sum_Z (fun o => default 0 o)%Z l.
Proof. done. Qed.

Lemma tons_of_groups (G : list string) df ids :
  length df = length ids -> NoDup G ->
  Forall (fun o => exists k, o = Some k /\ k ∈ G) ids ->
  sum_Z (fun g => py_sum (map ex_tons (group_rows df ids g))) G = py_sum (map ex_tons df).
Proof.
  intros Hlen HG. revert ids Hlen. induction df as [|r df IH]; intros [|o ids] Hlen Hids;
    simpl in Hlen; try lia.
  { unfold group_rows. simpl. clear. induction G; simpl; lia. }
  apply Forall_cons in Hids as [(k & -> & Hk) Hids].
  rewrite (sum_Z_ext _ (fun g => (if bool_decide (k = g) then default 0 (ex_tons r) else 0)
                                 + py_sum (map ex_tons (group_rows df ids g)))%Z).
  - rewrite sum_Z_plus, IH, sum_Z_indicator by (lia || done). done.
  - intros g _. unfold group_rows. simpl.
    case_bool_decide as Hg; [rewrite bool_decide_eq_true_2 by congruence|
      rewrite bool_decide_eq_false_2 by congruence]; done.
Qed.

(** No tonnage is lost or counted twice: the [Total_Tons] of the port
    calls add up to the [Tons] of the export records (NaN counted as 0). *)
Theorem portcall_table_tons df :
  sum_Z pc_total_tons (portcall_table df) = py_sum (map ex_tons df).
Proof.
  unfold portcall_table. set (ids := assign_recids df).
  rewrite sum_Z_map. cbn [pc_total_tons aggregate]. rewrite py_sorted_perm.
  apply tons_of_groups.
  - unfold ids, assign_recids. by rewrite length_map.
  - apply py_unique_go_nodup.
  - apply Forall_forall. intros o (i & Hi)%list_elem_of_lookup.
    unfold ids in Hi. destruct (lookup_lt_is_Some_2 df i) as [r Hr].
    { apply lookup_lt_Some in Hi. unfold assign_recids in Hi. by rewrite length_map in Hi. }
    destruct (assign_recids_lookup df i r Hr) as (j & Hj & _). rewrite Hi in Hj. simplify_eq.
    eexists. split; [done|]. rewrite py_unique_elem.
    apply list_elem_of_omap. exists (Some (voy_recid j)). split; [|done].
    by apply list_elem_of_lookup_2 with i.
Qed.

(** ** What the key confuses *)

Definition rec_AB_C : ExportRecord :=
  mkExportRecord (Some "A|B") (Some "C") (Some "2023-01-05") (Some "K") None (Some 7%Z) None None.
Definition rec_A_BC : ExportRecord :=
  mkExportRecord (Some "A") (Some "B|C") (Some "2023-01-05") (Some "K") None (Some 9%Z) None None.
Definition rec_nan : ExportRecord :=
  mkExportRecord None (Some "P") (Some "2023-01-05") (Some "K") None (Some 1%Z) None None.
Definition rec_text_nan : ExportRecord :=
  mkExportRecord (Some "nan") (Some "P") (Some "2023-01-05") (Some "K") None (Some 2%Z) None None.

(** The key of line 71 joins the cells with ['|'] and renders NaN as
    ['nan'], so records of different vessels and ports share a
    [VOY_RECID] and are merged into one port call: vessel ["A|B"] at port
    ["C"] with vessel ["A"] at port ["B|C"], and a missing vessel name with
    the vessel named ["nan"]. *)
Theorem voy_recid_key_collision :
  assign_recids [rec_AB_C; rec_A_BC] = [Some "VOY_EXP_0000001"; Some "VOY_EXP_0000001"] /\
  length (portcall_table [rec_AB_C; rec_A_BC]) = 1 /\
  assign_recids [rec_nan; rec_text_nan] = [Some "VOY_EXP_0000001"; Some "VOY_EXP_0000001"].
Proof. split_and!; vm_compute; reflexivity. Qed.

(** From the ten-millionth port call on, the ids outgrow seven digits and
    [groupby]'s string order no longer follows their numbers:
    [VOY_EXP_10000000] sorts before [VOY_EXP_9999999]. *)
Lemma voy_recid_order_after_ten_million :
  py_str_lt (voy_recid 9999999) (voy_recid 9999998) = true.
Proof. vm_compute. reflexivity. Qed.

Lemma assign_recids_same_iff_key_witness :
  is_Some (mjoin (assign_recids [rec_AB_C; rec_nan] !! 0)) /\
  (assign_recids [rec_AB_C; rec_nan] !! 0 = assign_recids [rec_AB_C; rec_nan] !! 1 <->
   groupkey rec_AB_C = groupkey rec_nan).
Proof. apply assign_recids_same_iff_key; reflexivity. Defined.

End VoyRecid.
