(* ===== verification/VoyRecidRun.v ===== *)
(** * The export port-call script as a run:
      [create_export_portcall_voy_recid_v1.0.0.py], lines 54-172

    [VoyRecid] models the key, the ids and the aggregation.  This file
    models the script around them:
    - the check of the grouping columns, lines 54-68, which prints the
      missing ones and exits;
    - the consolidation ratio of line 128, [len(df) / len(df_portcall)]
      on two Python ints, which raises [ZeroDivisionError] on an input
      without rows, before the save of line 133;
    - the summary of lines 136-172: the counts, the total tonnage, the
      quality check, and the two rankings of lines 150-160.
    A ranking is [groupby(col)['Total_Tons'].sum()] (NaN keys dropped,
    keys sorted), then [sort_values(ascending=False).head(10)].  pandas'
    default sort is not stable, so the order of equal tonnages is not
    determined: the ranking is specified by a relation ([top_spec]), which
    the [merge_sort] of [top_desc] refines.  The mean and median
    and the sample print are not modelled. *)

From Stdlib Require Import QArith.
From S2P Require Import Prelude Normalize Format VoyRecid.
From stdpp Require Import sorting.
Import VoyRecid.

Module VoyRecidRun.

(** ** The grouping columns, lines 54-68 *)

Definition GROUP_COLS : list string := ["Vessel"; "Port of Lading"; "Shipment Date"; "Carrier"].

(** [[col for col in GROUP_COLS if col not in df.columns]] *)
Definition missing_cols (cols : list string) : list string :=
  List.filter (fun c => negb (bool_decide (c ∈ cols))) GROUP_COLS.

(** ** The rankings, lines 150-160 *)

(** [df_portcall.groupby(col)['Total_Tons'].sum()]: one entry per key,
    NaN keys dropped, keys in sorted order. *)
Definition group_tons (key : PortCallExport -> option string) (pcs : list PortCallExport) (k : string)
    : Z :=
  sum_Z pc_total_tons (List.filter (fun p => bool_decide (key p = Some k)) pcs).

Definition tons_by (key : PortCallExport -> option string) (pcs : list PortCallExport)
    : list (string * Z) :=
  (fun k => (k, group_tons key pcs k)) <$> py_sorted (py_unique (omap key pcs)).

(** [.head(10)] *)
Definition TOP_N : nat := 10.

(** [sort_values(ascending=False)]: a reordering by decreasing tonnage,
    ties in any order. *)
Definition sorted_desc (l s : list (string * Z)) : Prop :=
  s ≡ₚ l /\ Sorted (fun a b => (b.2 <= a.2)%Z) s.

(** What the loops of lines 153 and 158 may print. *)
Definition top_spec (l out : list (string * Z)) : Prop :=
  exists s, sorted_desc l s /\ out = take TOP_N s.

Definition desc_le (a b : string * Z) : Prop := (b.2 <= a.2)%Z.

#[export] Instance desc_le_dec : RelDecision desc_le.
Proof. intros a b. unfold desc_le. apply _. Defined.

(** One admissible ranking, by stdpp's merge sort. *)
Definition top_desc (l : list (string * Z)) : list (string * Z) :=
  take TOP_N (merge_sort desc_le l).

(** ** The run *)

Record VoyRun := mkVoyRun {
  vr_table : list PortCallExport;      (** [df_portcall], saved at line 133 *)
  vr_records : nat;                    (** [len(df)] *)
  vr_portcalls : nat;                  (** [len(df_portcall)] *)
  vr_ratio : Q;                        (** [avg_records], line 128 *)
  vr_total_tons : Z;                   (** [df_portcall['Total_Tons'].sum()] *)
  vr_port_tons : list (string * Z);    (** the grouping of line 152 *)
  vr_carrier_tons : list (string * Z); (** the grouping of line 157 *)
  vr_missing_voy : nat;                (** line 168 *)
}.

Inductive VoyOutcome :=
  | MissingColumns (cols : list string)  (** [exit(1)] of line 68 *)
  | EmptyInput                           (** [ZeroDivisionError] of line 128 *)
  | Written (r : VoyRun).

(** Lines 54-172 on the columns and rows of the file read. *)
Definition voy_run (cols : list string) (df : list ExportRecord) : VoyOutcome :=
  match missing_cols cols with
  | _ :: _ => MissingColumns (missing_cols cols)
  | [] =>
      let pcs := portcall_table df in
      if bool_decide (pcs = []) then EmptyInput
      else Written (mkVoyRun pcs (length df) (length pcs)
                     (inject_Z (Z.of_nat (length df)) / inject_Z (Z.of_nat (length pcs)))
                     (sum_Z pc_total_tons pcs)
                     (tons_by pc_port_of_lading pcs) (tons_by pc_carrier pcs)
                     (missing_voy df))
  end.

(** ** The rankings *)

#[local] Instance desc_le_trans : Transitive desc_le.
Proof. intros a b c. unfold desc_le. lia. Qed.

#[local] Instance desc_le_total : Total desc_le.
Proof. intros a b. unfold desc_le. lia. Qed.

(** A top-10 of a list: every admissible result of
    [sort_values(ascending=False).head(10)] lists [min(10, n)] of the [n]
    entries, and no entry left out has more tonnage than an entry listed.
    The merge sort [top_desc] is one of the admissible results. *)
Theorem top_ranking l :
  top_spec l (top_desc l) /\
  forall out, top_spec l out ->
    length out = Nat.min TOP_N (length l) /\
    (forall x y, x ∈ out -> y ∈ l -> y ∉ out -> (y.2 <= x.2)%Z).
Proof.
  split.
  { exists (merge_sort desc_le l). split; [|done].
    split; [apply merge_sort_Permutation|apply Sorted_merge_sort, _]. }
  intros out (s & [Hp Hs] & ->). split.
  - by rewrite length_take, (Permutation_length Hp).
  - intros x y Hx Hy Hny. rewrite <- Hp, <- (take_drop TOP_N s), elem_of_app in Hy.
    destruct Hy as [Hy|Hy]; [contradiction|].
    apply (StronglySorted_app_1_elem_of desc_le (take TOP_N s) (drop TOP_N s)); [|done|done].
    rewrite take_drop. apply (Sorted_StronglySorted desc_le). exact Hs.
Qed.

(** ** The run *)

Lemma py_unique_go_length seen l : length (py_unique_go seen l) <= length l.
Proof.
  revert seen. induction l as [|x l IH]; intros seen; simpl; [lia|].
  case_bool_decide; simpl; [specialize (IH seen)|specialize (IH (x :: seen))]; lia.
Qed.

Lemma portcall_table_length df : length (portcall_table df) <= length df.
Proof.
  unfold portcall_table. rewrite length_map, py_sorted_perm.
  etrans; [apply py_unique_go_length|]. etrans; [apply length_omap_le|].
  unfold assign_recids. by rewrite length_map.
Qed.

Lemma portcall_table_nil df : portcall_table df = [] <-> df = [].
Proof.
  split; [|by intros ->]. intros Hpc. destruct df as [|r df]; [done|exfalso].
  destruct (assign_recids_lookup (r :: df) 0 r eq_refl) as (j & Hj & _).
  assert (Hin : voy_recid j ∈ py_sorted (py_unique (omap id (assign_recids (r :: df))))).
  { rewrite py_sorted_perm, py_unique_elem. apply list_elem_of_omap.
    exists (Some (voy_recid j)). split; [|done]. by apply list_elem_of_lookup_2 with 0. }
  unfold portcall_table in Hpc. apply map_eq_nil in Hpc. rewrite Hpc in Hin.
  by apply not_elem_of_nil in Hin.
Qed.

(** A ranking key is a value the column holds: [groupby] drops NaN. *)
Lemma tons_by_keys key pcs k t :
  (k, t) ∈ tons_by key pcs -> exists p, p ∈ pcs /\ key p = Some k.
Proof.
  unfold tons_by. intros (k' & [= <- _] & Hk)%list_elem_of_fmap.
  rewrite py_sorted_perm, py_unique_elem in Hk.
  apply list_elem_of_omap in Hk as (p & Hp & Hkey). eauto.
Qed.

Lemma ratio_ge_1 (a b : nat) : 0 < b <= a -> (1 <= inject_Z (Z.of_nat a) / inject_Z (Z.of_nat b))%Q.
Proof.
  intros Hab. apply Qle_shift_div_l.
  - change 0%Q with (inject_Z 0). rewrite <- Zlt_Qlt. lia.
  - rewrite Qmult_1_l, <- Zle_Qle. lia.
Qed.


(** ** Concrete runs *)


(** ** The rankings of the run *)

(** A ranking of the groups of [key] the run may print: [min(10, n)] of
    the [n] distinct values, each with the total tonnage of its port calls,
    and no value left out with a larger total than one printed. *)
Definition printed_ranking (key : PortCallExport -> option string) (pcs : list PortCallExport)
    (out : list (string * Z)) : Prop :=
  length out = Nat.min TOP_N (length (py_unique (omap key pcs))) /\
  (forall k t, (k, t) ∈ out -> t = group_tons key pcs k /\ exists p, p ∈ pcs /\ key p = Some k) /\
  (forall k t p k', (k, t) ∈ out -> p ∈ pcs -> key p = Some k' -> k' ∉ out.*1 ->
     (group_tons key pcs k' <= t)%Z).

Lemma tons_by_spec key pcs k t :
  (k, t) ∈ tons_by key pcs <-> t = group_tons key pcs k /\ exists p, p ∈ pcs /\ key p = Some k.
Proof.
  unfold tons_by. rewrite list_elem_of_fmap. split.
  - intros (k' & [= <- ->] & Hk). split; [done|].
    rewrite py_sorted_perm, py_unique_elem in Hk.
    apply list_elem_of_omap in Hk as (p & Hp & Hkey). eauto.
  - intros [-> (p & Hp & Hkey)]. exists k. split; [done|].
    rewrite py_sorted_perm, py_unique_elem. apply list_elem_of_omap. eauto.
Qed.

Lemma top_spec_printed key pcs out :
  top_spec (tons_by key pcs) out -> printed_ranking key pcs out.
Proof.
  intros Hs. destruct (proj2 (top_ranking (tons_by key pcs)) out Hs) as [Hlen Hmax].
  destruct Hs as (s & [Hp _] & ->).
  assert (Hin : forall x, x ∈ take TOP_N s -> x ∈ tons_by key pcs).
  { intros x Hx. rewrite <- Hp, <- (take_drop TOP_N s), elem_of_app. by left. }
  split_and!.
  - rewrite Hlen. unfold tons_by. by rewrite length_fmap, py_sorted_perm.
  - intros k t Hx. by apply tons_by_spec, Hin.
  - intros k t p k' Hx Hpc Hk' Hn. apply (Hmax (k, t) (k', group_tons key pcs k') Hx).
    + apply tons_by_spec. eauto.
    + intros Hy. apply Hn. by apply list_elem_of_fmap_2 with (f := fst) in Hy.
Qed.



End VoyRecidRun.
