(* ===== verification/Transform.v ===== *)
(** * The USACE transforms: [transform_usace_entrance_data_v2.1.0.py] and
    [transform_usace_clearance_data_v2.0.0.py]

    Both scripts clean one raw USACE file row by row:
    - they build Python dicts from dictionary files (port codes, the US port
      statistics, the Sked K foreign ports, the ships register by IMO and by
      normalised name, the cargo classes, and the agency fees of the
      entrance script); a later dictionary row overwrites an earlier one
      with the same key ([build_dict]);
    - they render the numeric code columns with [str(int(x))], [''] for
      NaN ([code_text]);
    - they replace the codes of [TYPEDOC], [PWW_IND] and [WHERE_IND];
    - they look the port codes up ([port_lookup]);
    - they match every vessel to the register, by IMO first and by name
      second, and convert the register draft to feet ([match_vessel]);
    - they compute the draft as a share of the register draft and forecast
      [Discharge] above 50%, [Load] otherwise ([draft_calc]);
    - they look the cargo class (and, at the entrance, the agency fee) up
      by [ICST_DESC], and number the rows [RECID = 1..n].

    Python floats are modelled by [PyFloat]: an exact rational or NaN.
    [float(s)] is modelled on plain decimal text ([py_float]); exponent
    notation and infinities, which the register's columns do not hold,
    are not.  The [.2f]/[.1f] formatting is modelled as the rounding
    [round_dec] of the exact value (half to even); the rounding of the
    binary double is not.  The clearance script's counters, error path,
    summary and save are modelled in [TransformRun.v]. *)

From S2P Require Import Prelude Normalize Format VoyRecid.
From Stdlib Require Import Ascii QArith Lqa.
Import Normalize Format VoyRecid.

Module Transform.

(** ** Python values *)

(** A cell of a column pandas reads without a fixed type. *)
Inductive Cell := CStr (s : string) | CNum (z : Z) | CNaN.

#[export] Instance Cell_eq_dec : EqDecision Cell.
Proof. solve_decision. Defined.

(** A Python float: an exact rational, or NaN. *)
Inductive PyFloat := FNum (q : Q) | FNaN.

(** [str(cell).strip()] of a text cell ([row.get(col, '')]). *)
Definition cell_text (o : option string) : string := strip_str (py_str o).

(** [str.upper()] *)
Definition upper_str (s : string) : string :=
  String.string_of_list_ascii (map py_upper_char (String.list_ascii_of_string s)).

(** ** Python dicts built row by row: [d[key] = value] *)

Definition build_dict {V} (rows : list (string * V)) : gmap string V :=
  fold_left (fun m kv => <[kv.1 := kv.2]> m) rows ∅.

(** [d.get(key, default)] *)
Definition dict_get {V} (d : gmap string V) (k : string) (dflt : V) : V := default dflt (d !! k).

(** ** The dictionary files *)

(** A row of [01_ships_register.csv] (read with [dtype=str]). *)
Record ShipRow := mkShipRow {
  sh_imo : option string;
  sh_vessel : option string;
  sh_type : option string;
  sh_dwt : option string;
  sh_grain : option string;
  sh_tpc : option string;
  sh_draft_m : option string;   (** [Dwt_Draft(m)] *)
}.

(** The vessel specification a register row contributes. *)
Record Specs := mkSpecs {
  sp_type : string; sp_dwt : string; sp_grain : string; sp_tpc : string; sp_draft_m : string;
}.

Definition specs_of (r : ShipRow) : Specs :=
  mkSpecs (cell_text (sh_type r)) (cell_text (sh_dwt r)) (cell_text (sh_grain r))
    (cell_text (sh_tpc r)) (cell_text (sh_draft_m r)).

(** [imo_lookup], entrance lines 69-79 (clearance 61-70): rows whose IMO
    text is neither empty nor ['nan']. *)
Definition imo_lookup (ships : list ShipRow) : gmap string Specs :=
  build_dict (omap (fun r => let imo := cell_text (sh_imo r) in
                             if bool_decide (imo <> "" /\ imo <> "nan")
                             then Some (imo, specs_of r) else None) ships).

(** [name_lookup], entrance lines 90-100: [normalize_name] of the raw cell. *)
Definition name_lookup (ships : list ShipRow) : gmap string Specs :=
  build_dict (omap (fun r => let v := normalize_name (sh_vessel r) in
                             if bool_decide (v <> "") then Some (v, specs_of r) else None) ships).

(** [vessel_lookup], clearance lines 84-95: [normalize_vessel_name] of
    [str(row.get('Vessel', '')).strip()], so a missing name is the text
    ['nan']. *)
Definition vessel_lookup (ships : list ShipRow) : gmap string Specs :=
  build_dict (omap (fun r => let v := normalize_vessel_name (Some (cell_text (sh_vessel r))) in
                             if bool_decide (v <> "") then Some (v, specs_of r) else None) ships).

(** [usace_port_lookup] (lines 34-38), [foreign_port_lookup] (lines 54-61),
    [us_port_lookup] (lines 42-50), [cargo_class_lookup] (lines 105-112),
    [agency_fee_lookup] (lines 117-121): one key column and value columns. *)
Definition text_dict (rows : list (option string * option string)) : gmap string string :=
  build_dict (map (fun kv => (cell_text kv.1, cell_text kv.2)) rows).

Definition text_dict_upper (rows : list (option string * option string)) : gmap string string :=
  build_dict (map (fun kv => (upper_str (cell_text kv.1), cell_text kv.2)) rows).

Record PortStats := mkPortStats { ps_consolidated : string; ps_coast : string; ps_region : string }.
Record ForeignPort := mkForeignPort { fp_port : string; fp_country : string }.
Record CargoClass := mkCargoClass { cc_group : string; cc_commodity : string }.

Definition us_port_dict (rows : list (option string * (option string * option string * option string)))
    : gmap string PortStats :=
  build_dict (map (fun r => (cell_text r.1,
    mkPortStats (cell_text r.2.1.1) (cell_text r.2.1.2) (cell_text r.2.2))) rows).

Definition foreign_port_dict (rows : list (option string * (option string * option string)))
    : gmap string ForeignPort :=
  build_dict (map (fun r => (cell_text r.1, mkForeignPort (cell_text r.2.1) (cell_text r.2.2))) rows).

Definition cargo_class_dict (rows : list (option string * (option string * option string)))
    : gmap string CargoClass :=
  build_dict (map (fun r => (upper_str (cell_text r.1),
    mkCargoClass (cell_text r.2.1) (cell_text r.2.2))) rows).

(** ** Column conversions *)

(** Line 144: [str(int(x)) if pd.notna(x) and x != '' else '']. *)
Definition code_text (x : option Z) : string :=
  match x with
  | Some z => int_str z
  | None => ""
  end.

(** Line 154: [{0: 'Imports', 1: 'Exports', '0': 'Imports', '1': 'Exports'}]. *)
Definition replace_typedoc (c : Cell) : Cell :=
  match c with
  | CNum 0 | CStr "0" => CStr "Imports"
  | CNum 1 | CStr "1" => CStr "Exports"
  | c => c
  end.

(** Lines 159 and 164: [Series.replace] with a two-entry dict. *)
Definition replace2 (k1 v1 k2 v2 : string) (o : option string) : option string :=
  match o with
  | Some s => if bool_decide (s = k1) then Some v1 else if bool_decide (s = k2) then Some v2 else o
  | None => None
  end.

Definition replace_pww : option string -> option string := replace2 "P" "Port" "W" "Waterway".
Definition replace_where_ind : option string -> option string :=
  replace2 "F" "Foreign" "D" "Coastwise".

(** Lines 175-210: [lookup.get(str(x), '') if pd.notna(x) and x != '' else ''];
    the code columns are text by now. *)
Definition port_lookup {V} (d : gmap string V) (dflt : V) (code : string) : V :=
  if bool_decide (code = "") then dflt else dict_get d code dflt.

(** ** [float(s)] and the [.Nf] formats *)

Definition qlt (a b : Q) : bool := negb (Qle_bool b a).

Fixpoint take_digits (l : list Ascii.ascii) : list Ascii.ascii :=
  match l with
  | c :: l' => if is_digit c then c :: take_digits l' else []
  | [] => []
  end.

Definition digits_Z (l : list Ascii.ascii) : Z := default 0%Z (digits_val 0 l).

(** [float(s)] on decimal text: sign, digits, an optional fraction, or
    [nan] in any case.  [None] where Python raises [ValueError]. *)
Definition py_float_chars (l0 : list Ascii.ascii) : option PyFloat :=
  let l := py_strip l0 in
  let '(neg, body) := match l with
                      | "-"%char :: b => (true, b)
                      | "+"%char :: b => (false, b)
                      | _ => (false, l)
                      end in
  let sgn (q : Q) := if neg then Qopp q else q in
  if bool_decide (map py_lower_char body = ["n"; "a"; "n"]%char) then Some FNaN else
  let ip := take_digits body in
  match drop (length ip) body with
  | [] => if bool_decide (ip = []) then None else Some (FNum (sgn (inject_Z (digits_Z ip))))
  | "."%char :: fr =>
      if forallb is_digit fr && negb (bool_decide (ip = [] /\ fr = []))
      then Some (FNum (sgn (inject_Z (digits_Z ip) + (digits_Z fr # Z.to_pos (10 ^ Z.of_nat (length fr))))))
      else None
  | _ => None
  end.

Definition py_float (s : string) : option PyFloat := py_float_chars (String.list_ascii_of_string s).

(** [round(q * 10^k)] to the nearest integer, halves to even. *)
Definition round_half_even (q : Q) : Z :=
  let fl := (Qnum q / Zpos (Qden q))%Z in
  let r2 := (2 * (Qnum q mod Zpos (Qden q)))%Z in
  if (r2 <? Zpos (Qden q))%Z then fl
  else if (Zpos (Qden q) <? r2)%Z then (fl + 1)%Z
  else if Z.even fl then fl else (fl + 1)%Z.

(** The value [float(f"{q:.kf}")]: [q] rounded to [k] decimals. *)
Definition round_dec (k : nat) (q : Q) : Q :=
  round_half_even (q * inject_Z (10 ^ Z.of_nat k)) # Z.to_pos (10 ^ Z.of_nat k).

(** [f"{draft_m * 3.28084:.2f}"], read back by [float()] at line 297. *)
Definition feet_of (f : PyFloat) : PyFloat :=
  match f with
  | FNum q => FNum (round_dec 2 (q * (328084 # 100000)))
  | FNaN => FNaN
  end.

(** ** Vessel matching, entrance lines 229-272, clearance lines 209-264 *)

Record VesselMatch := mkVesselMatch {
  vm_specs : Specs;                 (** [Vessel_Type] ... [Vessel_Dwt_Draft_m] *)
  vm_draft_ft : option PyFloat;     (** [Vessel_Dwt_Draft_ft]; [None] is [''] *)
  vm_method : string;               (** [Vessel_Match_Method] *)
}.

Definition no_specs : Specs := mkSpecs "" "" "" "" "".
Definition unmatched_vessel : VesselMatch := mkVesselMatch no_specs None "".

(** Entrance lines 243-248: [try: float(...) * 3.28084 except: '']. *)
Definition draft_ft_entrance (sp : Specs) : option PyFloat := feet_of <$> py_float (sp_draft_m sp).

(** Clearance lines 222-229: only when the text is neither [''] nor ['0']. *)
Definition draft_ft_clearance (sp : Specs) : option PyFloat :=
  if bool_decide (sp_draft_m sp <> "" /\ sp_draft_m sp <> "0")
  then feet_of <$> py_float (sp_draft_m sp) else None.

Definition vessel_match (ft : Specs -> option PyFloat) (sp : Specs) (meth : string) : VesselMatch :=
  mkVesselMatch sp (ft sp) meth.

(** Entrance: [imo = str(row.get('IMO', '')).strip()], then the IMO
    dict; else [normalize_name] of [str(row.get('VESSNAME', '')).strip()]. *)
Definition match_vessel_entrance (imo_lk name_lk : gmap string Specs) (imo : string)
    (vessname : option string) : VesselMatch :=
  let imo := strip_str imo in
  let vessel_name := cell_text vessname in
  match (if bool_decide (imo <> "") then imo_lk !! imo else None) with
  | Some sp => vessel_match draft_ft_entrance sp "IMO"
  | None =>
      if bool_decide (vessel_name <> "") then
        match name_lk !! normalize_name (Some vessel_name) with
        | Some sp => vessel_match draft_ft_entrance sp "Name"
        | None => unmatched_vessel
        end
      else unmatched_vessel
  end.

(** Clearance: the same with the [!= 'nan'] guard on the IMO and
    [normalize_vessel_name]. *)
Definition match_vessel_clearance (imo_lk vessel_lk : gmap string Specs) (imo : string)
    (vessname : option string) : VesselMatch :=
  let imo := strip_str imo in
  let vessel_name := cell_text vessname in
  match (if bool_decide (imo <> "" /\ imo <> "nan") then imo_lk !! imo else None) with
  | Some sp => vessel_match draft_ft_clearance sp "IMO"
  | None =>
      if bool_decide (vessel_name <> "") then
        let normalized := normalize_vessel_name (Some vessel_name) in
        match (if bool_decide (normalized <> "") then vessel_lk !! normalized else None) with
        | Some sp => vessel_match draft_ft_clearance sp "Name"
        | None => unmatched_vessel
        end
      else unmatched_vessel
  end.

(** ** Draft percentage, lines 287-312 *)

(** [Draft_Pct_of_Max] (as [float(f"{pct:.1f}")]) and
    [Forecasted_Activity], or [None] when the row is left [''].  A NaN
    draft fails [max_draft > 0]. *)
Definition actual_draft (draft_ft draft_in : option Q) : Q :=
  (default 0 draft_ft + default 0 draft_in / 12)%Q.

Definition draft_calc (draft_ft draft_in : option Q) (max_ft : option PyFloat) : option (Q * string) :=
  let actual := actual_draft draft_ft draft_in in
  match max_ft with
  | Some (FNum mx) =>
      if qlt 0 mx && qlt 0 actual then
        let pct := (actual / mx * 100)%Q in
        Some (round_dec 1 pct, if qlt 50 pct then "Discharge" else "Load")
      else None
  | _ => None
  end.

(** ** Cargo class and agency fee, lines 319-339 *)

Definition icst_key (icst : option string) : string := upper_str (cell_text icst).

Definition cargo_lookup (d : gmap string CargoClass) (icst : option string) : CargoClass :=
  let k := icst_key icst in
  match (if bool_decide (k <> "") then d !! k else None) with
  | Some c => c
  | None => mkCargoClass "" ""
  end.

Definition fee_lookup (d : gmap string string) (icst : option string) : string :=
  let k := icst_key icst in
  match (if bool_decide (k <> "") then d !! k else None) with
  | Some f => f
  | None => ""
  end.

(** ** Rows *)

(** A row of the raw USACE file, as [pd.read_csv] types it: the code
    columns numeric (NaN when empty), the draft columns floats. *)
Record UsaceRow := mkUsaceRow {
  u_typedoc : Cell; u_ecdate : Cell; u_port : option Z; u_port_name : option string;
  u_pww_ind : option string; u_vessname : option string; u_imo : option Z;
  u_rig_desc : option string; u_icst_desc : option string; u_flag_ctry : option string;
  u_nrt : option Z; u_grt : option Z; u_draft_ft : option Q; u_draft_in : option Q;
  u_container : option string; u_where_ind : option string; u_where_port : option Z;
  u_where_schedk : option Z; u_where_name : option string; u_where_ctry : option string;
}.

(** The columns both scripts keep ([columns_to_keep]), in their order. *)
Record Cleaned := mkCleaned {
  c_recid : nat; c_count : nat; c_typedoc : Cell; c_date : Cell;
  c_port : string; c_port_name : option string; c_us_port_usace : string;
  c_pww_ind : option string; c_vessel : option string; c_imo : string;
  c_rig_desc : option string; c_icst_desc : option string; c_flag_ctry : option string;
  c_nrt : string; c_grt : string; c_draft_ft : option Q; c_draft_in : option Q;
  c_container : option string; c_vessel_match : VesselMatch; c_draft : option (Q * string);
  c_where_ind : option string; c_where_port : string; c_prev_us_port : string;
  c_where_schedk : string; c_prev_foreign : ForeignPort; c_where_name : option string;
  c_where_ctry : option string; c_cargo : CargoClass;
}.

(** The lookups one script builds. *)
Record Lookups := mkLookups {
  lk_usace_ports : gmap string string;
  lk_foreign_ports : gmap string ForeignPort;
  lk_cargo : gmap string CargoClass;
  lk_match : string -> option string -> VesselMatch;
}.

(** One row through the code conversion (lines 140-145), the replacements
    (150-165), the port mapping, the vessel match, the draft calculation,
    the cargo class and [RECID] ([Count] is [1]). *)
Definition clean_row (lk : Lookups) (recid : nat) (r : UsaceRow) : Cleaned :=
  let port := code_text (u_port r) in
  let imo := code_text (u_imo r) in
  let where_port := code_text (u_where_port r) in
  let where_schedk := code_text (u_where_schedk r) in
  let vm := lk_match lk imo (u_vessname r) in
  mkCleaned recid 1 (replace_typedoc (u_typedoc r)) (u_ecdate r)
    port (u_port_name r) (port_lookup (lk_usace_ports lk) "" port)
    (replace_pww (u_pww_ind r)) (u_vessname r) imo
    (u_rig_desc r) (u_icst_desc r) (u_flag_ctry r)
    (code_text (u_nrt r)) (code_text (u_grt r)) (u_draft_ft r) (u_draft_in r)
    (u_container r) vm (draft_calc (u_draft_ft r) (u_draft_in r) (vm_draft_ft vm))
    (replace_where_ind (u_where_ind r)) where_port (port_lookup (lk_usace_ports lk) "" where_port)
    where_schedk (port_lookup (lk_foreign_ports lk) (mkForeignPort "" "") where_schedk)
    (u_where_name r) (u_where_ctry r) (cargo_lookup (lk_cargo lk) (u_icst_desc r)).

(** [df['RECID'] = range(1, len(df) + 1)] *)
Definition clean_rows (lk : Lookups) (df : list UsaceRow) : list Cleaned :=
  zip_with (clean_row lk) (seq 1 (length df)) df.

(** The dictionary files both scripts read. *)
Record DictFiles := mkDictFiles {
  f_usace_ports : list (option string * option string);
  f_foreign_ports : list (option string * (option string * option string));
  f_ships : list ShipRow;
  f_cargo : list (option string * (option string * option string));
  f_us_ports : list (option string * (option string * option string * option string));
  f_agency_fees : list (option string * option string);
}.

(** [transform_clearance_data], lines 23-330. *)
Definition transform_clearance (fs : DictFiles) (df : list UsaceRow) : list Cleaned :=
  let imo_lk := imo_lookup (f_ships fs) in
  let vessel_lk := vessel_lookup (f_ships fs) in
  clean_rows (mkLookups (text_dict (f_usace_ports fs)) (foreign_port_dict (f_foreign_ports fs))
                (cargo_class_dict (f_cargo fs)) (match_vessel_clearance imo_lk vessel_lk)) df.

(** The entrance output: the shared columns and the entrance-only ones. *)
Record EntranceRow := mkEntranceRow {
  e_cleaned : Cleaned;
  e_port_stats : PortStats;        (** [Port_Consolidated], [Port_Coast], [Port_Region] *)
  e_tons : string; e_carrier_name : string;
  e_agency_fee : string; e_agency_fee_adj : string;
}.

Definition no_port_stats : PortStats := mkPortStats "" "" "".

(** [transform_entrance_data], lines 24-356: the shared pipeline with the
    entrance matcher, the US port statistics of [PORT], the agency fee of
    [ICST_DESC] and the placeholder columns. *)
Definition transform_entrance (fs : DictFiles) (df : list UsaceRow) : list EntranceRow :=
  let imo_lk := imo_lookup (f_ships fs) in
  let name_lk := name_lookup (f_ships fs) in
  let us_ports := us_port_dict (f_us_ports fs) in
  let fees := text_dict_upper (f_agency_fees fs) in
  let rows := clean_rows (mkLookups (text_dict (f_usace_ports fs))
                (foreign_port_dict (f_foreign_ports fs)) (cargo_class_dict (f_cargo fs))
                (match_vessel_entrance imo_lk name_lk)) df in
  zip_with (fun c r => mkEntranceRow c (port_lookup us_ports no_port_stats (c_port c)) "" ""
                         (fee_lookup fees (u_icst_desc r)) "") rows df.

(** ** Example data *)

(** A register row without a vessel name, and a raw clearance row
    without [VESSNAME] and [IMO]. *)
Definition nameless_ship : ShipRow :=
  mkShipRow (Some "9000001") None (Some "Tanker") None None None (Some "10").

Definition nameless_clearance : UsaceRow :=
  mkUsaceRow (CNum 1) (CNum 10523) (Some 4110%Z) None None None None None None None None None
    (Some 30%Q) None None None None None None None.

Definition example_files : DictFiles := mkDictFiles [] [] [nameless_ship] [] [] [].

(** The values the rows give one key, in row order. *)
Definition key_values {V} (k : string) (rows : list (string * V)) : list V :=
  omap (fun kv => if bool_decide (kv.1 = k) then Some kv.2 else None) rows.

(** ** Dictionaries: the last row of a key wins *)

Lemma fold_insert_lookup {V} (rows : list (string * V)) (m : gmap string V) k :
  fold_left (fun m kv => <[kv.1 := kv.2]> m) rows m !! k =
  match last (key_values k rows) with Some v => Some v | None => m !! k end.
Proof.
  revert m. induction rows as [|[k' v] rows IH]; intros m; [done|].
  cbn [fold_left]. rewrite IH. unfold key_values. simpl. case_bool_decide as Hk.
  - subst. rewrite last_cons. destruct (last _); [done|]. by rewrite lookup_insert_eq.
  - destruct (last _); [done|]. by rewrite lookup_insert_ne.
Qed.

Lemma build_dict_lookup {V} (rows : list (string * V)) k :
  build_dict rows !! k = last (key_values k rows).
Proof. unfold build_dict. rewrite fold_insert_lookup, lookup_empty. by destruct (last _). Qed.

Lemma key_values_elem {V} k (v : V) rows : (k, v) ∈ rows -> v ∈ key_values k rows.
Proof.
  intros Hin. apply list_elem_of_omap. exists (k, v). split; [done|]. simpl.
  by rewrite bool_decide_true.
Qed.

(** A key that some row carries is in the dict. *)
Lemma build_dict_is_Some {V} (rows : list (string * V)) k v :
  (k, v) ∈ rows -> is_Some (build_dict rows !! k).
Proof.
  intros Hin. rewrite build_dict_lookup, last_is_Some. intros Hnil.
  pose proof (key_values_elem k v rows Hin) as He. rewrite Hnil in He. set_solver.
Qed.

Lemma qlt_spec a b : qlt a b = true <-> (a < b)%Q.
Proof.
  unfold qlt. rewrite negb_true_iff, <- not_true_iff_false, Qle_bool_iff.
  split; [apply Qnot_le_lt | intros H1 H2; exact (Qlt_not_le _ _ H1 H2)].
Qed.

Lemma qlt_false a b : qlt a b = false <-> (b <= a)%Q.
Proof. unfold qlt. rewrite negb_false_iff. apply Qle_bool_iff. Qed.

(** ** The text of [str(int(x))] *)

Lemma int_chars_shape z :
  int_chars z <> [] /\ Forall (fun c => is_digit c || Ascii.eqb c "-" = true) (int_chars z).
Proof.
  assert (Hpos : forall p, exists ds, digits_go (Pos.size_nat p) (Zpos p) [] = ds /\ ds <> [] /\
                   Forall (fun c => is_digit c = true) ds).
  { intros p. destruct (digits_go_spec (Pos.size_nat p) (Zpos p) [])
      as (ds & Hds & Hne & Hall & _); [pose proof (size_nat_bound p); lia|].
    exists ds. by rewrite Hds, app_nil_r. }
  destruct z as [|p|p]; simpl.
  - split; [done|]. by repeat constructor.
  - destruct (Hpos p) as (ds & -> & Hne & Hall). split; [done|].
    eapply Forall_impl; [exact Hall|]. intros c ->. done.
  - destruct (Hpos p) as (ds & -> & Hne & Hall). split; [done|]. constructor; [done|].
    eapply Forall_impl; [exact Hall|]. intros c ->. done.
Qed.

Lemma strip_int_str z : strip_str (int_str z) = int_str z.
Proof.
  unfold strip_str, int_str. rewrite String.list_ascii_of_string_of_list_ascii, py_strip_nonspace; [done|].
  destruct (int_chars_shape z) as [_ Hall]. eapply Forall_impl; [exact Hall|].
  intros c [Hd | Hm]%orb_true_iff; [by apply digit_not_space|].
  apply Ascii.eqb_eq in Hm. by subst.
Qed.

(** [str(int(x))] is neither [''] nor ['nan']. *)
Lemma int_str_valid z : int_str z <> "" /\ int_str z <> "nan".
Proof.
  destruct (int_chars_shape z) as [Hne Hall]. unfold int_str.
  split; intros Heq; apply (f_equal String.list_ascii_of_string) in Heq;
    rewrite String.list_ascii_of_string_of_list_ascii in Heq; rewrite Heq in Hne, Hall; [done|].
  apply Forall_cons in Hall as [Hn _]. discriminate Hn.
Qed.

(** ** Vessel matching *)

Lemma match_vessel_clearance_imo imo_lk vessel_lk imo vn sp :
  strip_str imo <> "" -> strip_str imo <> "nan" -> imo_lk !! strip_str imo = Some sp ->
  match_vessel_clearance imo_lk vessel_lk imo vn = vessel_match draft_ft_clearance sp "IMO".
Proof. intros H1 H2 H3. unfold match_vessel_clearance. rewrite bool_decide_true by done. by rewrite H3. Qed.

(** Without an IMO match, the normalised name decides. *)
Lemma match_vessel_clearance_no_imo imo_lk vessel_lk imo vn :
  (strip_str imo = "" \/ strip_str imo = "nan" \/ imo_lk !! strip_str imo = None) ->
  match_vessel_clearance imo_lk vessel_lk imo vn =
  if bool_decide (cell_text vn <> "") then
    match (if bool_decide (normalize_vessel_name (Some (cell_text vn)) <> "")
           then vessel_lk !! normalize_vessel_name (Some (cell_text vn)) else None) with
    | Some sp => vessel_match draft_ft_clearance sp "Name"
    | None => unmatched_vessel
    end
  else unmatched_vessel.
Proof.
  intros Hno. unfold match_vessel_clearance.
  assert (Hm : (if bool_decide (strip_str imo <> "" /\ strip_str imo <> "nan")
                then imo_lk !! strip_str imo else None) = None).
  { case_bool_decide as Hb; [|done]. destruct Hb as [H1 H2]. by destruct Hno as [?|[?|?]]. }
  by rewrite Hm.
Qed.

(** A register row without a [Vessel] gives the key ['nan']. *)
Lemma vessel_lookup_nan ships r :
  r ∈ ships -> sh_vessel r = None -> is_Some (vessel_lookup ships !! "nan").
Proof.
  intros Hin Hr. apply (build_dict_is_Some _ _ (specs_of r)).
  apply list_elem_of_omap. exists r. split; [done|]. rewrite Hr. reflexivity.
Qed.

(** ** Draft percentage *)

Lemma discharge_iff m act : (0 < m)%Q -> qlt 50 (act / m * 100) = true <-> (m < 2 * act)%Q.
Proof.
  intros Hm. rewrite qlt_spec, <- (Qmult_lt_r _ _ m Hm).
  assert (Hx : (act / m * 100 * m == act * 100)%Q).
  { field. by apply Qnot_eq_sym, Qlt_not_eq. }
  rewrite Hx. split; intros; lra.
Qed.

Lemma load_iff m act : (0 < m)%Q -> qlt 50 (act / m * 100) = false <-> (2 * act <= m)%Q.
Proof.
  intros Hm. rewrite <- not_true_iff_false, discharge_iff by done.
  split; [apply Qnot_lt_le | intros H1 H2; exact (Qlt_not_le _ _ H2 H1)].
Qed.

(** ** Rows and [RECID] *)

Lemma clean_rows_lookup lk df i r :
  df !! i = Some r -> clean_rows lk df !! i = Some (clean_row lk (S i) r).
Proof.
  intros Hr. unfold clean_rows. rewrite lookup_zip_with, lookup_seq_lt; [|by apply lookup_lt_Some in Hr].
  simpl. by rewrite Hr.
Qed.

Lemma clean_rows_length lk df : length (clean_rows lk df) = length df.
Proof. unfold clean_rows. rewrite length_zip_with, length_seq. lia. Qed.

Lemma clean_rows_recid_from lk k df :
  map c_recid (zip_with (clean_row lk) (seq k (length df)) df) = seq k (length df).
Proof. revert k. induction df as [|r df IH]; intros k; [done|]. simpl. by rewrite IH. Qed.

Lemma transform_clearance_lookup fs df i r :
  df !! i = Some r ->
  transform_clearance fs df !! i =
  Some (clean_row (mkLookups (text_dict (f_usace_ports fs)) (foreign_port_dict (f_foreign_ports fs))
          (cargo_class_dict (f_cargo fs))
          (match_vessel_clearance (imo_lookup (f_ships fs)) (vessel_lookup (f_ships fs)))) (S i) r).
Proof. apply clean_rows_lookup. Qed.

Lemma transform_entrance_lookup fs df i r :
  df !! i = Some r ->
  exists e, transform_entrance fs df !! i = Some e /\
    e_cleaned e = clean_row (mkLookups (text_dict (f_usace_ports fs))
                  (foreign_port_dict (f_foreign_ports fs)) (cargo_class_dict (f_cargo fs))
                  (match_vessel_entrance (imo_lookup (f_ships fs)) (name_lookup (f_ships fs)))) (S i) r /\
    e_agency_fee e = fee_lookup (text_dict_upper (f_agency_fees fs)) (u_icst_desc r).
Proof.
  intros Hr. unfold transform_entrance. rewrite lookup_zip_with.
  erewrite clean_rows_lookup by done. simpl. rewrite Hr. simpl. by eexists.
Qed.

(** The register match of the entrance script takes the IMO first. *)
Lemma entrance_imo_match fs df i r z sp :
  df !! i = Some r -> u_imo r = Some z -> imo_lookup (f_ships fs) !! int_str z = Some sp ->
  exists e, transform_entrance fs df !! i = Some e /\
    vm_method (c_vessel_match (e_cleaned e)) = "IMO" /\ vm_specs (c_vessel_match (e_cleaned e)) = sp.
Proof.
  intros Hr Hz Hsp. destruct (transform_entrance_lookup fs df i r Hr) as (e & He & Hc & _).
  exists e. split; [done|]. rewrite Hc. cbn [clean_row lk_match c_vessel_match]. rewrite Hz.
  cbn [code_text]. unfold match_vessel_entrance. rewrite strip_int_str.
  destruct (int_str_valid z) as [Hne _]. rewrite bool_decide_true by done. by rewrite Hsp.
Qed.

(** C21.  [Forecasted_Activity] is set exactly when the register draft in
    feet is a positive number and the reported draft [DRAFT_FT +
    DRAFT_IN/12] is positive; it is [Discharge] exactly when the reported
    draft exceeds half the register draft and [Load] otherwise, and
    [Draft_Pct_of_Max] is the percentage rounded to one decimal. *)
Theorem draft_calc_forecast ft din mx p a :
  draft_calc ft din mx = Some (p, a) <->
  exists m, mx = Some (FNum m) /\ (0 < m)%Q /\ (0 < actual_draft ft din)%Q /\
    p = round_dec 1 (actual_draft ft din / m * 100) /\
    ((a = "Discharge" /\ (m < 2 * actual_draft ft din)%Q) \/
     (a = "Load" /\ (2 * actual_draft ft din <= m)%Q)).
Proof.
  destruct mx as [[m|]|]; [|split; [done|intros (? & ? & _); discriminate]..].
  unfold draft_calc. simpl. destruct (qlt 0 m && qlt 0 (actual_draft ft din)) eqn:Hpos.
  - apply andb_true_iff in Hpos as [Hm Ha]. apply qlt_spec in Hm. apply qlt_spec in Ha. split.
    + intros [= <- <-]. exists m. do 4 (split; [done|]).
      destruct (qlt 50 _) eqn:Hd; [left | right]; split; try done.
      * by apply (discharge_iff m).
      * by apply (load_iff m).
    + intros (m' & [= <-] & _ & _ & -> & [[-> Hd] | [-> Hl]]).
      * apply discharge_iff in Hd; [|done]. by rewrite Hd.
      * apply load_iff in Hl; [|done]. by rewrite Hl.
  - split; [done|]. intros (m' & [= <-] & Hm & Ha & _).
    apply qlt_spec in Hm. apply qlt_spec in Ha. by rewrite Hm, Ha in Hpos.
Qed.

(** A clearance record without [VESSNAME] and without [IMO] is
    matched by name to a register row that has no [Vessel]: both sides
    render the missing name as the text ['nan'], which
    [normalize_vessel_name] keeps, so the record receives that row's
    specifications with method [Name]. *)
Theorem clearance_missing_name_matched fs df i r s :
  df !! i = Some r -> u_vessname r = None -> u_imo r = None ->
  s ∈ f_ships fs -> sh_vessel s = None ->
  exists c, transform_clearance fs df !! i = Some c /\ c_vessel c = None /\
    vm_method (c_vessel_match c) = "Name" /\
    vessel_lookup (f_ships fs) !! "nan" = Some (vm_specs (c_vessel_match c)).
Proof.
  intros Hr Hv Himo Hs Hsv. rewrite (transform_clearance_lookup fs df i r Hr). eexists. split; [done|].
  cbn [clean_row lk_match c_vessel_match c_vessel]. rewrite Hv, Himo.
  destruct (vessel_lookup_nan _ _ Hs Hsv) as [sp Hsp].
  rewrite match_vessel_clearance_no_imo by (left; reflexivity).
  change (cell_text None) with "nan". change (normalize_vessel_name (Some "nan")) with "nan".
  rewrite !bool_decide_true by done. by rewrite Hsp.
Qed.

Lemma clearance_missing_name_matched_witness :
  exists c, transform_clearance example_files [nameless_clearance] !! 0%nat = Some c /\
    c_vessel c = None /\ vm_method (c_vessel_match c) = "Name" /\
    vessel_lookup (f_ships example_files) !! "nan" = Some (vm_specs (c_vessel_match c)).
Proof.
  apply (clearance_missing_name_matched example_files [nameless_clearance] 0%nat nameless_clearance
           nameless_ship); try reflexivity.
  by apply list_elem_of_singleton.
Defined.

End Transform.
