(* ===== verification/TransformRun.v ===== *)
(** * The USACE transforms as runs: counters, error path, save and
      summary of [transform_usace_clearance_data_v2.0.0.py] and
      [transform_usace_entrance_data_v2.1.0.py]

    [Transform.transform_clearance] computes the cleaned frame.  This file
    models what [transform_clearance_data] does around it:
    - the [nrows=15000] read of test mode (line 117);
    - the counters its loops keep: the vessel counters of lines 205-259
      ([matched_imo], [matched_name], [unmatched]), [draft_calcs] of lines
      274-301 and [cargo_matched] of lines 312-319;
    - the first percentage, [matched_clearance/len(df)*100] at line 170,
      which raises [ZeroDivisionError] on an input without rows, before
      anything is written;
    - the statistics of the summary, lines 414-462, recomputed from
      [df_final];
    - the save of lines 484-490, skipped in test mode, and [main].
    The entrance script's run ([transform_entrance_run]) is modelled the
    same way: 100 rows in test mode, [ZeroDivisionError] at line 179, the
    summary of lines 448-494.
    The printed value distributions, the top five groups and the sample
    records are text only and are not modelled. *)

From Stdlib Require Import QArith.
From S2P Require Import Prelude Normalize Format VoyRecid Transform.

Module TransformRun.
Import Transform.

(** ** The loop counters *)

(** [matched_imo], [matched_name], [unmatched]: the branch of lines
    209-259 each row takes, which is the method it records. *)
Record VesselCounts := mkVesselCounts { vc_imo : nat; vc_name : nat; vc_unmatched : nat }.

Definition vessel_count_step (c : VesselCounts) (vm : VesselMatch) : VesselCounts :=
  if bool_decide (vm_method vm = "IMO") then mkVesselCounts (S (vc_imo c)) (vc_name c) (vc_unmatched c)
  else if bool_decide (vm_method vm = "Name") then mkVesselCounts (vc_imo c) (S (vc_name c)) (vc_unmatched c)
  else mkVesselCounts (vc_imo c) (vc_name c) (S (vc_unmatched c)).

Definition vessel_counts (rows : list Cleaned) : VesselCounts :=
  foldl vessel_count_step (mkVesselCounts 0 0 0) (map c_vessel_match rows).

(** [draft_calcs += 1] where lines 288-298 set the percentage. *)
Definition draft_calcs (rows : list Cleaned) : nat :=
  foldl (fun n c => if bool_decide (is_Some (c_draft c)) then S n else n) 0 rows.

(** Line 315: [icst_desc and icst_desc != '' and icst_desc in cargo_class_lookup]. *)
Definition cargo_hit (d : gmap string CargoClass) (icst : option string) : bool :=
  let k := icst_key icst in bool_decide (k <> "") && bool_decide (is_Some (d !! k)).

Definition cargo_matched (d : gmap string CargoClass) (df : list UsaceRow) : nat :=
  foldl (fun n r => if cargo_hit d (u_icst_desc r) then S n else n) 0 df.

(** ** The summary, lines 414-462 *)

Definition count_rows (p : Cleaned -> bool) (rows : list Cleaned) : nat :=
  length (List.filter p rows).

Definition forecast_is (a : string) (c : Cleaned) : bool :=
  bool_decide (snd <$> c_draft c = Some a).

(** [df_final['Group'] != '']: the row has a cargo group. *)
Definition classified (g : CargoClass) : bool := bool_decide (cc_group g <> "").

Record ClearanceSummary := mkClearanceSummary {
  cs_total : nat;                (** [len(df_final)] *)
  cs_port_mapped : nat;          (** [US_Port_USACE != ''] *)
  cs_prev_us_mapped : nat;       (** [Previous_US_Port_USACE != ''] *)
  cs_prev_foreign_mapped : nat;  (** [Previous_Foreign_Port != ''] *)
  cs_matched_imo : nat;          (** [Vessel_Match_Method == 'IMO'] *)
  cs_matched_name : nat;         (** [Vessel_Match_Method == 'Name'] *)
  cs_draft_analyzed : nat;       (** [Draft_Pct_of_Max != ''] *)
  cs_forecast_load : nat;        (** [Forecasted_Activity == 'Load'] *)
  cs_forecast_discharge : nat;   (** [Forecasted_Activity == 'Discharge'] *)
  cs_cargo_classified : nat;     (** [Group != ''] *)
}.

Definition clearance_summary (df_final : list Cleaned) : ClearanceSummary :=
  mkClearanceSummary (length df_final)
    (count_rows (fun c => bool_decide (c_us_port_usace c <> "")) df_final)
    (count_rows (fun c => bool_decide (c_prev_us_port c <> "")) df_final)
    (count_rows (fun c => bool_decide (fp_port (c_prev_foreign c) <> "")) df_final)
    (count_rows (fun c => bool_decide (vm_method (c_vessel_match c) = "IMO")) df_final)
    (count_rows (fun c => bool_decide (vm_method (c_vessel_match c) = "Name")) df_final)
    (count_rows (fun c => bool_decide (is_Some (c_draft c))) df_final)
    (count_rows (forecast_is "Load") df_final)
    (count_rows (forecast_is "Discharge") df_final)
    (count_rows (fun c => classified (c_cargo c)) df_final).

(** ** The run *)

(** What one call of [transform_clearance_data] leaves: the returned
    frame, the loop counters it printed, the summary, and whether the file
    was written. *)
Record ClearanceRun := mkClearanceRun {
  cr_frame : list Cleaned;
  cr_vessels : VesselCounts;
  cr_draft_calcs : nat;
  cr_cargo_matched : nat;
  cr_summary : ClearanceSummary;
  cr_saved : bool;
}.

(** [pd.read_csv(input_file, nrows=15000)] in test mode. *)
Definition TEST_NROWS : nat := 15000.

(** [transform_clearance_data(input_file, output_file, test_mode)];
    [None] is the [ZeroDivisionError] of line 170. *)
Definition transform_clearance_run (fs : DictFiles) (test_mode : bool) (raw : list UsaceRow)
    : option ClearanceRun :=
  let df := if test_mode then take TEST_NROWS raw else raw in
  if bool_decide (length df = 0) then None
  else
    let df_final := transform_clearance fs df in
    Some (mkClearanceRun df_final (vessel_counts df_final) (draft_calcs df_final)
            (cargo_matched (cargo_class_dict (f_cargo fs)) df) (clearance_summary df_final)
            (negb test_mode)).

(** [main()], lines 497-528: the full run, never in test mode. *)
Definition clearance_main (fs : DictFiles) (raw : list UsaceRow) : option ClearanceRun :=
  transform_clearance_run fs false raw.

(** ** The entrance run, [transform_entrance_data] *)

(** [pd.read_csv(input_file, nrows=100)] in test mode (line 130). *)
Definition ENTRANCE_TEST_NROWS : nat := 100.

Record EntranceSummary := mkEntranceSummary {
  es_total : nat;                (** [len(df_final)] *)
  es_usace_mapped : nat;         (** [US_Port_USACE != ''] *)
  es_port_stats_mapped : nat;    (** [Port_Consolidated != ''] *)
  es_prev_us_mapped : nat;       (** [Previous_US_Port_USACE != ''] *)
  es_prev_foreign_mapped : nat;  (** [Previous_Foreign_Port != ''] *)
  es_imo_matches : nat;          (** the loop's [imo_matches] *)
  es_name_matches : nat;         (** the loop's [name_matches] *)
  es_unmatched : Z;              (** [len(df)-imo_matches-name_matches], line 277 *)
  es_draft_calcs : nat;          (** the loop's [draft_calcs] *)
  es_load : nat;                 (** [Forecasted_Activity == 'Load'] *)
  es_discharge : nat;            (** [Forecasted_Activity == 'Discharge'] *)
  es_matched_cargo : nat;        (** [Group != ''], line 328 *)
  es_matched_fees : nat;         (** [Agency_Fee != ''], line 341 *)
}.

(** The figures of lines 448-494, with the counters of the loops. *)
Definition entrance_summary (df_final : list EntranceRow) (vc : VesselCounts) (drafts : nat)
    : EntranceSummary :=
  let cl := map e_cleaned df_final in
  mkEntranceSummary (length df_final)
    (count_rows (fun c => bool_decide (c_us_port_usace c <> "")) cl)
    (length (List.filter (fun e => bool_decide (ps_consolidated (e_port_stats e) <> "")) df_final))
    (count_rows (fun c => bool_decide (c_prev_us_port c <> "")) cl)
    (count_rows (fun c => bool_decide (fp_port (c_prev_foreign c) <> "")) cl)
    (vc_imo vc) (vc_name vc)
    (Z.of_nat (length df_final) - Z.of_nat (vc_imo vc) - Z.of_nat (vc_name vc))%Z
    drafts
    (count_rows (forecast_is "Load") cl)
    (count_rows (forecast_is "Discharge") cl)
    (count_rows (fun c => classified (c_cargo c)) cl)
    (length (List.filter (fun e => bool_decide (e_agency_fee e <> "")) df_final)).

Record EntranceRun := mkEntranceRun {
  er_frame : list EntranceRow;
  er_summary : EntranceSummary;
  er_saved : bool;
}.

(** [transform_entrance_data(input_file, output_file, test_mode)];
    [None] is the [ZeroDivisionError] of line 179. *)
Definition transform_entrance_run (fs : DictFiles) (test_mode : bool) (raw : list UsaceRow)
    : option EntranceRun :=
  let df := if test_mode then take ENTRANCE_TEST_NROWS raw else raw in
  if bool_decide (length df = 0) then None
  else
    let df_final := transform_entrance fs df in
    let cl := map e_cleaned df_final in
    Some (mkEntranceRun df_final (entrance_summary df_final (vessel_counts cl) (draft_calcs cl))
            (negb test_mode)).

(** [main()] of the entrance script: the full run. *)
Definition entrance_main (fs : DictFiles) (raw : list UsaceRow) : option EntranceRun :=
  transform_entrance_run fs false raw.

(** ** Counting lemmas *)

Lemma foldl_count {A} (p : A -> bool) k l :
  foldl (fun n x => if p x then S n else n) k l = k + length (List.filter p l).
Proof. revert k. induction l as [|x l IH]; intros k; simpl; [lia|]. destruct (p x); rewrite IH; simpl; lia. Qed.

Lemma filter_map_length {A B} (p : B -> bool) (f : A -> B) l :
  length (List.filter (fun x => p (f x)) l) = length (List.filter p (map f l)).
Proof. induction l as [|x l IH]; simpl; [done|]. destruct (p (f x)); simpl; lia. Qed.

Lemma filter_length_impl {A} (p q : A -> bool) l :
  Forall (fun x => p x = true -> q x = true) l ->
  length (List.filter p l) <= length (List.filter q l).
Proof.
  induction 1 as [|x l Hx _ IH]; simpl; [done|].
  destruct (p x), (q x); simpl; try lia.
Qed.

(** A predicate that is the disjoint union of two others counts their sum. *)
Lemma filter_length_disj {A} (p q r : A -> bool) l :
  Forall (fun x => r x = p x || q x /\ (p x && q x = false)) l ->
  length (List.filter r l) = length (List.filter p l) + length (List.filter q l).
Proof.
  induction 1 as [|x l [Hr Hpq] _ IH]; simpl; [done|].
  rewrite Hr. destruct (p x), (q x); simpl in *; try discriminate; lia.
Qed.

Lemma clean_rows_Forall (P : Cleaned -> Prop) lk df :
  (forall i r, P (clean_row lk i r)) -> Forall P (clean_rows lk df).
Proof.
  intros HP. apply Forall_lookup. intros i c Hc.
  destruct (df !! i) as [r|] eqn:Hr.
  - rewrite (clean_rows_lookup _ _ _ _ Hr) in Hc. injection Hc as <-. apply HP.
  - apply lookup_lt_Some in Hc. apply lookup_ge_None in Hr.
    rewrite clean_rows_length in Hc. lia.
Qed.

Lemma clean_rows_map {B} (f : Cleaned -> B) (g : UsaceRow -> B) lk df :
  (forall i r, f (clean_row lk i r) = g r) -> map f (clean_rows lk df) = map g df.
Proof.
  intros Hfg. unfold clean_rows. generalize 1.
  induction df as [|r df IH]; intros k; simpl; [done|]. by rewrite Hfg, IH.
Qed.

(** The vessel counters count the recorded methods. *)
Lemma vessel_counts_spec rows :
  vc_imo (vessel_counts rows)
    = length (List.filter (fun c => bool_decide (vm_method (c_vessel_match c) = "IMO")) rows) /\
  vc_name (vessel_counts rows)
    = length (List.filter (fun c => bool_decide (vm_method (c_vessel_match c) = "Name")) rows) /\
  vc_imo (vessel_counts rows) + vc_name (vessel_counts rows) + vc_unmatched (vessel_counts rows)
    = length rows.
Proof.
  unfold vessel_counts.
  enough (forall c0, let c := foldl vessel_count_step c0 (map c_vessel_match rows) in
    vc_imo c = vc_imo c0 + length (List.filter (fun c => bool_decide (vm_method (c_vessel_match c) = "IMO")) rows) /\
    vc_name c = vc_name c0 + length (List.filter (fun c => bool_decide (vm_method (c_vessel_match c) = "Name")) rows) /\
    vc_imo c + vc_name c + vc_unmatched c = vc_imo c0 + vc_name c0 + vc_unmatched c0 + length rows)
    as Hgen.
  { destruct (Hgen (mkVesselCounts 0 0 0)) as (H1 & H2 & H3). simpl in *. lia. }
  induction rows as [|x rows IH]; intros c0; simpl; [lia|].
  destruct (IH (vessel_count_step c0 (c_vessel_match x))) as (H1 & H2 & H3).
  unfold vessel_count_step in *.
  repeat case_bool_decide; simpl in *; try congruence; lia.
Qed.

(** Every percentage the draft loop sets comes with [Load] or [Discharge]. *)
Lemma draft_calc_activity ft din mx q a :
  draft_calc ft din mx = Some (q, a) -> a = "Load" \/ a = "Discharge".
Proof.
  unfold draft_calc. destruct mx as [[m|]|]; [|done|done].
  destruct (qlt 0 m && qlt 0 _); [|done]. intros [= _ <-]. destruct (qlt 50 _); auto.
Qed.

Lemma clean_rows_forecast lk df :
  Forall (fun c => bool_decide (is_Some (c_draft c))
                   = forecast_is "Load" c || forecast_is "Discharge" c /\
                   forecast_is "Load" c && forecast_is "Discharge" c = false)
    (clean_rows lk df).
Proof.
  apply clean_rows_Forall. intros i r. unfold forecast_is. cbn [clean_row c_draft].
  destruct (draft_calc _ _ _) as [[q a]|] eqn:Hd; [|done].
  by destruct (draft_calc_activity _ _ _ _ _ Hd) as [-> | ->].
Qed.

Lemma cargo_lookup_miss d i : cargo_hit d i = false -> cargo_lookup d i = mkCargoClass "" "".
Proof.
  unfold cargo_hit, cargo_lookup. cbv zeta.
  case_bool_decide; simpl; [|done]. destruct (d !! _); [|done].
  intros Hf%bool_decide_eq_false_1. exfalso. by apply Hf.
Qed.

Lemma cargo_lookup_hit d i :
  cargo_hit d i = true -> exists k, d !! k = Some (cargo_lookup d i).
Proof.
  unfold cargo_hit, cargo_lookup. cbv zeta.
  case_bool_decide; simpl; [|done]. destruct (d !! _) eqn:Hk; [|done]. eauto.
Qed.

Lemma cargo_classified_eq lk df :
  count_rows (fun c => classified (c_cargo c)) (clean_rows lk df)
  = length (List.filter (fun r => classified (cargo_lookup (lk_cargo lk) (u_icst_desc r))) df).
Proof.
  unfold count_rows.
  rewrite (filter_map_length classified c_cargo).
  rewrite (clean_rows_map _ (fun r => cargo_lookup (lk_cargo lk) (u_icst_desc r))) by done.
  symmetry. apply filter_map_length.
Qed.

(** ** The run's outcome and its counters *)

Lemma read_rows_length {A} (n : nat) (tm : bool) (raw : list A) :
  length (if tm then take n raw else raw) = if tm then Nat.min n (length raw) else length raw.
Proof. destruct tm; [apply length_take|done]. Qed.

(** Reading at most [n > 0] rows reads none exactly when the file has none. *)
Lemma read_rows_nil {A} (n : nat) (tm : bool) (raw : list A) :
  0 < n -> length (if tm then take n raw else raw) = 0 <-> raw = [].
Proof.
  intros Hn. rewrite read_rows_length. split; [|intros ->; destruct tm; simpl; lia].
  destruct raw; [done|]. destruct tm; simpl; lia.
Qed.

Lemma TEST_NROWS_pos : 0 < TEST_NROWS.
Proof. unfold TEST_NROWS. apply Nat.lt_0_succ. Qed.

Lemma ENTRANCE_TEST_NROWS_pos : 0 < ENTRANCE_TEST_NROWS.
Proof. unfold ENTRANCE_TEST_NROWS. apply Nat.lt_0_succ. Qed.

Lemma transform_entrance_cleaned fs df :
  map e_cleaned (transform_entrance fs df)
  = clean_rows (mkLookups (text_dict (f_usace_ports fs)) (foreign_port_dict (f_foreign_ports fs))
                  (cargo_class_dict (f_cargo fs))
                  (match_vessel_entrance (imo_lookup (f_ships fs)) (name_lookup (f_ships fs)))) df.
Proof.
  unfold transform_entrance. cbv zeta.
  set (rows := clean_rows _ df). assert (Hl : length rows = length df) by apply clean_rows_length.
  clearbody rows. revert df Hl.
  induction rows as [|c rows IH]; intros [|r df] Hl; simpl in *; try done.
  rewrite IH; [done|lia].
Qed.

(** [transform_clearance_data] raises [ZeroDivisionError] at line
    170 exactly when it reads no row; that is before the file is written.
    Otherwise the file is written unless in test mode, the frame is the
    transform of the rows read (the first 15000 in test mode), and the
    summary's total is their number. *)
Theorem transform_clearance_run_outcome fs tm raw :
  (transform_clearance_run fs tm raw = None <-> raw = []) /\
  forall r, transform_clearance_run fs tm raw = Some r ->
    cr_saved r = negb tm /\
    cr_frame r = transform_clearance fs (if tm then take TEST_NROWS raw else raw) /\
    cs_total (cr_summary r) = (if tm then Nat.min TEST_NROWS (length raw) else length raw).
Proof.
  unfold transform_clearance_run. cbv zeta.
  pose proof (read_rows_nil _ tm raw TEST_NROWS_pos) as Hnil.
  case_bool_decide as H0.
  - split; [|done]. split; [intros _; by apply Hnil|done].
  - split; [split; [done|intros Hr%Hnil; contradiction]|].
    intros r [= <-]. cbn [cr_saved cr_frame cr_summary clearance_summary cs_total].
    rewrite <- (read_rows_length TEST_NROWS). unfold transform_clearance.
    by rewrite clean_rows_length.
Qed.

(** C22: The figures the run prints twice agree.  The vessel counters of
    the loop are the summary's counts by method and add up to the rows;
    [draft_calcs] is the number of percentages, which split into [Load]
    and [Discharge].  The summary's [Classified] count is at most the
    loop's [cargo_matched], and equal to it when no entry of the cargo
    dictionary has a blank [Group]. *)
Theorem transform_clearance_counters fs tm raw r :
  transform_clearance_run fs tm raw = Some r ->
  vc_imo (cr_vessels r) = cs_matched_imo (cr_summary r) /\
  vc_name (cr_vessels r) = cs_matched_name (cr_summary r) /\
  vc_imo (cr_vessels r) + vc_name (cr_vessels r) + vc_unmatched (cr_vessels r)
    = cs_total (cr_summary r) /\
  cr_draft_calcs r = cs_draft_analyzed (cr_summary r) /\
  cs_forecast_load (cr_summary r) + cs_forecast_discharge (cr_summary r)
    = cs_draft_analyzed (cr_summary r) /\
  cs_cargo_classified (cr_summary r) <= cr_cargo_matched r /\
  ((forall k c, cargo_class_dict (f_cargo fs) !! k = Some c -> cc_group c <> "") ->
   cs_cargo_classified (cr_summary r) = cr_cargo_matched r).
Proof.
  unfold transform_clearance_run. cbv zeta. case_bool_decide; [done|].
  intros [= <-]. cbn [cr_vessels cr_summary cr_draft_calcs cr_cargo_matched clearance_summary
    cs_total cs_matched_imo cs_matched_name cs_draft_analyzed cs_forecast_load
    cs_forecast_discharge cs_cargo_classified].
  set (df := if tm then take TEST_NROWS raw else raw).
  destruct (vessel_counts_spec (transform_clearance fs df)) as (H1 & H2 & H3).
  unfold draft_calcs, cargo_matched. rewrite !foldl_count.
  unfold transform_clearance in *. rewrite cargo_classified_eq. unfold count_rows.
  rewrite <- (filter_length_disj _ _ _ _ (clean_rows_forecast _ _)).
  split_and!; try done.
  - apply filter_length_impl, Forall_forall. intros x _ Hg.
    destruct (cargo_hit _ _) eqn:Hh; [done|]. rewrite cargo_lookup_miss in Hg by done.
    by apply bool_decide_eq_true_1 in Hg.
  - intros Hnb. apply Nat.le_antisymm.
    + apply filter_length_impl, Forall_forall. intros x _ Hg.
      destruct (cargo_hit _ _) eqn:Hh; [done|]. rewrite cargo_lookup_miss in Hg by done.
      by apply bool_decide_eq_true_1 in Hg.
    + apply filter_length_impl, Forall_forall. intros x _ Hh.
      apply cargo_lookup_hit in Hh as [k Hk]. apply bool_decide_eq_true_2. by apply (Hnb k).
Qed.

(** [transform_entrance_data] raises [ZeroDivisionError] at line
    179 exactly when it reads no row, before writing anything.  Otherwise
    it writes the file unless in test mode and counts the rows it read
    (the first 100 in test mode).  The [Unmatched] figure
    [len(df)-imo_matches-name_matches] is never negative, and the
    [Load] and [Discharge] forecasts add up to [draft_calcs]. *)
Theorem transform_entrance_run_summary fs tm raw :
  (transform_entrance_run fs tm raw = None <-> raw = []) /\
  forall r, transform_entrance_run fs tm raw = Some r ->
    er_saved r = negb tm /\
    es_total (er_summary r)
      = (if tm then Nat.min ENTRANCE_TEST_NROWS (length raw) else length raw) /\
    (0 <= es_unmatched (er_summary r))%Z /\
    es_load (er_summary r) + es_discharge (er_summary r) = es_draft_calcs (er_summary r).
Proof.
  unfold transform_entrance_run. cbv zeta.
  pose proof (read_rows_nil _ tm raw ENTRANCE_TEST_NROWS_pos) as Hnil.
  case_bool_decide as H0.
  - split; [|done]. split; [intros _; by apply Hnil|done].
  - split; [split; [done|intros Hr%Hnil; contradiction]|].
    intros r [= <-]. cbn [er_saved er_summary entrance_summary es_total es_unmatched
      es_load es_discharge es_draft_calcs].
    set (df := if tm then take ENTRANCE_TEST_NROWS raw else raw).
    rewrite transform_entrance_cleaned.
    destruct (vessel_counts_spec (clean_rows (mkLookups (text_dict (f_usace_ports fs))
      (foreign_port_dict (f_foreign_ports fs)) (cargo_class_dict (f_cargo fs))
      (match_vessel_entrance (imo_lookup (f_ships fs)) (name_lookup (f_ships fs)))) df))
      as (_ & _ & Hsum).
    rewrite clean_rows_length in Hsum.
    assert (Hl : length (transform_entrance fs df) = length df).
    { by rewrite <- (length_map e_cleaned), transform_entrance_cleaned, clean_rows_length. }
    split_and!; [done| |lia|].
    + rewrite Hl. apply read_rows_length.
    + unfold draft_calcs, count_rows. rewrite foldl_count.
      symmetry. apply filter_length_disj, clean_rows_forecast.
Qed.

(** ** Concrete runs *)

Lemma transform_clearance_run_outcome_witness :
  transform_clearance_run example_files false [] = None /\
  exists r, transform_clearance_run example_files true [nameless_clearance] = Some r /\
    cr_saved r = false /\ cs_total (cr_summary r) = 1.
Proof.
  split; [by apply (transform_clearance_run_outcome example_files false [])|].
  destruct (transform_clearance_run example_files true [nameless_clearance]) as [r|] eqn:Hs.
  - exists r. split; [done|].
    destruct (proj2 (transform_clearance_run_outcome example_files true [nameless_clearance]) r Hs)
      as (Hsv & _ & Ht).
    split; [exact Hsv|]. rewrite Ht. reflexivity.
  - apply (transform_clearance_run_outcome example_files true [nameless_clearance]) in Hs.
    discriminate.
Defined.

(** A cargo dictionary row whose [Group] cell holds only spaces, and a
    clearance of that [ICST_DESC]. *)
Definition blank_group_files : DictFiles :=
  mkDictFiles [] [] [nameless_ship] [(Some "bulk", (Some " ", Some "Coal"))] [] [].

Definition bulk_clearance : UsaceRow :=
  mkUsaceRow (CNum 1) (CNum 10523) (Some 4110%Z) None None None None None (Some "Bulk")
    None None None (Some 30%Q) None None None None None None None.

(** The loop prints one record matched to the cargo classification, the
    summary none classified. *)
Lemma blank_group_counted_not_classified :
  exists r, transform_clearance_run blank_group_files false [bulk_clearance] = Some r /\
    cr_cargo_matched r = 1 /\ cs_cargo_classified (cr_summary r) = 0.
Proof. eexists. split; [vm_compute; reflexivity|split; reflexivity]. Defined.

Lemma transform_clearance_counters_witness :
  exists r, transform_clearance_run blank_group_files false [bulk_clearance] = Some r /\
    cs_cargo_classified (cr_summary r) <= cr_cargo_matched r /\
    cs_forecast_load (cr_summary r) + cs_forecast_discharge (cr_summary r)
      = cs_draft_analyzed (cr_summary r).
Proof.
  destruct (transform_clearance_run blank_group_files false [bulk_clearance]) as [r|] eqn:Hs;
    [|vm_compute in Hs; discriminate].
  exists r. split; [done|].
  destruct (transform_clearance_counters _ _ _ _ Hs) as (_ & _ & _ & _ & Hf & Hc & _).
  split; [exact Hc|exact Hf].
Defined.

Lemma transform_entrance_run_summary_witness :
  transform_entrance_run example_files false [] = None /\
  exists r, transform_entrance_run example_files false [nameless_clearance] = Some r /\
    er_saved r = true /\ (0 <= es_unmatched (er_summary r))%Z.
Proof.
  split; [by apply (transform_entrance_run_summary example_files false [])|].
  destruct (transform_entrance_run example_files false [nameless_clearance]) as [r|] eqn:Hs;
    [|vm_compute in Hs; discriminate].
  exists r. split; [done|].
  destruct (proj2 (transform_entrance_run_summary example_files false [nameless_clearance]) r Hs)
    as (Hsv & _ & Hu & _).
  split; [exact Hsv|exact Hu].
Defined.

End TransformRun.
