(* ===== verification/Classify.v ===== *)
(** * The cargo classifier: [classify_15k_sample_v3.6.0.py]

    The script classifies Panjiva records with a rule dictionary.  Each
    rule has a [Phase]; the phases run in increasing order, and within a
    phase every record not fully locked takes the first rule (in
    dictionary order) that matches it ([check_match]) and may be applied
    to it ([can_apply_rule]).  Applying a rule ([apply_rule]) writes the
    taxonomy columns and may lock them; a locked column keeps its value
    against later rules of a different value, and a record whose
    [Cargo_Detail] is locked is never touched again.

    A pandas row ([record], a Series) is modelled as a [gmap] from column
    name to cell, [None] being NaN; [record.get(c, d)] is [get].  The frame
    is its column list and its rows: [df.loc[idx] = record] keeps only the
    frame's columns, which is how pandas aligns the Series on assignment.
    Text cells are read with [dtype=str], so every cell is a string or
    NaN.  [float()] is [Transform.py_float] and comparisons with NaN are
    false. *)

From S2P Require Import Prelude Normalize Format VoyRecid Transform.
From Stdlib Require Import Ascii QArith.
From stdpp Require Import sorting.
Import Normalize Format VoyRecid Transform.

Module Classify.

(** ** Python string operations used by the rules *)

(** [needle in hay] on strings: a substring test; [''] is in every string. *)
Fixpoint py_in (n h : list Ascii.ascii) : bool :=
  is_prefix n h || match h with [] => false | _ :: h' => py_in n h' end.

Definition py_in_str (n h : string) : bool :=
  py_in (String.list_ascii_of_string n) (String.list_ascii_of_string h).

(** [s.split(sep)] for a one-character separator: empty fields are kept
    and [''.split(sep)] is [['']]. *)
Fixpoint py_split_sep (sep : Ascii.ascii) (l : list Ascii.ascii) : list (list Ascii.ascii) :=
  match l with
  | [] => [[]]
  | c :: l' =>
      if bool_decide (c = sep) then [] :: py_split_sep sep l'
      else match py_split_sep sep l' with
           | w :: ws => (c :: w) :: ws
           | [] => [[c]]
           end
  end.

Definition split_str (sep : Ascii.ascii) (s : string) : list string :=
  map String.string_of_list_ascii (py_split_sep sep (String.list_ascii_of_string s)).

(** [[x.strip().upper() for x in s.split(sep)]] *)
Definition split_upper (sep : Ascii.ascii) (s : string) : list string :=
  map (fun x => upper_str (strip_str x)) (split_str sep s).

(** [str.lower()] *)
Definition lower_str (s : string) : string :=
  String.string_of_list_ascii (map py_lower_char (String.list_ascii_of_string s)).

(** ** Rows *)

(** A pandas row: column name to cell, [None] for NaN. *)
Abbreviation Row := (gmap string (option string)) (only parsing).

(** [record.get(col, default)] *)
Definition get (r : Row) (col : string) (dflt : option string) : option string :=
  default dflt (r !! col).

(** [str(record.get(col, default)).strip()] *)
Definition get_text (r : Row) (col : string) (dflt : string) : string :=
  strip_str (py_str (get r col (Some dflt))).

(** [record.get(col) == 'TRUE'] *)
Definition is_true_flag (r : Row) (col : string) : bool :=
  bool_decide (get r col None = Some "TRUE").

(** A frame: its columns and its rows in index order. *)
Record Frame := mkFrame { fr_cols : list string; fr_rows : list Row }.

(** [df.loc[idx] = record]: the Series is aligned on the frame's columns,
    so a label the frame does not have is dropped. *)
Definition store_row (cols : list string) (r : Row) : Row :=
  filter (fun kv : string * option string => kv.1 ∈ cols) r.

(** [df[col] = value] adds [col] at the end unless the frame has it. *)
Definition add_col (cols : list string) (c : string) : list string :=
  if bool_decide (c ∈ cols) then cols else cols ++ [c].

(** ** Vessel types, lines 32-83 *)

Definition bulk_words : list string :=
  ["BULK CARRIER"; "BULKER"; "CAPESIZE"; "PANAMAX"; "HANDYMAX"; "HANDYSIZE"; "SUPRAMAX"; "ULTRAMAX"].
Definition tanker_words : list string := ["TANKER"; "VLCC"; "SUEZMAX"; "AFRAMAX"; "MR"; "LR"].
Definition gas_words : list string := ["LPG"; "LNG"; "GAS CARRIER"].
Definition container_words : list string := ["CONTAINER"; "TEU"; "FEEDER"].
Definition roro_words : list string := ["RO-RO"; "RORO"; "CAR CARRIER"; "PCTC"].
Definition reefer_words : list string := ["REEFER"; "REFRIGERAT"].
Definition general_words : list string := ["GENERAL CARGO"; "MULTI-PURPOSE"].

(** [any(x in s for x in words)] *)
Definition any_in (words : list string) (s : string) : bool := existsb (fun x => py_in_str x s) words.

(** [map_vessel_type], lines 32-55: the first category with a word in the
    upper-cased type. *)
Definition map_vessel_type (detailed_type : option string) : string :=
  match detailed_type with
  | None => ""
  | Some t =>
      if bool_decide (t = "") then "" else
      let u := upper_str t in
      if any_in bulk_words u then "Bulk Carrier"
      else if any_in tanker_words u then "Tanker"
      else if any_in gas_words u then "LPG/LNG Carrier"
      else if any_in container_words u then "Container"
      else if any_in roro_words u then "RoRo"
      else if any_in reefer_words u then "Reefer"
      else if any_in general_words u then "General Cargo"
      else ""
  end.

(** The key [str(x).upper().strip()] of a vessel name. *)
Definition vessel_key (x : option string) : string := strip_str (upper_str (py_str x)).

(** [vessel_lookup], lines 66-71: registry rows with a name and a type;
    the last row of a name wins. *)
Definition registry_lookup (ships : list Row) : gmap string string :=
  build_dict (omap (fun r =>
    let name := vessel_key (get r "Vessel" None) in
    let vtype := map_vessel_type (get r "Type" (Some "")) in
    if bool_decide (name <> "" /\ vtype <> "") then Some (name, vtype) else None) ships).

(** The exceptions the [except] block of [main] (lines 446-448) reports:
    a [ZeroDivisionError] of a percentage on Python ints, at its line; the
    [ValueError] of [astype(int)] on the phases (line 329); an exception of
    [generate_stats] (its division, line 371, or [sorted] comparing NaN
    with text, line 384). *)
Inductive ClassifyError := ZeroDivisionError (line : nat) | PhaseValueError | StatsError.

#[export] Instance ClassifyError_eq_dec : EqDecision ClassifyError.
Proof. solve_decision. Defined.

(** [add_vessel_types], lines 57-83: the column [Vessel_Type_Simple], then
    [matched/len(df)*100] (line 81), which raises on a sample without
    rows. *)
Definition add_vessel_types (ships : list Row) (df : Frame) : ClassifyError + Frame :=
  let lk := registry_lookup ships in
  let f := mkFrame (add_col (fr_cols df) "Vessel_Type_Simple")
    (map (fun r => let v := match get r "Vessel" None with
                            | Some x => dict_get lk (vessel_key (Some x)) ""
                            | None => ""
                            end in
                   <["Vessel_Type_Simple" := Some v]> r) (fr_rows df)) in
  if bool_decide (fr_rows df = []) then inl (ZeroDivisionError 81) else inr f.

(** ** Matching a rule, lines 115-224 *)

(** A keyword field is set when it is neither [''] nor ['nan']. *)
Definition kw_set (x : string) : bool := bool_decide (x <> "nan" /\ x <> "").

(** [any(w in desc for w in words if w)] *)
Definition hits (words : list string) (desc : string) : bool :=
  existsb (fun w => bool_decide (w <> "") && py_in_str w desc) words.

(** [check_keyword_match], lines 115-167. *)
Definition check_keyword_match (cargo_desc : string) (rule : Row) : bool :=
  let u := upper_str cargo_desc in
  let key_phrases := get_text rule "Key_Phrases" "" in
  let primary_kw := get_text rule "Primary_Keywords" "" in
  let descriptor_kw := get_text rule "Descriptor_Keywords" "" in
  let match_strategy := get_text rule "Match_Strategy" "PRIMARY_SUFFICIENT" in
  let legacy_keywords := get_text rule "Keywords" "" in
  if negb (kw_set key_phrases || kw_set primary_kw || kw_set descriptor_kw || kw_set legacy_keywords)
  then true
  else if bool_decide (match_strategy = "PHRASE_REQUIRED") && kw_set key_phrases
  then hits (split_upper "," key_phrases) u
  else if kw_set primary_kw && hits (split_upper "," primary_kw) u then true
  else if kw_set key_phrases && hits (split_upper "," key_phrases) u then true
  else kw_set legacy_keywords && hits (split_upper ";" legacy_keywords) u.

(** [a < b] and [a > b] on Python floats: false when either is NaN. *)
Definition flt (a b : PyFloat) : bool :=
  match a, b with FNum x, FNum y => qlt x y | _, _ => false end.

(** The tonnage filter, lines 208-222: any [ValueError] of [float()]
    jumps to [except: pass], which keeps the record. *)
Definition tonnage_ok (record rule : Row) : bool :=
  let min_tons := get rule "Min_Tons" (Some "") in
  let max_tons := get rule "Max_Tons" (Some "") in
  if py_present min_tons || py_present max_tons then
    let tons_text := String.string_of_list_ascii
                       (py_replace "," "" (String.list_ascii_of_string (py_str (get record "Tons" (Some "0"))))) in
    match py_float tons_text with
    | None => true
    | Some t =>
        let max_stage :=
          if py_present max_tons then
            match py_float (py_str max_tons) with
            | None => true
            | Some mx => negb (flt mx t)
            end
          else true in
        if py_present min_tons then
          match py_float (py_str min_tons) with
          | None => true
          | Some mn => if flt t mn then false else max_stage
          end
        else max_stage
    end
  else true.

(** [check_match], lines 169-224: every filter the rule sets must pass. *)
Definition check_match (record rule : Row) : bool :=
  let carrier_scac := get rule "Carrier_SCAC" (Some "") in
  let carrier_ok :=
    if py_present carrier_scac
    then py_in_str (upper_str (py_str carrier_scac)) (upper_str (py_str (get record "Carrier" (Some ""))))
    else true in
  let vessel_type := get rule "Vessel_Type" (Some "") in
  let vtype_ok :=
    if py_present vessel_type
    then let record_vtype := upper_str (py_str (get record "Vessel_Type_Simple" (Some ""))) in
         existsb (fun vt => py_in_str vt record_vtype) (split_upper ";" (py_str vessel_type))
    else true in
  let hs_ok :=
    forallb (fun lvl =>
      let rule_hs := get rule lvl (Some "") in
      if py_present rule_hs
      then bool_decide (strip_str (py_str rule_hs) = get_text record lvl "")
      else true) ["HS2"; "HS4"; "HS6"] in
  let cargo_desc := py_str (get record "Goods Shipped" (Some "")) in
  let exclude_kw := get rule "Exclude_Keywords" (Some "") in
  let exclude_ok :=
    if py_present exclude_kw
    then negb (existsb (fun ex => py_in_str ex (upper_str cargo_desc))
                 (split_upper ";" (py_str exclude_kw)))
    else true in
  carrier_ok && vtype_ok && hs_ok && check_keyword_match cargo_desc rule && exclude_ok &&
  tonnage_ok record rule.

(** ** Locks, lines 226-260 *)

(** A locked column refuses a rule whose (stripped) value differs from the
    record's, when both are non-empty. *)
Definition lock_ok (record rule : Row) (lock col : string) : bool :=
  if is_true_flag record lock then
    let rv := get_text rule col "" in
    let cv := get_text record col "" in
    negb (bool_decide (rv <> "" /\ cv <> "" /\ rv <> cv))
  else true.

(** [can_apply_rule], lines 226-260. *)
Definition can_apply_rule (record rule : Row) : bool :=
  let exclude_groups := get rule "Exclude_Groups" (Some "") in
  let groups_ok :=
    if py_present exclude_groups then
      let current_group := get_text record "Group" "" in
      negb (bool_decide (current_group <> "") &&
            bool_decide (current_group ∈ map strip_str (split_str ";" (py_str exclude_groups))))
    else true in
  groups_ok && lock_ok record rule "Group_Locked" "Group" &&
  lock_ok record rule "Commodity_Locked" "Commodity" &&
  lock_ok record rule "Cargo_Locked" "Cargo" &&
  negb (is_true_flag record "Cargo_Detail_Locked").

(** ** Applying a rule, lines 262-307 *)

(** [clean_value], lines 265-272: NaN, [''] and ['nan'] become ['TBN']. *)
Definition clean_value (v : option string) : string :=
  match v with
  | None => "TBN"
  | Some s =>
      if bool_decide (s = "") then "TBN" else
      let t := strip_str s in
      if bool_decide (t = "" \/ lower_str t = "nan") then "TBN" else t
  end.

(** [if rule.get(flag) == 'TRUE': record[lock] = 'TRUE'] *)
Definition set_lock (rule : Row) (flag lock : string) (r : Row) : Row :=
  if is_true_flag rule flag then <[lock := Some "TRUE"]> r else r.

(** [record['Group'] = group] when the rule's group is a real value: the
    raw cell is written, not its stripped text. *)
Definition set_group (rule : Row) (r : Row) : Row :=
  match get rule "Group" (Some "") with
  | Some g => if bool_decide (g <> "" /\ strip_str g <> "" /\ lower_str (strip_str g) <> "nan")
              then <["Group" := Some g]> r else r
  | None => r
  end.

(** [if not record.get('Classified_Phase')]: an absent label or [''] is
    falsy, a NaN cell is truthy. *)
Definition phase_unset (r : Row) : bool :=
  match r !! "Classified_Phase" with
  | None => true
  | Some (Some s) => bool_decide (s = "")
  | Some None => false
  end.

(** [apply_rule], lines 262-307. *)
Definition apply_rule (record rule : Row) : Row :=
  let r := set_group rule record in
  let r := <["Commodity" := Some (clean_value (get rule "Commodity" (Some "")))]> r in
  let r := <["Cargo" := Some (clean_value (get rule "Cargo" (Some "")))]> r in
  let r := <["Cargo Detail" := Some (clean_value (get rule "Cargo_Detail" (Some "")))]> r in
  let r := set_lock rule "Lock_Group" "Group_Locked" r in
  let r := set_lock rule "Lock_Commodity" "Commodity_Locked" r in
  let r := set_lock rule "Lock_Cargo" "Cargo_Locked" r in
  let r := set_lock rule "Lock_Cargo_Detail" "Cargo_Detail_Locked" r in
  let r := if phase_unset r then <["Classified_Phase" := get rule "Phase" (Some "")]> r else r in
  <["Last_Rule_ID" := get rule "Rule_ID" (Some "")]> r.

(** ** The phase loop, lines 309-356 *)

(** One record in one phase, lines 338-348: a record whose
    [Cargo_Detail_Locked] is ['TRUE'] is skipped; otherwise the first rule
    that matches and may be applied is applied and the row is written back. *)
Definition classify_row (cols : list string) (rules : list Row) (r : Row) : Row :=
  if bool_decide (r !! "Cargo_Detail_Locked" = Some (Some "TRUE")) then r
  else match list_find (fun rule => check_match r rule && can_apply_rule r rule = true) rules with
       | Some (_, rule) => store_row cols (apply_rule r rule)
       | None => r
       end.

Definition classify_phase (cols : list string) (rules : list Row) (rows : list Row) : list Row :=
  classify_row cols rules <$> rows.

(** [df_dict['Phase'].astype(int)]: one unparsable phase raises. *)
Definition phase_of (rule : Row) : option Z := get rule "Phase" None ≫= py_int.

(** [sorted(df_dict['Phase'].astype(int).unique())] *)
Definition phases_of (rules : list Row) : option (list Z) :=
  ints ← mapM phase_of rules; Some (merge_sort (≤)%Z (remove_dups ints)).

(** [df_dict[df_dict['Phase'] == str(phase)]]: the text is compared, not
    the number. *)
Definition phase_rules (rules : list Row) (phase : Z) : list Row :=
  filter (fun rule => get rule "Phase" None = Some (int_str phase)) rules.

(** Lines 314-326: the taxonomy columns are added when missing, the locks
    and the tracking columns are reset. *)
Definition init_cols (cols : list string) : list string :=
  foldl add_col cols ["Group"; "Commodity"; "Cargo"; "Group_Locked"; "Commodity_Locked";
                      "Cargo_Locked"; "Cargo_Detail_Locked"; "Classified_Phase"; "Last_Rule_ID"].

Definition init_row (cols : list string) (r : Row) : Row :=
  let add_if_missing c r := if bool_decide (c ∈ cols) then r else <[c := Some ""]> r in
  let r := add_if_missing "Group" (add_if_missing "Commodity" (add_if_missing "Cargo" r)) in
  <["Last_Rule_ID" := Some ""]> (<["Classified_Phase" := Some ""]>
  (<["Cargo_Detail_Locked" := Some "FALSE"]> (<["Cargo_Locked" := Some "FALSE"]>
  (<["Commodity_Locked" := Some "FALSE"]> (<["Group_Locked" := Some "FALSE"]> r))))).

Definition run_phases (cols : list string) (rules : list Row) (phases : list Z) (rows : list Row)
    : list Row :=
  foldl (fun rows p => classify_phase cols (phase_rules rules p) rows) rows phases.

(** [classify_records], lines 309-356: [astype(int)] raises on a phase
    [int()] cannot read; after the phases, [classified/len(df)*100]
    (line 354) raises on a frame without rows. *)
Definition classify_records (df : Frame) (rules : list Row) : ClassifyError + Frame :=
  let cols := init_cols (fr_cols df) in
  match phases_of rules with
  | None => inl PhaseValueError
  | Some phases =>
      let rows := run_phases cols rules phases (map (init_row (fr_cols df)) (fr_rows df)) in
      if bool_decide (rows = []) then inl (ZeroDivisionError 354) else inr (mkFrame cols rows)
  end.

(** [load_dictionary], lines 95-113: the active rules, in file order. *)
Definition load_dictionary (dict : list Row) : list Row :=
  filter (fun rule => get rule "Active" None = Some "TRUE") dict.

(** [main], lines 419-452: vessel types, dictionary, classification;
    an error is the exception the [try] block reports. *)
Definition classify_main (ships : list Row) (df : Frame) (dict : list Row) : ClassifyError + Frame :=
  match add_vessel_types ships df with
  | inl e => inl e
  | inr df' => classify_records df' (load_dictionary dict)
  end.

(** ** Example data *)

Definition row_of (l : list (string * string)) : Row :=
  list_to_map ((fun kv => (kv.1, Some kv.2)) <$> l).

(** A record whose group [Energy] is locked, and a later rule of group
    [Metals] without any filter. *)
Definition locked_record : Row :=
  row_of [("Goods Shipped", "CRUDE OIL"); ("Group", "Energy"); ("Group_Locked", "TRUE");
          ("Cargo_Detail_Locked", "FALSE")].
Definition metals_rule : Row := row_of [("Active", "TRUE"); ("Phase", "1"); ("Rule_ID", "R2"); ("Group", "Metals")].
Definition locked_cols : list string := ["Goods Shipped"; "Group"; "Group_Locked"; "Cargo_Detail_Locked"].

(** A frame without a [Cargo Detail] column and a rule with a [Cargo_Detail]. *)
Definition export_record : Row := row_of [("Goods Shipped", "CRUDE OIL")].
Definition detail_rule : Row :=
  row_of [("Active", "TRUE"); ("Phase", "1"); ("Rule_ID", "R1"); ("Group", "Energy");
          ("Cargo", "Crude"); ("Cargo_Detail", "Light sweet")].
Definition export_frame : Frame := mkFrame ["Goods Shipped"] [export_record].
Definition export_classified : Frame :=
  match classify_records export_frame [detail_rule] with inr f => f | inl _ => mkFrame [] [] end.

(** An exclusion list with a trailing [;], and a zero-padded phase. *)
Definition scrap_rule : Row := row_of [("Exclude_Keywords", "SCRAP;")].
Definition padded_phase_rule : Row := row_of [("Active", "TRUE"); ("Phase", "02"); ("Rule_ID", "R3")].

(** ** Frame and row lemmas *)

Create Rewrite HintDb classify_rw.

Lemma store_row_lookup cols r k : k ∈ cols -> store_row cols r !! k = r !! k.
Proof.
  intros Hk. unfold store_row. rewrite map_lookup_filter.
  destruct (r !! k); simpl; [|done]. by rewrite option_guard_True.
Qed.

Lemma store_row_lookup_out cols r k : k ∉ cols -> store_row cols r !! k = None.
Proof. intros Hk. unfold store_row. apply map_lookup_filter_None. right. intros x _. done. Qed.

Lemma get_store_row cols r k d : k ∈ cols -> get (store_row cols r) k d = get r k d.
Proof. intros Hk. unfold get. by rewrite store_row_lookup. Qed.

Lemma is_true_flag_spec r k : is_true_flag r k = true <-> r !! k = Some (Some "TRUE").
Proof.
  unfold is_true_flag, get. rewrite bool_decide_eq_true.
  destruct (r !! k) as [[v|]|]; simpl; split; congruence.
Qed.

Lemma set_lock_lookup_ne rule flag lock r k : k <> lock -> set_lock rule flag lock r !! k = r !! k.
Proof. intros Hk. unfold set_lock. destruct (is_true_flag rule flag); [|done]. by rewrite lookup_insert_ne. Qed.

Lemma set_lock_true rule flag lock r k :
  is_true_flag r k = true -> is_true_flag (set_lock rule flag lock r) k = true.
Proof.
  rewrite !is_true_flag_spec. intros Hk. unfold set_lock. destruct (is_true_flag rule flag); [|done].
  destruct (decide (k = lock)) as [->|Hne]; [by rewrite lookup_insert_eq|by rewrite lookup_insert_ne].
Qed.

Lemma set_group_lookup_ne rule r k : k <> "Group" -> set_group rule r !! k = r !! k.
Proof.
  intros Hk. unfold set_group. destruct (get rule "Group" (Some "")); [|done].
  case_bool_decide; [by rewrite lookup_insert_ne|done].
Qed.

#[export] Hint Rewrite set_lock_lookup_ne set_group_lookup_ne using done : classify_rw.

(** Pushes a lookup through the writes of [apply_rule] to other columns. *)
Ltac simpl_row :=
  repeat first [ rewrite lookup_insert_ne by done | progress autorewrite with classify_rw ].

(** [apply_rule] writes [Group] through [set_group] only. *)
Lemma apply_rule_group r rule : apply_rule r rule !! "Group" = set_group rule r !! "Group".
Proof. unfold apply_rule. cbv zeta. destruct (phase_unset _); by simpl_row. Qed.

(** [apply_rule] never clears a flag it does not write. *)
Lemma apply_rule_flag r rule k :
  k <> "Last_Rule_ID" -> k <> "Classified_Phase" -> k <> "Cargo Detail" -> k <> "Cargo" ->
  k <> "Commodity" -> k <> "Group" ->
  is_true_flag r k = true -> is_true_flag (apply_rule r rule) k = true.
Proof.
  intros H1 H2 H3 H4 H5 H6 Hk. unfold apply_rule. cbv zeta.
  apply is_true_flag_spec. destruct (phase_unset _); simpl_row; apply is_true_flag_spec;
    do 4 apply set_lock_true; apply is_true_flag_spec; simpl_row; by apply is_true_flag_spec.
Qed.

Lemma lock_ok_same r rule lock col g :
  is_true_flag r lock = true -> get_text r col "" = g -> g <> "" -> lock_ok r rule lock col = true ->
  get_text rule col "" = "" \/ get_text rule col "" = g.
Proof.
  unfold lock_ok. intros -> Hg Hne Hok. apply negb_true_iff, bool_decide_eq_false in Hok.
  destruct (decide (get_text rule col "" = "")); [by left|right].
  destruct (decide (get_text rule col "" = g)); [done|]. subst. tauto.
Qed.

Lemma set_group_text rule r g :
  get_text r "Group" "" = g -> (get_text rule "Group" "" = "" \/ get_text rule "Group" "" = g) ->
  get_text (set_group rule r) "Group" "" = g.
Proof.
  unfold set_group. intros Hr Hrule. destruct (get rule "Group" (Some "")) as [gr|] eqn:Hg; [|done].
  case_bool_decide as Hv; [|done]. unfold get_text in Hrule |- *. rewrite Hg in Hrule.
  unfold get at 1. rewrite lookup_insert_eq. simpl in *. destruct Hrule; [tauto|done].
Qed.

Lemma can_apply_rule_locks r rule :
  can_apply_rule r rule = true ->
  lock_ok r rule "Group_Locked" "Group" = true /\ lock_ok r rule "Commodity_Locked" "Commodity" = true /\
  lock_ok r rule "Cargo_Locked" "Cargo" = true /\ is_true_flag r "Cargo_Detail_Locked" = false.
Proof. unfold can_apply_rule. rewrite !andb_true_iff, negb_true_iff. tauto. Qed.

(** One record in one phase keeps a locked, non-empty [Group]. *)
Lemma classify_row_group_lock cols rules r g :
  "Group" ∈ cols -> "Group_Locked" ∈ cols ->
  is_true_flag r "Group_Locked" = true -> get_text r "Group" "" = g -> g <> "" ->
  is_true_flag (classify_row cols rules r) "Group_Locked" = true /\
  get_text (classify_row cols rules r) "Group" "" = g.
Proof.
  intros Hg Hl Hf Ht Hne. unfold classify_row. case_bool_decide; [done|].
  destruct (list_find _ rules) as [[i rule]|] eqn:Hfind; [|done].
  apply list_find_Some in Hfind as (_ & Hsat & _). apply andb_true_iff in Hsat as [_ Hcan].
  destruct (can_apply_rule_locks _ _ Hcan) as (HlG & _).
  unfold is_true_flag, get_text. rewrite !get_store_row by done. fold (is_true_flag (apply_rule r rule) "Group_Locked").
  split; [by apply apply_rule_flag|].
  fold (get_text (apply_rule r rule) "Group" ""). unfold get_text, get. rewrite apply_rule_group.
  fold (get (set_group rule r) "Group" (Some "")). fold (get_text (set_group rule r) "Group" "").
  apply set_group_text; [done|]. eapply lock_ok_same; eauto.
Qed.

(** ** The phase loop *)

Lemma run_phases_cons cols rules p ps rows :
  run_phases cols rules (p :: ps) rows = run_phases cols rules ps (classify_phase cols (phase_rules rules p) rows).
Proof. reflexivity. Qed.

(** A property of rows that every [classify_row] preserves holds of every
    row after any sequence of phases. *)
Lemma run_phases_Forall (P : Row -> Prop) cols rules phases rows :
  (forall rs r, P r -> P (classify_row cols rs r)) ->
  Forall P rows -> Forall P (run_phases cols rules phases rows).
Proof.
  intros Hstep. revert rows. induction phases as [|p ps IH]; intros rows Hrows; [done|].
  rewrite run_phases_cons. apply IH. apply Forall_fmap. eapply Forall_impl; [exact Hrows|]. apply Hstep.
Qed.

Lemma add_col_elem cols c d : d ∈ add_col cols c <-> d ∈ cols \/ d = c.
Proof. unfold add_col. case_bool_decide; set_solver. Qed.

Lemma foldl_add_col_elem cols cs d : d ∈ foldl add_col cols cs <-> d ∈ cols \/ d ∈ cs.
Proof.
  revert cols. induction cs as [|c cs IH]; intros cols; simpl; [set_solver|].
  rewrite IH, add_col_elem. set_solver.
Qed.

Lemma init_row_lookup_detail cols r : init_row cols r !! "Cargo Detail" = r !! "Cargo Detail".
Proof. unfold init_row. cbv zeta. simpl_row. repeat (destruct (bool_decide _)); by simpl_row. Qed.

Lemma classify_row_no_detail cols rules r :
  "Cargo Detail" ∉ cols -> r !! "Cargo Detail" = None -> classify_row cols rules r !! "Cargo Detail" = None.
Proof.
  intros Hc Hr. unfold classify_row. case_bool_decide; [done|].
  destruct (list_find _ rules) as [[i rule]|]; [by apply store_row_lookup_out|done].
Qed.

Lemma phase_of_elem rules ints p :
  Forall2 (fun x y => phase_of x = Some y) rules ints ->
  p ∈ ints <-> exists rule, rule ∈ rules /\ phase_of rule = Some p.
Proof.
  induction 1 as [|x y xs ys Hxy _ IH]; [set_solver|].
  rewrite elem_of_cons, IH. split.
  - intros [->|(rule & Hin & Hp)]; [exists x; split; [left|done]|exists rule; split; [right|]]; done.
  - intros (rule & [->|Hin]%elem_of_cons & Hp); [left; congruence|right; by exists rule].
Qed.

Lemma StronglySorted_le_lt (l : list Z) : StronglySorted Z.le l -> NoDup l -> StronglySorted Z.lt l.
Proof.
  induction 1 as [|x l _ IH Hall]; intros Hnd; constructor.
  - apply IH. by apply NoDup_cons in Hnd as [_ ?].
  - apply NoDup_cons in Hnd as [Hx _]. apply Forall_forall. intros y Hy.
    rewrite Forall_forall in Hall. specialize (Hall y Hy).
    assert (x <> y) by (intros ->; contradiction). lia.
Qed.

Lemma py_in_nil h : py_in [] h = true.
Proof. by destruct h. Qed.

Lemma is_prefix_app p l : is_prefix p (p ++ l) = true.
Proof. induction p; cbn; [done|]. by rewrite bool_decide_true. Qed.

Lemma py_in_app_r n a b : py_in n b = true -> py_in n (a ++ b) = true.
Proof.
  intros H. induction a as [|c a IH]; [done|].
  change (py_in n ((c :: a) ++ b)) with (is_prefix n (c :: a ++ b) || py_in n (a ++ b)).
  rewrite IH. apply orb_true_r.
Qed.

Lemma py_in_app_l n a b : py_in n a = true -> py_in n (a ++ b) = true.
Proof.
  induction a as [|c a IH]; intros H; [destruct n; [apply py_in_nil|done]|].
  change (py_in n ((c :: a) ++ b)) with (is_prefix n (c :: a ++ b) || py_in n (a ++ b)).
  change (py_in n (c :: a)) with (is_prefix n (c :: a) || py_in n a) in H.
  apply orb_true_iff in H as [H|H]; [|rewrite IH by done; apply orb_true_r].
  apply orb_true_intro. left. revert H. clear. revert c a.
  induction n as [|d n IH]; intros c a; cbn; [done|].
  destruct a as [|e a]; cbn; [by destruct n; rewrite ?andb_false_r|].
  intros [? ?]%andb_true_iff. apply andb_true_iff. split; [done|]. by apply IH.
Qed.

Lemma py_in_prefix n l : is_prefix n l = true -> py_in n l = true.
Proof. destruct l; cbn; intros ->; done. Qed.

(** [s.split(sep)] of a text without [sep] is [[s]]. *)
Lemma py_split_sep_absent sep l : sep ∉ l -> py_split_sep sep l = [l].
Proof.
  induction l as [|c l IH]; intros Hl; [done|]. cbn.
  rewrite bool_decide_false by (intros ->; apply Hl; by left).
  rewrite IH; [done|]. intros Hin. apply Hl. by right.
Qed.

Lemma py_split_sep_nonempty sep l : py_split_sep sep l <> [].
Proof. induction l as [|c l IH]; cbn; [done|]. case_bool_decide; [done|]. by destruct (py_split_sep sep l). Qed.

Lemma py_split_sep_app sep a b : py_split_sep sep (a ++ sep :: b) = py_split_sep sep a ++ py_split_sep sep b.
Proof.
  induction a as [|c a IH]; cbn; [by rewrite bool_decide_true|].
  rewrite IH. case_bool_decide; [done|].
  destruct (py_split_sep sep a) eqn:E; [by apply py_split_sep_nonempty in E|done].
Qed.

Lemma py_split_sep_no_sep sep l w : w ∈ py_split_sep sep l -> sep ∉ w.
Proof.
  revert w. induction l as [|c l IH]; intros w; cbn.
  { rewrite elem_of_cons. intros [->|Hw]; [apply not_elem_of_nil|by apply not_elem_of_nil in Hw]. }
  case_bool_decide as Hc.
  - rewrite elem_of_cons. intros [->|Hw]; [apply not_elem_of_nil|by apply IH].
  - destruct (py_split_sep sep l) as [|w0 ws] eqn:E; [by apply py_split_sep_nonempty in E|].
    rewrite elem_of_cons. intros [->|Hw].
    + rewrite not_elem_of_cons. split; [done|]. apply IH. set_solver.
    + apply IH. set_solver.
Qed.

Lemma py_join_split sep l : py_join sep (py_split_sep sep l) = l.
Proof.
  induction l as [|c l IH]; [done|]. cbn. case_bool_decide as Hc.
  - subst. destruct (py_split_sep sep l) as [|w ws] eqn:E; [by apply py_split_sep_nonempty in E|]. by rewrite <- IH.
  - destruct (py_split_sep sep l) as [|w ws] eqn:E; [by apply py_split_sep_nonempty in E|].
    destruct ws; cbn in *; by rewrite IH.
Qed.

Lemma py_in_join n sep ws w : w ∈ ws -> py_in n w = true -> py_in n (py_join sep ws) = true.
Proof.
  induction ws as [|w0 ws IH]; intros Hw Hn; [by apply not_elem_of_nil in Hw|].
  apply elem_of_cons in Hw as [->|Hw].
  - destruct ws; cbn; [done|]. by apply py_in_app_l.
  - destruct ws as [|w1 ws]; [by apply not_elem_of_nil in Hw|].
    change (py_join sep (w0 :: w1 :: ws)) with (w0 ++ sep :: py_join sep (w1 :: ws)).
    apply (py_in_app_r n w0 (sep :: _)). change (sep :: py_join sep (w1 :: ws)) with ([sep] ++ py_join sep (w1 :: ws)).
    apply py_in_app_r. by apply IH.
Qed.

(** [sep.join] then [split(sep)] gives the pieces back when none holds [sep]. *)
Lemma py_split_sep_join sep ws :
  ws <> [] -> Forall (fun w => sep ∉ w) ws -> py_split_sep sep (py_join sep ws) = ws.
Proof.
  induction ws as [|w ws IH]; intros Hne Hall; [done|]. inversion Hall as [|? ? Hw Hws]; subst.
  destruct ws as [|w' ws'].
  - cbn. by apply py_split_sep_absent.
  - change (py_join sep (w :: w' :: ws')) with (w ++ sep :: py_join sep (w' :: ws')).
    rewrite py_split_sep_app, IH by done. by rewrite py_split_sep_absent.
Qed.

(** The tanker words are tried before the gas words, so an LNG or LPG
    tanker is typed [Tanker], never [LPG/LNG Carrier]. *)
Lemma gas_tanker_typed_tanker :
  map_vessel_type (Some "LNG Tanker") = "Tanker" /\ map_vessel_type (Some "LPG Tanker") = "Tanker".
Proof. split; vm_compute; reflexivity. Qed.

(** A rule whose only keywords are [Descriptor_Keywords] matches nothing:
    they count as keywords but no branch reads them. *)
Lemma descriptor_only_never_matches desc rule :
  kw_set (get_text rule "Key_Phrases" "") = false -> kw_set (get_text rule "Primary_Keywords" "") = false ->
  kw_set (get_text rule "Keywords" "") = false -> kw_set (get_text rule "Descriptor_Keywords" "") = true ->
  check_keyword_match desc rule = false.
Proof. intros H1 H2 H3 H4. unfold check_keyword_match. cbv zeta. rewrite H1, H2, H3, H4. by rewrite andb_false_r. Qed.

(** ** Properties of the classifier *)

(** C26.  Locks are an invariant of the phase loop: a record whose
    [Group_Locked] is ['TRUE'] and whose [Group] is a non-empty text keeps
    that lock and that group (after [strip()]) through every later phase,
    whatever the rules. *)
Theorem group_lock_kept cols rules phases rows i r g :
  "Group" ∈ cols -> "Group_Locked" ∈ cols ->
  rows !! i = Some r -> is_true_flag r "Group_Locked" = true -> get_text r "Group" "" = g -> g <> "" ->
  exists r', run_phases cols rules phases rows !! i = Some r' /\
    is_true_flag r' "Group_Locked" = true /\ get_text r' "Group" "" = g.
Proof.
  intros Hg Hl. revert rows r. induction phases as [|p ps IH]; intros rows r Hi Hf Ht Hne; [by exists r|].
  rewrite run_phases_cons.
  destruct (classify_row_group_lock cols (phase_rules rules p) r g) as [Hf' Ht']; try done.
  apply (IH _ (classify_row cols (phase_rules rules p) r)); try done.
  unfold classify_phase. by rewrite list_lookup_fmap, Hi.
Qed.

Lemma group_lock_kept_witness :
  exists r', run_phases locked_cols [metals_rule] [1%Z] [locked_record] !! 0%nat = Some r' /\
    is_true_flag r' "Group_Locked" = true /\ get_text r' "Group" "" = "Energy".
Proof.
  apply (group_lock_kept locked_cols [metals_rule] [1%Z] [locked_record] 0 locked_record "Energy");
    try reflexivity; try pc_decide.
Defined.

(** C27.  The rules' [Cargo_Detail] never reaches the output:
    [apply_rule] writes the label ['Cargo Detail'], which
    [classify_records] never adds to the frame, so [df.loc[idx] = record]
    drops it.  On a frame without that column no classified row has a
    value there. *)
Theorem classify_drops_cargo_detail df rules f :
  "Cargo Detail" ∉ fr_cols df -> Forall (fun r => r !! "Cargo Detail" = None) (fr_rows df) ->
  classify_records df rules = inr f ->
  ("Cargo Detail" ∉ fr_cols f) /\ Forall (fun r => r !! "Cargo Detail" = None) (fr_rows f).
Proof.
  intros Hc Hr. unfold classify_records. destruct (phases_of rules) as [ps|]; [|done].
  case_bool_decide as Hnil; [done|]. intros [= <-]. simpl.
  assert (Hi : "Cargo Detail" ∉ init_cols (fr_cols df)).
  { unfold init_cols. rewrite foldl_add_col_elem. intros [H|H]; [done|]. revert H. pc_decide. }
  split; [done|]. apply run_phases_Forall.
  - intros rs r Hr'. by apply classify_row_no_detail.
  - apply Forall_fmap. eapply Forall_impl; [exact Hr|]. intros r Hr'. simpl. by rewrite init_row_lookup_detail.
Qed.

Lemma classify_drops_cargo_detail_witness :
  (("Cargo Detail" ∉ fr_cols export_classified) /\
   Forall (fun r => r !! "Cargo Detail" = None) (fr_rows export_classified)) /\
  fr_rows export_classified !! 0%nat ≫= (fun r => r !! "Cargo") = Some (Some "Crude").
Proof.
  split; [|vm_compute; reflexivity].
  apply (classify_drops_cargo_detail export_frame [detail_rule] export_classified).
  - pc_decide.
  - repeat constructor.
  - vm_compute. reflexivity.
Defined.

(** An [Exclude_Keywords] list with an empty entry (a trailing or
    doubled [;]) rejects every record: [any(ex in desc for ex in
    exclude_list)] does not skip the empty word, and [''] is in every
    string. *)
Theorem exclude_empty_entry_rejects_all record rule s :
  get rule "Exclude_Keywords" (Some "") = Some s -> py_present (Some s) = true ->
  "" ∈ split_upper ";" s -> check_match record rule = false.
Proof.
  intros Hget Hpres Hempty. unfold check_match. cbv zeta. rewrite Hget, Hpres. simpl py_str.
  assert (Hex : existsb (fun ex => py_in_str ex (upper_str (py_str (get record "Goods Shipped" (Some "")))))
                  (split_upper ";" s) = true).
  { apply existsb_exists. exists "". split; [by apply list_elem_of_In|]. apply py_in_nil. }
  rewrite Hex. simpl. by rewrite !andb_false_r.
Qed.

Lemma exclude_empty_entry_rejects_all_witness : check_match export_record scrap_rule = false.
Proof.
  apply (exclude_empty_entry_rejects_all export_record scrap_rule "SCRAP;"); try reflexivity.
  pc_decide.
Defined.

(** A rule whose [Phase] text is not the canonical decimal of its
    value ([02], [ 2], [+2]) is counted among the phases by
    [astype(int)] but selected by none: [df_dict['Phase'] == str(phase)]
    compares the text. *)
Theorem phase_text_never_selected rules rule t n :
  get rule "Phase" None = Some t -> py_int t = Some n -> t <> int_str n ->
  forall p, rule ∉ phase_rules rules p.
Proof.
  intros Hp Hn Hne p Hin. apply list_elem_of_filter in Hin as [Hq _].
  rewrite Hp in Hq. injection Hq as ->. rewrite py_int_int_str in Hn. by injection Hn as ->.
Qed.

Lemma phase_text_never_selected_witness : padded_phase_rule ∉ phase_rules [metals_rule; padded_phase_rule] 2.
Proof.
  apply (phase_text_never_selected [metals_rule; padded_phase_rule] padded_phase_rule "02" 2); try reflexivity.
  discriminate.
Defined.

(** The phases run in strictly increasing order, each once, and are
    exactly the [Phase] numbers of the rules. *)
Theorem phases_of_sorted rules ps :
  phases_of rules = Some ps ->
  StronglySorted Z.lt ps /\ forall p, p ∈ ps <-> exists rule, rule ∈ rules /\ phase_of rule = Some p.
Proof.
  unfold phases_of. destruct (mapM phase_of rules) as [ints|] eqn:Hm; simpl; [|done].
  intros [= <-]. apply mapM_Some in Hm. split.
  - apply StronglySorted_le_lt; [apply StronglySorted_merge_sort; [intros ???; lia|intros ??; lia]|].
    rewrite (merge_sort_Permutation (≤)%Z). apply NoDup_remove_dups.
  - intros p. rewrite (merge_sort_Permutation (≤)%Z), elem_of_remove_dups. by apply phase_of_elem.
Qed.

Lemma phases_of_sorted_witness :
  StronglySorted Z.lt [1%Z; 2%Z] /\
  forall p, p ∈ [1%Z; 2%Z] <-> exists rule, rule ∈ [metals_rule; detail_rule; padded_phase_rule] /\
                                              phase_of rule = Some p.
Proof. apply phases_of_sorted. vm_compute. reflexivity. Defined.

(** [classify_records] fails with the [ValueError] of [astype(int)]
    (which [main] reports, after which nothing is saved) exactly when an
    active rule has a [Phase] that [int()] cannot read. *)
Theorem classify_records_error df rules :
  classify_records df rules = inl PhaseValueError <-> exists rule, rule ∈ rules /\ phase_of rule = None.
Proof.
  unfold classify_records, phases_of. destruct (mapM phase_of rules) as [ints|] eqn:Hm; simpl.
  - split; [by case_bool_decide|]. intros (rule & Hin & Hp).
    assert (Hs : is_Some (mapM phase_of rules)) by (rewrite Hm; eauto).
    apply mapM_is_Some in Hs. rewrite Forall_forall in Hs. destruct (Hs rule Hin) as [x Hx].
    simpl in Hx. congruence.
  - split; [intros _|done]. assert (Hn : ¬ Forall (is_Some ∘ phase_of) rules).
    { intros Hall%mapM_is_Some. rewrite Hm in Hall. by destruct Hall. }
    apply not_Forall_Exists in Hn; [|intros x; apply _]. apply Exists_exists in Hn as (rule & Hin & Hr).
    exists rule. split; [first [done | by apply list_elem_of_In]|]. simpl in Hr. by apply eq_None_not_Some.
Qed.

End Classify.
