(* ===== verification/ClassifyStats.v ===== *)
(** * The classifier's statistics: [generate_stats] and the end of [main]
      in [classify_15k_sample_v3.6.0.py]

    [generate_stats] counts the classified rows, the rows of each
    [Classified_Phase] and of each [Group], and writes them with their
    share of the total; [main] calls it before it saves the classified
    frame, inside the [try] that reports any exception.  An exception is a
    [Classify.ClassifyError]; the first that can occur is the
    [ZeroDivisionError] of [add_vessel_types] on an empty sample.  The [Percentage]
    column is kept as the value the [:.1f%] format renders (its text is not
    modelled). *)

From S2P Require Import Prelude Normalize Format VoyRecid Transform Classify.
From Stdlib Require Import QArith.
From stdpp Require Import sorting.

Module ClassifyStats.
Import Normalize Format VoyRecid Transform Classify.

(** A row of [df_stats]: [''] cells are [None]. *)
Record Stat := mkStat {
  stat_metric : string;
  stat_count : option nat;
  stat_pct : option Q;
}.

Definition blank_stat : Stat := mkStat "" None None.
Definition header_stat (m : string) : Stat := mkStat m None None.

(** [count/total*100]; [None] is the [ZeroDivisionError] of an empty frame. *)
Definition pct (count total : nat) : option Q :=
  if decide (total = 0%nat) then None
  else Some (inject_Z (Z.of_nat count) / inject_Z (Z.of_nat total) * 100)%Q.

(** [df['Group'] != '']: a NaN group is not [''], so it counts. *)
Definition is_classified (r : Row) : bool := bool_decide (get r "Group" None <> Some "").

Definition phase_cell (r : Row) : option string := get r "Classified_Phase" None.
Definition group_cell (r : Row) : option string := get r "Group" None.

(** [sorted(series.unique())] on text cells: [unique] keeps one NaN, and
    [sorted] raises [TypeError] when it must compare NaN with a string. *)
Definition py_sorted_cells (u : list (option string)) : option (list (option string)) :=
  if bool_decide (None ∈ u) then (if decide (length u <= 1)%nat then Some u else None)
  else Some (Some <$> py_sorted (omap id u)).

(** [if phase:]: [''] is falsy, NaN and any other text are truthy. *)
Definition py_truthy (o : option string) : bool :=
  match o with Some s => bool_decide (s <> "") | None => true end.

(** [len(df[df['Classified_Phase'] == phase])] *)
Definition phase_count (rows : list Row) (ph : option string) : nat :=
  length (filter (fun r => py_eq (phase_cell r) ph = true) rows).

(** [df.groupby('Group').size()]: the non-NaN groups in sorted order. *)
Definition group_sizes (rows : list Row) : list (string * nat) :=
  (fun g => (g, length (filter (fun r => group_cell r = Some g) rows))) <$>
  py_sorted (remove_dups (omap group_cell rows)).

(** [.sort_values(ascending=False)], ties kept in key order (the
    insertion sort numpy uses on short arrays is stable). *)
Definition sort_by_count (l : list (string * nat)) : list (string * nat) := sort_desc snd l.

(** [generate_stats], lines 358-407, up to [df_stats.to_csv]. *)
Definition generate_stats (rows : list Row) : option (list Stat) :=
  let total := length rows in
  let classified := length (filter (fun r => is_classified r = true) rows) in
  p_cls ← pct classified total;
  p_uncls ← pct (total - classified) total;
  phases ← py_sorted_cells (remove_dups (phase_cell <$> rows));
  p_phases ← mapM (fun ph => if py_truthy ph
                            then (fun p => Some (mkStat ("  Phase " +:+ py_str ph)
                                                   (Some (phase_count rows ph)) (Some p)))
                                 <$> pct (phase_count rows ph) total
                            else Some None) phases;
  p_groups ← mapM (fun gc : string * nat =>
                     if bool_decide (gc.1 <> "")
                     then (fun p => Some (mkStat ("  " +:+ gc.1) (Some gc.2) (Some p))) <$> pct gc.2 total
                     else Some None) (sort_by_count (group_sizes rows));
  Some ([mkStat "Total Records" (Some total) (Some 100%Q);
         mkStat "Classified" (Some classified) (Some p_cls);
         mkStat "Unclassified" (Some (total - classified)) (Some p_uncls);
         blank_stat; header_stat "By Phase:"] ++ omap id p_phases ++
        [blank_stat; header_stat "By Classification Group:"] ++ omap id p_groups).

(** [main], lines 425-444: classification, statistics, then the save.
    An error is the exception the [except] block reports; nothing is
    saved then. *)
Definition classify_run (ships : list Row) (df : Frame) (dict : list Row)
    : ClassifyError + (list Stat * Frame) :=
  match classify_main ships df dict with
  | inl e => inl e
  | inr f =>
      match generate_stats (fr_rows f) with
      | Some stats => inr (stats, f)
      | None => inl StatsError
      end
  end.

(** ** Counting lemmas *)

Lemma sort_by_count_perm l : sort_by_count l ≡ₚ l.
Proof. apply sort_desc_perm. Qed.

Lemma group_sizes_sum rows :
  sum_list_with snd (filter (fun gc : string * nat => gc.1 <> "") (group_sizes rows)) =
  length (filter (fun r => group_cell r ∈ Some <$> filter (fun g => g <> "") 
                          (py_sorted (remove_dups (omap group_cell rows)))) rows).
Proof.
  rewrite <- keys_count.
  2: { apply NoDup_filter. rewrite py_sorted_perm. apply NoDup_remove_dups. }
  unfold group_sizes. generalize (py_sorted (remove_dups (omap group_cell rows))) as ks.
  intros ks. induction ks as [|k ks IH]; [done|]. rewrite fmap_cons, !filter_cons. simpl.
  case_decide; simpl; by rewrite IH.
Qed.

(** ** Group accounting *)

(** The classified rows are the rows of the listed groups and the rows
    whose [Group] is NaN, which [groupby] drops. *)
Lemma group_rows_account rows :
  (sum_list_with snd (filter (fun gc : string * nat => gc.1 <> "") (sort_by_count (group_sizes rows)))
   + length (filter (fun r => group_cell r = None) rows))%nat =
  length (filter (fun r => is_classified r = true) rows).
Proof.
  rewrite sort_by_count_perm, group_sizes_sum, <- filter_or_length.
  2: { intros r Hin Hn. rewrite Hn in Hin. by apply list_elem_of_fmap in Hin as (? & ? & _). }
  apply filter_length_ext_in. intros r Hr. unfold is_classified. rewrite bool_decide_eq_true.
  fold (group_cell r). split.
  - intros [(g & -> & Hg)%list_elem_of_fmap| ->]; [|done].
    apply list_elem_of_filter in Hg as [Hg _]. congruence.
  - intros Hne. destruct (group_cell r) as [g|] eqn:E; [left|by right].
    apply list_elem_of_fmap. exists g. split; [done|]. apply list_elem_of_filter.
    split; [congruence|]. rewrite py_sorted_perm, elem_of_remove_dups, list_elem_of_omap. by exists r.
Qed.

(** ** When the statistics fail *)

Lemma pct_ne0 c t : t <> 0%nat -> is_Some (pct c t).
Proof. intros Ht. unfold pct. case_decide; [done|eauto]. Qed.

Lemma generate_stats_Some rows :
  rows <> [] -> Forall (fun r => phase_cell r <> None) rows -> is_Some (generate_stats rows).
Proof.
  intros Hne Hph. assert (Ht : length rows <> 0%nat) by (destruct rows; simpl; [done|lia]).
  unfold generate_stats.
  destruct (pct_ne0 (length (filter (fun r => is_classified r = true) rows)) _ Ht) as [p1 ->].
  destruct (pct_ne0 (length rows - length (filter (fun r => is_classified r = true) rows)) _ Ht) as [p2 ->].
  simpl. unfold py_sorted_cells. rewrite bool_decide_eq_false_2.
  2: { rewrite elem_of_remove_dups. intros (r & Hr & Hin)%list_elem_of_fmap.
       rewrite Forall_forall in Hph. by apply (Hph r). }
  simpl. destruct (mapM_is_Some_2 (fun ph => if py_truthy ph
                            then (fun p => Some (mkStat ("  Phase " +:+ py_str ph)
                                                   (Some (phase_count rows ph)) (Some p)))
                                 <$> pct (phase_count rows ph) (length rows)
                            else Some None) (Some <$> py_sorted (omap id (remove_dups (phase_cell <$> rows)))))
    as [ps ->].
  { apply Forall_forall. intros ph _. simpl. destruct (py_truthy ph); [|eauto].
    destruct (pct_ne0 (phase_count rows ph) _ Ht) as [p ->]. eauto. }
  simpl. destruct (mapM_is_Some_2 (fun gc : string * nat =>
                     if bool_decide (gc.1 <> "")
                     then (fun p => Some (mkStat ("  " +:+ gc.1) (Some gc.2) (Some p))) <$> pct gc.2 (length rows)
                     else Some None) (sort_by_count (group_sizes rows))) as [gs ->].
  { apply Forall_forall. intros gc _. simpl. case_bool_decide; [|eauto].
    destruct (pct_ne0 gc.2 _ Ht) as [p ->]. eauto. }
  simpl. eauto.
Qed.

Lemma generate_stats_None rows :
  Forall (fun r => phase_cell r <> None) rows -> generate_stats rows = None <-> rows = [].
Proof.
  intros Hph. split; [|by intros ->].
  intros Hn. destruct rows as [|r rs]; [done|exfalso].
  destruct (generate_stats_Some (r :: rs)) as [? Hs]; [done|done|]. congruence.
Qed.

(** ** The rows [classify_records] returns *)

(** A classification step leaves a text [Classified_Phase]: it keeps the
    row's or writes the [Phase] of a rule that has one. *)
Lemma classify_row_phase_cell cols rs r :
  "Classified_Phase" ∈ cols -> (forall rule, rule ∈ rs -> get rule "Phase" None <> None) ->
  phase_cell r <> None -> phase_cell (classify_row cols rs r) <> None.
Proof.
  intros Hcol Hrs Hr. unfold classify_row. case_bool_decide; [done|].
  destruct (list_find _ rs) as [[i rule]|] eqn:E; [|done].
  apply list_find_Some in E as (Hi & _ & _). apply list_elem_of_lookup_2, Hrs in Hi.
  unfold phase_cell. rewrite get_store_row by done. unfold apply_rule. cbv zeta.
  unfold phase_cell, get in *. destruct (phase_unset _).
  - rewrite lookup_insert_ne, lookup_insert_eq by done. simpl.
    destruct (rule !! "Phase") as [[]|]; simpl in *; congruence.
  - simpl_row. done.
Qed.

Lemma run_phases_phase_cell cols rules ps rows :
  "Classified_Phase" ∈ cols -> Forall (fun r => phase_cell r <> None) rows ->
  Forall (fun r => phase_cell r <> None) (run_phases cols rules ps rows).
Proof.
  intros Hcol. revert rows. induction ps as [|p ps IH]; intros rows Hrows; [done|].
  rewrite run_phases_cons. apply IH. apply Forall_fmap. eapply Forall_impl; [exact Hrows|].
  intros r Hr. apply classify_row_phase_cell; [done| |done].
  intros rule [Hp _]%list_elem_of_filter. by rewrite Hp.
Qed.

Lemma run_phases_length cols rules ps rows : length (run_phases cols rules ps rows) = length rows.
Proof.
  revert rows. induction ps as [|p ps IH]; intros rows; [done|].
  rewrite run_phases_cons, IH. apply length_fmap.
Qed.

Lemma classify_records_rows df rules f :
  classify_records df rules = inr f ->
  length (fr_rows f) = length (fr_rows df) /\ Forall (fun r => phase_cell r <> None) (fr_rows f) /\
  Forall (fun rule => is_Some (phase_of rule)) rules.
Proof.
  unfold classify_records. destruct (phases_of rules) as [ps|] eqn:Hps; [|done].
  case_bool_decide; [done|]. intros [= <-]. simpl.
  rewrite run_phases_length, length_map. split_and!; [done| |].
  - apply run_phases_phase_cell.
    + apply foldl_add_col_elem. right. set_solver.
    + apply Forall_forall. intros r Hr. apply list_elem_of_In, in_map_iff in Hr as (r0 & <- & _).
      unfold phase_cell, init_row, get. cbv zeta.
      rewrite lookup_insert_ne, lookup_insert_eq by done. done.
  - unfold phases_of in Hps. apply mapM_is_Some. destruct (mapM phase_of rules); [eauto|done].
Qed.

(** [classify_records] never raises at line 354 on a frame with rows, and
    never reports a statistics error. *)
Lemma classify_records_errors df rules e :
  classify_records df rules = inl e -> e = PhaseValueError \/ (e = ZeroDivisionError 354 /\ fr_rows df = []).
Proof.
  unfold classify_records. destruct (phases_of rules); [|intros [= <-]; by left].
  case_bool_decide as Hz; [|done]. intros [= <-]. right. split; [done|].
  apply (f_equal length) in Hz. rewrite run_phases_length, length_map in Hz.
  by apply length_zero_iff_nil.
Qed.

Lemma generate_stats_head rows stats :
  generate_stats rows = Some stats ->
  head stats = Some (mkStat "Total Records" (Some (length rows)) (Some 100%Q)).
Proof. unfold generate_stats. intros H. simplify_option_eq. done. Qed.

(** ** Examples *)

Definition phase_rows : list Row :=
  [row_of [("Group", "Metals"); ("Classified_Phase", "2")];
   row_of [("Group", "Energy"); ("Classified_Phase", "10")]].

(** The phases are text, so [sorted] lists phase 10 before phase 2. *)
Lemma phase_rows_text_order :
  map stat_metric <$> generate_stats phase_rows =
  Some ["Total Records"; "Classified"; "Unclassified"; ""; "By Phase:";
        "  Phase 10"; "  Phase 2"; ""; "By Classification Group:"; "  Energy"; "  Metals"].
Proof. vm_compute. reflexivity. Qed.

(** ** Theorems *)


(** A sample without rows: [main] reports the [ZeroDivisionError] of
    line 81. *)
Example classify_run_empty_sample :
  classify_run [] (mkFrame ["Goods Shipped"] []) [detail_rule] = inl (ZeroDivisionError 81).
Proof. vm_compute. reflexivity. Qed.

End ClassifyStats.
