(* ===== verification/Rollups.v ===== *)
(** * Port rollups: [add_port_rollups_to_exports_v1.0.0.py]

    The script attaches [Port_Consolidated], [Port_Coast] and
    [Port_Region] to the Panjiva export port calls (by port name) and to
    the USACE clearances (by port code), from one mapping file.

    - The two lookups are Python dicts.  A dict keeps its keys in
      first-insertion order and a later row of a key overwrites its value;
      the name matcher iterates the dict in that order, so the model is an
      association list ([PyDict]) and [pyd_build_lookup] shows that its
      lookups are those of [Transform.build_dict].
    - The mapping file and the clearance file are read without [dtype], so
      pandas types a code column itself: integers when the column is
      complete, floats when a cell is missing.  [read_code_column] is what
      [str()] / [astype(str)] then gives: ['4110'] or ['4110.0'] and
      ['nan'].
    - [match_port_name] tries the first comma-separated part, then the
      second, then a substring match in dict order. *)

From S2P Require Import Prelude Normalize Format VoyRecid Transform Classify.
From Stdlib Require Import Ascii.
Import Normalize Format VoyRecid Transform Classify.

Module Rollups.

(** ** Python dicts with their insertion order *)

Definition PyDict (V : Type) : Type := list (string * V).

(** [d[k] = v]: in place when [k] is a key, at the end otherwise. *)
Fixpoint pyd_insert {V} (k : string) (v : V) (d : PyDict V) : PyDict V :=
  match d with
  | [] => [(k, v)]
  | (k0, v0) :: d' => if bool_decide (k0 = k) then (k, v) :: d' else (k0, v0) :: pyd_insert k v d'
  end.

(** [d.get(k)] *)
Fixpoint pyd_lookup {V} (d : PyDict V) (k : string) : option V :=
  match d with
  | [] => None
  | (k0, v0) :: d' => if bool_decide (k0 = k) then Some v0 else pyd_lookup d' k
  end.

Definition pyd_build {V} (rows : list (string * V)) : PyDict V :=
  foldl (fun d kv => pyd_insert kv.1 kv.2 d) [] rows.

(** ** The mapping file, lines 39-71 *)

(** [str()] of the cells of a numeric column as [read_csv] types it. *)
Definition read_code_column (cells : list (option Z)) : list string :=
  if forallb (fun o => bool_decide (is_Some o)) cells then map (fun o => int_str (default 0%Z o)) cells
  else map (fun o => match o with Some z => int_str z +:+ ".0" | None => "nan" end) cells.

(** A row of [usace_to_census_port_mapping.csv]. *)
Record PortMapRow := mkPortMapRow {
  pm_usace_port : option Z;
  pm_usace_port_name : option string;
  pm_consolidated : option string;
  pm_coast : option string;
  pm_region : option string;
}.

(** [Port_Consolidated], [Port_Coast], [Port_Region]; [None] is NaN. *)
Record Rollup := mkRollup { ro_consolidated : option string; ro_coast : option string; ro_region : option string }.

Definition rollup_of (r : PortMapRow) : Rollup := mkRollup (pm_consolidated r) (pm_coast r) (pm_region r).

(** [port_lookup_usace], lines 46-53. *)
Definition port_lookup_usace (rows : list PortMapRow) : PyDict Rollup :=
  pyd_build (zip (map strip_str (read_code_column (map pm_usace_port rows))) (map rollup_of rows)).

(** [city.replace('PORT OF ', '').replace('PORT ', '').replace('THE ', '')] *)
Definition strip_port_words (l : list Ascii.ascii) : list Ascii.ascii :=
  py_replace "THE " "" (py_replace "PORT " "" (py_replace "PORT OF " "" l)).

(** [str.split(',')[0].strip()] *)
Definition first_part (l : list Ascii.ascii) : list Ascii.ascii :=
  py_strip (default [] (head (py_split_sep "," l))).

(** [port_lookup_name], lines 57-68: the city part of the upper-cased
    name, a missing name being the text ['NAN']. *)
Definition name_key (name : option string) : option string :=
  let usace_name := upper_str (strip_str (py_str name)) in
  if bool_decide (usace_name = "") then None
  else Some (String.string_of_list_ascii
               (strip_port_words (first_part (String.list_ascii_of_string usace_name)))).

Definition port_lookup_name (rows : list PortMapRow) : PyDict Rollup :=
  pyd_build (omap (fun r => (fun k => (k, rollup_of r)) <$> name_key (pm_usace_port_name r)) rows).

(** ** [match_port_name], lines 74-114 *)

(** The cleaning of the first part, lines 90-91. *)
Definition clean_city (l : list Ascii.ascii) : list Ascii.ascii :=
  py_replace "PORT ENTRY-" "" (py_replace "ENTRY-" "" (strip_port_words l)).

(** [city in port_name or port_name in city] *)
Definition overlaps (a b : string) : bool := py_in_str a b || py_in_str b a.

(** The substring pass, lines 108-112, in dict order. *)
Fixpoint partial_match (city : string) (city2 : option string) (d : PyDict Rollup) : option Rollup :=
  match d with
  | [] => None
  | (port_name, rollup) :: d' =>
      if overlaps city port_name then Some rollup
      else match city2 with
           | Some c2 => if overlaps c2 port_name then Some rollup else partial_match city city2 d'
           | None => partial_match city city2 d'
           end
  end.

(** [port_str = str(panjiva_port).upper().strip()], line 80. *)
Definition port_text (p : string) : list Ascii.ascii := py_strip (String.list_ascii_of_string (upper_str p)).

(** [city], lines 85 and 90-91. *)
Definition port_city (p : string) : string :=
  String.string_of_list_ascii (clean_city (first_part (port_text p))).

(** [city2_clean] when [city2] is truthy, lines 87 and 100-101. *)
Definition port_city2 (p : string) : option string :=
  match py_split_sep "," (port_text p) with
  | _ :: c2 :: _ => let c2 := py_strip c2 in
                    if bool_decide (c2 = []) then None
                    else Some (String.string_of_list_ascii (strip_port_words c2))
  | _ => None
  end.

(** [match_port_name]; [None] is [(None, None, None)]. *)
Definition match_port_name (d : PyDict Rollup) (panjiva_port : option string) : option Rollup :=
  match panjiva_port with
  | None => None
  | Some p =>
      if bool_decide (p = "") then None else
      match pyd_lookup d (port_city p) with
      | Some r => Some r
      | None =>
          match port_city2 p ≫= pyd_lookup d with
          | Some r => Some r
          | None => partial_match (port_city p) (port_city2 p) d
          end
      end
  end.

(** ** The two files, lines 116-173 *)

Definition nan_rollup : Rollup := mkRollup None None None.
Definition empty_rollup : Rollup := mkRollup (Some "") (Some "") (Some "").

(** Lines 132-135: [Port_of_Lading] by name; no match is NaN. *)
Definition export_rollups (rows : list PortMapRow) (ports : list (option string)) : list Rollup :=
  map (fun p => default nan_rollup (match_port_name (port_lookup_name rows) p)) ports.

(** The clearance frame: its columns, the numeric cells of a code column
    and [Clearance_Port_Name]. *)
Record ClearanceFrame := mkClearanceFrame {
  cf_cols : list string;
  cf_codes : string -> list (option Z);
  cf_port_names : list (option string);
}.

(** Lines 155-162: [PORT], else [Clearance_Port], else none. *)
Definition port_col (cols : list string) : option string :=
  if bool_decide ("PORT" ∈ cols) then Some "PORT"
  else if bool_decide ("Clearance_Port" ∈ cols) then Some "Clearance_Port" else None.

(** [port_lookup_usace.get(x, {}).get(col, '')] *)
Definition code_rollup (d : PyDict Rollup) (x : string) : Rollup := default empty_rollup (pyd_lookup d x).

(** Lines 163-173. *)
Definition clearance_rollups (rows : list PortMapRow) (cf : ClearanceFrame) : list Rollup :=
  match port_col (cf_cols cf) with
  | Some c => map (fun x => code_rollup (port_lookup_usace rows) (strip_str x))
                  (read_code_column (cf_codes cf c))
  | None => export_rollups rows (cf_port_names cf)
  end.

(** ** Example data *)

(** Two mapping rows of one city name in two states, a row without a
    name, and a clearance code column with a missing cell. *)
Definition portland_me : PortMapRow :=
  mkPortMapRow (Some 101%Z) (Some "Portland, ME") (Some "Portland ME") (Some "East") (Some "New England").
Definition portland_or : PortMapRow :=
  mkPortMapRow (Some 2904%Z) (Some "Portland, OR") (Some "Portland OR") (Some "West") (Some "Pacific NW").
Definition houston : PortMapRow :=
  mkPortMapRow (Some 5301%Z) (Some "Houston, TX") (Some "Houston") (Some "Gulf") (Some "Texas").
Definition gappy_clearance : ClearanceFrame :=
  mkClearanceFrame ["PORT"] (fun _ => [Some 2904%Z; None]) [].

(** ** Dictionary lemmas *)

Lemma pyd_lookup_insert {V} (d : PyDict V) k k' v :
  pyd_lookup (pyd_insert k' v d) k = if bool_decide (k' = k) then Some v else pyd_lookup d k.
Proof.
  induction d as [|[k0 v0] d IH]; cbn [pyd_insert pyd_lookup]; [done|].
  destruct (decide (k0 = k')) as [<-|Hne].
  - rewrite bool_decide_true by done. cbn [pyd_lookup]. by case_bool_decide.
  - rewrite bool_decide_false by done. cbn [pyd_lookup]. rewrite IH. repeat case_bool_decide; congruence.
Qed.

(** The insertion-ordered dict answers every lookup as the finite map of
    [Transform.build_dict] does: the last row of a key wins. *)
Lemma pyd_build_lookup {V} (rows : list (string * V)) k :
  pyd_lookup (pyd_build rows) k = build_dict rows !! k.
Proof.
  rewrite build_dict_lookup. unfold pyd_build.
  assert (Hgen : forall d, pyd_lookup (foldl (fun d kv => pyd_insert kv.1 kv.2 d) d rows) k =
            match last (key_values k rows) with Some v => Some v | None => pyd_lookup d k end).
  { induction rows as [|[k' v] rows IH]; intros d; [done|]. simpl. rewrite IH.
    unfold key_values. simpl. rewrite pyd_lookup_insert. case_bool_decide; [subst|].
    - rewrite last_cons. by destruct (last _).
    - done. }
  rewrite Hgen. by destruct (last _).
Qed.

Lemma key_values_app {V} k (l1 l2 : list (string * V)) :
  key_values k (l1 ++ l2) = key_values k l1 ++ key_values k l2.
Proof. apply omap_app. Qed.

Lemma key_values_none {V} k (l : list (string * V)) : k ∉ l.*1 -> key_values k l = [].
Proof.
  induction l as [|[k' v] l IH]; intros Hk; [done|]. simpl in Hk. apply not_elem_of_cons in Hk as [Hk Hl].
  unfold key_values. simpl. rewrite bool_decide_false by done. by apply IH.
Qed.

Lemma key_values_absent {V} k (l : list (string * V)) : Forall (fun kv => kv.1 <> k) l -> key_values k l = [].
Proof.
  induction 1 as [|[k' v] l Hk _ IH]; [done|].
  unfold key_values in *. simpl. by rewrite bool_decide_false.
Qed.

(** A later row of a key overwrites an earlier one. *)
Lemma build_dict_last_wins {V} l1 k (v : V) l2 :
  Forall (fun kv => kv.1 <> k) l2 -> build_dict (l1 ++ (k, v) :: l2) !! k = Some v.
Proof.
  intros Hl2. rewrite build_dict_lookup, key_values_app.
  replace (key_values k ((k, v) :: l2)) with [v]; [by rewrite last_snoc|].
  unfold key_values. simpl. rewrite bool_decide_true by done. f_equal. symmetry. by apply key_values_absent.
Qed.

Lemma pyd_build_not_key {V} (rows : list (string * V)) k : k ∉ rows.*1 -> pyd_lookup (pyd_build rows) k = None.
Proof. intros Hk. by rewrite pyd_build_lookup, build_dict_lookup, key_values_none. Qed.

(** ** Code columns *)

Lemma list_ascii_of_string_app s t :
  String.list_ascii_of_string (s +:+ t) = String.list_ascii_of_string s ++ String.list_ascii_of_string t.
Proof.
  induction s as [|c s IH]; [done|].
  change (c :: String.list_ascii_of_string (s +:+ t) =
          c :: String.list_ascii_of_string s ++ String.list_ascii_of_string t).
  by rewrite IH.
Qed.

(** [str(int(x))] has no ['.']. *)
Lemma int_chars_no_dot z : "."%char ∉ int_chars z.
Proof.
  destruct (int_chars_shape z) as [_ Hall]. intros Hin. rewrite Forall_forall in Hall.
  specialize (Hall _ Hin). discriminate Hall.
Qed.

(** The text of a float code cell is never the text of an integer one. *)
Lemma float_text_not_int z z' : int_str z +:+ ".0" <> int_str z'.
Proof.
  intros Heq. apply (f_equal String.list_ascii_of_string) in Heq.
  rewrite list_ascii_of_string_app in Heq. unfold int_str in Heq.
  rewrite !String.list_ascii_of_string_of_list_ascii in Heq.
  apply (int_chars_no_dot z'). rewrite <- Heq. apply elem_of_app. right. by left.
Qed.

Lemma strip_float_text z : strip_str (int_str z +:+ ".0") = int_str z +:+ ".0".
Proof.
  unfold strip_str. rewrite list_ascii_of_string_app, py_strip_nonspace.
  - rewrite <- list_ascii_of_string_app. apply String.string_of_list_ascii_of_string.
  - destruct (int_chars_shape z) as [_ Hall]. unfold int_str.
    rewrite String.list_ascii_of_string_of_list_ascii. apply Forall_app. split; [|by repeat constructor].
    eapply Forall_impl; [exact Hall|]. intros c [Hd | Hm]%orb_true_iff; [by apply digit_not_space|].
    apply Ascii.eqb_eq in Hm. by subst.
Qed.

Lemma read_code_column_length cells : length (read_code_column cells) = length cells.
Proof. unfold read_code_column. destruct (forallb _ _); apply length_map. Qed.

Lemma read_code_column_complete cells :
  Forall is_Some cells -> read_code_column cells = map (fun o => int_str (default 0%Z o)) cells.
Proof.
  intros Hall. unfold read_code_column. replace (forallb _ cells) with true; [done|].
  symmetry. apply forallb_forall. intros o Ho%list_elem_of_In. rewrite Forall_forall in Hall.
  apply bool_decide_eq_true. by apply Hall.
Qed.

Lemma read_code_column_gap cells i :
  cells !! i = Some None ->
  read_code_column cells = map (fun o => match o with Some z => int_str z +:+ ".0" | None => "nan" end) cells.
Proof.
  intros Hi. unfold read_code_column. replace (forallb _ cells) with false; [done|].
  symmetry. apply not_true_iff_false. intros Hall. rewrite forallb_forall in Hall.
  apply list_elem_of_lookup_2, list_elem_of_In in Hi. specialize (Hall _ Hi). by apply bool_decide_eq_true in Hall as [].
Qed.

Lemma map_const_replicate {A B} (f : A -> B) e l : Forall (fun x => f x = e) l -> map f l = replicate (length l) e.
Proof. induction 1; simpl; by f_equal. Qed.

(** A port whose text starts with a comma has an empty city, and [''] is
    in every name, so the substring pass returns the first city of the
    mapping file: a Texas port gets the rollups of Portland. *)
Lemma comma_port_gets_first_rollup :
  match_port_name (port_lookup_name [portland_me; portland_or; houston]) (Some ", TEXAS") =
  Some (rollup_of portland_or).
Proof. vm_compute. reflexivity. Qed.

(** A mapping row without a name has the key ['NAN'], which the substring
    pass finds inside names such as [FERNANDINA BEACH]. *)
Lemma nan_key_matches_inside_names :
  match_port_name (port_lookup_name [portland_me; mkPortMapRow (Some 9999%Z) None (Some "Unknown") None None])
    (Some "Fernandina Beach, FL") = Some (mkRollup (Some "Unknown") None None).
Proof. vm_compute. reflexivity. Qed.

(** ** Properties of the rollups *)

(** The name lookup keys a port by its city alone: when two mapping
    rows have the same city (Portland, Maine and Portland, Oregon), the
    later row's rollups overwrite the earlier's, and every Panjiva port
    with that city, whatever its state, receives the later row's
    [Port_Consolidated], [Port_Coast] and [Port_Region]. *)
Theorem same_city_last_row_wins rows1 r rows2 k p :
  name_key (pm_usace_port_name r) = Some k ->
  Forall (fun r' => name_key (pm_usace_port_name r') <> Some k) rows2 ->
  p <> "" -> port_city p = k ->
  match_port_name (port_lookup_name (rows1 ++ r :: rows2)) (Some p) = Some (rollup_of r).
Proof.
  intros Hr Hrows2 Hp Hcity. unfold match_port_name. rewrite bool_decide_false by done.
  unfold port_lookup_name. rewrite pyd_build_lookup, Hcity, omap_app.
  assert (Homap : omap (fun r0 : PortMapRow => (fun k0 => (k0, rollup_of r0)) <$> name_key (pm_usace_port_name r0))
                    (r :: rows2) =
                  (k, rollup_of r) ::
                  omap (fun r0 : PortMapRow => (fun k0 => (k0, rollup_of r0)) <$> name_key (pm_usace_port_name r0))
                    rows2) by (cbn [omap list_omap]; by rewrite Hr).
  rewrite Homap, build_dict_last_wins; [done|].
  apply Forall_forall. intros [k' v'] (r' & Hr' & Hkv)%list_elem_of_omap. simpl. intros ->.
  rewrite Forall_forall in Hrows2. apply (Hrows2 r' Hr'). cbv beta in Hkv.
  destruct (name_key (pm_usace_port_name r')); simpl in Hkv; congruence.
Qed.

Lemma same_city_last_row_wins_witness :
  match_port_name (port_lookup_name [portland_me; portland_or; houston]) (Some "Portland, Maine") =
  Some (rollup_of portland_or).
Proof.
  apply (same_city_last_row_wins [portland_me] portland_or [houston] "PORTLAND"); try reflexivity.
  - repeat constructor. discriminate.
  - discriminate.
Defined.

(** C29.  The code lookup of the clearances matches nothing when the
    clearance code column has one missing cell and the mapping's
    [USACE_PORT] column has none: pandas then reads the clearance codes as
    floats, [astype(str)] renders them ['4110.0'] (or ['nan']), and no
    integer code of the mapping has that text, so every clearance row gets
    [''] for its three rollups. *)
Theorem clearance_code_gap_unmatched rows cf c i :
  port_col (cf_cols cf) = Some c -> Forall (fun r => is_Some (pm_usace_port r)) rows ->
  cf_codes cf c !! i = Some None ->
  clearance_rollups rows cf = replicate (length (cf_codes cf c)) empty_rollup.
Proof.
  intros Hc Hall Hi. unfold clearance_rollups. rewrite Hc, (read_code_column_gap _ i Hi), map_map.
  apply map_const_replicate. apply Forall_forall. intros o _. unfold code_rollup, port_lookup_usace.
  rewrite pyd_build_not_key; [done|]. rewrite fst_zip by (rewrite !length_map, read_code_column_length, length_map; lia).
  rewrite read_code_column_complete by (apply Forall_fmap; exact Hall).
  rewrite !map_map. intros Hin%list_elem_of_In. apply in_map_iff in Hin as (r & Heq & _).
  rewrite strip_int_str in Heq. destruct o as [z|].
  - rewrite strip_float_text in Heq. by apply (float_text_not_int z (default 0%Z (pm_usace_port r))).
  - change (strip_str "nan") with "nan" in Heq. by apply (int_str_valid (default 0%Z (pm_usace_port r))).
Qed.

Lemma clearance_code_gap_unmatched_witness :
  clearance_rollups [portland_me; portland_or; houston] gappy_clearance = [empty_rollup; empty_rollup].
Proof.
  apply (clearance_code_gap_unmatched [portland_me; portland_or; houston] gappy_clearance "PORT" 1);
    try reflexivity.
  repeat econstructor.
Defined.

End Rollups.
