(* ===== verification/RollupsRun.v ===== *)
(** * The rollups script as a run: [add_port_rollups_to_exports_v1.0.0.py],
      lines 116-205

    [Rollups] models the lookups and the rollup columns.  This file models
    the script around them:
    - the export branch, taken only when a [PORTCALL] file is found
      (lines 117-145), its coverage [notna().sum()] (line 138) and its
      save;
    - the clearance branch (lines 147-182), its coverage
      [(clearance['Port_Consolidated'] != '').sum()] (line 176) and its
      save;
    - the summary of lines 184-212: the two coverages and the [nunique()]
      counts; the export part only when [exports] was defined.
    Both coverages are [numpy.int64] values: their percentages (lines 139
    and 177) print [nan] on a file without rows instead of raising, so
    the script always runs to the end.  The tonnage rankings of lines
    196-206 and the fixed text are not modelled.

    pandas' [!= ''] is [True] on NaN, so the clearance coverage counts a
    row whose rollup is NaN; NaN rollups arise in the name-matching
    fallback of lines 168-173. *)

From S2P Require Import Prelude Normalize Format VoyRecid Transform Classify Rollups.
Import Normalize Format VoyRecid Transform Classify Rollups.

Module RollupsRun.

(** ** Coverage and [nunique] *)

(** [(exports['Port_Consolidated'].notna()).sum()], lines 138 and 191. *)
Definition export_covered (ro : list Rollup) : nat :=
  length (List.filter (fun r => bool_decide (is_Some (ro_consolidated r))) ro).

(** [(clearance['Port_Consolidated'] != '').sum()], lines 176 and 209:
    NaN is different from [''] and counts. *)
Definition clearance_covered (ro : list Rollup) : nat :=
  length (List.filter (fun r => bool_decide (ro_consolidated r <> Some "")) ro).

(** [Series.nunique()]: the distinct values, NaN dropped. *)
Definition nunique (col : list (option string)) : nat := length (remove_dups (omap id col)).

Record Coverage := mkCoverage {
  cov_matched : nat;
  cov_total : nat;
  cov_unique_consolidated : nat;
  cov_unique_coast : nat;
  cov_unique_region : nat;
}.

Definition coverage (covered : list Rollup -> nat) (ro : list Rollup) : Coverage :=
  mkCoverage (covered ro) (length ro) (nunique (map ro_consolidated ro))
    (nunique (map ro_coast ro)) (nunique (map ro_region ro)).

(** The summary: the export part when [exports] is defined
    ([if 'exports' in locals()]), then the clearance part. *)
Record RollupsSummary := mkRollupsSummary {
  rs_export : option Coverage;
  rs_clearance : Coverage;
}.

(** ** The run *)

(** What the script leaves: the rollups of the files it writes and its
    summary. *)
Record RollupsResult := mkRollupsResult {
  rr_export_saved : option (list Rollup);
  rr_clearance_saved : list Rollup;
  rr_summary : RollupsSummary;
}.

(** [exports_ports] is the [Port_of_Lading] column of the newest
    [PORTCALL] file, [None] when none is found (line 119). *)
Definition rollups_run (rows : list PortMapRow) (exports_ports : option (list (option string)))
    (cf : ClearanceFrame) : RollupsResult :=
  let exp := export_rollups rows <$> exports_ports in
  let clr := clearance_rollups rows cf in
  mkRollupsResult exp clr
    (mkRollupsSummary (coverage export_covered <$> exp) (coverage clearance_covered clr)).

(** ** Lemmas *)

Section DictValues.
Context {V : Type} (P : V -> Prop).

Lemma pyd_insert_values (d : PyDict V) k v :
  Forall (fun kv => P kv.2) d -> P v -> Forall (fun kv => P kv.2) (pyd_insert k v d).
Proof.
  induction 1 as [|[k0 v0] d H0 Hd IH]; intros Hv; simpl; [by repeat constructor|].
  case_bool_decide; constructor; auto.
Qed.

Lemma pyd_build_values (rows : list (string * V)) :
  Forall (fun kv => P kv.2) rows -> Forall (fun kv => P kv.2) (pyd_build rows).
Proof.
  unfold pyd_build. intros Hr.
  assert (Hnil : Forall (fun kv => P kv.2) (@nil (string * V))) by constructor.
  revert Hnil. generalize (@nil (string * V)).
  induction Hr as [|kv rows Hkv _ IH]; intros d Hd; simpl; [done|].
  by apply IH, pyd_insert_values.
Qed.

Lemma pyd_lookup_values (d : PyDict V) k v :
  Forall (fun kv => P kv.2) d -> pyd_lookup d k = Some v -> P v.
Proof.
  induction 1 as [|[k0 v0] d H0 _ IH]; simpl; [done|].
  case_bool_decide; [by intros [= <-]|auto].
Qed.

End DictValues.

(** Every rollup the name matcher returns is a value of the dict. *)
Lemma match_port_name_values (P : Rollup -> Prop) d p v :
  Forall (fun kv => P kv.2) d -> match_port_name d p = Some v -> P v.
Proof.
  intros Hd. unfold match_port_name. destruct p as [p|]; [|done].
  case_bool_decide; [done|].
  destruct (pyd_lookup d (port_city p)) eqn:H1; [intros [= <-]; by eapply pyd_lookup_values|].
  destruct (port_city2 p ≫= pyd_lookup d) eqn:H2.
  { intros [= <-]. destruct (port_city2 p); simpl in H2; [by eapply pyd_lookup_values|done]. }
  generalize (port_city p) (port_city2 p). intros city city2. clear H1 H2.
  induction Hd as [|[k0 v0] d H0 _ IH]; simpl; [done|].
  destruct (overlaps city k0); [by intros [= <-]|].
  destruct city2 as [c2|]; [destruct (overlaps c2 k0); [by intros [= <-]|]|]; auto.
Qed.

Lemma port_lookup_name_values (P : Rollup -> Prop) rows :
  Forall (fun r => P (rollup_of r)) rows -> Forall (fun kv => P kv.2) (port_lookup_name rows).
Proof.
  intros Hr. apply pyd_build_values.
  induction Hr as [|r rows Hr _ IH]; simpl; [done|].
  destruct (name_key (pm_usace_port_name r)); simpl; [constructor|]; done.
Qed.

(** ** The clearance coverage *)

Lemma code_coverage d l :
  Forall (fun kv => ro_consolidated kv.2 <> Some "") d ->
  length (List.filter (fun r => bool_decide (ro_consolidated r <> Some ""))
            (map (fun x => code_rollup d (strip_str x)) l))
  = length (List.filter (fun x => bool_decide (is_Some (pyd_lookup d (strip_str x)))) l).
Proof.
  intros Hd. induction l as [|x l IH]; [done|]. cbn [map List.filter].
  unfold code_rollup at 1.
  case_bool_decide as H1; case_bool_decide as H2; cbn [length]; try lia;
    destruct (pyd_lookup d (strip_str x)) as [ro|] eqn:Hl; cbn [default] in *.
  - by destruct H2.
  - by destruct H1.
  - exfalso. by apply (pyd_lookup_values (fun ro => ro_consolidated ro <> Some "") d _ _ Hd Hl).
  - by destruct H2.
Qed.

(** The clearance coverage of lines 168 and 200.  With a code column it
    counts the rows whose code the mapping knows; without one, the
    name-matching fallback leaves an unmatched row NaN, which counts too,
    so it counts every row.  This holds when no mapping cell is the empty
    text, which [read_csv] never gives. *)
Theorem clearance_coverage_counts rows cf :
  Forall (fun r => pm_consolidated r <> Some "") rows ->
  clearance_covered (clearance_rollups rows cf)
  = match port_col (cf_cols cf) with
    | None => length (cf_port_names cf)
    | Some c => length (List.filter (fun x => bool_decide (is_Some (pyd_lookup (port_lookup_usace rows) (strip_str x))))
                          (read_code_column (cf_codes cf c)))
    end.
Proof.
  intros Hrows. unfold clearance_rollups, clearance_covered.
  assert (Hv : Forall (fun kv => ro_consolidated kv.2 <> Some "") (port_lookup_usace rows)).
  { unfold port_lookup_usace. apply (pyd_build_values (fun ro => ro_consolidated ro <> Some "")), Forall_forall.
    intros [k ro] Hin%elem_of_zip_r. cbn.
    apply list_elem_of_fmap in Hin as (r & -> & Hr).
    by apply (Forall_forall (fun r => pm_consolidated r <> Some "") rows) in Hr. }
  destruct (port_col (cf_cols cf)) as [c|].
  - by apply code_coverage.
  - unfold export_rollups.
    assert (Hn : Forall (fun kv => ro_consolidated kv.2 <> Some "") (port_lookup_name rows)).
    { apply (port_lookup_name_values (fun ro => ro_consolidated ro <> Some "")). exact Hrows. }
    induction (cf_port_names cf) as [|p l IH]; simpl; [done|].
    rewrite bool_decide_true; [simpl; lia|].
    destruct (match_port_name _ p) eqn:Hm; simpl; [|done].
    by eapply (match_port_name_values (fun ro => ro_consolidated ro <> Some "")).
Qed.


Lemma export_covered_le ro : export_covered ro <= length ro.
Proof.
  unfold export_covered. induction ro as [|r ro IH]; simpl; [done|].
  case_bool_decide; simpl; lia.
Qed.

(** ** The run *)

(** C30: The coverage figures of the rollups summary.  The export
    coverage is at most the number of export rows.  The clearance
    coverage, with a code column, counts the rows whose code the mapping
    knows; when the clearance file has neither [PORT] nor
    [Clearance_Port], it is the number of clearance rows whether or not
    any port name matched, since an unmatched row is NaN and NaN differs
    from [''].  No mapping cell is the empty text, as [read_csv] never
    gives. *)
Theorem rollups_run_coverage rows ep cf :
  Forall (fun r => pm_consolidated r <> Some "") rows ->
  (forall c, rs_export (rr_summary (rollups_run rows ep cf)) = Some c -> cov_matched c <= cov_total c) /\
  cov_matched (rs_clearance (rr_summary (rollups_run rows ep cf)))
  = match port_col (cf_cols cf) with
    | None => cov_total (rs_clearance (rr_summary (rollups_run rows ep cf)))
    | Some c => length (List.filter (fun x => bool_decide (is_Some (pyd_lookup (port_lookup_usace rows) (strip_str x))))
                          (read_code_column (cf_codes cf c)))
    end.
Proof.
  intros Hrows. split.
  - intros c Hs. destruct ep; simplify_eq/=. apply export_covered_le.
  - cbn. rewrite (clearance_coverage_counts rows cf Hrows).
    destruct (port_col (cf_cols cf)) eqn:Hp; [done|].
    unfold clearance_rollups. rewrite Hp. unfold export_rollups. by rewrite length_map.
Qed.

(** ** A concrete run *)

(** A clearance file without a code column, whose first port name matches
    no mapping row. *)
Definition nameless_port_clearance : ClearanceFrame :=
  mkClearanceFrame ["Clearance_Port_Name"] (fun _ => []) [Some "Nowhere"; Some "Houston, TX"].

Lemma rollups_run_coverage_witness :
  clearance_rollups [portland_me; houston] nameless_port_clearance !! 0 = Some nan_rollup /\
  cov_matched (rs_clearance (rr_summary (rollups_run [portland_me; houston] (Some [])
                                            nameless_port_clearance))) = 2 /\
  rr_export_saved (rollups_run [portland_me; houston] (Some []) nameless_port_clearance) = Some [].
Proof.
  split; [vm_compute; reflexivity|]. split; [|reflexivity].
  assert (Hf : Forall (fun r => pm_consolidated r <> Some "") [portland_me; houston])
    by (repeat constructor; discriminate).
  rewrite (proj2 (rollups_run_coverage [portland_me; houston] (Some []) nameless_port_clearance Hf)).
  vm_compute. reflexivity.
Defined.

End RollupsRun.
