(* ===== verification/Panjiva.v ===== *)
(** * Panjiva export preprocessing: [process_panjiva_exports_v1.0.0.py]

    The script concatenates the export files, numbers the records
    ([RAW_REC_ID]), derives [Year] from [Shipment Date], copies
    [Weight (t)] to [Tons], splits [HS Code] into [HS2], [HS4], [HS6], and
    writes one file per year.

    [read_csv] types the [HS Code] column itself: text when some cell is
    not a number, integers when every cell is a plain integer, floats
    otherwise (a decimal point or a missing cell).  [read_hs_column] is
    [str()] of the typed cells: a number loses its leading zeros, and a
    float prints as its integer part, a point, and its fraction without
    trailing zeros (['.0'] for none), which is Python's [repr] for the
    short decimals HS codes are.  The year is taken as parsed:
    [pd.to_datetime] on free text is not modelled.  The figures the script
    prints (lines 73-76 and 108-149) are [panjiva_summary]. *)

From S2P Require Import Prelude Normalize Format VoyRecid Transform Classify.
From Stdlib Require Import Ascii.
From stdpp Require Import sorting.
Import Normalize Format VoyRecid Transform Classify.

Module Panjiva.

(** ** Typing the [HS Code] column *)

(** A number to [read_csv]: digits, with at most one point. *)
Definition numeric_text (s : string) : bool :=
  match py_split_sep "." (String.list_ascii_of_string s) with
  | [ip] => bool_decide (ip <> []) && forallb is_digit ip
  | [ip; fr] => bool_decide (ip ++ fr <> []) && forallb is_digit ip && forallb is_digit fr
  | _ => false
  end.

Definition has_point (s : string) : bool := bool_decide ("."%char ∈ String.list_ascii_of_string s).

(** The integer part of a numeric text. *)
Definition int_part (s : string) : Z :=
  digits_Z (default [] (head (py_split_sep "." (String.list_ascii_of_string s)))).

Fixpoint drop_zeros (l : list Ascii.ascii) : list Ascii.ascii :=
  match l with
  | "0"%char :: l' => drop_zeros l'
  | _ => l
  end.

(** The fraction digits of a numeric text, trailing zeros removed. *)
Definition frac_part (s : string) : list Ascii.ascii :=
  match py_split_sep "." (String.list_ascii_of_string s) with
  | [_; fr] => reverse (drop_zeros (reverse fr))
  | _ => []
  end.

(** [str(float(s))] *)
Definition float_repr (s : string) : string :=
  int_str (int_part s) +:+ "." +:+
  String.string_of_list_ascii (match frac_part s with [] => ["0"%char] | fr => fr end).

(** [str()] of every cell of the column as [read_csv] types it; NaN
    stays NaN. *)
Definition read_hs_column (cells : list (option string)) : list (option string) :=
  let texts := omap (M:=list) (fun o : option string => o) cells in
  if existsb (fun s => negb (numeric_text s)) texts then cells
  else if existsb has_point texts || existsb (fun o => bool_decide (o = None)) cells
  then (fun o : option string => float_repr <$> o) <$> cells
  else (fun o : option string => (fun s => int_str (int_part s)) <$> o) <$> cells.

(** ** [extract_hs_codes], lines 86-100 *)

(** [s.ljust(w, c)] *)
Definition ljust (w : nat) (c : Ascii.ascii) (l : list Ascii.ascii) : list Ascii.ascii :=
  l ++ replicate (w - length l) c.

(** [s[:n] if len(s) >= n else ''] *)
Definition prefix_if (n : nat) (l : list Ascii.ascii) : string :=
  if bool_decide (n <= length l) then String.string_of_list_ascii (take n l) else "".

Definition extract_hs_codes (hs_code : option string) : string * string * string :=
  match hs_code with
  | None => ("", "", "")
  | Some s =>
      let hs_str := py_strip (py_replace "." "" (String.list_ascii_of_string s)) in
      let hs_str := ljust 6 "0" hs_str in
      (prefix_if 2 hs_str, prefix_if 4 hs_str, prefix_if 6 hs_str)
  end.

(** ** The concatenated frame *)

(** A record of an export file: its [HS Code] cell, the year of its
    parsed [Shipment Date] ([None] for NaT), and its [Weight (t)]. *)
Record ExportRaw := mkExportRaw {
  er_hs_code : option string;
  er_year : option Z;
  er_weight : option string;
}.

Record ExportFile := mkExportFile { ef_cols : list string; ef_rows : list ExportRaw }.

(** A preprocessed record. *)
Record PreRow := mkPreRow {
  pr_raw_rec_id : nat;
  pr_year : option Z;
  pr_tons : option (option string);   (** [None]: no [Tons] column *)
  pr_hs2 : string; pr_hs4 : string; pr_hs6 : string;
  pr_src : ExportRaw;
}.

#[export] Instance ExportRaw_eq_dec : EqDecision ExportRaw.
Proof. solve_decision. Defined.
#[export] Instance PreRow_eq_dec : EqDecision PreRow.
Proof. solve_decision. Defined.
#[export] Instance PreRow_inhabited : Inhabited PreRow :=
  populate (mkPreRow 0 None None "" "" "" (mkExportRaw None None None)).

(** Lines 42-106: [pd.concat] (the union of the columns), [RAW_REC_ID],
    [Tons] when some file has [Weight (t)], and the HS levels of the
    typed column. *)
Definition preprocess (files : list ExportFile) : list PreRow :=
  let cols := foldl (foldl add_col) [] (ef_cols <$> files) in
  let rows := concat (ef_rows <$> files) in
  let hs := read_hs_column (er_hs_code <$> rows) in
  zip_with (fun '(i, h) r =>
              let '(hs2, hs4, hs6) := extract_hs_codes h in
              mkPreRow i (er_year r)
                (if bool_decide ("Weight (t)" ∈ cols) then Some (er_weight r) else None)
                hs2 hs4 hs6 r)
           (zip (seq 1 (length rows)) hs) rows.

(** Lines 115-120: one file per year, in increasing order. *)
Definition year_files (pre : list PreRow) : list (Z * list PreRow) :=
  (fun y => (y, filter (fun r => pr_year r = Some y) pre)) <$>
  merge_sort (≤)%Z (remove_dups (omap pr_year pre)).

(** ** Example data *)

(** An HS code of chapter 09 (coffee) written with its leading zero. *)
Definition coffee_code : option string := Some "090111".

(** Two export files; the second record has no parsable date. *)
Definition export_file_2023 : ExportFile :=
  mkExportFile ["HS Code"; "Weight (t)"]
    [mkExportRaw coffee_code (Some 2023%Z) (Some "10"); mkExportRaw (Some "870323") None (Some "5")].
Definition export_file_2024 : ExportFile :=
  mkExportFile ["HS Code"] [mkExportRaw (Some "100190") (Some 2024%Z) None].
Definition example_pre : list PreRow := preprocess [export_file_2023; export_file_2024].

(** ** Lemmas *)

Lemma string_length_of_list l : String.length (String.string_of_list_ascii l) = length l.
Proof. induction l as [|c l IH]; simpl; [done|]. by rewrite IH. Qed.

Lemma ljust_length w c l : w <= length (ljust w c l).
Proof. unfold ljust. rewrite length_app, length_replicate. lia. Qed.

Lemma prefix_if_length n l : n <= length l -> String.length (prefix_if n l) = n.
Proof.
  intros Hn. unfold prefix_if. rewrite bool_decide_true by done.
  rewrite string_length_of_list, length_take. lia.
Qed.

(** Every HS level of a present code has its full width: after
    [ljust(6, '0')] the [else ''] branches of lines 96-98 never run. *)
Lemma extract_hs_codes_widths s :
  let '(hs2, hs4, hs6) := extract_hs_codes (Some s) in
  String.length hs2 = 2 /\ String.length hs4 = 4 /\ String.length hs6 = 6.
Proof.
  simpl. pose proof (ljust_length 6 "0" (py_strip (py_replace "." "" (String.list_ascii_of_string s)))).
  split; [|split]; apply prefix_if_length; lia.
Qed.

(** In a numeric column the leading zero of a chapter 01-09 code is lost:
    [090111] comes out as chapter 90, while a text column keeps [09]. *)
Lemma hs_leading_zero_lost :
  (extract_hs_codes <$> read_hs_column [coffee_code; Some "870323"]) !! 0%nat = Some ("90", "9011", "901110") /\
  (extract_hs_codes <$> read_hs_column [coffee_code; Some "8703.23A"]) !! 0%nat = Some ("09", "0901", "090111").
Proof. split; vm_compute; reflexivity. Qed.

Lemma filter_self_count (ys : list Z) y0 :
  NoDup ys -> length (filter (fun y => Some y0 = Some y) ys) = if bool_decide (y0 ∈ ys) then 1 else 0.
Proof.
  induction 1 as [|y ys Hy _ IH]; [done|]. rewrite filter_cons.
  destruct (decide (Some y0 = Some y)) as [[= <-]|Hne]; simpl.
  - rewrite IH, bool_decide_false by done. rewrite bool_decide_true by set_solver. done.
  - assert (y0 <> y) by congruence. rewrite IH.
    rewrite (bool_decide_ext (y0 ∈ y :: ys) (y0 ∈ ys)); [done|]. rewrite elem_of_cons. tauto.
Qed.

(** The number of yearly files holding a record is the number of years
    equal to its own. *)
Lemma count_files pre r ys :
  r ∈ pre ->
  length (filter (fun f : Z * list PreRow => r ∈ f.2)
            ((fun y => (y, filter (fun x => pr_year x = Some y) pre)) <$> ys)) =
  length (filter (fun y => pr_year r = Some y) ys).
Proof.
  intros Hr. induction ys as [|y ys IH]; [done|]. rewrite fmap_cons, !filter_cons. cbn [snd].
  destruct (decide (r ∈ filter _ pre)) as [Hin|Hnin]; destruct (decide (pr_year r = Some y)) as [Hy|Hny];
    cbn [length]; rewrite ?IH; try done.
  - by apply list_elem_of_filter in Hin as [? _].
  - exfalso. apply Hnin. by apply list_elem_of_filter.
Qed.

Lemma read_hs_column_length cells : length (read_hs_column cells) = length cells.
Proof. unfold read_hs_column. repeat case_match; by rewrite ?length_fmap. Qed.

Lemma raw_rec_ids_from (g : nat * option string -> ExportRaw -> PreRow) k rows hs :
  length hs = length rows -> (forall i h r, pr_raw_rec_id (g (i, h) r) = i) ->
  pr_raw_rec_id <$> zip_with g (zip (seq k (length rows)) hs) rows = seq k (length rows).
Proof.
  intros Hlen Hg. revert k hs Hlen. induction rows as [|r rows IH]; intros k [|h hs] Hlen; try done.
  simpl in *. rewrite Hg. f_equal. apply IH. lia.
Qed.

(** [RAW_REC_ID] numbers the concatenated records [1..n]. *)
Lemma preprocess_raw_rec_ids files :
  pr_raw_rec_id <$> preprocess files = seq 1 (length (concat (ef_rows <$> files))).
Proof.
  unfold preprocess. apply raw_rec_ids_from.
  - by rewrite read_hs_column_length, length_fmap.
  - intros i h r. simpl. by destruct (extract_hs_codes h) as [[? ?] ?].
Qed.

(** ** Properties of the preprocessing *)

(** C31.  The yearly files partition the records that have a year: a
    record whose [Shipment Date] parsed is written to exactly one file,
    the one of its year, and a record whose date did not parse ([NaT],
    [errors='coerce']) is written to none. *)
Theorem year_files_partition pre r :
  r ∈ pre ->
  length (filter (fun f : Z * list PreRow => r ∈ f.2) (year_files pre)) =
  match pr_year r with Some _ => 1 | None => 0 end.
Proof.
  intros Hr. unfold year_files. rewrite count_files by done.
  destruct (pr_year r) as [y0|] eqn:Hy.
  - rewrite filter_self_count.
    + rewrite bool_decide_true; [done|]. rewrite (merge_sort_Permutation (≤)%Z), elem_of_remove_dups.
      apply list_elem_of_omap. by exists r.
    + rewrite (merge_sort_Permutation (≤)%Z). apply NoDup_remove_dups.
  - generalize (merge_sort (≤)%Z (remove_dups (omap pr_year pre))). intros ys.
    induction ys as [|y ys IH]; [done|]. rewrite filter_cons. by destruct (decide _).
Qed.

Lemma year_files_partition_witness :
  length (filter (fun f : Z * list PreRow => example_pre !!! 0%nat ∈ f.2) (year_files example_pre)) = 1 /\
  length (filter (fun f : Z * list PreRow => example_pre !!! 1%nat ∈ f.2) (year_files example_pre)) = 0.
Proof.
  split; [rewrite (year_files_partition example_pre (example_pre !!! 0%nat)) by pc_decide
         |rewrite (year_files_partition example_pre (example_pre !!! 1%nat)) by pc_decide];
    vm_compute; reflexivity.
Defined.

(** ** The printed summary, lines 73-76 and 108-149 *)

(** [df_all['Year'].value_counts().sort_index()], line 73: the years in
    increasing order with their numbers of records, NaT dropped. *)
Definition year_counts (pre : list PreRow) : list (Z * nat) :=
  (fun y => (y, length (filter (fun r => pr_year r = Some y) pre))) <$>
  merge_sort (≤)%Z (remove_dups (omap pr_year pre)).

(** [df_all[col].notna().sum()], lines 108-110: [extract_hs_codes]
    returns text, [''] included, so no cell of [HS2], [HS4], [HS6] is
    NaN. *)
Definition hs_notna (col : PreRow -> string) (pre : list PreRow) : nat :=
  length (filter (fun r => is_Some (Some (col r))) pre).

(** The columns of [df_all] after the additions of lines 66, 71, 80-81
    and 104-106. *)
Definition final_cols (files : list ExportFile) : list string :=
  let cols := foldl (foldl add_col) [] (ef_cols <$> files) in
  foldl add_col cols
    (["RAW_REC_ID"; "Shipment Date"; "Year"] ++
     (if bool_decide ("Weight (t)" ∈ cols) then ["Tons"] else []) ++ ["HS2"; "HS4"; "HS6"]).

(** [key_cols], lines 139-143: each with [[OK]] or [[--]]. *)
Definition KEY_COLS : list string :=
  ["Vessel"; "Port of Lading"; "Shipment Date"; "Voyage"; "IMO"; "Carrier";
   "Shipper"; "HS Code"; "Goods Shipped"; "Tons"].

Definition key_cols_report (cols : list string) : list (string * bool) :=
  (fun c => (c, bool_decide (c ∈ cols))) <$> KEY_COLS.

(** Lines 146-149. *)
Definition carrier_col (cols : list string) : option string :=
  if bool_decide ("Carrier" ∈ cols) then Some "Carrier"
  else if bool_decide ("Carrier Name" ∈ cols) then Some "Carrier Name" else None.

Record PanjivaSummary := mkPanjivaSummary {
  psm_total : nat;                    (** line 128 *)
  psm_years : list (Z * nat);         (** lines 73-76 *)
  psm_hs : nat * nat * nat;           (** lines 108-110 *)
  psm_key_cols : list (string * bool);
  psm_carrier_col : option string;
}.

Definition panjiva_summary (files : list ExportFile) : PanjivaSummary :=
  let pre := preprocess files in
  mkPanjivaSummary (length pre) (year_counts pre)
    (hs_notna pr_hs2 pre, hs_notna pr_hs4 pre, hs_notna pr_hs6 pre)
    (key_cols_report (final_cols files)) (carrier_col (final_cols files)).

Lemma hs_notna_all col pre : hs_notna col pre = length pre.
Proof.
  unfold hs_notna. induction pre as [|r pre IH]; [done|].
  rewrite filter_cons, decide_True by eauto. cbn [length]. by rewrite IH.
Qed.

Lemma length_preprocess files : length (preprocess files) = length (concat (ef_rows <$> files)).
Proof. by rewrite <- (length_fmap pr_raw_rec_id), preprocess_raw_rec_ids, length_seq. Qed.

(** The figures the preprocessing prints.  The three counts of HS codes
    extracted are the number of records, those without an [HS Code]
    included; the year distribution is the list of the yearly files with
    their sizes, and it counts exactly the records whose date parsed. *)
Theorem panjiva_summary_figures files :
  let s := panjiva_summary files in
  psm_total s = length (concat (ef_rows <$> files)) /\
  psm_hs s = (psm_total s, psm_total s, psm_total s) /\
  psm_years s = (fun f => (f.1, length f.2)) <$> year_files (preprocess files) /\
  sum_list_with snd (psm_years s) = length (filter (fun r => is_Some (pr_year r)) (preprocess files)).
Proof.
  cbn zeta. unfold panjiva_summary. cbn [psm_total psm_hs psm_years].
  rewrite !hs_notna_all, length_preprocess. split_and!; [done|done| |].
  - unfold year_counts, year_files. by rewrite <- list_fmap_compose.
  - unfold year_counts. set (ks := merge_sort (≤)%Z (remove_dups (omap pr_year (preprocess files)))).
    trans (sum_list_with (fun y => length (filter (fun r => pr_year r = Some y) (preprocess files))) ks).
    { clearbody ks. induction ks as [|y ks IH]; [done|]. rewrite fmap_cons. simpl. by rewrite IH. }
    rewrite keys_count by (unfold ks; rewrite merge_sort_Permutation; apply NoDup_remove_dups).
    apply filter_length_ext_in. intros r Hr. split.
    + intros (y & -> & _)%list_elem_of_fmap. eauto.
    + intros [y Hy]. apply list_elem_of_fmap. exists y. split; [done|].
      unfold ks. rewrite merge_sort_Permutation, elem_of_remove_dups, list_elem_of_omap. eauto.
Qed.

End Panjiva.
