(* ===== verification/Files.v ===== *)
(** * Choosing the input file: the [glob], [sort()] and [[-1]] of the
      pipeline scripts

    Each stage writes its output next to its input, named with the
    minute it ran ([datetime.now().strftime("%Y%m%d_%H%M")]), and the
    next stage reads "the latest" of the files matching a pattern: it
    lists them with [Path.glob], sorts the paths and takes the last.

    - [process_panjiva_exports_v1.0.0.py] writes
      [panjiva_exports_{year}_PREPROCESSED_v{timestamp}.csv], one per year;
    - [create_export_portcall_voy_recid_v1.0.0.py] reads the latest
      [panjiva_exports_2023_PREPROCESSED_*.csv] (or exits) and writes
      [panjiva_exports_2023_PORTCALL_v{timestamp}.csv];
    - [add_port_rollups_to_exports_v1.0.0.py] reads the latest
      [panjiva_exports_2023_PORTCALL_*.csv] (or skips the exports) and
      writes the enriched frame under a new PORTCALL name;
    - [match_usace_clearance_to_panjiva_exports_v1.0.0.py] reads the
      latest PORTCALL file (or exits).

    The paths are Windows paths, so [glob] matches and [sort()] compares
    them case-insensitively: both go through [str.lower()].  The
    directory is a set of names ([gset]); writing a name that exists
    replaces the file.  The theorems show that the lexicographic order of
    the names is the chronological order of their stamps, that the
    chosen file is the newest, and that the four stages run in order
    hand each file to the next.  A stage sees the contents of the file it
    reads only through its header and its number of rows:
    [create_export_portcall] exits when a grouping column is missing and
    divides by the number of rows before it writes (an empty file raises),
    while the rollups stage divides a [numpy] integer and goes on.

    The USACE stages instead read and write fixed paths; they are recorded
    as constants, which show that the clearance chain is joined from the
    tolerance matcher on but not to the transforms. *)

From S2P Require Import Prelude Normalize Format VoyRecid VoyRecidRun Transform Classify Rollups Panjiva.
From Stdlib Require Import Ascii.
From stdpp Require Import sorting gmap.

Module Files.
Import Normalize Format VoyRecidRun Classify Rollups Panjiva.

(** ** Paths *)

(** [fnmatch] of a pattern [pre*suf] after [os.path.normcase]: the
    lower-cased name starts with [pre] and what follows ends with [suf]. *)
Definition glob_star (pre suf name : string) : bool :=
  let n := String.list_ascii_of_string (lower_str name) in
  let p := String.list_ascii_of_string (lower_str pre) in
  bool_decide (p `prefix_of` n /\
               String.list_ascii_of_string (lower_str suf) `suffix_of` drop (length p) n).

(** [WindowsPath.__lt__] on paths of one directory: the lower-cased names. *)
Definition path_le (a b : string) : Prop := String.le (lower_str a) (lower_str b).

#[export] Instance path_le_dec : RelDecision path_le.
Proof. intros a b. unfold path_le. apply _. Defined.

(** [files = list(DIR.glob(pre + "*" + suf)); files.sort(); files[-1]],
    [None] where the script reports that no file was found. *)
Definition latest_file (pre suf : string) (dir : gset string) : option string :=
  last (merge_sort path_le (filter (fun f => glob_star pre suf f = true) (elements dir))).

(** [create_export_portcall_voy_recid_v1.0.0.py], lines 37-44. *)
Definition latest_preprocessed (dir : gset string) : option string :=
  latest_file "panjiva_exports_2023_PREPROCESSED_" ".csv" dir.

(** [match_usace_clearance_to_panjiva_exports_v1.0.0.py], lines 66-72. *)
Definition latest_portcall (dir : gset string) : option string :=
  latest_file "panjiva_exports_2023_PORTCALL_" ".csv" dir.

(** [add_port_rollups_to_exports_v1.0.0.py], lines 118-124. *)
Definition rollups_export_input (dir : gset string) : option string :=
  latest_file "panjiva_exports_2023_PORTCALL_" ".csv" dir.

(** ** Stamps *)

(** The fields of [datetime.now()] the scripts format. *)
Record Stamp := mkStamp {
  st_year : Z; st_month : Z; st_day : Z; st_hour : Z; st_minute : Z;
}.

(** The ranges [datetime] keeps its fields in, with a four-digit year. *)
Definition stamp_valid (t : Stamp) : Prop :=
  (1000 <= st_year t <= 9999 /\ 1 <= st_month t <= 12 /\ 1 <= st_day t <= 31 /\
   0 <= st_hour t <= 23 /\ 0 <= st_minute t <= 59)%Z.

(** [%m], [%d], [%H], [%M]: two digits, zero-padded. *)
Definition pad2 (z : Z) : string := zfill 2 (int_str z).

(** [strftime("%Y%m%d_%H%M")]. *)
Definition strftime_stamp (t : Stamp) : string :=
  int_str (st_year t) +:+ pad2 (st_month t) +:+ pad2 (st_day t) +:+ "_" +:+
  pad2 (st_hour t) +:+ pad2 (st_minute t).

(** The instant a stamp names, in minutes of a calendar read digit by
    digit: the order of the fields is the order of the instants. *)
Definition stamp_key (t : Stamp) : Z :=
  ((((st_year t * 100 + st_month t) * 100 + st_day t) * 100 + st_hour t) * 100
   + st_minute t)%Z.

(** [f"{pre}v{timestamp}{suf}"]. *)
Definition stamped (pre : string) (t : Stamp) (suf : string) : string :=
  pre +:+ "v" +:+ strftime_stamp t +:+ suf.

(** [process_panjiva_exports_v1.0.0.py], line 119. *)
Definition preprocessed_name (year : Z) (t : Stamp) : string :=
  stamped ("panjiva_exports_" +:+ int_str year +:+ "_PREPROCESSED_") t ".csv".

(** [create_export_portcall_voy_recid_v1.0.0.py], line 132 (and
    [add_port_rollups_to_exports_v1.0.0.py], line 142). *)
Definition portcall_name (t : Stamp) : string :=
  stamped "panjiva_exports_2023_PORTCALL_" t ".csv".

(** ** The stages, as changes of the directory *)

(** [df.to_csv(output_file)]: the name exists afterwards. *)
Definition write_file (name : string) (dir : gset string) : gset string := {[name]} ∪ dir.

(** [process_panjiva_exports_v1.0.0.py], lines 115-120: one file per year. *)
Definition process_step (t : Stamp) (pre : list PreRow) (dir : gset string) : gset string :=
  foldr (fun y d => write_file (preprocessed_name y t) d) dir (fst <$> year_files pre).

(** The stages see the files they read only through their header
    ([cols]) and their number of rows ([nrows]): the contents are modelled
    by the other components. *)

(** [create_export_portcall_voy_recid_v1.0.0.py], lines 37-68, 128 and
    132-133: the file read and the directory after.  [None] is one of the
    ways the script stops before it writes: the [exit(1)] of an empty glob
    (line 40), the [exit(1)] of a missing grouping column (line 68), the
    [ZeroDivisionError] of line 128 ([len(df) / len(df_portcall)]) on a
    file without rows. *)
Definition create_step (t : Stamp) (cols : string -> list string) (nrows : string -> nat)
    (dir : gset string) : option (string * gset string) :=
  f ← latest_preprocessed dir;
  match missing_cols (cols f) with
  | _ :: _ => None
  | [] => if decide (nrows f = 0%nat) then None else Some (f, write_file (portcall_name t) dir)
  end.

(** [add_port_rollups_to_exports_v1.0.0.py], lines 118-143: without an
    export file the exports are skipped and nothing is written; otherwise
    the newest PORTCALL file is read and a new one written.  The
    percentage of line 139 divides the [numpy.int64] that [.sum()]
    returns, so an export file without rows prints [nan%] and does not
    stop the script. *)
Definition rollups_step (t : Stamp) (dir : gset string) : option string * gset string :=
  match rollups_export_input dir with
  | None => (None, dir)
  | Some f => (Some f, write_file (portcall_name t) dir)
  end.

(** ** The fixed paths of the USACE stages *)

Definition stage2_dir : string := "G:\My Drive\LLM\project_manifest\02_STAGE02_CLASSIFICATION\".

(** [transform_usace_clearance_data_v2.0.0.py], line 502. *)
Definition clearance_transform_output : string :=
  stage2_dir +:+ "usace_2023_outbound_clearance_transformed_v2.1.0.csv".
(** [match_usace_clearance_to_panjiva_exports_v1.0.0.py], lines 32 and 34. *)
Definition matcher_usace_input : string :=
  stage2_dir +:+ "usace_2023_outbound_clearance_transformed_v2.2.0.csv".
Definition matcher_output : string :=
  stage2_dir +:+ "usace_2023_clearance_with_panjiva_match_v1.0.0.csv".
(** [add_port_rollups_to_exports_v1.0.0.py], lines 34 and 37. *)
Definition rollups_clearance_input : string :=
  stage2_dir +:+ "usace_2023_clearance_with_panjiva_match_v1.0.0.csv".
Definition rollups_clearance_output : string :=
  stage2_dir +:+ "usace_2023_clearance_with_panjiva_match_v1.0.1.csv".
(** [marry_entrance_clearance_v1.0.0.py], lines 39-41. *)
Definition marry_entrance_input : string :=
  stage2_dir +:+ "usace_2023_entrance_with_panjiva_match_v1.3.1.csv".
Definition marry_clearance_input : string :=
  stage2_dir +:+ "usace_2023_clearance_with_panjiva_match_v1.0.1.csv".
Definition marry_output : string := stage2_dir +:+ "usace_2023_portcall_master_v1.0.0.csv".
(** [match_tug_barge_pairs_v1.1.0_COMPLETE.py], lines 26-27. *)
Definition tug_input : string := stage2_dir +:+ "usace_2023_portcall_master_v1.0.0.csv".
Definition tug_output : string := stage2_dir +:+ "usace_2023_portcall_master_v1.1.0.csv".
(** [transform_usace_entrance_data_v2.1.0.py], line 514. *)
Definition entrance_transform_output : string :=
  stage2_dir +:+ "usace_2023_inbound_entrance_transformed_v2.2.0.csv".

(** The paths the USACE stages read. *)
Definition usace_stage_inputs : list string :=
  [matcher_usace_input; rollups_clearance_input; marry_entrance_input; marry_clearance_input; tug_input].

(** ** Lexicographic comparison *)

Definition cmp_then (c1 c2 : comparison) : comparison :=
  match c1 with Eq => c2 | c => c end.

Lemma cmp_then_assoc a b c : cmp_then (cmp_then a b) c = cmp_then a (cmp_then b c).
Proof. by destruct a. Qed.

Lemma string_compare_refl s : (s ?= s)%string = Eq.
Proof.
  induction s as [|c s IH]; simpl; [done|].
  unfold Ascii.compare. by rewrite N.compare_refl.
Qed.

(** Strings that agree in length up to a point compare first on that part. *)
Lemma string_compare_app a a' b b' :
  String.length a = String.length a' ->
  (a +:+ b ?= a' +:+ b')%string = cmp_then (a ?= a')%string (b ?= b')%string.
Proof.
  revert a'. induction a as [|c a IH]; intros [|c' a'] Hl; simpl in *; try lia; [done|].
  destruct (Ascii.compare c c'); simpl; [apply IH; lia|done|done].
Qed.

(** Two numbers written on [P] digits compare on their high part first. *)
Lemma Z_compare_lex a a' b b' P :
  (0 <= b < P)%Z -> (0 <= b' < P)%Z ->
  Z.compare (a * P + b) (a' * P + b') = cmp_then (Z.compare a a') (Z.compare b b').
Proof.
  intros Hb Hb'. destruct (Z.compare_spec a a') as [->|Hlt|Hgt]; simpl.
  - apply Z.add_compare_mono_l.
  - apply Z.compare_lt_iff. nia.
  - apply Z.compare_gt_iff. nia.
Qed.

Lemma ascii_compare_code c c' : Ascii.compare c c' = Z.compare (Z.of_nat (code c)) (Z.of_nat (code c')).
Proof.
  unfold Ascii.compare, code, Ascii.nat_of_ascii.
  rewrite <- N2Z.inj_compare, !N_nat_Z. done.
Qed.

(** ** Digit strings *)

Lemma digit_val_Some c d : digit_val c = Some d -> (0 <= d < 10)%Z /\ Z.of_nat (code c) = (d + 48)%Z.
Proof.
  unfold digit_val, is_digit. case_bool_decide; intros Hd; simplify_eq. lia.
Qed.

Lemma digits_val_acc a l :
  digits_val a l = (fun v => a * 10 ^ Z.of_nat (length l) + v)%Z <$> digits_val 0 l.
Proof.
  revert a. induction l as [|c l IH]; intros a; simpl.
  - f_equal. lia.
  - destruct (digit_val c) as [d|]; simpl; [|done].
    rewrite (IH (a * 10 + d)%Z). cbv zeta. remember (0 * 10 + d)%Z as d0. rewrite (IH d0). subst d0.
    destruct (digits_val 0 l); simpl; [|done]. f_equal. rewrite Nat2Z.inj_succ, Z.pow_succ_r by lia. lia.
Qed.

Lemma digits_val_cons c l v :
  digits_val 0 (c :: l) = Some v ->
  exists d w, digit_val c = Some d /\ digits_val 0 l = Some w /\
    v = (d * 10 ^ Z.of_nat (length l) + w)%Z.
Proof.
  simpl. destruct (digit_val c) as [d|]; simpl; [|done].
  rewrite digits_val_acc. destruct (digits_val 0 l) as [w|]; simpl; [|done].
  intros [= <-]. by exists d, w.
Qed.

Lemma digits_val_bound l v : digits_val 0 l = Some v -> (0 <= v < 10 ^ Z.of_nat (length l))%Z.
Proof.
  revert v. induction l as [|c l IH]; intros v Hv; simpl in *; [simplify_eq; lia|].
  apply digits_val_cons in Hv as (d & w & Hd%digit_val_Some & Hw%IH & ->).
  rewrite Nat2Z.inj_succ, Z.pow_succ_r by lia. nia.
Qed.

(** Equal-length digit strings compare as the numbers they write. *)
Lemma digits_compare l1 l2 v1 v2 :
  length l1 = length l2 -> digits_val 0 l1 = Some v1 -> digits_val 0 l2 = Some v2 ->
  (String.string_of_list_ascii l1 ?= String.string_of_list_ascii l2)%string = Z.compare v1 v2.
Proof.
  revert l2 v1 v2. induction l1 as [|c1 l1 IH]; intros [|c2 l2] v1 v2 Hl H1 H2; simpl in Hl; try lia.
  - simpl in *. by simplify_eq.
  - apply digits_val_cons in H1 as (d1 & w1 & Hd1 & Hw1 & ->).
    apply digits_val_cons in H2 as (d2 & w2 & Hd2 & Hw2 & ->).
    pose proof (digits_val_bound _ _ Hw1). pose proof (digits_val_bound _ _ Hw2).
    apply digit_val_Some in Hd1, Hd2. simpl. injection Hl as Hl.
    rewrite <- Hl in *.
    rewrite Z_compare_lex by lia. rewrite ascii_compare_code, (proj2 Hd1), (proj2 Hd2).
    assert (Hc : Z.compare (d1 + 48) (d2 + 48) = Z.compare d1 d2).
    { destruct (Z.compare_spec d1 d2);
        [subst; apply Z.compare_refl|apply Z.compare_lt_iff|apply Z.compare_gt_iff]; lia. }
    rewrite Hc.
    by destruct (Z.compare d1 d2); simpl; [apply IH| |].
Qed.

(** [s] writes [z] on exactly [w] digits. *)
Definition renders (w : nat) (s : string) (z : Z) : Prop :=
  exists l, s = String.string_of_list_ascii l /\ length l = w /\ digits_val 0 l = Some z.

Lemma renders_compare w s1 s2 z1 z2 :
  renders w s1 z1 -> renders w s2 z2 -> (s1 ?= s2)%string = Z.compare z1 z2.
Proof. intros (l1 & -> & H1 & V1) (l2 & -> & H2 & V2). apply digits_compare; [lia|done|done]. Qed.

Lemma renders_length w s z : renders w s z -> String.length s = w.
Proof. intros (l & -> & <- & _). apply string_length_of_list. Qed.

Lemma digits_val_lower l v : digits_val 0 l = Some v -> map py_lower_char l = l.
Proof.
  revert v. induction l as [|c l IH]; intros v Hv; [done|].
  apply digits_val_cons in Hv as (d & w & Hd%digit_val_Some & Hw & _). simpl.
  rewrite (IH w Hw). f_equal. unfold py_lower_char, is_upper.
  rewrite bool_decide_eq_false_2; [done|]. lia.
Qed.

Lemma renders_lower w s z : renders w s z -> lower_str s = s.
Proof.
  intros (l & -> & _ & V). unfold lower_str.
  by rewrite String.list_ascii_of_string_of_list_ascii, (digits_val_lower l z V).
Qed.

Lemma renders_length_eq w s1 s2 z1 z2 :
  renders w s1 z1 -> renders w s2 z2 -> String.length s1 = String.length s2.
Proof. intros H1 H2. by rewrite (renders_length _ _ _ H1), (renders_length _ _ _ H2). Qed.

(** ** [str(int)] and [zfill] write the number *)

Lemma int_chars_spec z :
  (0 <= z)%Z -> int_chars z <> [] /\ digits_val 0 (int_chars z) = Some z /\
    (10 ^ (Z.of_nat (length (int_chars z)) - 1) <= Z.max z 1)%Z.
Proof.
  destruct z as [|p|p]; intros Hz; [split_and!; [done|done|simpl; lia]| |lia].
  destruct (digits_go_spec (Pos.size_nat p) (Zpos p) [] ltac:(pose proof (size_nat_bound p); lia))
    as (ds & Hds & Hne & _ & Hlow & Hval).
  simpl. rewrite Hds, app_nil_r. split_and!; [done| |lia].
  rewrite (Hval 0%Z). f_equal.
Qed.

Lemma int_chars_length z n :
  (0 < n)%nat -> (0 <= z < 10 ^ Z.of_nat n)%Z -> (length (int_chars z) <= n)%nat.
Proof.
  intros Hn Hz. destruct (int_chars_spec z ltac:(lia)) as (_ & _ & Hlow).
  destruct (decide (length (int_chars z) <= n)%nat) as [|Hgt]; [done|exfalso].
  assert (10 ^ Z.of_nat n <= 10 ^ (Z.of_nat (length (int_chars z)) - 1))%Z
    by (apply Z.pow_le_mono_r; lia).
  assert (1 < 10 ^ Z.of_nat n)%Z by (apply Z.pow_gt_1; lia).
  lia.
Qed.

Lemma zfill_digits w l v :
  l <> [] -> digits_val 0 l = Some v ->
  zfill_chars w l = replicate (w - length l) "0"%char ++ l.
Proof.
  destruct l as [|c l]; intros Hne Hv; [by destruct Hne|].
  apply digits_val_cons in Hv as (d & _ & Hd & _).
  assert (Hc : is_digit c = true) by (unfold digit_val in Hd; by destruct (is_digit c)).
  simpl. unfold is_sign. by destruct (digit_not_sign c Hc) as [-> ->].
Qed.

(** [%m], [%d], [%H], [%M] of a field below 100. *)
Lemma pad2_renders z : (0 <= z <= 99)%Z -> renders 2 (pad2 z) z.
Proof.
  intros Hz. destruct (int_chars_spec z ltac:(lia)) as (Hne & Hv & _).
  pose proof (int_chars_length z 2 ltac:(lia) ltac:(simpl; lia)).
  exists (zfill_chars 2 (int_chars z)).
  unfold pad2, zfill, int_str. rewrite String.list_ascii_of_string_of_list_ascii.
  rewrite (zfill_digits _ _ _ Hne Hv). split_and!; [done| |].
  - rewrite length_app, length_replicate. lia.
  - by rewrite digits_val_zeros.
Qed.

(** [%Y] of a four-digit year. *)
Lemma year_renders y : (1000 <= y <= 9999)%Z -> renders 4 (int_str y) y.
Proof.
  intros Hy. destruct (int_chars_spec y ltac:(lia)) as (_ & Hv & _).
  pose proof (int_chars_length y 4 ltac:(lia) ltac:(simpl; lia)).
  pose proof (digits_val_bound _ _ Hv).
  exists (int_chars y). split_and!; [done| |done].
  destruct (decide (length (int_chars y) = 4)%nat) as [|Hne]; [done|exfalso].
  assert (10 ^ Z.of_nat (length (int_chars y)) <= 10 ^ 3)%Z by (apply Z.pow_le_mono_r; lia).
  lia.
Qed.

(** ** The stamp *)

Lemma string_length_app a b : String.length (a +:+ b) = (String.length a + String.length b)%nat.
Proof. induction a as [|c a IH]; simpl; [done|]. by rewrite IH. Qed.

Lemma string_app_assoc a b c : (a +:+ b) +:+ c = a +:+ (b +:+ c).
Proof.
  induction a as [|ch a IH]; [done|].
  change (String ch ((a +:+ b) +:+ c) = String ch (a +:+ (b +:+ c))). by rewrite IH.
Qed.

Lemma lower_str_app a b : lower_str (a +:+ b) = lower_str a +:+ lower_str b.
Proof. unfold lower_str. induction a as [|c a IH]; simpl; [done|]. by rewrite IH. Qed.

Section StampFields.
Context (t : Stamp) (Ht : stamp_valid t).

Lemma stamp_year : renders 4 (int_str (st_year t)) (st_year t).
Proof. apply year_renders. unfold stamp_valid in Ht. lia. Qed.
Lemma stamp_month : renders 2 (pad2 (st_month t)) (st_month t).
Proof. apply pad2_renders. unfold stamp_valid in Ht. lia. Qed.
Lemma stamp_day : renders 2 (pad2 (st_day t)) (st_day t).
Proof. apply pad2_renders. unfold stamp_valid in Ht. lia. Qed.
Lemma stamp_hour : renders 2 (pad2 (st_hour t)) (st_hour t).
Proof. apply pad2_renders. unfold stamp_valid in Ht. lia. Qed.
Lemma stamp_minute : renders 2 (pad2 (st_minute t)) (st_minute t).
Proof. apply pad2_renders. unfold stamp_valid in Ht. lia. Qed.

Lemma strftime_stamp_length : String.length (strftime_stamp t) = 13%nat.
Proof.
  unfold strftime_stamp. rewrite !string_length_app.
  rewrite (renders_length _ _ _ stamp_year), (renders_length _ _ _ stamp_month),
    (renders_length _ _ _ stamp_day), (renders_length _ _ _ stamp_hour),
    (renders_length _ _ _ stamp_minute). done.
Qed.

Lemma strftime_stamp_lower : lower_str (strftime_stamp t) = strftime_stamp t.
Proof.
  unfold strftime_stamp. rewrite !lower_str_app.
  rewrite (renders_lower _ _ _ stamp_year), (renders_lower _ _ _ stamp_month),
    (renders_lower _ _ _ stamp_day), (renders_lower _ _ _ stamp_hour),
    (renders_lower _ _ _ stamp_minute). done.
Qed.

End StampFields.

(** The names' order is the stamps' chronological order. *)
Lemma strftime_stamp_compare t1 t2 :
  stamp_valid t1 -> stamp_valid t2 ->
  (strftime_stamp t1 ?= strftime_stamp t2)%string = Z.compare (stamp_key t1) (stamp_key t2).
Proof.
  intros H1 H2. unfold strftime_stamp, stamp_key.
  pose proof (stamp_year t1 H1) as Y1. pose proof (stamp_year t2 H2) as Y2.
  pose proof (stamp_month t1 H1) as M1. pose proof (stamp_month t2 H2) as M2.
  pose proof (stamp_day t1 H1) as D1. pose proof (stamp_day t2 H2) as D2.
  pose proof (stamp_hour t1 H1) as h1. pose proof (stamp_hour t2 H2) as h2.
  pose proof (stamp_minute t1 H1) as m1. pose proof (stamp_minute t2 H2) as m2.
  rewrite (string_compare_app _ _ _ _ (renders_length_eq _ _ _ _ _ Y1 Y2)),
    (string_compare_app _ _ _ _ (renders_length_eq _ _ _ _ _ M1 M2)),
    (string_compare_app _ _ _ _ (renders_length_eq _ _ _ _ _ D1 D2)),
    (string_compare_app "_" "_") by done.
  rewrite (string_compare_app _ _ _ _ (renders_length_eq _ _ _ _ _ h1 h2)).
  rewrite (renders_compare _ _ _ _ _ Y1 Y2), (renders_compare _ _ _ _ _ M1 M2),
    (renders_compare _ _ _ _ _ D1 D2), (renders_compare _ _ _ _ _ h1 h2),
    (renders_compare _ _ _ _ _ m1 m2), string_compare_refl.
  unfold stamp_valid in H1, H2. rewrite !Z_compare_lex by lia.
  rewrite !cmp_then_assoc. done.
Qed.

(** ** Stamped names *)

Lemma cmp_then_Eq_r c : cmp_then c Eq = c.
Proof. by destruct c. Qed.

Lemma stamped_lower pre t suf :
  stamp_valid t ->
  lower_str (stamped pre t suf) = lower_str pre +:+ "v" +:+ strftime_stamp t +:+ lower_str suf.
Proof. intros Ht. unfold stamped. rewrite !lower_str_app, strftime_stamp_lower by done. done. Qed.

Lemma stamped_compare pre suf t1 t2 :
  stamp_valid t1 -> stamp_valid t2 ->
  (lower_str (stamped pre t1 suf) ?= lower_str (stamped pre t2 suf))%string =
  Z.compare (stamp_key t1) (stamp_key t2).
Proof.
  intros H1 H2. rewrite !stamped_lower by done.
  rewrite (string_compare_app (lower_str pre)), (string_compare_app "v" "v"),
    (string_compare_app (strftime_stamp t1)) by (rewrite ?strftime_stamp_length; done).
  by rewrite !string_compare_refl, strftime_stamp_compare, cmp_then_Eq_r.
Qed.

(** Two stamped names are one name when their stamps name one minute. *)
Lemma stamped_eq pre suf t1 t2 :
  stamp_valid t1 -> stamp_valid t2 -> stamp_key t1 = stamp_key t2 ->
  stamped pre t1 suf = stamped pre t2 suf.
Proof.
  intros H1 H2 Hk. unfold stamped. do 2 f_equal.
  assert (Hs : strftime_stamp t1 = strftime_stamp t2).
  { apply String.compare_eq_iff. rewrite strftime_stamp_compare by done. by apply Z.compare_eq_iff. }
  by rewrite Hs.
Qed.

Lemma path_le_stamped pre suf t1 t2 :
  stamp_valid t1 -> stamp_valid t2 ->
  path_le (stamped pre t1 suf) (stamped pre t2 suf) <-> (stamp_key t1 <= stamp_key t2)%Z.
Proof.
  intros H1 H2. unfold path_le, String.le, String.leb. rewrite stamped_compare by done.
  destruct (Z.compare_spec (stamp_key t1) (stamp_key t2)); simpl; split; intros; try done; lia.
Qed.

(** A name [pre ++ x ++ suf] matches [pre*suf]. *)
Lemma glob_star_app pre suf x : glob_star pre suf (pre +:+ x +:+ suf) = true.
Proof.
  unfold glob_star. rewrite !lower_str_app, !list_ascii_of_string_app.
  apply bool_decide_eq_true_2. split; [by eexists|].
  rewrite drop_app_length. by eexists.
Qed.

Lemma glob_star_stamped pre t suf : glob_star pre suf (stamped pre t suf) = true.
Proof. apply (glob_star_app pre suf ("v" +:+ strftime_stamp t)). Qed.

(** A name whose start differs from [pre] does not match. *)
Lemma glob_star_mismatch pre suf a x :
  let p := String.list_ascii_of_string (lower_str pre) in
  let q := String.list_ascii_of_string (lower_str a) in
  take (length q) p <> take (length p) q ->
  glob_star pre suf (a +:+ x) = false.
Proof.
  intros p q Hne. unfold glob_star. rewrite lower_str_app, list_ascii_of_string_app.
  apply bool_decide_eq_false_2. intros [[k Hk] _]. apply Hne. fold p q in Hk.
  destruct (decide (length p <= length q)%nat).
  - rewrite (take_ge p) by lia.
    apply (f_equal (take (length p))) in Hk. rewrite take_app_length, take_app_le in Hk by lia. done.
  - rewrite (take_ge q) by lia.
    apply (f_equal (take (length q))) in Hk. rewrite take_app_length, take_app_le in Hk by lia. done.
Qed.

(** ** The order of the paths *)

#[export] Instance path_le_trans : Transitive path_le.
Proof. intros a b c. unfold path_le. apply transitivity. Qed.

#[export] Instance path_le_total : Total path_le.
Proof. intros a b. unfold path_le. apply (total String.le). Qed.

Lemma path_le_refl a : path_le a a.
Proof. by destruct (total path_le a a). Qed.

Lemma last_sorted_max {A} (R : relation A) l x :
  StronglySorted R l -> last l = Some x -> forall y, y ∈ l -> y = x \/ R y x.
Proof.
  induction l as [|a l IH]; intros Hs Hl y Hy; [done|].
  apply StronglySorted_inv in Hs as [Hs Ha].
  destruct l as [|b l'].
  - simpl in Hl. simplify_eq. apply list_elem_of_singleton in Hy. by left.
  - change (last (b :: l') = Some x) in Hl.
    assert (Hx : x ∈ b :: l') by by apply last_Some_elem_of.
    apply elem_of_cons in Hy as [->|Hy]; [|by apply IH].
    right. rewrite Forall_forall in Ha. by apply Ha.
Qed.

Section Latest.
Context (pre suf : string).

Lemma latest_file_Some dir f :
  latest_file pre suf dir = Some f ->
  f ∈ dir /\ glob_star pre suf f = true /\
  forall g, g ∈ dir -> glob_star pre suf g = true -> path_le g f.
Proof.
  unfold latest_file. set (l := filter _ (elements dir)). intros Hf.
  pose proof (merge_sort_Permutation path_le l) as Hp.
  pose proof (StronglySorted_merge_sort path_le l) as Hs.
  assert (Hfl : f ∈ l) by (rewrite <- Hp; by apply last_Some_elem_of).
  apply list_elem_of_filter in Hfl as [Hg Hd%elem_of_elements].
  split_and!; [done|done|]. intros g Hg' Hgg.
  assert (Hgl : g ∈ merge_sort path_le l).
  { rewrite Hp. apply list_elem_of_filter. split; [done|by apply elem_of_elements]. }
  destruct (last_sorted_max _ _ _ Hs Hf g Hgl) as [->|]; [apply path_le_refl|done].
Qed.

(** The script stops (or skips) exactly when no name matches. *)
Lemma latest_file_None dir :
  latest_file pre suf dir = None <-> forall g, g ∈ dir -> glob_star pre suf g = false.
Proof.
  unfold latest_file. rewrite last_None. split.
  - intros Hnil g Hg. destruct (glob_star pre suf g) eqn:E; [exfalso|done].
    assert (Hin : g ∈ merge_sort path_le (filter (fun f => glob_star pre suf f = true) (elements dir))).
    { rewrite merge_sort_Permutation. apply list_elem_of_filter. split; [done|by apply elem_of_elements]. }
    rewrite Hnil in Hin. by apply not_elem_of_nil in Hin.
  - intros Hno. apply Permutation_nil_r. rewrite merge_sort_Permutation.
    apply Permutation_nil_r, elem_of_nil_inv. intros g [Hg Hd%elem_of_elements]%list_elem_of_filter.
    by rewrite Hno in Hg.
Qed.

(** Every name of [dir] that matches is a stamped name, no later than
    [bound]. *)
Definition well_stamped (bound : Z) (dir : gset string) : Prop :=
  forall g, g ∈ dir -> glob_star pre suf g = true ->
    exists s, stamp_valid s /\ (stamp_key s <= bound)%Z /\ g = stamped pre s suf.

Lemma well_stamped_write b b' t dir :
  stamp_valid t -> (stamp_key t <= b')%Z -> (b <= b')%Z ->
  well_stamped b dir -> well_stamped b' (write_file (stamped pre t suf) dir).
Proof.
  intros Ht Htb Hb Hw g Hg Hgg. unfold write_file in Hg. apply elem_of_union in Hg as [->%elem_of_singleton|Hg].
  - by exists t.
  - destruct (Hw g Hg Hgg) as (s & ? & ? & ->). exists s. split_and!; [done|lia|done].
Qed.

Lemma well_stamped_write_other b name dir :
  glob_star pre suf name = false -> well_stamped b dir -> well_stamped b (write_file name dir).
Proof.
  intros Hn Hw g Hg Hgg. unfold write_file in Hg. apply elem_of_union in Hg as [->%elem_of_singleton|Hg]; [congruence|].
  by apply Hw.
Qed.

End Latest.

(** The newest stamped name is the one chosen. *)
Lemma latest_file_max pre suf t dir :
  stamp_valid t -> stamped pre t suf ∈ dir -> well_stamped pre suf (stamp_key t) dir ->
  latest_file pre suf dir = Some (stamped pre t suf).
Proof.
  intros Ht Hin Hw. destruct (latest_file pre suf dir) as [f|] eqn:E.
  - apply latest_file_Some in E as (Hf & Gf & Hmax).
    destruct (Hw f Hf Gf) as (s & Hs & Hks & ->).
    specialize (Hmax _ Hin (glob_star_stamped pre t suf)).
    apply path_le_stamped in Hmax; [|done|done]. f_equal. apply stamped_eq; [done|done|lia].
  - apply latest_file_None with (g := stamped pre t suf) in E; [|done].
    by rewrite glob_star_stamped in E.
Qed.

(** ** The names the stages write, against the patterns they read *)

Lemma list_ascii_length s : length (String.list_ascii_of_string s) = String.length s.
Proof.
  rewrite <- (String.string_of_list_ascii_of_string s) at 2. by rewrite string_length_of_list.
Qed.

(** A yearly file of [process_panjiva_exports], lower-cased: the year is
    written as is. *)
Lemma preprocessed_name_chars y t :
  (1000 <= y <= 9999)%Z ->
  String.list_ascii_of_string (lower_str (preprocessed_name y t)) =
  String.list_ascii_of_string "panjiva_exports_" ++ String.list_ascii_of_string (int_str y) ++
  String.list_ascii_of_string (lower_str ("_PREPROCESSED_" +:+ "v" +:+ strftime_stamp t +:+ ".csv")).
Proof.
  intros Hy. unfold preprocessed_name, stamped. rewrite !string_app_assoc.
  rewrite (lower_str_app "panjiva_exports_"), (lower_str_app (int_str y)).
  rewrite (renders_lower _ _ _ (year_renders y Hy)), !list_ascii_of_string_app.
  reflexivity.
Qed.

(** Matching [panjiva_exports_2023_...] fixes the four digits of the year. *)
Lemma preprocessed_glob_year y t p k :
  (1000 <= y <= 9999)%Z ->
  String.list_ascii_of_string (lower_str (preprocessed_name y t)) =
    String.list_ascii_of_string "panjiva_exports_2023" ++ p ++ k ->
  String.list_ascii_of_string (lower_str ("_PREPROCESSED_" +:+ "v" +:+ strftime_stamp t +:+ ".csv"))
    = p ++ k /\ y = 2023%Z.
Proof.
  intros Hy Hk. rewrite preprocessed_name_chars in Hk by done.
  change (String.list_ascii_of_string "panjiva_exports_2023")
    with (String.list_ascii_of_string "panjiva_exports_" ++ String.list_ascii_of_string "2023") in Hk.
  rewrite <- app_assoc in Hk. apply app_inv_head in Hk.
  apply app_inj_1 in Hk as [Hyear Hrest];
    [|by rewrite list_ascii_length, (renders_length _ _ _ (year_renders y Hy))].
  split; [done|].
  apply (f_equal String.string_of_list_ascii) in Hyear.
  rewrite !String.string_of_list_ascii_of_string in Hyear.
  pose proof (py_int_int_str y) as Hp. rewrite Hyear in Hp. by vm_compute in Hp; simplify_eq.
Qed.

Lemma glob_preprocessed_year y t :
  (1000 <= y <= 9999)%Z ->
  glob_star "panjiva_exports_2023_PREPROCESSED_" ".csv" (preprocessed_name y t) = true -> y = 2023%Z.
Proof.
  intros Hy Hg. unfold glob_star in Hg. apply bool_decide_eq_true in Hg as [[k Hk] _].
  change (String.list_ascii_of_string (lower_str "panjiva_exports_2023_PREPROCESSED_")) with
    (String.list_ascii_of_string "panjiva_exports_2023" ++ String.list_ascii_of_string "_preprocessed_") in Hk.
  rewrite <- app_assoc in Hk. by apply preprocessed_glob_year in Hk as [_ ?].
Qed.

Lemma glob_portcall_preprocessed y t :
  (1000 <= y <= 9999)%Z ->
  glob_star "panjiva_exports_2023_PORTCALL_" ".csv" (preprocessed_name y t) = false.
Proof.
  intros Hy. destruct (glob_star _ _ _) eqn:Hg; [exfalso|done].
  unfold glob_star in Hg. apply bool_decide_eq_true in Hg as [[k Hk] _].
  change (String.list_ascii_of_string (lower_str "panjiva_exports_2023_PORTCALL_")) with
    (String.list_ascii_of_string "panjiva_exports_2023" ++ String.list_ascii_of_string "_portcall_") in Hk.
  rewrite <- app_assoc in Hk. apply preprocessed_glob_year in Hk as [Hk _]; [|done].
  rewrite lower_str_app, list_ascii_of_string_app in Hk. vm_compute in Hk. congruence.
Qed.

Lemma glob_preprocessed_portcall t :
  glob_star "panjiva_exports_2023_PREPROCESSED_" ".csv" (portcall_name t) = false.
Proof.
  apply (glob_star_mismatch _ _ "panjiva_exports_2023_PORTCALL_" ("v" +:+ strftime_stamp t +:+ ".csv")).
  vm_compute. congruence.
Qed.

(** ** The stages *)

Lemma year_files_years pre y :
  y ∈ fst <$> year_files pre <-> exists r, r ∈ pre /\ pr_year r = Some y.
Proof.
  unfold year_files. rewrite list_elem_of_fmap. split.
  - intros (p & -> & Hp). apply list_elem_of_fmap in Hp as (y' & -> & Hy').
    rewrite merge_sort_Permutation, elem_of_remove_dups, list_elem_of_omap in Hy'.
    destruct Hy' as (r & Hr & Hry). by exists r.
  - intros (r & Hr & Hry). exists (y, filter (fun x => pr_year x = Some y) pre). split; [done|].
    apply list_elem_of_fmap. exists y. split; [done|].
    rewrite merge_sort_Permutation, elem_of_remove_dups, list_elem_of_omap. by exists r.
Qed.

Lemma process_step_elem t pre dir x :
  x ∈ process_step t pre dir <->
  x ∈ dir \/ exists y, y ∈ fst <$> year_files pre /\ x = preprocessed_name y t.
Proof.
  unfold process_step. induction (fst <$> year_files pre) as [|y ys IH]; simpl.
  - split; [by left|]. intros [?|(? & Hy & _)]; [done|by apply not_elem_of_nil in Hy].
  - unfold write_file at 1. rewrite elem_of_union, elem_of_singleton, IH.
    setoid_rewrite elem_of_cons. split.
    + intros [->|[Hx|(y' & Hy' & ->)]]; [right; exists y; by split; [left|]|by left|].
      right. exists y'. by split; [right|].
    + intros [Hx|(y' & [->|Hy'] & ->)]; [right; by left|by left|].
      right; right. by exists y'.
Qed.

(** After the yearly files are written, the 2023 PREPROCESSED names are
    stamped no later than the run ... *)
Lemma process_step_stamped_pre t pre dir b :
  stamp_valid t -> (b <= stamp_key t)%Z ->
  (forall r y, r ∈ pre -> pr_year r = Some y -> 1000 <= y <= 9999)%Z ->
  well_stamped "panjiva_exports_2023_PREPROCESSED_" ".csv" b dir ->
  well_stamped "panjiva_exports_2023_PREPROCESSED_" ".csv" (stamp_key t) (process_step t pre dir).
Proof.
  intros Ht Hb Hyears Hpre g Hg Hgg. apply process_step_elem in Hg as [Hg|(y & Hy & ->)].
  - destruct (Hpre g Hg Hgg) as (s & ? & ? & ->). exists s. split_and!; [done|lia|done].
  - apply year_files_years in Hy as (r & Hr & Hry).
    apply glob_preprocessed_year in Hgg as ->; [|by eapply Hyears]. exists t. split_and!; [done|lia|done].
Qed.

(** ... and leave the PORTCALL names as they were. *)
Lemma process_step_stamped_portcall t pre dir b :
  (forall r y, r ∈ pre -> pr_year r = Some y -> 1000 <= y <= 9999)%Z ->
  well_stamped "panjiva_exports_2023_PORTCALL_" ".csv" b dir ->
  well_stamped "panjiva_exports_2023_PORTCALL_" ".csv" b (process_step t pre dir).
Proof.
  intros Hyears Hpc g Hg Hgg. apply process_step_elem in Hg as [Hg|(y & Hy & ->)]; [by apply Hpc|].
  apply year_files_years in Hy as (r & Hr & Hry).
  by rewrite glob_portcall_preprocessed in Hgg by (eapply Hyears; eauto).
Qed.

(** ** Example data *)

Definition stamp_0905 : Stamp := mkStamp 2026 1 14 9 5.
Definition stamp_1530 : Stamp := mkStamp 2026 1 15 15 30.
Definition stamp_1600 : Stamp := mkStamp 2026 1 15 16 0.
Definition stamp_1645 : Stamp := mkStamp 2026 1 15 16 45.

Definition two_portcall_files : gset string :=
  {[portcall_name stamp_1530; portcall_name stamp_0905; "panjiva_exports_2023_PREPROCESSED_v20260115_1600.csv"]}.

(** Any other name that matches the pattern takes part in the sort: a
    copy saved as [..._backup.csv] of the newest file sorts after it
    (['_'] follows ['.']) and is the file read. *)
Lemma backup_copy_chosen :
  latest_portcall {[portcall_name stamp_1530; "panjiva_exports_2023_PORTCALL_v20260115_1530_backup.csv"]}
  = Some "panjiva_exports_2023_PORTCALL_v20260115_1530_backup.csv".
Proof. vm_compute. reflexivity. Qed.

(** The clearance chain is joined by its fixed paths: the matcher's
    output is the rollup stage's input, whose output is the genesis
    matcher's clearance input, whose output the tug-barge stage reads. *)
Lemma clearance_chain_paths :
  matcher_output = rollups_clearance_input /\ rollups_clearance_output = marry_clearance_input /\
  marry_output = tug_input.
Proof. split_and!; reflexivity. Qed.

(** The head of the chain is not: the clearance transform writes version
    2.1.0 and the matcher reads 2.2.0, and no stage reads the transforms'
    outputs. *)
Lemma transform_outputs_unread :
  (clearance_transform_output ∉ usace_stage_inputs) /\ (entrance_transform_output ∉ usace_stage_inputs).
Proof. split; pc_decide. Qed.

(** ** Theorems *)

(** The Panjiva matcher reads the newest PORTCALL file: if the
    directory holds the PORTCALL file stamped [t] and every name in it
    that matches [panjiva_exports_2023_PORTCALL_*.csv] is a PORTCALL name
    stamped no later than [t], [export_files.sort()] followed by
    [export_files[-1]] picks the file stamped [t]. *)
Theorem latest_portcall_newest t dir :
  stamp_valid t -> portcall_name t ∈ dir ->
  well_stamped "panjiva_exports_2023_PORTCALL_" ".csv" (stamp_key t) dir ->
  latest_portcall dir = Some (portcall_name t).
Proof. intros Ht Hin Hw. by apply latest_file_max. Qed.

Lemma latest_portcall_newest_witness :
  latest_portcall two_portcall_files = Some (portcall_name stamp_1530).
Proof.
  apply latest_portcall_newest.
  - unfold stamp_valid; simpl; lia.
  - unfold two_portcall_files. set_solver.
  - intros g Hg Hgg. unfold two_portcall_files in Hg.
    rewrite !elem_of_union, !elem_of_singleton in Hg.
    destruct Hg as [[->| ->]| ->]; [exists stamp_1530|exists stamp_0905|vm_compute in Hgg; discriminate];
      (split; [unfold stamp_valid; simpl; lia|split; [unfold stamp_key; simpl; lia|done]]).
Defined.



(** ** The carrier column *)

Lemma foldl_foldl_add_col_elem acc (ls : list (list string)) d :
  d ∈ foldl (foldl add_col) acc ls <-> d ∈ acc \/ exists l, l ∈ ls /\ d ∈ l.
Proof.
  revert acc. induction ls as [|l ls IH]; intros acc; simpl.
  - split; [by left|intros [H|(l & Hl & _)]; [done|by apply not_elem_of_nil in Hl]].
  - rewrite IH, foldl_add_col_elem. set_solver.
Qed.

(** A column of [df_all] that [process_panjiva_exports] does not add
    comes from one of the export files. *)
Lemma final_cols_from_files files c :
  c ∈ final_cols files ->
  c ∉ ["RAW_REC_ID"; "Shipment Date"; "Year"; "Tons"; "HS2"; "HS4"; "HS6"] ->
  exists ef, ef ∈ files /\ c ∈ ef_cols ef.
Proof.
  unfold final_cols. rewrite foldl_add_col_elem, foldl_foldl_add_col_elem.
  intros [[Hn|(l & (ef & -> & Hef)%list_elem_of_fmap & Hc)]|Hx] Hnot.
  - by apply not_elem_of_nil in Hn.
  - eauto.
  - exfalso. apply Hnot. case_bool_decide; set_solver.
Qed.

(** C33.  [process_panjiva_exports] anticipates exports whose carrier
    column is named ['Carrier Name'] (lines 146-149) and writes the
    columns of the exports as they are; [create_export_portcall] then
    stops at the [exit(1)] of line 68.  When no export file has a
    ['Carrier'] column and the newest PREPROCESSED file is one such
    [df_all], no PORTCALL file is written, whatever its number of rows. *)
Theorem create_step_carrier_name t cols nrows dir files f :
  Forall (fun ef => "Carrier" ∉ ef_cols ef) files ->
  latest_preprocessed dir = Some f -> cols f = final_cols files ->
  create_step t cols nrows dir = None.
Proof.
  intros Hf Hl Hc. unfold create_step. rewrite Hl. simpl. rewrite Hc.
  destruct (missing_cols (final_cols files)) eqn:Hm; [exfalso|done].
  assert (Hin : "Carrier" ∈ missing_cols (final_cols files)).
  { unfold missing_cols. apply list_elem_of_In, filter_In. split; [simpl; tauto|].
    apply negb_true_iff, bool_decide_eq_false. intros Hc'.
    apply final_cols_from_files in Hc' as (ef & Hef & Hcf); [|pc_decide].
    rewrite Forall_forall in Hf. by apply (Hf ef). }
  rewrite Hm in Hin. by apply not_elem_of_nil in Hin.
Qed.

(** An export file whose carrier column is ['Carrier Name']. *)
Definition carrier_name_export : ExportFile :=
  mkExportFile ["Vessel"; "Port of Lading"; "Shipment Date"; "Carrier Name"; "HS Code"]
    [mkExportRaw (Some "100190") (Some 2023%Z) None].

Lemma create_step_carrier_name_witness :
  length (preprocess [carrier_name_export]) = 1%nat /\
  create_step stamp_1530 (fun _ => final_cols [carrier_name_export]) (fun _ => 1%nat)
    (process_step stamp_0905 (preprocess [carrier_name_export]) ∅) = None.
Proof.
  split; [vm_compute; reflexivity|].
  apply (create_step_carrier_name _ _ _ _ [carrier_name_export] (preprocessed_name 2023 stamp_0905)).
  - repeat constructor. pc_decide.
  - vm_compute. reflexivity.
  - reflexivity.
Defined.

End Files.
