(* ===== verification/UserEdits.v ===== *)
(** * The user-edit analysis: [analyze_user_edits_v1.0.0.py]

    The script compares the port-call master with a copy a user corrected
    by hand, cell by cell and row by row, and looks for corrections that
    recur.  It reads both files with [pd.read_csv], so each column is typed
    as a whole, and it compares [str()] of the typed cells; NaN is handled
    apart.  The changes are gathered per row ([all_changes]) and per column
    ([changes_by_column], a [defaultdict(list)]).  Five analyses turn them
    into patterns, [Counter.most_common] ranking the repeated
    transformations.  Each pattern but a tug-barge one yields a suggested
    pandas statement, and the counts go into a Markdown report.

    A frame is its header and its typed columns, every cell kept as the
    [str()] of its value ([Panjiva.read_hs_column] is [read_csv]'s typing
    of a column).  Dicts are insertion-ordered association lists.  The
    search for the two files, their loading and the report are modelled in
    [UserEditsMain]; a suggestion is the template the script chooses with
    the values it fills in. *)

From S2P Require Import Prelude Normalize Format VoyRecid Transform Classify Rollups Panjiva.
From stdpp Require Import sorting.

Module UserEdits.
Import Normalize Format VoyRecid Transform Classify Rollups Panjiva.

(** ** Frames *)

(** A CSV file: its header and its rows of text cells ([None] for an
    empty cell). *)
Record Csv := mkCsv { csv_cols : list string; csv_rows : list (list (option string)) }.

(** A loaded frame: the header, the [str()] of every cell column by
    column, and the number of rows. *)
Record EFrame := mkEFrame { ef_cols : list string; ef_columns : list (list (option string)); ef_len : nat }.

Definition csv_column (f : Csv) (j : nat) : list (option string) :=
  (fun row => mjoin (row !! j)) <$> csv_rows f.

(** [load_csv_safe], lines 84-93, when [read_csv] succeeds. *)
Definition load_csv (f : Csv) : EFrame :=
  mkEFrame (csv_cols f) (imap (fun j _ => read_hs_column (csv_column f j)) (csv_cols f))
           (length (csv_rows f)).

(** [df.iloc[idx]]: the row as a Series indexed by the header. *)
Definition iloc (df : EFrame) (i : nat) : PyDict (option string) :=
  zip (ef_cols df) ((fun col => mjoin (col !! i)) <$> ef_columns df).

(** ** [compare_rows], lines 95-117 *)

Record Change := mkChange { ch_original : option string; ch_edited : option string; ch_row : nat }.

#[export] Instance Change_eq_dec : EqDecision Change.
Proof. solve_decision. Defined.

(** One column of [compare_rows]: skipped when the edited row lacks it
    or both cells are NaN, recorded when one is NaN or their texts differ. *)
Definition compare_cell (row_e : PyDict (option string)) (index : nat)
    (changes : PyDict Change) (cv : string * option string) : PyDict Change :=
  match pyd_lookup row_e cv.1 with
  | None => changes
  | Some val_edit =>
      let val_orig := cv.2 in
      if bool_decide (val_orig = None /\ val_edit = None) then changes
      else if bool_decide (val_orig = None \/ val_edit = None \/ py_str val_orig <> py_str val_edit)
      then pyd_insert cv.1 (mkChange val_orig val_edit index) changes
      else changes
  end.

Definition compare_rows (row_o row_e : PyDict (option string)) (index : nat) : PyDict Change :=
  foldl (compare_cell row_e index) [] row_o.

(** ** The comparison loop of [main], lines 544-565 *)

(** [d[k].append(v)] on a [defaultdict(list)]. *)
Fixpoint dd_append {V} (k : string) (v : V) (d : PyDict (list V)) : PyDict (list V) :=
  match d with
  | [] => [(k, [v])]
  | (k0, vs) :: d' => if bool_decide (k0 = k) then (k0, vs ++ [v]) :: d' else (k0, vs) :: dd_append k v d'
  end.

Record DiffState := mkDiff {
  rows_modified : nat;
  total_changes : nat;
  all_changes : list (PyDict Change);
  changes_by_column : PyDict (list Change);
}.

Definition diff_init : DiffState := mkDiff 0 0 [] [].

Definition diff_step (o e : EFrame) (s : DiffState) (idx : nat) : DiffState :=
  let changes := compare_rows (iloc o idx) (iloc e idx) idx in
  if bool_decide (changes = []) then s
  else mkDiff (S (rows_modified s)) (total_changes s + length changes)
              (all_changes s ++ [changes])
              (foldl (fun d (cc : string * Change) => dd_append cc.1 cc.2 d) (changes_by_column s) changes).

(** [for idx in range(min(len(df_original), len(df_edited)))]: rows are
    paired by position. *)
Definition diff_frames (o e : EFrame) : DiffState :=
  foldl (diff_step o e) diff_init (seq 0 (min (ef_len o) (ef_len e))).

(** ** [Counter] *)

(** [counter[k] += 1]: in place, or a new key at the end. *)
Fixpoint counter_add {K} `{EqDecision K} (k : K) (c : list (K * nat)) : list (K * nat) :=
  match c with
  | [] => [(k, 1%nat)]
  | (k0, n) :: c' => if bool_decide (k0 = k) then (k0, S n) :: c' else (k0, n) :: counter_add k c'
  end.

Definition counter {K} `{EqDecision K} (l : list K) : list (K * nat) :=
  foldl (fun c k => counter_add k c) [] l.

(** [Counter.most_common(n)]: by decreasing count, ties in insertion order. *)
Definition most_common {K} (n : nat) (c : list (K * nat)) : list (K * nat) := take n (sort_desc snd c).

(** [counter[k]]: the count of the first entry of [k], [0] when absent. *)
Fixpoint count_of {K} `{EqDecision K} (c : list (K * nat)) (k : K) : nat :=
  match c with
  | [] => 0
  | (k0, n) :: c' => if bool_decide (k0 = k) then n else count_of c' k
  end.

(** [(str(change['original']), str(change['edited']))] *)
Definition transformation (ch : Change) : string * string := (py_str (ch_original ch), py_str (ch_edited ch)).

(** [any(k in str(col).upper() for k in kws)] *)
Definition col_has (kws : list string) (col : string) : bool :=
  existsb (fun k => py_in_str k (upper_str col)) kws.

(** ** Patterns, lines 139-309 *)

Inductive Pattern :=
| VesselTypeTransformation (column from to : string) (count : nat) (potential : string)
| MatchTypeTransformation (column from to : string) (count : nat) (potential : string)
| TugBargePairing (vessel : string) (changes : PyDict Change) (row_index : nat)
| ExclusionPattern (vessel_type : string) (count : nat) (potential : string)
| FieldValueChange (column from to : string) (count : nat) (potential : string).

(** [pattern['type']] *)
Definition pattern_type (p : Pattern) : string :=
  match p with
  | VesselTypeTransformation _ _ _ _ _ => "vessel_type_transformation"
  | MatchTypeTransformation _ _ _ _ _ => "match_type_transformation"
  | TugBargePairing _ _ _ => "tug_barge_pairing"
  | ExclusionPattern _ _ _ => "exclusion_pattern"
  | FieldValueChange _ _ _ _ _ => "field_value_change"
  end.

(** [analyze_vessel_type_changes], lines 139-169. *)
Definition analyze_vessel_type_changes (by_col : PyDict (list Change)) : list Pattern :=
  filter (fun col => col_has ["TYPE"; "VTYPE"] col = true) by_col.*1 ≫= fun col =>
    omap (fun tc : (string * string) * nat =>
            if decide (2 <= tc.2)%nat
            then Some (VesselTypeTransformation col tc.1.1 tc.1.2 tc.2
                         (if decide (5 <= tc.2)%nat then "HIGH" else "MEDIUM"))
            else None)
         (most_common 10 (counter (transformation <$> default [] (pyd_lookup by_col col)))).

(** [analyze_match_type_changes], lines 171-199. *)
Definition analyze_match_type_changes (by_col : PyDict (list Change)) : list Pattern :=
  filter (fun col => col_has ["MATCH"] col = true) by_col.*1 ≫= fun col =>
    omap (fun tc : (string * string) * nat =>
            if decide (1 <= tc.2)%nat
            then Some (MatchTypeTransformation col tc.1.1 tc.1.2 tc.2
                         (if decide (3 <= tc.2)%nat then "HIGH" else "MEDIUM"))
            else None)
         (most_common 10 (counter (transformation <$> default [] (pyd_lookup by_col col)))).

Definition tb_keywords : list string := ["TUG"; "BARGE"; "PAIR"; "TOW"].

(** [extract_vessel_name], lines 119-125. *)
Definition extract_vessel_name (row : PyDict (option string)) : string :=
  match pyd_lookup row "VESSEL_NAME" with
  | Some v => py_str v
  | None => match pyd_lookup row "Vessel_Name" with Some v => py_str v | None => "UNKNOWN" end
  end.

(** [analyze_tug_barge_changes], lines 201-233: the tug-barge columns are
    looked for in the first changed row only; [None] is the [IndexError]
    of [all_changes[0]] on an empty list. *)
Definition analyze_tug_barge_changes (all : list (PyDict Change)) (orig : EFrame) : option (list Pattern) :=
  match all with
  | [] => None
  | first :: _ =>
      if bool_decide (filter (fun col => col <> "" /\ col_has tb_keywords col = true) first.*1 = [])
      then Some []
      else Some (omap (fun change_dict =>
                   if bool_decide (change_dict = []) then None
                   else match filter (fun kv : string * Change => col_has tb_keywords kv.1 = true) change_dict with
                        | [] => None
                        | (k, ch) :: rest =>
                            Some (TugBargePairing (extract_vessel_name (iloc orig (ch_row ch)))
                                                  ((k, ch) :: rest) (ch_row ch))
                        end) all)
  end.

Definition status_keywords : list string := ["STATUS"; "ACTIVE"; "EXCLUDE"].

(** [row.get('ICST_VESSEL_TYPE', row.get('Vessel_Type', 'UNKNOWN'))] *)
Definition row_vessel_type (row : PyDict (option string)) : string :=
  match pyd_lookup row "ICST_VESSEL_TYPE" with
  | Some v => py_str v
  | None => match pyd_lookup row "Vessel_Type" with Some v => py_str v | None => "UNKNOWN" end
  end.

(** [analyze_exclusion_patterns], lines 235-272. *)
Definition analyze_exclusion_patterns (all : list (PyDict Change)) (orig : EFrame) : list Pattern :=
  let status_changes := all ≫= filter (fun kv : string * Change => col_has status_keywords kv.1 = true) in
  if bool_decide (status_changes = []) then []
  else
    let by_type := foldl (fun d (kv : string * Change) =>
                            dd_append (row_vessel_type (iloc orig (ch_row kv.2))) kv d) [] status_changes in
    omap (fun tv : string * list (string * Change) =>
            if decide (2 <= length tv.2)%nat then Some (ExclusionPattern tv.1 (length tv.2) "HIGH") else None)
         by_type.

Definition skip_keywords : list string :=
  ["MATCH"; "TYPE"; "VTYPE"; "TUG"; "BARGE"; "STATUS"; "ACTIVE"; "EXCLUDE"].

(** [analyze_field_value_changes], lines 274-305. *)
Definition analyze_field_value_changes (by_col : PyDict (list Change)) : list Pattern :=
  by_col ≫= fun cc : string * list Change =>
    if col_has skip_keywords cc.1 then []
    else if decide (length cc.2 < 2)%nat then []
    else (fun tc : (string * string) * nat =>
            FieldValueChange cc.1 tc.1.1 tc.1.2 tc.2 (if decide (3 <= tc.2)%nat then "MEDIUM" else "LOW"))
         <$> most_common 5 (counter (transformation <$> cc.2)).

(** ** Suggestions, lines 311-361 *)

(** The template chosen and the values it interpolates. *)
Inductive Suggestion :=
| SuggestVesselType (column from to : string) (count : nat) (potential : string)
| SuggestMatchType (column from to : string) (count : nat) (potential : string)
| SuggestExclusion (vessel_type : string) (count : nat) (potential : string)
| SuggestFieldValue (column from to : string) (count : nat) (potential : string).

Definition suggestion_of (p : Pattern) : option Suggestion :=
  match p with
  | VesselTypeTransformation c f t n a => Some (SuggestVesselType c f t n a)
  | MatchTypeTransformation c f t n a => Some (SuggestMatchType c f t n a)
  | TugBargePairing _ _ _ => None
  | ExclusionPattern v n a => Some (SuggestExclusion v n a)
  | FieldValueChange c f t n a => Some (SuggestFieldValue c f t n a)
  end.

Definition generate_automation_suggestions (patterns : list Pattern) : list Suggestion :=
  omap suggestion_of patterns.

(** ** [main], lines 544-600, after both files are loaded *)

Record EditStats := mkEditStats {
  st_total_changes : nat; st_rows_modified : nat; st_total_rows : nat; st_columns_modified : nat;
  st_vessel_type_patterns : nat; st_match_type_patterns : nat; st_tug_barge_patterns : nat;
  st_exclusion_patterns : nat; st_other_patterns : nat;
}.

Definition count_type (t : string) (ps : list Pattern) : nat :=
  length (filter (fun p => pattern_type p = t) ps).

(** The outcome: no change found (the script returns), a crash, or the
    patterns, suggestions and statistics of the report. *)
Inductive Outcome :=
| NoChanges (s : DiffState)
| Crash
| Report (patterns : list Pattern) (suggestions : list Suggestion) (stats : EditStats).

Definition analyze (o e : EFrame) : Outcome :=
  let s := diff_frames o e in
  if decide (total_changes s = 0%nat) then NoChanges s
  else match analyze_tug_barge_changes (all_changes s) o with
       | None => Crash
       | Some tb =>
           let patterns := analyze_vessel_type_changes (changes_by_column s) ++
                           analyze_match_type_changes (changes_by_column s) ++ tb ++
                           analyze_exclusion_patterns (all_changes s) o ++
                           analyze_field_value_changes (changes_by_column s) in
           Report patterns (generate_automation_suggestions patterns)
             (mkEditStats (total_changes s) (rows_modified s) (ef_len o) (length (changes_by_column s))
                (count_type "vessel_type_transformation" patterns)
                (count_type "match_type_transformation" patterns)
                (count_type "tug_barge_pairing" patterns)
                (count_type "exclusion_pattern" patterns)
                (count_type "field_value_change" patterns))
       end.

(** ** A user's edit *)

(** The user clears cell [j] of row [i] in the spreadsheet. *)
Definition blank_cell (f : Csv) (i j : nat) : Csv :=
  mkCsv (csv_cols f) (alter (fun row => <[j:=None]> row) i (csv_rows f)).

(** ** Lemmas: dicts *)

Lemma pyd_lookup_key {V} (d : PyDict V) k v : pyd_lookup d k = Some v -> k ∈ d.*1.
Proof.
  induction d as [|[k0 v0] d IH]; cbn [pyd_lookup]; [done|].
  case_bool_decide; intros Hl; simplify_eq; set_solver.
Qed.

Lemma pyd_lookup_not_key {V} (d : PyDict V) k : k ∉ d.*1 -> pyd_lookup d k = None.
Proof. intros Hk. destruct (pyd_lookup d k) eqn:E; [|done]. by apply pyd_lookup_key in E. Qed.

Lemma pyd_insert_keys {V} (d : PyDict V) k v x : x ∈ (pyd_insert k v d).*1 <-> x = k \/ x ∈ d.*1.
Proof.
  induction d as [|[k0 v0] d IH]; cbn [pyd_insert]; [set_solver|].
  case_bool_decide; subst; cbn [fmap list_fmap fst]; rewrite ?list_elem_of_cons, ?IH; set_solver.
Qed.

Lemma pyd_insert_NoDup {V} (d : PyDict V) k v : NoDup d.*1 -> NoDup (pyd_insert k v d).*1.
Proof.
  induction d as [|[k0 v0] d IH]; cbn [pyd_insert]; intros Hnd; [apply NoDup_singleton|].
  apply NoDup_cons in Hnd as [Hk0 Hnd].
  case_bool_decide; subst; cbn [fmap list_fmap fst]; constructor; auto.
  rewrite pyd_insert_keys. naive_solver.
Qed.

(** On a dict, the entries of one key are its lookup. *)
Lemma pyd_filter_key {V} (d : PyDict V) c :
  NoDup d.*1 ->
  filter (fun kv : string * V => kv.1 = c) d = match pyd_lookup d c with Some v => [(c, v)] | None => [] end.
Proof.
  induction d as [|[k v] d IH]; intros Hnd; [done|].
  rewrite fmap_cons, NoDup_cons in Hnd. destruct Hnd as [Hk Hnd]. cbn [fst] in Hk.
  rewrite (filter_cons (fun kv : string * V => kv.1 = c)). cbn [pyd_lookup fst].
  destruct (decide (k = c)) as [->|Hkc].
  - rewrite bool_decide_true by done. f_equal. etrans; [by apply IH|]. by rewrite pyd_lookup_not_key.
  - rewrite bool_decide_false by done. by apply IH.
Qed.

(** ** Lemmas: [compare_rows] *)

(** The test of lines 108-111 is inequality of the two cells, NaN
    being equal to NaN only. *)
Lemma cell_changed_iff (vo ve : option string) :
  ~ (vo = None /\ ve = None) /\ (vo = None \/ ve = None \/ py_str vo <> py_str ve) <-> vo <> ve.
Proof.
  destruct vo, ve; cbn [py_str]; split; intros H; naive_solver.
Qed.

Lemma compare_cell_lookup row_e index acc (cv : string * option string) c :
  pyd_lookup (compare_cell row_e index acc cv) c =
  if bool_decide (cv.1 = c) then
    match pyd_lookup row_e c with
    | Some ve => if bool_decide (cv.2 = ve) then pyd_lookup acc c else Some (mkChange cv.2 ve index)
    | None => pyd_lookup acc c
    end
  else pyd_lookup acc c.
Proof.
  destruct cv as [k vo]. unfold compare_cell. cbn [fst snd].
  case_bool_decide as Hk; [subst k|]; destruct (pyd_lookup row_e _) as [ve|]; try done.
  - pose proof (cell_changed_iff vo ve) as Hiff.
    repeat case_bool_decide; rewrite ?pyd_lookup_insert, ?bool_decide_true by done; naive_solver.
  - repeat case_bool_decide; rewrite ?pyd_lookup_insert, ?bool_decide_false by done; done.
Qed.

Lemma compare_rows_fold_lookup row_e index (row_o : PyDict (option string)) acc c :
  NoDup row_o.*1 ->
  pyd_lookup (foldl (compare_cell row_e index) acc row_o) c =
  match pyd_lookup row_o c, pyd_lookup row_e c with
  | Some vo, Some ve => if bool_decide (vo = ve) then pyd_lookup acc c else Some (mkChange vo ve index)
  | _, _ => pyd_lookup acc c
  end.
Proof.
  revert acc. induction row_o as [|[k vo] row_o IH]; intros acc Hnd; [done|].
  cbn [foldl pyd_lookup]. apply NoDup_cons in Hnd as [Hk Hnd]. rewrite IH by done.
  rewrite compare_cell_lookup. cbn [fst snd]. case_bool_decide as Hkc; [subst k|].
  - destruct (pyd_lookup row_o c) as [v'|] eqn:Ho.
    + exfalso. apply Hk. apply pyd_lookup_key in Ho. done.
    + by destruct (pyd_lookup row_e c).
  - destruct (pyd_lookup row_o c), (pyd_lookup row_e c); done.
Qed.

(** C34: [compare_rows] reports a column exactly when both rows have it and
    the two cells differ (NaN equal to NaN only); the change records the
    original cell, the edited cell and the row index. *)
Theorem compare_rows_reports_differing_cells row_o row_e index c ch :
  NoDup row_o.*1 ->
  pyd_lookup (compare_rows row_o row_e index) c = Some ch <->
  pyd_lookup row_o c = Some (ch_original ch) /\ pyd_lookup row_e c = Some (ch_edited ch) /\
  ch_original ch <> ch_edited ch /\ ch_row ch = index.
Proof.
  intros Hnd. unfold compare_rows. rewrite compare_rows_fold_lookup by done. destruct ch as [vo ve r]; cbn.
  destruct (pyd_lookup row_o c), (pyd_lookup row_e c); try case_bool_decide; naive_solver.
Qed.

Lemma compare_rows_reports_differing_cells_witness :
  NoDup ([("VESSEL_NAME", Some "ATLAS"); ("DRAFT", Some "12")] : PyDict (option string)).*1 /\
  (pyd_lookup (compare_rows [("VESSEL_NAME", Some "ATLAS"); ("DRAFT", Some "12")]
                            [("VESSEL_NAME", Some "ATLAS"); ("DRAFT", None)] 4) "DRAFT" = Some (mkChange (Some "12") None 4) <->
   pyd_lookup [("VESSEL_NAME", Some "ATLAS"); ("DRAFT", Some "12")] "DRAFT" = Some (Some "12") /\
   pyd_lookup [("VESSEL_NAME", Some "ATLAS"); ("DRAFT", None)] "DRAFT" = Some (@None string) /\
   Some "12" <> None /\ 4 = 4).
Proof. split; [pc_decide|]. apply (compare_rows_reports_differing_cells _ _ 4 "DRAFT" (mkChange (Some "12") None 4)). pc_decide. Defined.

(** [compare_rows] reports a column exactly when both rows have it and
    its cells differ, NaN differing from every value but NaN. *)
Lemma compare_rows_lookup row_o row_e index c :
  NoDup row_o.*1 ->
  pyd_lookup (compare_rows row_o row_e index) c =
  match pyd_lookup row_o c, pyd_lookup row_e c with
  | Some vo, Some ve => if bool_decide (vo = ve) then None else Some (mkChange vo ve index)
  | _, _ => None
  end.
Proof.
  intros Hnd. unfold compare_rows. rewrite compare_rows_fold_lookup by done.
  by destruct (pyd_lookup row_o c), (pyd_lookup row_e c); [case_bool_decide| | |].
Qed.

(** ** Lemmas: the comparison loop *)

(** The changes of one row, [compare_rows] on the two rows [idx]. *)
Definition row_changes (o e : EFrame) (idx : nat) : PyDict Change :=
  compare_rows (iloc o idx) (iloc e idx) idx.

(** The changed rows, in row order. *)
Definition changed_rows (o e : EFrame) (idxs : list nat) : list (PyDict Change) :=
  filter (fun ch => ch <> []) (row_changes o e <$> idxs).

(** The changes of one column over all changed rows, in row order. *)
Definition column_changes (all : list (PyDict Change)) (c : string) : list Change :=
  all ≫= fun d => snd <$> filter (fun kv : string * Change => kv.1 = c) d.

Definition by_column_append (d : PyDict (list Change)) (changes : PyDict Change) : PyDict (list Change) :=
  foldl (fun d (cc : string * Change) => dd_append cc.1 cc.2 d) d changes.

Lemma dd_append_lookup {V} k (v : V) d c :
  pyd_lookup (dd_append k v d) c =
  if bool_decide (k = c) then Some (default [] (pyd_lookup d c) ++ [v]) else pyd_lookup d c.
Proof.
  induction d as [|[k0 vs] d IH]; cbn [dd_append pyd_lookup]; [by case_bool_decide|].
  destruct (decide (k0 = k)) as [->|Hk];
    [rewrite bool_decide_true by done|rewrite bool_decide_false by done];
    cbn [pyd_lookup]; rewrite ?IH; repeat case_bool_decide; subst; naive_solver.
Qed.

Lemma by_column_append_lookup d changes c :
  pyd_lookup (by_column_append d changes) c =
  match snd <$> filter (fun kv : string * Change => kv.1 = c) changes with
  | [] => pyd_lookup d c
  | l => Some (default [] (pyd_lookup d c) ++ l)
  end.
Proof.
  unfold by_column_append. revert d.
  induction changes as [|[k ch] changes IH]; intros d; [done|]. cbn [foldl].
  rewrite IH, (filter_cons (fun kv : string * Change => kv.1 = c)). cbn [fst snd].
  rewrite dd_append_lookup. destruct (decide (k = c)) as [->|Hk].
  - rewrite bool_decide_true by done. rewrite fmap_cons.
    destruct (_.*2); cbn; [done|]. by rewrite <- app_assoc.
  - by rewrite bool_decide_false by done.
Qed.

Lemma dd_append_sum {V} k (v : V) d :
  sum_list_with (fun kv : string * list V => length kv.2) (dd_append k v d) =
  S (sum_list_with (fun kv : string * list V => length kv.2) d).
Proof.
  induction d as [|[k0 vs] d IH]; cbn [dd_append]; [done|].
  case_bool_decide; cbn [sum_list_with fst snd]; rewrite ?length_app, ?IH; cbn; lia.
Qed.

Lemma by_column_append_sum d changes :
  sum_list_with (fun kv => length kv.2) (by_column_append d changes) =
  sum_list_with (fun kv => length kv.2) d + length changes.
Proof.
  unfold by_column_append. revert d.
  induction changes as [|cc changes IH]; intros d; cbn [foldl length]; [lia|].
  rewrite IH, dd_append_sum. lia.
Qed.

Lemma changed_rows_cons o e idx idxs :
  changed_rows o e (idx :: idxs) =
  if bool_decide (row_changes o e idx = []) then changed_rows o e idxs
  else row_changes o e idx :: changed_rows o e idxs.
Proof.
  unfold changed_rows. rewrite fmap_cons, filter_cons.
  case_bool_decide; case_decide; naive_solver.
Qed.

(** The loop from any state over any rows: the changed rows are
    appended, counted, and dispatched to their columns. *)
Lemma diff_fold o e s idxs :
  foldl (diff_step o e) s idxs =
  mkDiff (rows_modified s + length (changed_rows o e idxs))
         (total_changes s + sum_list_with length (changed_rows o e idxs))
         (all_changes s ++ changed_rows o e idxs)
         (foldl by_column_append (changes_by_column s) (changed_rows o e idxs)).
Proof.
  revert s. induction idxs as [|idx idxs IH]; intros s; cbn [foldl].
  { destruct s; cbn. by rewrite !Nat.add_0_r, app_nil_r. }
  rewrite IH, changed_rows_cons. unfold diff_step. fold (row_changes o e idx).
  generalize (changed_rows o e idxs). intros rest.
  case_bool_decide; cbn; [done|]. rewrite <- app_assoc. f_equal; lia.
Qed.

Lemma diff_frames_eq o e :
  diff_frames o e =
  let rows := changed_rows o e (seq 0 (min (ef_len o) (ef_len e))) in
  mkDiff (length rows) (sum_list_with length rows) rows (foldl by_column_append [] rows).
Proof. unfold diff_frames. by rewrite diff_fold. Qed.

Lemma column_changes_cons r rows c :
  column_changes (r :: rows) c = (snd <$> filter (fun kv : string * Change => kv.1 = c) r) ++ column_changes rows c.
Proof. done. Qed.

Lemma by_columns_lookup_from d rows c :
  pyd_lookup (foldl by_column_append d rows) c =
  match column_changes rows c with
  | [] => pyd_lookup d c
  | l => Some (default [] (pyd_lookup d c) ++ l)
  end.
Proof.
  revert d. induction rows as [|r rows IH]; intros d; [done|].
  cbn [foldl]. rewrite IH, by_column_append_lookup, column_changes_cons.
  destruct (snd <$> filter _ r) as [|x xs], (column_changes rows c) as [|y ys]; cbn; try done.
  - by rewrite app_nil_r.
  - by rewrite <- app_assoc.
Qed.

(** [changes_by_column[c]] holds the changes of column [c] in row order,
    and a column is a key exactly when it changed somewhere. *)
Lemma by_columns_lookup rows c :
  pyd_lookup (foldl by_column_append [] rows) c =
  match column_changes rows c with [] => None | l => Some l end.
Proof. rewrite by_columns_lookup_from. by destruct (column_changes rows c). Qed.

Lemma by_columns_sum rows :
  sum_list_with (fun kv => length kv.2) (foldl by_column_append [] rows) = sum_list_with length rows.
Proof.
  cut (forall d, sum_list_with (fun kv => length kv.2) (foldl by_column_append d rows) =
                 sum_list_with (fun kv => length kv.2) d + sum_list_with length rows).
  { intros H. by rewrite H. }
  induction rows as [|r rows IH]; intros d; cbn [foldl sum_list_with]; [lia|].
  rewrite IH, by_column_append_sum. lia.
Qed.

(** ** Lemmas: reading the frames *)

Lemma pyd_lookup_zip {V} (ks : list string) (vs : list V) j c :
  NoDup ks -> ks !! j = Some c -> j < length vs -> pyd_lookup (zip ks vs) c = vs !! j.
Proof.
  revert vs j. induction ks as [|k ks IH]; intros vs j Hnd Hj Hlen; [done|].
  apply NoDup_cons in Hnd as [Hk Hnd]. destruct vs as [|v vs]; cbn in Hlen; [lia|].
  destruct j as [|j]; cbn in Hj |- *.
  - simplify_eq. by rewrite bool_decide_true.
  - rewrite bool_decide_false by (intros ->; apply Hk; by eapply list_elem_of_lookup_2).
    apply IH; [done|done|lia].
Qed.

Lemma load_csv_columns_length f : length (ef_columns (load_csv f)) = length (csv_cols f).
Proof. cbn. by rewrite length_imap. Qed.

(** Row [k] of a loaded frame holds, under the header name of column
    [j], the [str()] of the typed cell. *)
Lemma iloc_load_csv f j c k :
  NoDup (csv_cols f) -> csv_cols f !! j = Some c ->
  pyd_lookup (iloc (load_csv f) k) c = Some (mjoin (read_hs_column (csv_column f j) !! k)).
Proof.
  intros Hnd Hj. unfold iloc. rewrite (pyd_lookup_zip _ _ j) by
    (try done; rewrite length_fmap, load_csv_columns_length; by eapply lookup_lt_Some).
  rewrite list_lookup_fmap. cbn. by rewrite list_lookup_imap, Hj.
Qed.

Lemma iloc_load_csv_keys f k : (iloc (load_csv f) k).*1 = csv_cols f.
Proof. unfold iloc. rewrite fst_zip; [done|]. rewrite length_fmap, load_csv_columns_length. cbn. lia. Qed.

(** A text [read_csv] reads as an integer. *)
Definition int_text (s : string) : bool := numeric_text s && negb (has_point s).

Lemma texts_elem (cells : list (option string)) s : s ∈ omap (M:=list) (fun o : option string => o) cells <-> Some s ∈ cells.
Proof. rewrite list_elem_of_omap. naive_solver. Qed.

(** A column of integer texts is read as [int]. *)
Lemma read_hs_column_int cells :
  Forall (fun o => exists s, o = Some s /\ int_text s = true) cells ->
  read_hs_column cells = (fun o : option string => (fun s => int_str (int_part s)) <$> o) <$> cells.
Proof.
  intros Hall. rewrite Forall_forall in Hall. unfold read_hs_column.
  assert (Hnum : existsb (fun s => negb (numeric_text s)) (omap (M:=list) (fun o : option string => o) cells) = false).
  { apply not_true_iff_false. rewrite existsb_exists. intros (s & Hin & Hs).
    apply list_elem_of_In, texts_elem, Hall in Hin as (? & ? & Hi). simplify_eq.
    apply andb_true_iff in Hi as [Hi _]. by rewrite Hi in Hs. }
  assert (Hpt : existsb has_point (omap (M:=list) (fun o : option string => o) cells) = false).
  { apply not_true_iff_false. rewrite existsb_exists. intros (s & Hin & Hs).
    apply list_elem_of_In, texts_elem, Hall in Hin as (? & ? & Hi). simplify_eq.
    apply andb_true_iff in Hi as [_ Hi]. by rewrite Hs in Hi. }
  assert (Hnone : existsb (fun o => bool_decide (o = None)) cells = false).
  { apply not_true_iff_false. rewrite existsb_exists. intros (o & Hin & Ho).
    apply list_elem_of_In, Hall in Hin as (? & -> & _). by rewrite bool_decide_false in Ho. }
  by rewrite Hnum, Hpt, Hnone.
Qed.

(** A numeric column with a missing cell is read as [float]. *)
Lemma read_hs_column_float cells :
  Forall (fun o => forall s, o = Some s -> numeric_text s = true) cells -> None ∈ cells ->
  read_hs_column cells = (fun o : option string => float_repr <$> o) <$> cells.
Proof.
  intros Hall Hnone. rewrite Forall_forall in Hall. unfold read_hs_column.
  assert (Hnum : existsb (fun s => negb (numeric_text s)) (omap (M:=list) (fun o : option string => o) cells) = false).
  { apply not_true_iff_false. rewrite existsb_exists. intros (s & Hin & Hs).
    apply list_elem_of_In, texts_elem in Hin. by rewrite (Hall _ Hin s) in Hs. }
  assert (Hn : existsb (fun o => bool_decide (o = None)) cells = true).
  { apply existsb_exists. exists None. split; [by apply list_elem_of_In|done]. }
  by rewrite Hnum, Hn, orb_true_r.
Qed.

(** [str(float(s))] of an integer text is [str(int(s)) + '.0']. *)
Lemma float_repr_int_text s : has_point s = false -> float_repr s = int_str (int_part s) +:+ ".0".
Proof.
  intros Hp. unfold has_point in Hp. apply bool_decide_eq_false in Hp.
  unfold float_repr, frac_part. by rewrite py_split_sep_absent.
Qed.

(** ** Lemmas: the changes of a column *)

Lemma compare_rows_keys_NoDup row_o row_e index : NoDup (compare_rows row_o row_e index).*1.
Proof.
  unfold compare_rows. cut (forall acc, NoDup acc.*1 -> NoDup (foldl (compare_cell row_e index) acc row_o).*1).
  { intros H. apply H. constructor. }
  induction row_o as [|cv row_o IH]; intros acc Hnd; [done|]. cbn [foldl]. apply IH.
  unfold compare_cell. repeat case_match; repeat case_bool_decide; auto using pyd_insert_NoDup.
Qed.

(** The changes of column [c] are those of the rows that report it, in
    row order. *)
Lemma column_changes_rows o e idxs c :
  column_changes (changed_rows o e idxs) c = omap (fun idx => pyd_lookup (row_changes o e idx) c) idxs.
Proof.
  induction idxs as [|idx idxs IH]; [done|]. rewrite changed_rows_cons. cbn [omap list_omap].
  case_bool_decide as Hr.
  - by rewrite Hr, IH.
  - rewrite column_changes_cons, IH, pyd_filter_key by apply compare_rows_keys_NoDup.
    by destruct (pyd_lookup _ c).
Qed.

Lemma omap_seq_length {B} (f : nat -> option B) n :
  (forall k, k < n -> is_Some (f k)) -> length (omap f (seq 0 n)) = n.
Proof.
  induction n as [|n IH]; intros Hf; [done|].
  rewrite seq_S, omap_app, length_app, IH by (intros k ?; apply Hf; lia). cbn.
  destruct (Hf n ltac:(lia)) as [b ->]. cbn. lia.
Qed.

(** ** Lemmas: a blanked cell *)

Lemma csv_column_length f j : length (csv_column f j) = length (csv_rows f).
Proof. apply length_fmap. Qed.

Lemma csv_column_blank f i j s :
  csv_column f j !! i = Some (Some s) -> csv_column (blank_cell f i j) j = <[i:=None]> (csv_column f j).
Proof.
  unfold csv_column. rewrite list_lookup_fmap. intros Hs.
  destruct (csv_rows f !! i) as [row|] eqn:Hrow; [|done]. cbn in Hs.
  apply list_eq. intros k. cbn. rewrite list_lookup_fmap. destruct (decide (k = i)) as [->|Hki].
  - rewrite list_lookup_alter_eq, Hrow, list_lookup_insert_eq; cbn.
    + by rewrite list_lookup_insert_eq by (apply lookup_lt_is_Some; destruct (row !! j); naive_solver).
    + rewrite length_fmap. by eapply lookup_lt_Some.
  - by rewrite list_lookup_alter_ne, list_lookup_insert_ne, list_lookup_fmap by done.
Qed.

Section blank.
Context (f : Csv) (i j : nat) (c : string).
Hypothesis Hnd : NoDup (csv_cols f).
Hypothesis Hj : csv_cols f !! j = Some c.
Hypothesis Hints : Forall (fun o => exists s, o = Some s /\ int_text s = true) (csv_column f j).
Hypothesis Hi : i < length (csv_rows f).

Lemma int_cell k : k < length (csv_rows f) -> exists s, csv_column f j !! k = Some (Some s) /\ int_text s = true.
Proof.
  intros Hk. rewrite <- (csv_column_length f j) in Hk. apply lookup_lt_is_Some in Hk as [o Ho].
  rewrite Forall_lookup in Hints. destruct (Hints _ _ Ho) as (s & -> & Hs). eauto.
Qed.

Lemma blank_column_read :
  read_hs_column (csv_column (blank_cell f i j) j) = (fun o : option string => float_repr <$> o) <$> <[i:=None]> (csv_column f j).
Proof.
  destruct (int_cell i Hi) as (s & Hs & _). rewrite (csv_column_blank _ _ _ s) by done.
  apply read_hs_column_float.
  - apply Forall_insert; [|by intros ? ?]. eapply Forall_impl; [done|].
    intros o (t & -> & Ht) t' [= <-]. by apply andb_true_iff in Ht as [? _].
  - eapply list_elem_of_lookup_2. apply list_lookup_insert_eq. rewrite csv_column_length. done.
Qed.

Lemma blank_row_changed k :
  k < length (csv_rows f) -> is_Some (pyd_lookup (row_changes (load_csv f) (load_csv (blank_cell f i j)) k) c).
Proof.
  intros Hk. unfold row_changes. rewrite compare_rows_lookup by (by rewrite iloc_load_csv_keys).
  rewrite (iloc_load_csv f j c), (iloc_load_csv (blank_cell f i j) j c) by done.
  rewrite blank_column_read, read_hs_column_int by done.
  destruct (int_cell k Hk) as (s & Hs & Hint). apply andb_true_iff in Hint as [_ Hp].
  rewrite !list_lookup_fmap, list_lookup_insert, Hs. cbn.
  rewrite bool_decide_false; [done|].
  case_decide; cbn; [congruence|]. rewrite float_repr_int_text by (by apply negb_true_iff).
  intros [=Heq]. by apply (float_text_not_int (int_part s) (int_part s)).
Qed.
End blank.

(** ** Lemmas: [Counter] *)

Section counter.
Context {K : Type} `{EqDecision K}.
Implicit Types (k x : K) (c : list (K * nat)) (l : list K).

(** The number of occurrences of [k] in [l]. *)
Definition occurrences (k : K) (l : list K) : nat := length (filter (fun x => x = k) l).

Lemma count_of_add k c k' :
  count_of (counter_add k c) k' = if bool_decide (k = k') then S (count_of c k') else count_of c k'.
Proof.
  induction c as [|[k0 n] c IH]; cbn [counter_add count_of]; [by repeat case_bool_decide|].
  destruct (decide (k0 = k)) as [->|Hk];
    [rewrite bool_decide_true by done|rewrite bool_decide_false by done];
    cbn [count_of]; rewrite ?IH; repeat case_bool_decide; subst; naive_solver.
Qed.

Lemma counter_add_keys k c x : x ∈ (counter_add k c).*1 <-> x = k \/ x ∈ c.*1.
Proof.
  induction c as [|[k0 n] c IH]; cbn [counter_add]; [set_solver|].
  case_bool_decide; subst; cbn [fmap list_fmap fst]; rewrite ?list_elem_of_cons, ?IH; set_solver.
Qed.

Lemma counter_add_NoDup k c : NoDup c.*1 -> NoDup (counter_add k c).*1.
Proof.
  induction c as [|[k0 n] c IH]; cbn [counter_add]; intros Hnd; [apply NoDup_singleton|].
  rewrite fmap_cons, NoDup_cons in Hnd. destruct Hnd as [Hk0 Hnd]. cbn [fst] in Hk0.
  case_bool_decide; subst; cbn [fmap list_fmap fst]; constructor; auto.
  rewrite counter_add_keys. naive_solver.
Qed.

Lemma counter_count_from c l k :
  count_of (foldl (fun c k => counter_add k c) c l) k = count_of c k + occurrences k l.
Proof.
  unfold occurrences. revert c. induction l as [|x l IH]; intros c; cbn [foldl]; [cbn; lia|].
  rewrite IH, count_of_add, filter_cons. repeat case_decide; case_bool_decide; cbn; subst; try lia; naive_solver.
Qed.

Lemma counter_keys_from c l x :
  x ∈ (foldl (fun c k => counter_add k c) c l).*1 <-> x ∈ c.*1 \/ x ∈ l.
Proof.
  revert c. induction l as [|y l IH]; intros c; cbn [foldl]; [set_solver|].
  rewrite IH, counter_add_keys. set_solver.
Qed.

Lemma counter_NoDup_from c l : NoDup c.*1 -> NoDup (foldl (fun c k => counter_add k c) c l).*1.
Proof. revert c. induction l as [|y l IH]; intros c Hc; cbn [foldl]; auto using counter_add_NoDup. Qed.

Lemma count_of_elem c k n : NoDup c.*1 -> (k, n) ∈ c -> count_of c k = n.
Proof.
  induction c as [|[k0 m] c IH]; intros Hnd Hin; [set_solver|].
  rewrite fmap_cons, NoDup_cons in Hnd. destruct Hnd as [Hk0 Hnd]. cbn [fst count_of] in *.
  apply elem_of_cons in Hin as [[= -> ->]|Hin]; [by rewrite bool_decide_true|].
  rewrite bool_decide_false; [auto|]. intros ->. apply Hk0. by apply (list_elem_of_fmap_2 fst) in Hin.
Qed.
End counter.

(** ** Lemmas: patterns and statistics *)

Lemma count_type_app t ps qs : count_type t (ps ++ qs) = count_type t ps + count_type t qs.
Proof. unfold count_type. by rewrite filter_app, length_app. Qed.

Lemma count_type_zero t ps : (forall p, p ∈ ps -> pattern_type p <> t) -> count_type t ps = 0.
Proof.
  unfold count_type. induction ps as [|p ps IH]; intros Hps; [done|].
  rewrite filter_cons, decide_False by (apply Hps; by left). apply IH. intros q Hq. apply Hps. by right.
Qed.

(** The five counts of [stats] partition the patterns. *)
Lemma count_type_partition ps :
  count_type "vessel_type_transformation" ps + count_type "match_type_transformation" ps +
  count_type "tug_barge_pairing" ps + count_type "exclusion_pattern" ps +
  count_type "field_value_change" ps = length ps.
Proof.
  unfold count_type. induction ps as [|p ps IH]; [done|].
  rewrite !filter_cons. destruct p; cbn [pattern_type];
    repeat (case_decide; try congruence); cbn [length]; lia.
Qed.

(** Every pattern but a tug-barge one gets a suggestion. *)
Lemma suggestions_count ps :
  length (generate_automation_suggestions ps) + count_type "tug_barge_pairing" ps = length ps.
Proof.
  unfold generate_automation_suggestions, count_type. induction ps as [|p ps IH]; [done|].
  rewrite filter_cons. destruct p; cbn [omap list_omap suggestion_of pattern_type];
    case_decide; try congruence; cbn [length]; lia.
Qed.

Lemma vessel_type_patterns_type d p : p ∈ analyze_vessel_type_changes d -> pattern_type p = "vessel_type_transformation".
Proof.
  unfold analyze_vessel_type_changes. rewrite list_elem_of_bind. intros (col & Hp & _).
  apply list_elem_of_omap in Hp as (tc & _ & Hs). case_decide; by simplify_eq.
Qed.

Lemma match_type_patterns_type d p : p ∈ analyze_match_type_changes d -> pattern_type p = "match_type_transformation".
Proof.
  unfold analyze_match_type_changes. rewrite list_elem_of_bind. intros (col & Hp & _).
  apply list_elem_of_omap in Hp as (tc & _ & Hs). case_decide; by simplify_eq.
Qed.

Lemma exclusion_patterns_type all o p : p ∈ analyze_exclusion_patterns all o -> pattern_type p = "exclusion_pattern".
Proof.
  unfold analyze_exclusion_patterns. case_bool_decide; [set_solver|].
  intros Hp. apply list_elem_of_omap in Hp as (tv & _ & Hs). case_decide; by simplify_eq.
Qed.

Lemma field_value_patterns_type d p : p ∈ analyze_field_value_changes d -> pattern_type p = "field_value_change".
Proof.
  unfold analyze_field_value_changes. rewrite list_elem_of_bind. intros (cc & Hp & _).
  destruct (col_has skip_keywords cc.1); [set_solver|]. case_decide; [set_solver|].
  apply list_elem_of_fmap in Hp as (tc & -> & _). done.
Qed.

Lemma pyd_all_none {V} (d : PyDict V) : (forall c, pyd_lookup d c = None) -> d = [].
Proof.
  destruct d as [|[k v] d]; intros Hd; [done|]. specialize (Hd k). cbn in Hd.
  by rewrite bool_decide_true in Hd.
Qed.

Lemma analyze_tug_barge_nonempty all o : all <> [] -> is_Some (analyze_tug_barge_changes all o).
Proof. destruct all; [done|]. cbn. case_bool_decide; eauto. Qed.


Lemma length_le_sum_nonempty {A} (rows : list (list A)) :
  Forall (fun r => r <> []) rows -> length rows <= sum_list_with length rows.
Proof. induction 1 as [|[|x r] rows Hr _ IH]; cbn; [lia|done|lia]. Qed.

Lemma changed_rows_same f idxs : NoDup (csv_cols f) -> changed_rows (load_csv f) (load_csv f) idxs = [].
Proof.
  intros Hnd. induction idxs as [|idx idxs IH]; [done|]. rewrite changed_rows_cons.
  rewrite bool_decide_true; [done|]. apply pyd_all_none. intros c. unfold row_changes.
  rewrite compare_rows_lookup by (by rewrite iloc_load_csv_keys).
  destruct (pyd_lookup _ c); [|done]. by rewrite bool_decide_true.
Qed.

Lemma filter_none {A} (P : A -> Prop) `{forall x, Decision (P x)} (l : list A) :
  (forall x, x ∈ l -> ~ P x) -> filter P l = [].
Proof.
  induction l as [|x l IH]; intros Hl; [done|].
  rewrite filter_cons, decide_False by (apply Hl; by left). apply IH. intros y Hy. apply Hl. by right.
Qed.

Lemma tug_barge_first_row_none first rest o :
  Forall (fun col => col_has tb_keywords col = false) first.*1 ->
  analyze_tug_barge_changes (first :: rest) o = Some [].
Proof.
  intros Hf. unfold analyze_tug_barge_changes. rewrite bool_decide_true; [done|]. apply filter_none.
  intros col Hcol [_ Htb]. rewrite Forall_forall in Hf. by rewrite Hf in Htb.
Qed.

(** ** Theorems *)


(** The counters of the comparison loop agree: [rows_modified] is the
    number of rows in [all_changes], none of them empty; [total_changes]
    is the number of their changes and also the number of changes in
    [changes_by_column]; and [changes_by_column[c]] holds exactly the
    changes of column [c] of those rows, in row order, a column being a
    key only when it changed. *)
Theorem diff_frames_consistent o e :
  let s := diff_frames o e in
  rows_modified s = length (all_changes s) /\
  total_changes s = sum_list_with length (all_changes s) /\
  sum_list_with (fun kv => length kv.2) (changes_by_column s) = total_changes s /\
  Forall (fun ch => ch <> []) (all_changes s) /\
  (forall c, pyd_lookup (changes_by_column s) c = match column_changes (all_changes s) c with [] => None | l => Some l end).
Proof.
  rewrite diff_frames_eq. cbn. split; [done|]. split; [done|]. split; [apply by_columns_sum|].
  split; [apply Forall_forall; intros ch Hch; by apply list_elem_of_filter in Hch as [? _]|].
  apply by_columns_lookup.
Qed.

(** Once both files are loaded, the analysis never fails: when
    [total_changes] is not 0 the list [all_changes] is not empty, so
    [all_changes[0]] in the tug-barge analysis does not raise. *)
Theorem analyze_never_crashes o e : analyze o e <> Crash.
Proof.
  unfold analyze. case_decide as Htot; [done|].
  destruct (analyze_tug_barge_nonempty (all_changes (diff_frames o e)) o) as [tb ->]; [|done].
  intros Hnil. apply Htot. rewrite diff_frames_eq in Hnil |- *. cbn in *. by rewrite Hnil.
Qed.

Lemma analyze_report_eq o e ps sug st :
  analyze o e = Report ps sug st ->
  exists tb, analyze_tug_barge_changes (all_changes (diff_frames o e)) o = Some tb /\
    ps = analyze_vessel_type_changes (changes_by_column (diff_frames o e)) ++
         analyze_match_type_changes (changes_by_column (diff_frames o e)) ++ tb ++
         analyze_exclusion_patterns (all_changes (diff_frames o e)) o ++
         analyze_field_value_changes (changes_by_column (diff_frames o e)) /\
    sug = generate_automation_suggestions ps /\ total_changes (diff_frames o e) <> 0 /\
    st_total_changes st = total_changes (diff_frames o e) /\ st_rows_modified st = rows_modified (diff_frames o e) /\
    st_tug_barge_patterns st = count_type "tug_barge_pairing" ps /\
    st_vessel_type_patterns st + st_match_type_patterns st + st_tug_barge_patterns st +
    st_exclusion_patterns st + st_other_patterns st = length ps.
Proof.
  unfold analyze. case_decide; [done|]. destruct (analyze_tug_barge_changes _ o) as [tb|]; [|done].
  intros [= <- <- <-]. exists tb. cbn. rewrite <- count_type_partition. naive_solver.
Qed.

(** C37: [read_csv] types a column as a whole.  When the user clears one
    cell of a column of integers, the edited file reads that column as
    floats, so every row of it prints differently ([str(12)] is ["12"],
    [str(12.0)] is ["12.0"]): [changes_by_column] holds one change of
    that column for every row of the file, not one. *)
Theorem blank_cell_marks_whole_column f i j c :
  NoDup (csv_cols f) -> csv_cols f !! j = Some c ->
  Forall (fun o => exists s, o = Some s /\ int_text s = true) (csv_column f j) ->
  i < length (csv_rows f) ->
  exists l, pyd_lookup (changes_by_column (diff_frames (load_csv f) (load_csv (blank_cell f i j)))) c = Some l /\
            length l = length (csv_rows f).
Proof.
  intros Hnd Hj Hints Hi. rewrite diff_frames_eq. cbn [changes_by_column].
  rewrite by_columns_lookup, column_changes_rows. cbn [ef_len load_csv blank_cell csv_rows].
  rewrite length_alter, Nat.min_id.
  pose proof (omap_seq_length (fun idx => pyd_lookup (row_changes (load_csv f) (load_csv (blank_cell f i j)) idx) c)
                (length (csv_rows f)) (blank_row_changed f i j c Hnd Hj Hints Hi)) as Hlen.
  destruct (omap _ _) as [|x l]; [cbn in Hlen; lia|]. eauto.
Qed.

Definition example_csv : Csv :=
  mkCsv ["VESSEL_NAME"; "IMO"]
        [[Some "ATLAS"; Some "9123456"]; [Some "BETA"; Some "9234567"]; [Some "GAMMA"; Some "9345678"]].

Lemma blank_cell_marks_whole_column_witness :
  exists l, pyd_lookup (changes_by_column (diff_frames (load_csv example_csv) (load_csv (blank_cell example_csv 1 1)))) "IMO" = Some l /\
            length l = length (csv_rows example_csv).
Proof.
  apply (blank_cell_marks_whole_column example_csv 1 1 "IMO").
  - pc_decide.
  - reflexivity.
  - cbn. repeat (constructor; [eexists; split; [reflexivity|vm_compute; reflexivity]|]). constructor.
  - cbn; lia.
Defined.

(** [Counter] and [most_common(n)]: the counter holds each distinct
    key once, with its number of occurrences; [most_common(n)] lists
    counts in decreasing order, and no key left out of it has a larger
    count than one listed. *)
Theorem counter_most_common {K} `{EqDecision K} (l : list K) n :
  NoDup (counter l).*1 /\
  (forall k m, (k, m) ∈ counter l <-> k ∈ l /\ m = occurrences k l) /\
  Sorted (fun a b => b.2 <= a.2) (most_common n (counter l)) /\
  (forall a b, a ∈ most_common n (counter l) -> b ∈ counter l -> b ∉ most_common n (counter l) -> b.2 <= a.2).
Proof.
  assert (Hnd' : NoDup (counter l).*1) by (apply counter_NoDup_from; constructor).
  assert (Hss : StronglySorted (fun a b : K * nat => b.2 <= a.2) (sort_desc snd (counter l))).
  { apply Sorted.Sorted_StronglySorted; [intros ???; lia|]. apply sort_desc_sorted. }
  rewrite <- (take_drop n (sort_desc snd (counter l))) in Hss. unfold most_common.
  split; [done|]. split; [|split].
  - intros k m. split.
    + intros Hin. split.
      * apply (list_elem_of_fmap_2 fst) in Hin. apply counter_keys_from in Hin. set_solver.
      * rewrite <- (count_of_elem _ k m Hnd' Hin). unfold counter. by rewrite counter_count_from.
    + intros [Hk ->]. assert (Hk' : k ∈ (counter l).*1) by (apply counter_keys_from; by right).
      apply list_elem_of_fmap in Hk' as ([k' m'] & -> & Hin). cbn.
      pose proof (count_of_elem _ k' m' Hnd' Hin) as Hm. unfold counter in Hm.
      rewrite counter_count_from in Hm. cbn in Hm. by rewrite Hm.
  - apply StronglySorted_Sorted. by eapply StronglySorted_app_1_l.
  - intros a b Ha Hb Hnb. apply (StronglySorted_app_1_elem_of (fun a b : K * nat => b.2 <= a.2) _ _ a b Hss Ha).
    assert (Hb' : b ∈ sort_desc snd (counter l)) by (by rewrite sort_desc_perm).
    rewrite <- (take_drop n (sort_desc snd (counter l))) in Hb'. apply elem_of_app in Hb' as [?|?]; [done|done].
Qed.

(** The statistics of the report agree with its patterns: the five
    counts by type add up to the number of patterns; every pattern but a
    tug-barge pairing gets one suggestion; and at least one row was
    modified, with at least one change per modified row. *)
Theorem report_stats_consistent o e ps sug st :
  analyze o e = Report ps sug st ->
  st_vessel_type_patterns st + st_match_type_patterns st + st_tug_barge_patterns st +
  st_exclusion_patterns st + st_other_patterns st = length ps /\
  length sug + st_tug_barge_patterns st = length ps /\
  0 < st_rows_modified st <= st_total_changes st.
Proof.
  intros Hr. destruct (analyze_report_eq o e ps sug st Hr) as (tb & _ & _ & -> & Htot & -> & -> & -> & Hsum).
  split; [done|]. split; [apply suggestions_count|].
  revert Htot. rewrite diff_frames_eq. cbn. set (rows := changed_rows _ _ _).
  assert (Hne : Forall (fun r => r <> []) rows).
  { apply Forall_forall. intros r Hr'. by apply list_elem_of_filter in Hr' as [? _]. }
  pose proof (length_le_sum_nonempty rows Hne). clearbody rows. intros Hn. unfold PyDict in *. destruct rows; cbn in *; lia.
Qed.

Definition tug_original : Csv :=
  mkCsv ["VESSEL_NAME"; "Notes"; "Tug_Name"]
        [[Some "ATLAS"; Some "check"; Some "MISS LOUISE"]; [Some "BETA"; None; Some "CAPT BILL"]].

(** The user corrects a note in row 0 and the tug of row 1. *)
Definition tug_edited : Csv :=
  mkCsv ["VESSEL_NAME"; "Notes"; "Tug_Name"]
        [[Some "ATLAS"; Some "checked"; Some "MISS LOUISE"]; [Some "BETA"; None; Some "CAPT JOHN"]].

Lemma report_stats_consistent_witness :
  match analyze (load_csv tug_original) (load_csv tug_edited) with
  | Report ps sug st =>
      st_vessel_type_patterns st + st_match_type_patterns st + st_tug_barge_patterns st +
      st_exclusion_patterns st + st_other_patterns st = length ps /\
      length sug + st_tug_barge_patterns st = length ps /\
      0 < st_rows_modified st <= st_total_changes st
  | _ => False
  end.
Proof.
  destruct (analyze (load_csv tug_original) (load_csv tug_edited)) as [s| |ps sug st] eqn:E;
    [vm_compute in E; discriminate|vm_compute in E; discriminate|].
  apply (report_stats_consistent (load_csv tug_original) (load_csv tug_edited)). exact E.
Defined.

(** Comparing a file with itself finds nothing: [analyze] returns
    with zero counts and empty change lists, before any pattern is
    looked for.  The header has no repeated name, as [read_csv] renames
    repeated ones. *)
Theorem analyze_unedited_file f : NoDup (csv_cols f) -> analyze (load_csv f) (load_csv f) = NoChanges diff_init.
Proof.
  intros Hnd. unfold analyze. rewrite diff_frames_eq, changed_rows_same by done. done.
Qed.

Lemma analyze_unedited_file_witness :
  NoDup (csv_cols example_csv) /\ analyze (load_csv example_csv) (load_csv example_csv) = NoChanges diff_init.
Proof. split; [pc_decide|]. apply analyze_unedited_file. pc_decide. Defined.

(** Whether tug-barge pairings are reported is decided by the first
    modified row alone: [analyze_tug_barge_changes] collects the
    tug-barge columns from [all_changes[0]], so when that row changed no
    TUG/BARGE/PAIR/TOW column the report has no tug-barge pattern,
    whatever the later rows change. *)
Theorem tug_barge_decided_by_first_row o e first rest ps sug st :
  all_changes (diff_frames o e) = first :: rest ->
  Forall (fun col => col_has tb_keywords col = false) first.*1 ->
  analyze o e = Report ps sug st -> st_tug_barge_patterns st = 0.
Proof.
  intros Hall Hfirst Hr. destruct (analyze_report_eq o e ps sug st Hr) as (tb & Htb & -> & _ & _ & _ & _ & -> & _).
  rewrite Hall, tug_barge_first_row_none in Htb by done. injection Htb as <-.
  rewrite !count_type_app. cbn [app].
  rewrite !(count_type_zero "tug_barge_pairing"); try done; intros p Hp;
    first [ rewrite (vessel_type_patterns_type _ _ Hp) | rewrite (match_type_patterns_type _ _ Hp)
          | rewrite (exclusion_patterns_type _ _ _ Hp) | rewrite (field_value_patterns_type _ _ Hp)
          | set_solver ]; done.
Qed.

Lemma tug_barge_decided_by_first_row_witness :
  pyd_lookup (changes_by_column (diff_frames (load_csv tug_original) (load_csv tug_edited))) "Tug_Name" <> None /\
  match analyze (load_csv tug_original) (load_csv tug_edited) with
  | Report ps sug st => st_tug_barge_patterns st = 0
  | _ => False
  end.
Proof.
  split; [vm_compute; congruence|].
  destruct (analyze (load_csv tug_original) (load_csv tug_edited)) as [s| |ps sug st] eqn:E;
    [vm_compute in E; discriminate|vm_compute in E; discriminate|].
  destruct (all_changes (diff_frames (load_csv tug_original) (load_csv tug_edited))) as [|first rest] eqn:Hall;
    [vm_compute in Hall; discriminate|].
  apply (tug_barge_decided_by_first_row (load_csv tug_original) (load_csv tug_edited) first rest ps sug st Hall); [|exact E].
  vm_compute in Hall. injection Hall as <- _. pc_decide.
Defined.

(** A column whose name holds both TYPE and MATCH, such as the
    master's [Match_Type], is analysed twice: every match-type
    transformation of it seen at least twice is also reported as a
    vessel-type transformation, with its own suggestion. *)
Theorem match_type_column_reported_twice d c from to n a :
  col_has ["TYPE"; "VTYPE"] c = true -> 2 <= n ->
  MatchTypeTransformation c from to n a ∈ analyze_match_type_changes d ->
  exists a', VesselTypeTransformation c from to n a' ∈ analyze_vessel_type_changes d.
Proof.
  intros Htype Hn. unfold analyze_match_type_changes, analyze_vessel_type_changes.
  rewrite !list_elem_of_bind. intros (col & Hp & Hcol).
  apply list_elem_of_omap in Hp as ([[f t] m] & Htc & Hs). cbn in Hs.
  case_decide; simplify_eq. apply list_elem_of_filter in Hcol as [_ Hcol].
  eexists. apply list_elem_of_bind. exists c. split.
  - apply list_elem_of_omap. exists ((from, to), n). split; [exact Htc|]. cbn.
    by rewrite decide_True by lia.
  - by apply list_elem_of_filter.
Qed.

Definition match_type_change : Change := mkChange (Some "BOTH") (Some "TUG_BARGE_PAIR") 0.

Lemma match_type_column_reported_twice_witness :
  exists a', VesselTypeTransformation "Match_Type" "BOTH" "TUG_BARGE_PAIR" 2 a' ∈
             analyze_vessel_type_changes [("Match_Type", [match_type_change; match_type_change])].
Proof.
  apply (match_type_column_reported_twice _ "Match_Type" "BOTH" "TUG_BARGE_PAIR" 2 "MEDIUM").
  - vm_compute. reflexivity.
  - lia.
  - vm_compute. left.
Defined.

End UserEdits.
