(* ===== verification/Deploy.v ===== *)
(** * Deploying the cargo dictionary: [deploy_v3.6.0_to_production.py]

    The script runs once, top to bottom: it copies the draft dictionary to
    its production name, reads the copy back, inserts a version entry into
    [DICTIONARY_VERSION_HISTORY.md], replaces the "Latest Version" section
    of [README.md], and prints a summary of the rules.

    The files are a state: Markdown files as text (lists of ASCII
    characters, the way [Normalize] writes Python strings) and CSV files as
    the rule rows [pd.read_csv(..., dtype=str)] returns (cells as text,
    NaN as [None]); the script never reads one kind as the other.  The
    script is a computation in a small state and exception monad [M]: a
    step either returns a value or raises a Python exception, and the
    files written before the exception stay written.  The two texts the
    script writes are [readme_update], given verbatim, and [version_entry],
    which contains double quotes and is a parameter of [deploy].  Printing
    ([stamp]) and the [Group] breakdown of the summary (an unstable
    [sort_values]) are not modelled. *)

From S2P Require Import Prelude Normalize Classify VoyRecid.
From Stdlib Require Import Ascii.

Module Deploy.
Import Normalize Classify VoyRecid.

(** ** Files and exceptions *)

Inductive PyExc := FileNotFoundError | IndexError | TypeError.

(** A rule of the dictionary as [read_csv(dtype=str)] gives it: the columns
    the script reads. *)
Record DictRule := mkRule { rule_active : option string; rule_phase : option string; rule_group : option string }.

Record FS := mkFS { texts : gmap string (list Ascii.ascii); tables : gmap string (list DictRule) }.

(** ** The state and exception monad *)

Definition M (A : Type) : Type := FS -> FS * (PyExc + A).

Definition ret {A} (a : A) : M A := fun s => (s, inr a).
Definition raise {A} (e : PyExc) : M A := fun s => (s, inl e).
Definition bind {A B} (m : M A) (k : A -> M B) : M B :=
  fun s => match m s with
           | (s', inl e) => (s', inl e)
           | (s', inr a) => k a s'
           end.
Definition lift {A} (r : PyExc + A) : M A := fun s => (s, r).

Declare Scope deploy_scope.
Delimit Scope deploy_scope with deploy.
Notation "x <- m ;; k" := (bind m (fun x => k))
  (at level 60, m at next level, right associativity) : deploy_scope.
Notation "m ;;; k" := (bind m (fun _ => k))
  (at level 60, right associativity) : deploy_scope.
Local Open Scope deploy_scope.

(** [shutil.copy2(src, dst)] *)
Definition copy2 (src dst : string) : M unit :=
  fun s => match tables s !! src with
           | None => (s, inl FileNotFoundError)
           | Some t => (mkFS (texts s) (<[dst:=t]> (tables s)), inr tt)
           end.

(** [pd.read_csv(path, dtype=str)] *)
Definition read_rules (p : string) : M (list DictRule) :=
  fun s => match tables s !! p with
           | None => (s, inl FileNotFoundError)
           | Some t => (s, inr t)
           end.

(** [path.exists()] *)
Definition path_exists (p : string) : M bool := fun s => (s, inr (bool_decide (is_Some (texts s !! p)))).

(** [open(path, 'r').read()] *)
Definition read_text (p : string) : M (list Ascii.ascii) :=
  fun s => match texts s !! p with
           | None => (s, inl FileNotFoundError)
           | Some t => (s, inr t)
           end.

(** [open(path, 'w').write(t)] *)
Definition write_text (p : string) (t : list Ascii.ascii) : M unit :=
  fun s => (mkFS (<[p:=t]> (texts s)) (tables s), inr tt).

(** ** Paths, lines 20-29 *)

Definition SOURCE_DICT : string :=
  "G:\My Drive\LLM\project_manifest\user_notes\cargo_classification_dictionary_v3.6.0_DRAFT_20260114.csv".
Definition PRODUCTION_FILE : string :=
  "G:\My Drive\LLM\project_manifest\03_DICTIONARIES\03.01_cargo_classification\cargo_classification_dictionary_v3.6.0_20260114_1830.csv".
Definition VERSION_HISTORY : string :=
  "G:\My Drive\LLM\project_manifest\05_DOCUMENTATION\DICTIONARY_VERSION_HISTORY.md".
Definition README : string := "G:\My Drive\LLM\project_manifest\README.md".

(** ** Text operations *)

Definition chars (s : string) : list Ascii.ascii := String.list_ascii_of_string s.
Definition nl : Ascii.ascii := "010"%char.

(** [s.split(sep, 1)] for a non-empty [sep]: the text before the first
    occurrence and the text after it, or [None] when [sep] does not
    occur (Python then returns [[s]]). *)
Fixpoint split_once (sep l : list Ascii.ascii) : option (list Ascii.ascii * list Ascii.ascii) :=
  if is_prefix sep l then Some ([], drop (length sep) l)
  else match l with
       | [] => None
       | c :: l' => (fun ab : list Ascii.ascii * list Ascii.ascii => (c :: ab.1, ab.2)) <$> split_once sep l'
       end.

(** ** The version history, lines 112-130 *)

Definition HEADER : list Ascii.ascii := chars "# Dictionary Version History".

(** The new text of the history, from its old text if it exists;
    [parts[1]] raises [IndexError] when the header occurs without a line
    break after it. *)
Definition update_history (entry : list Ascii.ascii) (existing : option (list Ascii.ascii))
    : PyExc + list Ascii.ascii :=
  match existing with
  | Some ex =>
      if py_in HEADER ex then
        match split_once (HEADER ++ [nl]) ex with
        | Some (before, after) => inr (before ++ HEADER ++ [nl] ++ entry ++ after)
        | None => inl IndexError
        end
      else inr (HEADER ++ [nl; nl] ++ entry ++ ex)
  | None => inr (HEADER ++ [nl; nl] ++ entry)
  end.

(** ** The README, lines 136-183 *)

Definition LATEST : list Ascii.ascii := chars "## Latest Version:".
Definition SECTION : list Ascii.ascii := chars "##".

(** [readme_update], lines 139-156. *)
Definition readme_update : list Ascii.ascii := chars "
## Latest Version: v3.6.0 (2026-01-14)

**Major Release: 218 new user-edited rules with refined keyword strategy**

- [OK] 668 total rules (+95 from v3.4.0)
- [OK] 100% classification rate on 15K test sample
- [OK] Break-Bulk group eliminated (improved from 82% vague to 95.7% Dry Bulk)
- [OK] Comprehensive coverage: Crude Oil, Steel, Chemicals, Metals, Fertilizers
- [OK] Refined keyword strategy: Key_Phrases, Primary_Keywords, Match_Strategy

**Quick Links:**
- [Version History](05_DOCUMENTATION/DICTIONARY_VERSION_HISTORY.md)
- [v3.6.0 Summary](user_notes/DICTIONARY_V3.6.0_SUMMARY.md)
- [v3.6.0 Test Results](user_notes/DICTIONARY_V3.6.0_TEST_RESULTS.md)
- [Dictionary File](03_DICTIONARIES/03.01_cargo_classification/cargo_classification_dictionary_v3.6.0_20260114_1830.csv)

".

(** The loop of lines 166-177 over the README's lines, [skip] its flag:
    a "Latest Version" line is replaced by the new section, the lines
    after it are dropped up to the next line starting with ["##"]. *)
Fixpoint replace_section (u : list (list Ascii.ascii)) (skip : bool) (lines : list (list Ascii.ascii))
    : list (list Ascii.ascii) :=
  match lines with
  | [] => []
  | line :: lines' =>
      if is_prefix LATEST line then u ++ replace_section u true lines'
      else if skip && is_prefix SECTION line then line :: replace_section u false lines'
      else if skip then replace_section u true lines'
      else line :: replace_section u false lines'
  end.

Definition update_readme (upd readme : list Ascii.ascii) : list Ascii.ascii :=
  if py_in LATEST readme
  then py_join nl (replace_section (py_split_sep nl (py_strip upd)) false (py_split_sep nl readme))
  else upd ++ [nl] ++ readme.

(** ** The summary, lines 192-207 *)

Record Summary := mkSummary { n_rules : nat; n_active : nat; phase_counts : list (option string * nat) }.

(** [sorted(df['Phase'].unique())]: NaN is one value of [unique()], and
    [sorted] raises [TypeError] comparing it with a string. *)
Definition sorted_phases (ps : list (option string)) : PyExc + list (option string) :=
  if bool_decide (None ∈ ps) then
    if bool_decide (omap (fun o : option string => o) ps = []) then inr [None] else inl TypeError
  else inr (Some <$> py_sorted (py_unique (omap (fun o : option string => o) ps))).

(** [len(df[df['Phase'] == phase])]: NaN equals nothing. *)
Definition phase_count (df : list DictRule) (p : option string) : nat :=
  length (filter (fun r => p <> None /\ rule_phase r = p) df).

Definition summary (df : list DictRule) : PyExc + Summary :=
  match sorted_phases (rule_phase <$> df) with
  | inl e => inl e
  | inr ps => inr (mkSummary (length df) (length (filter (fun r => rule_active r = Some "TRUE") df))
                             ((fun p => (p, phase_count df p)) <$> ps))
  end.

(** ** The script *)

Definition deploy (version_entry : list Ascii.ascii) : M Summary :=
  copy2 SOURCE_DICT PRODUCTION_FILE ;;;
  df <- read_rules PRODUCTION_FILE ;;
  hx <- path_exists VERSION_HISTORY ;;
  existing <- (if hx then ex <- read_text VERSION_HISTORY ;; ret (Some ex) else ret None) ;;
  new_content <- lift (update_history version_entry existing) ;;
  write_text VERSION_HISTORY new_content ;;;
  rx <- path_exists README ;;
  (if rx then readme <- read_text README ;; write_text README (update_readme readme_update readme) else ret tt) ;;;
  lift (summary df).

(** ** Lemmas: text *)

Lemma is_prefix_app_inv p q w : is_prefix (p ++ q) w = true -> is_prefix p w = true.
Proof.
  revert w. induction p as [|c p IH]; intros w; [done|]. destruct w as [|d w]; cbn; [done|].
  intros [? ?]%andb_true_iff. apply andb_true_iff. auto.
Qed.

(** A "Latest Version" line starts with ["##"]. *)
Lemma latest_is_section w : is_prefix LATEST w = true -> is_prefix SECTION w = true.
Proof. apply (is_prefix_app_inv SECTION (chars " Latest Version:")). Qed.

Lemma split_once_spec sep l a b : split_once sep l = Some (a, b) -> l = a ++ sep ++ b.
Proof.
  revert a b. induction l as [|c l IH]; intros a b; cbn.
  - destruct sep; cbn; [intros [= <- <-]; done|done].
  - destruct (is_prefix sep (c :: l)) eqn:Hp.
    + intros [= <- <-]. cbn. clear IH. revert c l Hp. induction sep as [|d sep IHs]; intros c l Hp; [done|].
      cbn in Hp |- *. apply andb_true_iff in Hp as [Hd Hp]. apply bool_decide_eq_true in Hd as ->. f_equal.
      destruct sep as [|e sep]; [by rewrite drop_0|]. destruct l as [|c' l]; [done|]. by apply IHs.
    + destruct (split_once sep l) as [[a' b']|]; [|done]. intros [= <- <-]. cbn. by rewrite (IH a' b').
Qed.

Lemma split_once_None sep l : py_in sep l = false -> split_once sep l = None.
Proof.
  induction l as [|c l IH]; intros Hin.
  - change (py_in sep []) with (is_prefix sep [] || false) in Hin.
    apply orb_false_iff in Hin as [Hp _]. cbn. by rewrite Hp.
  - change (py_in sep (c :: l)) with (is_prefix sep (c :: l) || py_in sep l) in Hin.
    apply orb_false_iff in Hin as [Hp Hin]. cbn. rewrite Hp, IH by done. done.
Qed.

Lemma py_in_app_r_false n a b : py_in n (a ++ b) = false -> py_in n b = false.
Proof. intros H. destruct (py_in n b) eqn:E; [|done]. by rewrite (py_in_app_r n a b E) in H. Qed.

(** ** Lemmas: replacing the README section *)

Section replace.
Context (u0 : list Ascii.ascii) (us : list (list Ascii.ascii)).
Hypothesis Hu0 : is_prefix LATEST u0 = true.
Hypothesis Hus : Forall (fun w => is_prefix SECTION w = false) us.

Lemma latest_false w : is_prefix SECTION w = false -> is_prefix LATEST w = false.
Proof. intros Hs. destruct (is_prefix LATEST w) eqn:E; [|done]. by rewrite (latest_is_section w E) in Hs. Qed.

(** Lines with no ["##"] are dropped while skipping. *)
Lemma replace_skip ws X :
  Forall (fun w => is_prefix SECTION w = false) ws -> replace_section (u0 :: us) true (ws ++ X) = replace_section (u0 :: us) true X.
Proof.
  induction 1 as [|w ws Hw _ IH]; [done|]. cbn [app replace_section].
  by rewrite latest_false, Hw by done.
Qed.

(** Replacing the section twice is replacing it once. *)
Lemma replace_section_idem b ls :
  replace_section (u0 :: us) b (replace_section (u0 :: us) b ls) = replace_section (u0 :: us) b ls.
Proof.
  revert b. induction ls as [|l ls IH]; intros b; [done|]. cbn [replace_section].
  destruct (is_prefix LATEST l) eqn:HL.
  - cbn [app replace_section]. rewrite Hu0, replace_skip, IH by done. done.
  - destruct b, (is_prefix SECTION l) eqn:HS; cbn [andb replace_section]; rewrite ?HL, ?HS, ?IH; done.
Qed.

Lemma replace_section_keeps_u0 b ls :
  Exists (fun w => is_prefix LATEST w = true) ls -> u0 ∈ replace_section (u0 :: us) b ls.
Proof.
  revert b. induction ls as [|l ls IH]; intros b Hex; [by apply Exists_nil in Hex|].
  apply Exists_cons in Hex as [Hl|Hex]; cbn [replace_section].
  - rewrite Hl. by left.
  - destruct (is_prefix LATEST l); [set_solver|].
    destruct b, (is_prefix SECTION l); cbn [andb]; try apply elem_of_cons; auto.
Qed.

Lemma replace_section_no_latest ls :
  Forall (fun w => is_prefix LATEST w = false) ls -> replace_section (u0 :: us) false ls = ls.
Proof. induction 1 as [|l ls Hl _ IH]; [done|]. cbn [replace_section]. by rewrite Hl, IH. Qed.

Lemma replace_section_lines b ls :
  Forall (fun w => nl ∉ w) ls -> Forall (fun w => nl ∉ w) (u0 :: us) ->
  Forall (fun w => nl ∉ w) (replace_section (u0 :: us) b ls).
Proof.
  intros Hls Hu. revert b. induction Hls as [|l ls Hl _ IH]; intros b; [constructor|]. cbn [replace_section].
  destruct (is_prefix LATEST l); [apply Forall_app; auto|].
  destruct b, (is_prefix SECTION l); cbn [andb]; auto.
Qed.

Lemma replace_section_nonempty ls : ls <> [] -> replace_section (u0 :: us) false ls <> [].
Proof.
  destruct ls as [|l ls]; [done|]. intros _. cbn [replace_section].
  destruct (is_prefix LATEST l); [done|]. cbn [andb]. done.
Qed.
End replace.

Lemma readme_update_split :
  py_split_sep nl readme_update = [] :: py_split_sep nl (py_strip readme_update) ++ [[]; []].
Proof. vm_compute. reflexivity. Qed.

Lemma readme_update_has_latest : py_in LATEST readme_update = true.
Proof. vm_compute. reflexivity. Qed.

(** Updating a README that already has the marker: the section lines
    replaced in place. *)
Lemma update_readme_marked upd r :
  py_in LATEST r = true ->
  update_readme upd r = py_join nl (replace_section (py_split_sep nl (py_strip upd)) false (py_split_sep nl r)).
Proof. unfold update_readme. by intros ->. Qed.

(** ** Lemmas: the script *)

(** The script without the monad: what it writes and what it returns. *)
Definition deploy_spec (entry : list Ascii.ascii) (s : FS) : FS * (PyExc + Summary) :=
  match tables s !! SOURCE_DICT with
  | None => (s, inl FileNotFoundError)
  | Some df =>
      let tables' := <[PRODUCTION_FILE:=df]> (tables s) in
      match update_history entry (texts s !! VERSION_HISTORY) with
      | inl e => (mkFS (texts s) tables', inl e)
      | inr new_content =>
          let texts' := <[VERSION_HISTORY:=new_content]> (texts s) in
          let texts'' := match texts s !! README with
                         | Some r => <[README:=update_readme readme_update r]> texts'
                         | None => texts'
                         end in
          (mkFS texts'' tables', summary df)
      end
  end.

Lemma deploy_eq_spec entry s : deploy entry s = deploy_spec entry s.
Proof.
  unfold deploy, deploy_spec, bind, copy2. destruct (tables s !! SOURCE_DICT) as [df|]; [|done].
  unfold read_rules, path_exists, read_text, lift, ret, write_text.
  cbn -[readme_update update_readme update_history summary]. rewrite lookup_insert_eq.
  cbn [texts tables]. destruct (texts s !! VERSION_HISTORY) as [ex|] eqn:Hvh;
    [rewrite bool_decide_true by eauto|rewrite bool_decide_false by (intros [? ?]; done)];
    cbn -[readme_update update_readme update_history summary]; rewrite ?Hvh;
    destruct (update_history entry _) as [e|nc]; try done;
    cbn -[readme_update update_readme update_history summary];
    rewrite lookup_insert_ne by (vm_compute; congruence);
    destruct (texts s !! README) as [r|] eqn:Hr;
      [rewrite bool_decide_true by eauto|rewrite bool_decide_false by (intros [? ?]; done)|
       rewrite bool_decide_true by eauto|rewrite bool_decide_false by (intros [? ?]; done)];
    cbn -[readme_update update_readme update_history summary]; rewrite ?lookup_insert_ne, ?Hr by (vm_compute; congruence); done.
Qed.

Lemma replace_section_blank u b X :
  replace_section u b ([] :: X) = if b then replace_section u true X else [] :: replace_section u false X.
Proof. by destruct b. Qed.

(** ** Theorems *)

(** C38: the README update is idempotent: on a README that has the
    "## Latest Version:" marker, running the update again gives the same
    text, because the new section has no other line starting with ["##"]. *)
Theorem update_readme_idempotent r :
  py_in LATEST r = true ->
  update_readme readme_update (update_readme readme_update r) = update_readme readme_update r.
Proof.
  intros Hr.
  assert (exists u0 us, py_split_sep nl (py_strip readme_update) = u0 :: us /\
            is_prefix LATEST u0 = true /\ Forall (fun w => is_prefix SECTION w = false) us)
    as (u0 & us & HU & Hu0 & Hus) by (do 2 eexists; split; [vm_compute; reflexivity|]; split; [vm_compute; reflexivity|]; vm_compute; repeat constructor).
  rewrite (update_readme_marked _ r Hr), HU.
  assert (Hlines : Forall (fun w => nl ∉ w) (replace_section (u0 :: us) false (py_split_sep nl r))).
  { apply replace_section_lines; apply Forall_forall; intros w Hw; [by eapply py_split_sep_no_sep|].
    rewrite <- HU in Hw. by eapply py_split_sep_no_sep. }
  assert (HO : py_in LATEST (py_join nl (replace_section (u0 :: us) false (py_split_sep nl r))) = true).
  { destruct (decide (Exists (fun w => is_prefix LATEST w = true) (py_split_sep nl r))) as [Hex|Hnex].
    - apply (py_in_join _ _ _ u0); [by apply replace_section_keeps_u0|by apply py_in_prefix].
    - rewrite replace_section_no_latest; [by rewrite py_join_split|].
      apply not_Exists_Forall in Hnex; [|intros w; apply _]. eapply Forall_impl; [exact Hnex|].
      intros w Hw. by apply not_true_iff_false. }
  rewrite update_readme_marked, HU by done.
  rewrite py_split_sep_join; [by rewrite replace_section_idem|..|done].
  apply replace_section_nonempty, py_split_sep_nonempty.
Qed.

Definition readme_marked : list Ascii.ascii :=
  chars "# Project" ++ [nl] ++ chars "## Latest Version: v3.5.0" ++ [nl] ++ chars "old notes" ++ [nl] ++
  chars "## Setup" ++ [nl] ++ chars "run it".

Lemma update_readme_idempotent_witness :
  py_in LATEST readme_marked = true /\
  update_readme readme_update (update_readme readme_update readme_marked) = update_readme readme_update readme_marked.
Proof. split; [vm_compute; reflexivity|]. apply update_readme_idempotent. vm_compute. reflexivity. Defined.

(** The new section of [readme_update]: its first line is the "Latest
    Version" line and no other line starts with ["##"]. *)
Lemma readme_update_lines :
  exists u0 us, py_split_sep nl (py_strip readme_update) = u0 :: us /\
    is_prefix LATEST u0 = true /\ Forall (fun w => is_prefix SECTION w = false) us.
Proof. do 2 eexists. split; [vm_compute; reflexivity|]. split; [vm_compute; reflexivity|]. vm_compute. repeat constructor. Qed.

(** A second deploy deletes the README's introduction: the first run
    puts the new section above the old text, and the second replaces it
    together with every following line up to the first ["##"] heading,
    so the text before that heading no longer matters. *)
Theorem second_deploy_drops_readme_intro intro rest :
  nl ∉ intro -> is_prefix SECTION intro = false -> py_in LATEST (intro ++ nl :: rest) = false ->
  update_readme readme_update (update_readme readme_update (intro ++ nl :: rest)) =
  update_readme readme_update (update_readme readme_update rest).
Proof.
  intros Hnl Hsec Hin.
  assert (Hrest : py_in LATEST rest = false) by (apply (py_in_app_r_false _ (intro ++ [nl])); rewrite <- app_assoc; exact Hin).
  assert (Htwice : forall r, py_in LATEST r = false ->
    update_readme readme_update (update_readme readme_update r) =
    py_join nl ([] :: py_split_sep nl (py_strip readme_update) ++
                replace_section (py_split_sep nl (py_strip readme_update)) true (py_split_sep nl r))).
  { intros r Hr. unfold update_readme at 2. rewrite Hr.
    rewrite update_readme_marked by (apply py_in_app_l, readme_update_has_latest).
    change ([nl] ++ r) with (nl :: r). rewrite py_split_sep_app, readme_update_split.
    destruct readme_update_lines as (u0 & us & HU & Hu0 & Hus). rewrite HU.
    cbn [app]. rewrite <- app_assoc, replace_section_blank. cbn [replace_section]. rewrite Hu0.
    rewrite (replace_skip u0 us us) by done. cbn [app]. by rewrite !replace_section_blank. }
  rewrite !Htwice by done. rewrite py_split_sep_app, (py_split_sep_absent nl intro) by done.
  destruct readme_update_lines as (u0 & us & HU & Hu0 & Hus). rewrite HU. cbn [app replace_section].
  by rewrite latest_false, Hsec.
Qed.

Definition readme_intro : list Ascii.ascii := chars "Project overview: port-call reconciliation".
Definition readme_rest : list Ascii.ascii := chars "## Setup" ++ [nl] ++ chars "run it".

Lemma second_deploy_drops_readme_intro_witness :
  nl ∉ readme_intro /\ is_prefix SECTION readme_intro = false /\ py_in LATEST (readme_intro ++ nl :: readme_rest) = false /\
  update_readme readme_update (update_readme readme_update (readme_intro ++ nl :: readme_rest)) =
  update_readme readme_update (update_readme readme_update readme_rest).
Proof.
  split; [vm_compute; intros H; repeat (apply elem_of_cons in H as [H|H]; [discriminate|]); by apply not_elem_of_nil in H|].
  split; [vm_compute; reflexivity|]. split; [vm_compute; reflexivity|].
  apply second_deploy_drops_readme_intro.
  - vm_compute. intros H. repeat (apply elem_of_cons in H as [H|H]; [discriminate|]). by apply not_elem_of_nil in H.
  - vm_compute. reflexivity.
  - vm_compute. reflexivity.
Defined.

(** C39: a version history whose header is not followed by a line break
    (the header as the file's last line, or a longer title on its line)
    makes [parts[1]] raise [IndexError]: the script stops with the
    dictionary already copied to production and both Markdown files
    untouched. *)
Theorem deploy_header_without_newline entry s df ex :
  tables s !! SOURCE_DICT = Some df -> texts s !! VERSION_HISTORY = Some ex ->
  py_in HEADER ex = true -> py_in (HEADER ++ [nl]) ex = false ->
  deploy entry s = (mkFS (texts s) (<[PRODUCTION_FILE:=df]> (tables s)), inl IndexError).
Proof.
  intros Hsrc Hvh Hh Hnl. rewrite deploy_eq_spec. unfold deploy_spec.
  rewrite Hsrc, Hvh. unfold update_history. by rewrite Hh, split_once_None.
Qed.

Definition draft_rules : list DictRule :=
  [mkRule (Some "TRUE") (Some "1") (Some "Dry Bulk"); mkRule (Some "TRUE") (Some "3") (Some "Liquid Bulk")].

Definition fs_header_last_line : FS :=
  mkFS {[VERSION_HISTORY := chars "# Dictionary Version History"]} {[SOURCE_DICT := draft_rules]}.

Lemma deploy_header_without_newline_witness :
  deploy (chars "## Version 3.6.0") fs_header_last_line =
  (mkFS (texts fs_header_last_line) (<[PRODUCTION_FILE:=draft_rules]> (tables fs_header_last_line)), inl IndexError).
Proof.
  apply (deploy_header_without_newline _ _ draft_rules (chars "# Dictionary Version History")).
  - vm_compute. reflexivity.
  - vm_compute. reflexivity.
  - vm_compute. reflexivity.
  - vm_compute. reflexivity.
Defined.

(** A rule with an empty [Phase] next to rules with a phase makes
    [sorted(df['Phase'].unique())] raise [TypeError] in the summary, after
    the dictionary, the version history and the README have all been
    written: the script fails although the deployment is complete. *)
Theorem deploy_nan_phase_fails_after_writes entry s df new_content :
  tables s !! SOURCE_DICT = Some df ->
  update_history entry (texts s !! VERSION_HISTORY) = inr new_content ->
  (exists r, r ∈ df /\ rule_phase r = None) -> (exists r, r ∈ df /\ is_Some (rule_phase r)) ->
  snd (deploy entry s) = inl TypeError /\
  tables (fst (deploy entry s)) !! PRODUCTION_FILE = Some df /\
  texts (fst (deploy entry s)) !! VERSION_HISTORY = Some new_content /\
  texts (fst (deploy entry s)) !! README = update_readme readme_update <$> texts s !! README.
Proof.
  intros Hsrc Hup (r1 & Hr1 & Hn) (r2 & Hr2 & [p Hp]). rewrite deploy_eq_spec. unfold deploy_spec.
  rewrite Hsrc, Hup. cbn [fst snd texts tables]. split; [|split; [|split]].
  - unfold summary, sorted_phases. rewrite bool_decide_true by (rewrite <- Hn; by apply list_elem_of_fmap_2).
    rewrite bool_decide_false; [done|]. intros Hnil.
    assert (Hin : p ∈ omap (M:=list) (fun o : option string => o) (rule_phase <$> df)).
    { apply list_elem_of_omap. exists (Some p). split; [rewrite <- Hp; by apply list_elem_of_fmap_2|done]. }
    rewrite Hnil in Hin. by apply not_elem_of_nil in Hin.
  - by rewrite lookup_insert_eq.
  - destruct (texts s !! README); rewrite ?lookup_insert_ne, ?lookup_insert_eq by (vm_compute; congruence); done.
  - destruct (texts s !! README) eqn:Hrd; [by rewrite lookup_insert_eq|].
    rewrite lookup_insert_ne by (vm_compute; congruence). by rewrite Hrd.
Qed.

Definition draft_rules_nan : list DictRule :=
  [mkRule (Some "TRUE") (Some "1") (Some "Dry Bulk"); mkRule (Some "FALSE") None None].

Definition fs_nan_phase : FS := mkFS ∅ {[SOURCE_DICT := draft_rules_nan]}.

Lemma deploy_nan_phase_fails_after_writes_witness :
  snd (deploy (chars "## Version 3.6.0") fs_nan_phase) = inl TypeError /\
  tables (fst (deploy (chars "## Version 3.6.0") fs_nan_phase)) !! PRODUCTION_FILE = Some draft_rules_nan /\
  texts (fst (deploy (chars "## Version 3.6.0") fs_nan_phase)) !! VERSION_HISTORY =
    Some (HEADER ++ [nl; nl] ++ chars "## Version 3.6.0") /\
  texts (fst (deploy (chars "## Version 3.6.0") fs_nan_phase)) !! README =
    update_readme readme_update <$> texts fs_nan_phase !! README.
Proof.
  apply deploy_nan_phase_fails_after_writes.
  - vm_compute. reflexivity.
  - vm_compute. reflexivity.
  - exists (mkRule (Some "FALSE") None None). split; [right; left|reflexivity].
  - exists (mkRule (Some "TRUE") (Some "1") (Some "Dry Bulk")). split; [left|eexists; reflexivity].
Defined.

End Deploy.
