(* ===== verification/ColumnCompare.v ===== *)
(** * Comparing import and export columns: [compare_import_export_columns.py]

    A one-shot diagnostic.  It reads the header of a Panjiva import file,
    then the header of the first CSV of the first ZIP archive of the raw
    export directory, and prints four tables: the column counts, the
    import-to-export column mappings with their presence, the common
    columns with their presence, and the export-only columns.

    The model takes the import header and the export directory as data:
    the directory is the list [os.listdir] returns, in its order, each
    archive with its members in [namelist()] order and the header
    [pd.read_csv(f, nrows=3).columns] of each member.  The output is the
    list of printed lines as structured values, and the exception that
    ends the run, if any.  [df_export] is assigned only inside the two
    [if]s of lines 16-21, so a directory without an archive, or whose first
    archive holds no CSV, makes line 24 raise [NameError] after line 23
    has printed.  The fixed banner lines (5-7, 27-29, 47-49, 61-63, 71-80)
    carry no data and are left out; reading a file that is missing or not a
    ZIP archive is I/O and is not modelled. *)

From S2P Require Import Prelude Classify.
From stdpp Require Import sorting.

Module ColumnCompare.
Import Classify.

(** ** The inputs *)

(** The column names of a frame, in order. *)
Definition Columns := list string.

(** A ZIP archive: [z.namelist()] with the header of each member. *)
Definition Zip := list (string * Columns).

(** The export directory: [os.listdir(export_dir)], in its order. *)
Definition Dir := list (string * Zip).

(** [s.endswith(suf)] *)
Definition py_endswith (suf s : string) : bool :=
  bool_decide (String.list_ascii_of_string suf `suffix_of` String.list_ascii_of_string s).

(** The export header the script reads, lines 15-21: the first CSV member
    of the first [.zip] entry; [None] when [df_export] stays unassigned. *)
Definition read_export (dir : Dir) : option Columns :=
  match List.filter (fun e : string * Zip => py_endswith ".zip" e.1) dir with
  | [] => None
  | (_, z) :: _ =>
      match List.filter (fun m : string * Columns => py_endswith ".csv" m.1) z with
      | [] => None
      | (_, cols) :: _ => Some cols
      end
  end.

(** ** The tables *)

(** [mappings], lines 31-39, in the dict's insertion order. *)
Definition mappings : list (string * string) :=
  [("Arrival Date", "Shipment Date");
   ("Port of Discharge (D)", "Port of Lading");
   ("Port of Loading (F)", "Port of Unlading");
   ("Consignee", "Shipper");
   ("Shipper", "(No direct equivalent - foreign exporter)");
   ("Destination (D)", "Shipment Destination");
   ("Origin (F)", "Place of Receipt")].

(** [common], lines 51-52. *)
Definition common : list string :=
  ["Bill of Lading Number"; "Vessel"; "Voyage"; "IMO"; "Carrier"; "Is Containerized";
   "HS Code"; "Goods Shipped"; "Weight (kg)"; "Weight (t)"; "Value of Goods (USD)"].

(** A printed line.  [exp_exists] of a mapping row is [None] for the text
    ['N/A']. *)
Inductive Line :=
  | ImportCount (n : nat)                                     (** line 23 *)
  | ExportCount (n : nat)                                     (** line 24 *)
  | MappingRow (imp_col exp_col : string) (imp_exists : bool)
      (exp_exists : option bool)                              (** line 44 *)
  | CommonRow (col : string) (imp_exists exp_exists : bool)   (** line 58 *)
  | ExportOnlyCol (col : string)                              (** line 67 *)
  | MoreLine (n : nat)                                        (** line 69, [> 20] *)
  | EmptyLine.                                                (** line 69, otherwise *)

Inductive PyExc := NameError.

(** Lines 42-44: [exp_col in df_export.columns if '(' not in exp_col else 'N/A']. *)
Definition mapping_line (imp exp : Columns) (m : string * string) : Line :=
  MappingRow m.1 m.2 (bool_decide (m.1 ∈ imp))
    (if py_in_str "(" m.2 then None else Some (bool_decide (m.2 ∈ exp))).

(** Lines 55-58. *)
Definition common_line (imp exp : Columns) (col : string) : Line :=
  CommonRow col (bool_decide (col ∈ imp)) (bool_decide (col ∈ exp)).

(** [sorted(set(df_export.columns) - set(df_import.columns))], line 65-66;
    Python compares strings by code point, [String.le] by ASCII code. *)
Definition export_only (imp exp : Columns) : list string :=
  merge_sort String.le (remove_dups (filter (fun c => c ∉ imp) exp)).

(** Lines 66-69. *)
Definition export_only_lines (imp exp : Columns) : list Line :=
  let eo := export_only imp exp in
  map ExportOnlyCol (take 20 eo) ++
  [if bool_decide (20 < length eo) then MoreLine (length eo - 20) else EmptyLine].

(** The script: the lines it prints and the exception that stops it. *)
Definition compare_columns (imp : Columns) (dir : Dir) : list Line * option PyExc :=
  match read_export dir with
  | None => ([ImportCount (length imp)], Some NameError)
  | Some exp =>
      ([ImportCount (length imp); ExportCount (length exp)] ++
       map (mapping_line imp exp) mappings ++
       map (common_line imp exp) common ++
       export_only_lines imp exp, None)
  end.

(** The export-only columns a run lists. *)
Definition listed (ls : list Line) : list string :=
  omap (fun l => match l with ExportOnlyCol c => Some c | _ => None end) ls.

(** ** Lemmas *)

Lemma export_only_elem imp exp c : c ∈ export_only imp exp <-> c ∈ exp /\ c ∉ imp.
Proof.
  unfold export_only. rewrite (merge_sort_Permutation _ _), elem_of_remove_dups,
    list_elem_of_filter. tauto.
Qed.

Lemma export_only_nodup imp exp : NoDup (export_only imp exp).
Proof.
  unfold export_only. rewrite (merge_sort_Permutation _ _). apply NoDup_remove_dups.
Qed.

Lemma export_only_sorted imp exp : StronglySorted String.le (export_only imp exp).
Proof. apply StronglySorted_merge_sort; apply _. Qed.

(** A sorted list without duplicates is strictly increasing. *)
Lemma strongly_sorted_strict (l : list string) :
  StronglySorted String.le l -> NoDup l ->
  StronglySorted (fun a b => String.le a b /\ a <> b) l.
Proof.
  induction 1 as [|x l Hs IH Hf]; intros Hnd; constructor.
  - apply IH. by apply NoDup_cons in Hnd as [_ ?].
  - apply NoDup_cons in Hnd as [Hx _]. rewrite Forall_forall in Hf |- *.
    intros y Hy. split; [by apply Hf|]. intros ->. by apply Hx, list_elem_of_In.
Qed.

Lemma listed_app l1 l2 : listed (l1 ++ l2) = listed l1 ++ listed l2.
Proof. unfold listed. by rewrite omap_app. Qed.

Lemma listed_export_only_lines imp exp :
  listed (export_only_lines imp exp) = take 20 (export_only imp exp).
Proof.
  unfold export_only_lines. rewrite listed_app.
  assert (Hl : forall cs, listed (map ExportOnlyCol cs) = cs)
    by (induction cs as [|c cs IH]; simpl; [done|by rewrite IH]).
  rewrite Hl. by case_bool_decide; rewrite app_nil_r.
Qed.

Lemma listed_compare imp exp :
  listed ([ImportCount (length imp); ExportCount (length exp)] ++
          map (mapping_line imp exp) mappings ++ map (common_line imp exp) common ++
          export_only_lines imp exp)
  = take 20 (export_only imp exp).
Proof. rewrite !listed_app, listed_export_only_lines. reflexivity. Qed.

(** The head of a list comprehension is the first element that passes
    its test. *)
Lemma filter_head {A} (p : A -> bool) (l : list A) :
  (List.filter p l = [] <-> Forall (fun a => p a = false) l) /\
  (forall x, (exists r, List.filter p l = x :: r) <->
     exists pre post, l = pre ++ x :: post /\ Forall (fun a => p a = false) pre /\ p x = true).
Proof.
  induction l as [|y l [IHn IHc]]; split.
  - split; [constructor|done].
  - intros x. split; [by intros [r ?]|]. intros (pre & post & Hl & _). by destruct pre.
  - simpl. rewrite Forall_cons, <- IHn. destruct (p y); [|tauto].
    split; [done|]. by intros [? _].
  - intros x. simpl. destruct (p y) eqn:Hp.
    + split.
      * intros [r [= -> _]]. by exists [], l.
      * intros ([|z pre] & post & Hl & Hpre & Hx); simplify_eq/=; [by eexists|].
        apply Forall_cons in Hpre as [? _]. congruence.
    + rewrite IHc. split.
      * intros (pre & post & -> & Hpre & Hx). exists (y :: pre), post.
        split_and!; [done| |done]. by constructor.
      * intros ([|z pre] & post & Hl & Hpre & Hx); simplify_eq/=; [congruence|].
        apply Forall_cons in Hpre as [_ ?]. by exists pre, post.
Qed.

(** The first [.zip] entry of a directory. *)
Definition first_zip (dir : Dir) (pre : Dir) (name : string) (z : Zip) (post : Dir) : Prop :=
  dir = pre ++ (name, z) :: post /\
  Forall (fun e : string * Zip => py_endswith ".zip" e.1 = false) pre /\
  py_endswith ".zip" name = true.

Lemma read_export_first_zip dir pre name z post :
  first_zip dir pre name z post ->
  read_export dir = match List.filter (fun m : string * Columns => py_endswith ".csv" m.1) z with
                    | [] => None
                    | (_, cols) :: _ => Some cols
                    end.
Proof.
  intros Hf. destruct (filter_head (fun e : string * Zip => py_endswith ".zip" e.1) dir) as [_ Hzc].
  destruct (proj2 (Hzc (name, z)) (ex_intro _ pre (ex_intro _ post Hf))) as [r Hr].
  unfold read_export. simpl in Hr. by rewrite Hr.
Qed.

(** C40: [df_export] is assigned only when the directory has a [.zip]
    entry and the first one (in [os.listdir] order) has a [.csv] member;
    otherwise line 24 raises [NameError], after line 23 has printed the
    import column count and nothing else. *)
Theorem compare_columns_name_error imp dir :
  (snd (compare_columns imp dir) = Some NameError ->
   fst (compare_columns imp dir) = [ImportCount (length imp)]) /\
  (snd (compare_columns imp dir) = Some NameError <->
   Forall (fun e : string * Zip => py_endswith ".zip" e.1 = false) dir \/
   exists pre name z post, first_zip dir pre name z post /\
     Forall (fun m : string * Columns => py_endswith ".csv" m.1 = false) z).
Proof.
  destruct (filter_head (fun e : string * Zip => py_endswith ".zip" e.1) dir) as [Hzn Hzc].
  unfold compare_columns. destruct (read_export dir) as [exp|] eqn:Hr; simpl;
    [|split; [done|split; [|done]]].
  - split; [done|]. split; [done|]. intros [Hall|(pre & name & z & post & Hf & Hz)].
    + unfold read_export in Hr. simpl in Hzn. by rewrite (proj2 Hzn Hall) in Hr.
    + rewrite (read_export_first_zip _ _ _ _ _ Hf) in Hr.
      destruct (filter_head (fun m : string * Columns => py_endswith ".csv" m.1) z) as [Hcn _].
      simpl in Hcn. by rewrite (proj2 Hcn Hz) in Hr.
  - intros _. simpl in Hzn, Hzc.
    destruct (List.filter _ dir) as [|[name z] r] eqn:Hz; [left; by apply Hzn|right].
    destruct (proj1 (Hzc (name, z)) (ex_intro _ r eq_refl)) as (pre & post & Hd & Hpre & Hn).
    assert (Hf : first_zip dir pre name z post) by done.
    exists pre, name, z, post. split; [done|].
    rewrite (read_export_first_zip _ _ _ _ _ Hf) in Hr.
    destruct (filter_head (fun m : string * Columns => py_endswith ".csv" m.1) z) as [Hcn _].
    simpl in Hcn. apply Hcn.
    by destruct (List.filter _ z) as [|[? ?] ?].
Qed.

(** What the export-only table lists (lines 65-69): the first twenty
    of the distinct export columns that are not import columns, in
    increasing order, followed by a line with the number of the others, or
    an empty line when there are none. *)
Theorem compare_columns_export_only imp dir ls :
  compare_columns imp dir = (ls, None) ->
  exists exp D, read_export dir = Some exp /\
    NoDup D /\ (forall c, c ∈ D <-> c ∈ exp /\ c ∉ imp) /\
    StronglySorted (fun a b => String.le a b /\ a <> b) D /\
    listed ls = take 20 D /\
    last ls = Some (if bool_decide (20 < length D) then MoreLine (length D - 20) else EmptyLine).
Proof.
  unfold compare_columns. destruct (read_export dir) as [exp|] eqn:Hr; [|done].
  intros [= <-]. exists exp, (export_only imp exp).
  split_and!; [done|apply export_only_nodup|apply export_only_elem| |apply listed_compare|].
  - apply strongly_sorted_strict; [apply export_only_sorted|apply export_only_nodup].
  - unfold export_only_lines. cbv zeta. by rewrite !app_comm_cons, last_snoc.
Qed.

(** ** Runs *)

Definition sample_import : Columns := ["Arrival Date"; "Vessel"; "IMO"; "Consignee"].
Definition sample_zip : Zip :=
  [("README.txt", ["x"]);
   ("exports_2023.csv", ["Vessel"; "Shipment Date"; "IMO"; "Shipper"; "Port of Lading"])].
Definition empty_zip : Zip := [("README.txt", ["x"])].

Lemma compare_columns_export_only_witness :
  exists exp D, read_export [("notes.txt", []); ("exports.zip", sample_zip)] = Some exp /\
    NoDup D /\ (forall c, c ∈ D <-> c ∈ exp /\ c ∉ sample_import) /\
    StronglySorted (fun a b => String.le a b /\ a <> b) D /\
    listed (fst (compare_columns sample_import [("notes.txt", []); ("exports.zip", sample_zip)]))
      = take 20 D /\
    last (fst (compare_columns sample_import [("notes.txt", []); ("exports.zip", sample_zip)]))
      = Some (if bool_decide (20 < length D) then MoreLine (length D - 20) else EmptyLine).
Proof.
  apply (compare_columns_export_only sample_import
           [("notes.txt", []); ("exports.zip", sample_zip)]
           (fst (compare_columns sample_import [("notes.txt", []); ("exports.zip", sample_zip)]))).
  vm_compute. reflexivity.
Defined.

(** [zips[0]] is the first archive in [os.listdir] order, which the
    operating system chooses: the same two archives listed in the other
    order decide whether the script reports or raises. *)
Theorem listdir_order_decides :
  snd (compare_columns sample_import [("a.zip", empty_zip); ("b.zip", sample_zip)]) = Some NameError /\
  snd (compare_columns sample_import [("b.zip", sample_zip); ("a.zip", empty_zip)]) = None.
Proof. vm_compute. split; reflexivity. Qed.

End ColumnCompare.
