(* ===== verification/UserEditsMain.v ===== *)
(** * The user-edit analysis driver: paths, [write_report] and [main] of
      [analyze_user_edits_v1.0.0.py]

    [UserEdits] models the comparison and the analyses once both frames
    are loaded.  This file models what surrounds them: the module-level
    path set-up (lines 30-58: the choice of [DATA_DIR] and the [mkdir] of
    the output directory), [find_file] (lines 64-83), [load_csv_safe]
    (lines 85-93), [write_report] (lines 363-486) and [main] (lines
    492-632) with its early returns.

    The file system is a record: the set of paths that exist, the files
    [pd.read_csv] can parse (with their text), and the reports written.
    Paths are Windows paths, joined with a backslash.  The report is the
    structure [write_report] renders: the statistics, the percentage of
    modified rows, the pattern sections in the order the code writes them
    and the numbered suggestions; the timestamp, the fixed Markdown text
    and the printed messages are not modelled. *)

From Stdlib Require Import QArith.
From S2P Require Import Prelude Normalize Format VoyRecid Transform Classify Rollups Panjiva UserEdits.

Module UserEditsMain.
Import Rollups UserEdits.

(** ** Paths, lines 30-58 *)

(** [Path.__truediv__] on Windows. *)
Definition path_div (dir name : string) : string := dir +:+ "\" +:+ name.
Infix "</>" := path_div (at level 40, left associativity).

Definition BASE_DIR : string := "G:\My Drive\LLM\project_manifest".

Definition USACE_PATHS : list string :=
  [BASE_DIR </> "00_raw_data" </> "usace_vessel_entrances";
   BASE_DIR </> "00_STAGE00_RAW_DATA" </> "usace_vessel_entrances";
   BASE_DIR </> "01_step_one" </> "usace_vessel_entrances";
   BASE_DIR </> "01_STAGE01_PREPROCESSING" </> "usace"].

Definition ORIGINAL_FILE : string := "usace_2023_portcall_master_v1.1.0.csv".
Definition EDITED_FILE : string := "usace_2023_portcall_master_v1.1.0_USER_EDITS_20260115.csv".
Definition OUTPUT_REPORT : string := "USER_EDIT_ANALYSIS_REPORT_20260115.md".
Definition OUTPUT_DIR : string := BASE_DIR </> "build_documentation".

(** ** The report, lines 363-486 *)

(** What [write_report] renders. *)
Record ReportDoc := mkReport {
  rp_stats : EditStats;                       (** the executive summary *)
  rp_rows_pct : Q;                            (** [rows_modified/total_rows*100] *)
  rp_sections : list (string * list Pattern); (** the pattern sections, in order *)
  rp_suggestions : list (nat * Suggestion);   (** [enumerate(suggestions, 1)] *)
}.

(** The file system. *)
Record FS := mkFS {
  fs_paths : gset string;          (** the paths that exist *)
  fs_csv : gmap string Csv;        (** the files [pd.read_csv] parses *)
  fs_reports : gmap string ReportDoc;  (** the reports written *)
}.

(** Lines 41-49: the first of [USACE_PATHS] that exists, else [BASE_DIR]. *)
Definition data_dir (fs : FS) : string :=
  default BASE_DIR (List.find (fun p => bool_decide (p ∈ fs_paths fs)) USACE_PATHS).

(** Line 56, at import: [OUTPUT_DIR.mkdir(exist_ok=True)] raises
    [FileNotFoundError] ([None]) when [BASE_DIR] does not exist. *)
Definition import_setup (fs : FS) : option FS :=
  if bool_decide (BASE_DIR ∈ fs_paths fs)
  then Some (mkFS ({[OUTPUT_DIR]} ∪ fs_paths fs) (fs_csv fs) (fs_reports fs))
  else None.

(** The places [find_file] tries, in order (lines 66-79). *)
Definition search_paths (dd filename : string) : list string :=
  [dd </> filename; BASE_DIR </> filename; BASE_DIR </> "build_documentation" </> filename;
   BASE_DIR </> "00_raw_data" </> filename; BASE_DIR </> "01_step_one" </> filename].

(** [find_file], lines 64-83; [DATA_DIR] is fixed at import. *)
Definition find_file (dd : string) (fs : FS) (filename : string) : option string :=
  List.find (fun p => bool_decide (p ∈ fs_paths fs)) (search_paths dd filename).

(** [load_csv_safe], lines 85-93: [None] when [read_csv] raises. *)
Definition load_csv_safe (fs : FS) (path : string) : option EFrame :=
  load_csv <$> fs_csv fs !! path.

(** [patterns_by_type], a [defaultdict(list)] (lines 392-395). *)
Definition patterns_by_type (ps : list Pattern) : PyDict (list Pattern) :=
  foldl (fun d p => dd_append (pattern_type p) p d) [] ps.

(** The five sections and their titles, in the order of lines 398-449. *)
Definition section_titles : list (string * string) :=
  [("vessel_type_transformation", "Vessel Type Transformations");
   ("match_type_transformation", "Match Type Changes");
   ("tug_barge_pairing", "Tug-Barge Pairing Updates");
   ("exclusion_pattern", "Exclusion Patterns");
   ("field_value_change", "Other Field Value Changes")].

(** [if '<type>' in patterns_by_type: ...] for each type. *)
Definition report_sections (ps : list Pattern) : list (string * list Pattern) :=
  omap (fun tt : string * string => (fun g => (tt.2, g)) <$> pyd_lookup (patterns_by_type ps) tt.1)
    section_titles.

(** [stats['rows_modified']/stats['total_rows']*100], line 376. *)
Definition rows_pct (st : EditStats) : Q :=
  (inject_Z (Z.of_nat (st_rows_modified st)) / inject_Z (Z.of_nat (st_total_rows st)) * 100)%Q.

(** [write_report], lines 363-486; [None] for the [ZeroDivisionError]
    of line 376 on an original file without rows. *)
Definition write_report (ps : list Pattern) (sug : list Suggestion) (st : EditStats)
    : option ReportDoc :=
  if bool_decide (st_total_rows st = 0%nat) then None
  else Some (mkReport st (rows_pct st) (report_sections ps) (zip (seq 1 (length sug)) sug)).

(** ** [main], lines 492-632 *)

Inductive MainResult :=
| OriginalNotFound (listed : list string) (** line 508, with the places lines 503-507 print *)
| WaitingForEdits (original : string)    (** line 537 *)
| LoadFailed                             (** line 548 *)
| NoChangesDetected                      (** line 586 *)
| Crashed                                (** an exception escapes *)
| ReportWritten (path : string) (doc : ReportDoc).

(** [main] on the file system after the module's import, with the
    [DATA_DIR] the import chose. *)
Definition main (dd : string) (fs : FS) : FS * MainResult :=
  match find_file dd fs ORIGINAL_FILE with
  | None => (fs, OriginalNotFound (USACE_PATHS ++ [BASE_DIR]))
  | Some op =>
      match find_file dd fs EDITED_FILE with
      | None => (fs, WaitingForEdits op)
      | Some ep =>
          match load_csv_safe fs op, load_csv_safe fs ep with
          | Some o, Some e =>
              match analyze o e with
              | NoChanges _ => (fs, NoChangesDetected)
              | Crash => (fs, Crashed)
              | Report ps sug st =>
                  match write_report ps sug st with
                  | None => (fs, Crashed)
                  | Some doc =>
                      (mkFS (fs_paths fs) (fs_csv fs) (<[OUTPUT_DIR </> OUTPUT_REPORT := doc]> (fs_reports fs)),
                       ReportWritten (OUTPUT_DIR </> OUTPUT_REPORT) doc)
                  end
              end
          | _, _ => (fs, LoadFailed)
          end
      end
  end.

(** The script: the import, then [main]; [None] when the import raises. *)
Definition run_script (fs : FS) : option (FS * MainResult) := main (data_dir fs) <$> import_setup fs.

(** ** Lemmas *)

Lemma by_type_lookup_from d ps t :
  pyd_lookup (foldl (fun d p => dd_append (pattern_type p) p d) d ps) t =
  match filter (fun p => pattern_type p = t) ps with
  | [] => pyd_lookup d t
  | g => Some (default [] (pyd_lookup d t) ++ g)
  end.
Proof.
  revert d. induction ps as [|p ps IH]; intros d; [done|]. cbn [foldl].
  rewrite IH, dd_append_lookup, filter_cons.
  destruct (decide (pattern_type p = t)) as [<-|Ht].
  - rewrite bool_decide_true by done.
    destruct (filter _ ps); cbn; [done|]. by rewrite <- app_assoc.
  - by rewrite bool_decide_false by done.
Qed.

(** [patterns_by_type[t]] holds the patterns of type [t] in order, and
    [t] is a key exactly when there is one. *)
Lemma patterns_by_type_lookup ps t :
  pyd_lookup (patterns_by_type ps) t =
  match filter (fun p => pattern_type p = t) ps with [] => None | g => Some g end.
Proof. unfold patterns_by_type. rewrite by_type_lookup_from. by destruct (filter _ ps). Qed.

Lemma report_sections_eq ps :
  report_sections ps =
  omap (fun tt : string * string =>
          match filter (fun p => pattern_type p = tt.1) ps with [] => None | g => Some (tt.2, g) end)
    section_titles.
Proof.
  unfold report_sections. generalize section_titles. intros tts.
  induction tts as [|tt tts IH]; [done|]. cbn [omap list_omap].
  rewrite IH, patterns_by_type_lookup. by destruct (filter _ ps).
Qed.

(** The sections, once empty ones are dropped, are the five filters. *)
Lemma sections_concat ps :
  concat (map snd (report_sections ps)) =
  concat (map (fun tt : string * string => filter (fun p => pattern_type p = tt.1) ps) section_titles).
Proof.
  rewrite report_sections_eq. generalize section_titles. intros tts.
  induction tts as [|tt tts IH]; [done|]. cbn [omap list_omap map concat].
  destruct (filter _ ps) as [|q qs]; cbn; by rewrite IH.
Qed.

(** Every pattern has one of the five types, so the five filters
    partition the patterns. *)
Lemma five_filters_perm ps :
  concat (map (fun tt : string * string => filter (fun p => pattern_type p = tt.1) ps) section_titles)
  ≡ₚ ps.
Proof.
  induction ps as [|p ps IH]; [done|]. cbn [section_titles map concat fst] in *.
  rewrite !filter_cons. etrans; [|apply perm_skip, IH].
  destruct p; cbn [pattern_type]; repeat (case_decide; try congruence); solve_Permutation.
Qed.

Lemma report_sections_elem ps title g :
  (title, g) ∈ report_sections ps <->
  exists t, (t, title) ∈ section_titles /\ g = filter (fun p => pattern_type p = t) ps /\ g <> [].
Proof.
  rewrite report_sections_eq, list_elem_of_omap. split.
  - intros ([t title'] & Htt & Hg). cbn in Hg.
    destruct (filter _ ps) as [|q qs] eqn:Hf; [done|]. injection Hg as <- <-. by exists t.
  - intros (t & Htt & -> & Hne). exists (t, title). split; [done|]. cbn.
    by destruct (filter _ ps).
Qed.

(** The titles appear in the order of [section_titles]. *)
Lemma report_sections_order ps : (report_sections ps).*1 `sublist_of` section_titles.*2.
Proof.
  unfold report_sections. generalize section_titles. intros tts.
  induction tts as [|tt tts IH]; [done|]. cbn [omap list_omap].
  destruct (pyd_lookup _ _); cbn; [by apply sublist_skip|by apply sublist_cons].
Qed.

(** A report: the rows of the original frame are more than the modified
    ones, and at least one. *)
Lemma analyze_report_rows o e ps sug st :
  analyze o e = Report ps sug st -> 0 < st_rows_modified st <= st_total_rows st.
Proof.
  intros Hr. pose proof (report_stats_consistent o e ps sug st Hr) as (_ & _ & Hpos & _).
  split; [done|]. revert Hr. unfold analyze. case_decide; [done|].
  destruct (analyze_tug_barge_changes _ o); [|done]. intros [= <- <- <-]. cbn.
  rewrite diff_frames_eq. cbn. unfold changed_rows.
  etrans; [apply length_filter|]. rewrite length_fmap, length_seq. lia.
Qed.

Lemma rows_pct_le (m n : nat) : (m <= n)%nat -> n <> 0%nat ->
  (inject_Z (Z.of_nat m) / inject_Z (Z.of_nat n) * 100 <= 100)%Q.
Proof.
  intros Hmn Hn. assert (Hpos : (0 < inject_Z (Z.of_nat n))%Q)
    by (change 0%Q with (inject_Z 0); rewrite <- Zlt_Qlt; lia).
  apply Qle_trans with (1 * 100)%Q; [|discriminate].
  apply Qmult_le_r; [reflexivity|]. apply Qle_shift_div_r; [done|].
  rewrite Qmult_1_l, <- Zle_Qle. lia.
Qed.

(** [find_file] finds nothing exactly when no candidate exists. *)
Lemma find_file_none dd fs f :
  find_file dd fs f = None <-> Forall (fun p => p ∉ fs_paths fs) (search_paths dd f).
Proof.
  unfold find_file. generalize (search_paths dd f). intros ps.
  induction ps as [|p ps IH]; cbn; [split; [constructor|done]|].
  rewrite Forall_cons, <- IH. case_bool_decide; [split; [done|]; by intros []|tauto].
Qed.

(** The outcomes of [main] are told apart by their constructors. *)
Ltac iff_eqs := split; intros; destruct_and?; simplify_eq; try congruence; naive_solver.
Ltac main_early := split_and!; [done|iff_eqs|intros ?; rewrite <- find_file_none; iff_eqs|by left].

(** [write_report] on the outcome of a report. *)
Lemma write_report_some o e ps sug st :
  analyze o e = Report ps sug st ->
  write_report ps sug st =
  Some (mkReport st (rows_pct st) (report_sections ps) (zip (seq 1 (length sug)) sug)).
Proof.
  intros Hr. pose proof (analyze_report_rows o e ps sug st Hr).
  unfold write_report. rewrite bool_decide_false by lia. done.
Qed.

(** C36: when both files are found and read and differ, [main] writes the
    report to [build_documentation], and nothing else: the summary is the
    statistics of the analysis and its percentage of modified rows is at
    most 100%, since the rows compared are at most the original's; the
    sections hold every pattern once, a section per type that occurs, in
    the order vessel type, match type, tug-barge, exclusion, other, each
    with the patterns of its type in their order; the suggestions are
    numbered from 1. *)
Theorem main_writes_report dd fs op ep o e ps sug st :
  find_file dd fs ORIGINAL_FILE = Some op -> find_file dd fs EDITED_FILE = Some ep ->
  fs_csv fs !! op = Some o -> fs_csv fs !! ep = Some e ->
  analyze (load_csv o) (load_csv e) = Report ps sug st ->
  exists doc,
    main dd fs = (mkFS (fs_paths fs) (fs_csv fs) (<[OUTPUT_DIR </> OUTPUT_REPORT := doc]> (fs_reports fs)),
                  ReportWritten (OUTPUT_DIR </> OUTPUT_REPORT) doc) /\
    rp_stats doc = st /\ (rp_rows_pct doc <= 100)%Q /\
    concat (map snd (rp_sections doc)) ≡ₚ ps /\
    (rp_sections doc).*1 `sublist_of` section_titles.*2 /\
    (forall title g, (title, g) ∈ rp_sections doc <->
       exists t, (t, title) ∈ section_titles /\ g = filter (fun p => pattern_type p = t) ps /\ g <> []) /\
    (rp_suggestions doc).*1 = seq 1 (length sug) /\ (rp_suggestions doc).*2 = sug.
Proof.
  intros Ho He Hro Hre Hr. unfold main, load_csv_safe. rewrite Ho, He, Hro, Hre. cbn [fmap option_fmap option_map].
  rewrite Hr, (write_report_some _ _ _ _ _ Hr).
  eexists. split; [reflexivity|]. cbn [rp_stats rp_rows_pct rp_sections rp_suggestions].
  pose proof (analyze_report_rows _ _ _ _ _ Hr).
  split_and!; [done|unfold rows_pct; apply rows_pct_le; lia|rewrite sections_concat; apply five_filters_perm|
               apply report_sections_order|apply report_sections_elem| |].
  - apply fst_zip. rewrite length_seq. lia.
  - apply snd_zip. rewrite length_seq. lia.
Qed.

(** C35: [main] never lets an exception escape, whatever the file system:
    it returns early (printing [USACE_PATHS] and [BASE_DIR] as the places
    searched) when the original is nowhere among the five places
    [find_file] tries, waits for the edit when only the original is found,
    and otherwise loads, compares and writes the report, which is the only
    change it makes to the file system. *)
Theorem main_outcome dd fs :
  snd (main dd fs) <> Crashed /\
  (snd (main dd fs) = OriginalNotFound (USACE_PATHS ++ [BASE_DIR]) <->
     Forall (fun p => p ∉ fs_paths fs) (search_paths dd ORIGINAL_FILE)) /\
  (forall op, snd (main dd fs) = WaitingForEdits op <->
     find_file dd fs ORIGINAL_FILE = Some op /\
     Forall (fun p => p ∉ fs_paths fs) (search_paths dd EDITED_FILE)) /\
  (fst (main dd fs) = fs \/
   exists doc, snd (main dd fs) = ReportWritten (OUTPUT_DIR </> OUTPUT_REPORT) doc /\
     fst (main dd fs) = mkFS (fs_paths fs) (fs_csv fs) (<[OUTPUT_DIR </> OUTPUT_REPORT := doc]> (fs_reports fs))).
Proof.
  rewrite <- !find_file_none. unfold main.
  destruct (find_file dd fs ORIGINAL_FILE) as [op|] eqn:Ho; cbn [fst snd]; [|main_early].
  destruct (find_file dd fs EDITED_FILE) as [ep|] eqn:He; cbn [fst snd]; [|main_early].
  destruct (load_csv_safe fs op) as [o|], (load_csv_safe fs ep) as [e|]; cbn [fst snd]; try main_early.
  pose proof (analyze_never_crashes o e) as Hnc.
  destruct (analyze o e) as [s| |ps sug st] eqn:Ha; cbn [fst snd]; [main_early|done|].
  rewrite (write_report_some _ _ _ _ _ Ha). cbn [fst snd].
  split_and!; [done|iff_eqs|intros ?; rewrite <- find_file_none; iff_eqs|right; by eexists].
Qed.

(** The script stops at its import, before any message, exactly when
    [BASE_DIR] does not exist: [mkdir] without [parents=True]. *)
Theorem run_script_import_fails fs : run_script fs = None <-> BASE_DIR ∉ fs_paths fs.
Proof.
  unfold run_script, import_setup. case_bool_decide; cbn; split; done.
Qed.

(** The "Searched locations" message of lines 503-507 does not list the
    places [find_file] searched: it names the four [USACE_PATHS], which
    are not searched unless one is [DATA_DIR], and omits
    [build_documentation], which is. *)
Theorem not_found_message_other_places dd f :
  BASE_DIR </> "build_documentation" </> f ∈ search_paths dd f /\
  BASE_DIR </> "build_documentation" ∉ USACE_PATHS ++ [BASE_DIR].
Proof.
  split; [rewrite list_elem_of_In; simpl; tauto|].
  apply (bool_decide_unpack _). vm_compute. exact I.
Qed.

(** ** Runs *)

(** No [USACE_PATHS] directory: [DATA_DIR] falls back to [BASE_DIR].  The
    original is there, the user saved the edit under
    [build_documentation]. *)
Definition example_fs : FS :=
  mkFS {[BASE_DIR; BASE_DIR </> ORIGINAL_FILE; BASE_DIR </> "build_documentation" </> EDITED_FILE]}
    (<[BASE_DIR </> ORIGINAL_FILE := tug_original]>
      {[BASE_DIR </> "build_documentation" </> EDITED_FILE := tug_edited]})
    ∅.

Lemma main_writes_report_witness :
  exists ps sug st, analyze (load_csv tug_original) (load_csv tug_edited) = Report ps sug st /\
  exists doc,
    main BASE_DIR example_fs =
      (mkFS (fs_paths example_fs) (fs_csv example_fs)
         (<[OUTPUT_DIR </> OUTPUT_REPORT := doc]> (fs_reports example_fs)),
       ReportWritten (OUTPUT_DIR </> OUTPUT_REPORT) doc) /\
    rp_stats doc = st /\ (rp_rows_pct doc <= 100)%Q /\
    concat (map snd (rp_sections doc)) ≡ₚ ps /\
    (rp_sections doc).*1 `sublist_of` section_titles.*2 /\
    (forall title g, (title, g) ∈ rp_sections doc <->
       exists t, (t, title) ∈ section_titles /\ g = filter (fun p => pattern_type p = t) ps /\ g <> []) /\
    (rp_suggestions doc).*1 = seq 1 (length sug) /\ (rp_suggestions doc).*2 = sug.
Proof.
  destruct (analyze (load_csv tug_original) (load_csv tug_edited)) as [s| |ps sug st] eqn:E;
    try (vm_compute in E; discriminate).
  exists ps, sug, st. split; [done|].
  apply (main_writes_report BASE_DIR example_fs (BASE_DIR </> ORIGINAL_FILE)
           (BASE_DIR </> "build_documentation" </> EDITED_FILE) tug_original tug_edited);
    [vm_compute; reflexivity..|exact E].
Defined.

(** The two files need not be in one directory: [find_file] looks for
    each on its own, and [DATA_DIR] is tried first for both. *)
Theorem example_files_in_two_directories :
  data_dir example_fs = BASE_DIR /\
  find_file BASE_DIR example_fs ORIGINAL_FILE = Some (BASE_DIR </> ORIGINAL_FILE) /\
  find_file BASE_DIR example_fs EDITED_FILE = Some (BASE_DIR </> "build_documentation" </> EDITED_FILE).
Proof. vm_compute. split_and!; reflexivity. Qed.

End UserEditsMain.
